(** * Smart-play: the signal engine and the backtester

    A shallow embedding of [src/strategy.py] (class [NiftyIntradayStrategy])
    and [src/backtesting.py] (class [Backtester]), and the properties of
    the signal rules, the indicator computation, the bar loop and the
    performance metrics.

    Numbers.  The Python code computes on [numpy.float64] values read from
    pandas columns.  Two embeddings of them are used.

    Where a property rests on the arithmetic itself (the percentage the
    bar loop compares with the stop-loss and take-profit levels, the
    range of the RSI, of the profit factor and of the drawdown) the
    numbers are IEEE 754 binary64 values, module
    [Binary64]: the two zeros, the finite numbers, the two infinities
    and [NaN], every operation rounded to nearest (ties to even), with
    overflow to an infinity and gradual underflow.

    Where a property rests on the order of the steps, on what is
    recorded, on which comparisons are made or on what a [NaN] does, the
    numbers are _extended rationals_, module [Float]: an exact rational,
    or one of the three IEEE special values [+inf], [-inf] and [NaN].
    The special values follow IEEE 754 as numpy implements it: a
    division by zero raises nothing and yields an infinity or [NaN], and
    every ordered comparison with [NaN] is false.  Finite arithmetic is
    exact there: rounding, overflow and the sign of zero are left out.

    Effects.  A Python exception is the [Raise] case of [result]; the bar
    loop threads its local variables and the two lists it appends to
    ([self.trades], [self.equity_curve]) through an explicit state. *)

From Stdlib Require Import String.
From Stdlib Require Import ZArith QArith Qabs Qround Qpower List Bool Lia Lqa.
Import ListNotations.

Set Implicit Arguments.

(* ================================================================= *)
(** ** Floating-point values *)

Module Float.

Inductive float : Type :=
| Fin (q : Q)
| PInf
| NInf
| NaN.

Definition Qltb (x y : Q) : bool := negb (Qle_bool y x).
Definition Qis0 (x : Q) : bool := Qeq_bool x 0.

(** The infinity with the sign of a non-zero rational. *)
Definition inf_of_sign (a : Q) : float := if Qltb 0 a then PInf else NInf.

Definition neg (x : float) : float :=
  match x with
  | Fin q => Fin (- q)
  | PInf => NInf
  | NInf => PInf
  | NaN => NaN
  end.

Definition add (x y : float) : float :=
  match x, y with
  | NaN, _ | _, NaN => NaN
  | Fin a, Fin b => Fin (a + b)
  | PInf, NInf | NInf, PInf => NaN
  | PInf, _ | _, PInf => PInf
  | NInf, _ | _, NInf => NInf
  end.

Definition sub (x y : float) : float := add x (neg y).

Definition mul (x y : float) : float :=
  match x, y with
  | NaN, _ | _, NaN => NaN
  | Fin a, Fin b => Fin (a * b)
  | Fin a, PInf | PInf, Fin a => if Qis0 a then NaN else inf_of_sign a
  | Fin a, NInf | NInf, Fin a => if Qis0 a then NaN else inf_of_sign (- a)
  | PInf, PInf | NInf, NInf => PInf
  | PInf, NInf | NInf, PInf => NInf
  end.

(** numpy's true division: no exception, [x/0] is an infinity for
    [x <> 0] and [NaN] for [x = 0]. *)
Definition div (x y : float) : float :=
  match x, y with
  | NaN, _ | _, NaN => NaN
  | Fin a, Fin b =>
      if Qis0 b then (if Qis0 a then NaN else inf_of_sign a)
      else Fin (a / b)
  | Fin _, PInf | Fin _, NInf => Fin 0
  | PInf, Fin b => if Qltb b 0 then NInf else PInf
  | NInf, Fin b => if Qltb b 0 then PInf else NInf
  | _, _ => NaN
  end.

(** [x < y]; false as soon as one side is [NaN]. *)
Definition ltb (x y : float) : bool :=
  match x, y with
  | NaN, _ | _, NaN => false
  | Fin a, Fin b => Qltb a b
  | NInf, NInf | PInf, _ => false
  | NInf, _ => true
  | Fin _, PInf => true
  | Fin _, NInf => false
  end.

(** [x <= y]; false as soon as one side is [NaN]. *)
Definition leb (x y : float) : bool :=
  match x, y with
  | NaN, _ | _, NaN => false
  | Fin a, Fin b => Qle_bool a b
  | NInf, _ | _, PInf => true
  | PInf, _ => false
  | Fin _, NInf => false
  end.

Definition gtb (x y : float) : bool := ltb y x.
Definition geb (x y : float) : bool := leb y x.

Definition abs (x : float) : float :=
  match x with
  | Fin q => Fin (Qabs q)
  | PInf | NInf => PInf
  | NaN => NaN
  end.

Definition isnan (x : float) : bool :=
  match x with NaN => true | _ => false end.

Definition notna (x : float) : bool := negb (isnan x).

Definition is_finite (x : float) : bool :=
  match x with Fin _ => true | _ => false end.

(** Equality of values (rationals up to [Qeq]); [NaN] is given equal to
    itself here, this is the equality of the model, not Python's [==]. *)
Definition feq (x y : float) : Prop :=
  match x, y with
  | Fin a, Fin b => a == b
  | PInf, PInf | NInf, NInf | NaN, NaN => True
  | _, _ => False
  end.

(** A Python [int] used in float arithmetic. *)
Definition of_Z (z : Z) : float := Fin (inject_Z z).

End Float.

Import Float.

Declare Scope float_scope.
Delimit Scope float_scope with float.
Bind Scope float_scope with float.
Infix "+" := add : float_scope.
Infix "-" := sub : float_scope.
Infix "*" := mul : float_scope.
Infix "/" := div : float_scope.
Notation "- x" := (neg x) : float_scope.
Infix "<?" := ltb : float_scope.
Infix "<=?" := leb : float_scope.
Infix ">?" := gtb : float_scope.
Infix ">=?" := geb : float_scope.
Infix "==" := feq : float_scope.

(* ================================================================= *)
(** ** Binary64 numbers *)

(** The numbers as the interpreter holds them: IEEE 754 binary64 values,
    with both zeros, rounded to nearest (ties to even) after every
    operation, overflow giving an infinity and underflow a subnormal
    number or a zero. *)
Module Binary64.

Local Open Scope Q_scope.

Inductive b64 : Type :=
| Zero (negative : bool)
| Finite (q : Q)
| Inf (negative : bool)
| Nan.

(** [2^e]. *)
Definition pow2 (e : Z) : Q := 2 ^ e.

(** The [e] with [2^e <= a < 2^(e+1)], for [a > 0]. *)
Definition floor_log2 (a : Q) : Z :=
  let e0 := (Z.log2 (Qnum a) - Z.log2 (Zpos (Qden a)))%Z in
  if Qle_bool (pow2 e0) a then e0 else (e0 - 1)%Z.

(** The integer nearest to [n]; of two nearest ones, the even one. *)
Definition rne (n : Q) : Z :=
  let f := Qfloor n in
  match Qcompare (2 * (n - inject_Z f)) 1 with
  | Lt => f
  | Gt => (f + 1)%Z
  | Eq => if Z.even f then f else (f + 1)%Z
  end.

(** The multiple of the unit in the last place nearest to [a > 0]: 53
    significant bits from [2^-1022] on, multiples of [2^-1074] below. *)
Definition round_magnitude (a : Q) : Q :=
  let e := Z.max (floor_log2 a) (-1022) in
  inject_Z (rne (a * pow2 (52 - e))) * pow2 (e - 52).

(** The binary64 value of the exact result [q]; [zero_negative] is the
    sign of the zero an exact zero becomes. *)
Definition round (zero_negative : bool) (q : Q) : b64 :=
  if Qis0 q then Zero zero_negative
  else
    let negative := Qltb q 0 in
    let r := round_magnitude (Qabs q) in
    if Qis0 r then Zero negative
    else if Qle_bool (pow2 1024) r then Inf negative
    else Finite (Qred (if negative then - r else r)).

(** The exact value [round] gives before it looks for an overflow. *)
Definition rounded (q : Q) : Q :=
  if Qis0 q then 0
  else if Qltb q 0 then - round_magnitude (Qabs q)
  else round_magnitude (Qabs q).

(** The value as an extended rational, the two zeros being one. *)
Definition val (x : b64) : float :=
  match x with
  | Zero _ => Fin 0
  | Finite q => Fin q
  | Inf false => PInf
  | Inf true => NInf
  | Nan => NaN
  end.

Definition negative (x : b64) : bool :=
  match x with
  | Zero s => s
  | Finite q => Qltb q 0
  | Inf s => s
  | Nan => false
  end.

(** The binary64 value of an exact extended result. *)
Definition of_float (zero_negative : bool) (f : float) : b64 :=
  match f with
  | Fin q => round zero_negative q
  | PInf => Inf false
  | NInf => Inf true
  | NaN => Nan
  end.

Definition neg (x : b64) : b64 :=
  match x with
  | Zero s => Zero (negb s)
  | Finite q => Finite (- q)
  | Inf s => Inf (negb s)
  | Nan => Nan
  end.

(** [x + y]: an exact zero is [+0], but [-0 + -0 = -0]. *)
Definition add (x y : b64) : b64 :=
  of_float (match x, y with Zero a, Zero b => a && b | _, _ => false end)
    (Float.add (val x) (val y)).

Definition sub (x y : b64) : b64 := add x (neg y).

(** [x * y]: a zero has the product of the signs. *)
Definition mul (x y : b64) : b64 :=
  of_float (xorb (negative x) (negative y)) (Float.mul (val x) (val y)).

(** [x / y] as numpy divides: nothing is raised, a division by a zero
    gives an infinity with the product of the signs, or [NaN] for
    [0/0]. *)
Definition div (x y : b64) : b64 :=
  match y with
  | Zero sy =>
      match x with
      | Zero _ | Nan => Nan
      | _ => Inf (xorb (negative x) sy)
      end
  | _ => of_float (xorb (negative x) (negative y)) (Float.div (val x) (val y))
  end.

Definition abs (x : b64) : b64 :=
  match x with
  | Zero _ => Zero false
  | Finite q => Finite (Qabs q)
  | Inf _ => Inf false
  | Nan => Nan
  end.

Definition isnan (x : b64) : bool :=
  match x with Nan => true | _ => false end.

Definition ltb (x y : b64) : bool := Float.ltb (val x) (val y).
Definition leb (x y : b64) : bool := Float.leb (val x) (val y).
Definition gtb (x y : b64) : bool := ltb y x.
Definition geb (x y : b64) : bool := leb y x.

(** A Python [int] in float arithmetic. *)
Definition of_Z (z : Z) : b64 := of_float false (Fin (inject_Z z)).

(** The values the type is meant to hold: every finite one is a
    binary64 number other than zero, in lowest terms. *)
Definition binary64 (x : b64) : Prop :=
  match x with
  | Finite q => round false q = Finite q
  | _ => True
  end.

(** A number that is not negative: a zero of either sign, a positive
    number or [+inf]. *)
Definition nonneg (x : b64) : Prop := leb (Zero false) x = true.
Definition nan_or_nonneg (x : b64) : Prop := x = Nan \/ nonneg x.

End Binary64.

(* ================================================================= *)
(** ** Python exceptions *)

Inductive exn : Type :=
| IndexError
| AttributeError
| ValueError
| UnboundLocalError.

Inductive result (A : Type) : Type :=
| Ok (a : A)
| Raise (e : exn).
Arguments Ok {A} a.
Arguments Raise {A} e.

Definition bind {A B : Type} (m : result A) (k : A -> result B) : result B :=
  match m with
  | Ok a => k a
  | Raise e => Raise e
  end.

Notation "x <- m ;; k" := (bind m (fun x => k))
  (at level 61, m at next level, right associativity).

(* ================================================================= *)
(** ** The pandas operations the code uses *)

Module Pandas.

Local Open Scope float_scope.

(** A column of floats. *)
Definition Series := list float.

(** [s.diff()]: [NaN] first, then the difference with the previous
    entry. *)
Fixpoint diff_from (prev : float) (s : Series) : Series :=
  match s with
  | [] => []
  | x :: s' => (x - prev) :: diff_from x s'
  end.

Definition diff (s : Series) : Series :=
  match s with
  | [] => []
  | x :: s' => NaN :: diff_from x s'
  end.

(** [s.where(cond, other)] for a condition computed entry by entry. *)
Definition where_ (s : Series) (cond : float -> bool) (other : float) : Series :=
  map (fun x => if cond x then x else other) s.

(** Unary minus on a column. *)
Definition neg_series (s : Series) : Series := map neg s.

Definition sum (s : Series) : float := fold_left add s (Fin 0).

(** [s.mean()] of a column without [NaN]. *)
Definition mean (s : Series) : float := sum s / of_Z (Z.of_nat (length s)).

(** [s.rolling(window=w).mean()]: [min_periods] is the window, so entry
    [i] is [NaN] until [w] entries exist and whenever the window holds a
    [NaN]; otherwise it is the mean of entries [i-w+1 .. i]. *)
Definition window_at (w : nat) (s : Series) (i : nat) : Series :=
  firstn w (skipn (i + 1 - w) s).

Definition rolling_mean_at (w : nat) (s : Series) (i : nat) : float :=
  if (i + 1 <? w)%nat then NaN
  else
    let win := window_at w s i in
    if existsb isnan win then NaN
    else sum win / of_Z (Z.of_nat w).

Definition rolling_mean (w : nat) (s : Series) : Series :=
  map (rolling_mean_at w s) (seq 0 (length s)).

(** [s.pct_change()]: [NaN] first, then [s[i]/s[i-1] - 1].  Missing
    values are not filled first (releases of pandas that pad them
    differ on columns that hold a [NaN], and only there). *)
Fixpoint pct_change_from (prev : float) (s : Series) : Series :=
  match s with
  | [] => []
  | x :: s' => (x / prev - Fin 1) :: pct_change_from x s'
  end.

Definition pct_change (s : Series) : Series :=
  match s with
  | [] => []
  | x :: s' => NaN :: pct_change_from x s'
  end.

(** [s.dropna()]. *)
Definition dropna (s : Series) : Series := filter notna s.

(** The sample variance ([ddof = 1]) under [s.std()]; one observation
    gives [0/0 = NaN]. *)
Definition var (s : Series) : float :=
  let avg := mean s in
  sum (map (fun x => (avg - x) * (avg - x)) s)
  / of_Z (Z.of_nat (length s) - 1).

(** [s.std()], numpy's square root being a parameter. *)
Definition std (sqrt : float -> float) (s : Series) : float := sqrt (var s).

End Pandas.

(* ================================================================= *)
(** ** Dates and times *)

Module Clock.

(** [datetime.time]: compared field by field, hour first. *)
Record time : Type := mk_time {
  hour : Z;
  minute : Z;
  second : Z;
  microsecond : Z
}.

(** [datetime.datetime] and [pandas.Timestamp]: a day (its ordinal) and
    a time of day. *)
Record datetime : Type := mk_datetime {
  day : Z;
  clock : time
}.

Fixpoint lex_compare (a b : list Z) : comparison :=
  match a, b with
  | [], [] => Eq
  | [], _ :: _ => Lt
  | _ :: _, [] => Gt
  | x :: a', y :: b' =>
      match Z.compare x y with
      | Eq => lex_compare a' b'
      | c => c
      end
  end.

Definition time_fields (t : time) : list Z :=
  [hour t; minute t; second t; microsecond t].

Definition datetime_fields (d : datetime) : list Z :=
  day d :: time_fields (clock d).

Definition time_ltb (a b : time) : bool :=
  match lex_compare (time_fields a) (time_fields b) with
  | Lt => true
  | _ => false
  end.

Definition datetime_leb (a b : datetime) : bool :=
  match lex_compare (datetime_fields a) (datetime_fields b) with
  | Gt => false
  | _ => true
  end.

(** [d.time()]. *)
Definition time_of (d : datetime) : time := clock d.

End Clock.

(* ================================================================= *)
(** ** [strategy.py]: the live signal engine *)

Module Strategy.

Import Clock.
Local Open Scope string_scope.
Local Open Scope float_scope.

(** One side of [greeks_data]: the four sensitivities the rules read. *)
Record OptionGreeks : Type := mk_option_greeks {
  delta : float;
  gamma : float;
  theta : float;
  vega : float
}.

Record Greeks : Type := mk_greeks {
  call : OptionGreeks;
  put : OptionGreeks
}.

(** A row of [historical_data], with the two indicator columns. *)
Record HistRow : Type := mk_hist_row {
  open : float;
  high : float;
  low : float;
  close : float;
  volume : float;
  rsi : float;
  ma : float
}.

(** The attributes of a [NiftyIntradayStrategy] the signal reads or
    writes.  [greeks_data = None] stands for every falsy value ([None],
    the empty dict); [historical_data = None] is Python's [None]. *)
Record NiftyIntradayStrategy : Type := mk_strategy {
  historical_data : option (list HistRow);
  greeks_data : option Greeks;
  vix : option float;
  last_signal : option string;
  last_signal_time : option datetime;
  delta_threshold : float;
  gamma_threshold : float;
  theta_threshold : float;
  vega_threshold : float;
  rsi_period : nat;
  ma_period : nat;
  vix_buy_threshold : float;
  vix_sell_threshold : float
}.

(** The environment variables [is_trading_hours] reads. *)
Record Env : Type := mk_env {
  TRADING_START_HOUR : Z;
  TRADING_START_MINUTE : Z;
  TRADING_END_HOUR : Z;
  TRADING_END_MINUTE : Z
}.

(** The defaults of the [os.getenv] calls: 09:15 to 15:30. *)
Definition default_env : Env := mk_env 9 15 15 30.

(** [now.replace(hour=h, minute=m, second=0, microsecond=0)], which
    refuses an hour outside 0..23 and a minute outside 0..59. *)
Definition replace (now : datetime) (h m : Z) : result datetime :=
  if ((0 <=? h) && (h <? 24) && (0 <=? m) && (m <? 60))%Z
  then Ok (mk_datetime (day now) (mk_time h m 0 0))
  else Raise ValueError.

Definition is_trading_hours (env : Env) (now : datetime) : result bool :=
  start_time <- replace now (TRADING_START_HOUR env) (TRADING_START_MINUTE env) ;;
  end_time <- replace now (TRADING_END_HOUR env) (TRADING_END_MINUTE env) ;;
  Ok (datetime_leb start_time now && datetime_leb now end_time).

(** RSI and moving average of [calculate_indicators], on the close
    column. *)
Definition rsi_column (rsi_period : nat) (closes : Pandas.Series) : Pandas.Series :=
  let delta := Pandas.diff closes in
  let gain := Pandas.where_ delta (fun d => d >? Fin 0) (Fin 0) in
  let loss := Pandas.neg_series (Pandas.where_ delta (fun d => d <? Fin 0) (Fin 0)) in
  let avg_gain := Pandas.rolling_mean rsi_period gain in
  let avg_loss := Pandas.rolling_mean rsi_period loss in
  let rs := map (fun gl => fst gl / snd gl) (combine avg_gain avg_loss) in
  map (fun r => Fin 100 - (Fin 100 / (Fin 1 + r))) rs.

Definition ma_column (ma_period : nat) (closes : Pandas.Series) : Pandas.Series :=
  Pandas.rolling_mean ma_period closes.

(** [row.notna().all()]. *)
Definition row_notna_all (r : HistRow) : bool :=
  forallb notna [open r; high r; low r; close r; volume r; rsi r; ma r].

(** [df.iloc[-1]]. *)
Definition iloc_last {A : Type} (df : list A) : result A :=
  match rev df with
  | [] => Raise IndexError
  | r :: _ => Ok r
  end.

(** The three filters of each side, as the local variables of
    [generate_signal] name them. *)
Definition delta_gamma_buy (self : NiftyIntradayStrategy) (g : Greeks) (latest : HistRow) : bool :=
  (delta (call g) >? delta_threshold self)
  && (gamma (call g) >? gamma_threshold self)
  && (rsi latest >? Fin 50)
  && (close latest >? ma latest).

Definition theta_vega_buy (self : NiftyIntradayStrategy) (g : Greeks) : bool :=
  (theta (call g) <? theta_threshold self)
  && (vega (call g) >? vega_threshold self).

Definition vix_buy (self : NiftyIntradayStrategy) (v : float) : bool :=
  v <? vix_buy_threshold self.

Definition delta_gamma_sell (self : NiftyIntradayStrategy) (g : Greeks) (latest : HistRow) : bool :=
  (delta (put g) <? - delta_threshold self)
  && (gamma (put g) <? - gamma_threshold self)
  && (rsi latest <? Fin 50)
  && (close latest <? ma latest).

Definition theta_vega_sell (self : NiftyIntradayStrategy) (g : Greeks) : bool :=
  (theta (put g) >? theta_threshold self)
  && (vega (put g) <? - vega_threshold self).

Definition vix_sell (self : NiftyIntradayStrategy) (v : float) : bool :=
  v >? vix_sell_threshold self.

(** The [if]/[elif]/[else] that picks the signal. *)
Definition decide_signal (self : NiftyIntradayStrategy) (g : Greeks)
    (latest : HistRow) (v : float) : option string :=
  if delta_gamma_buy self g latest && theta_vega_buy self g && vix_buy self v
  then Some "BUY"
  else if delta_gamma_sell self g latest && theta_vega_sell self g && vix_sell self v
  then Some "SELL"
  else None.

Definition set_last_signal (self : NiftyIntradayStrategy) (s : string)
    (t : datetime) : NiftyIntradayStrategy :=
  mk_strategy (historical_data self) (greeks_data self) (vix self)
    (Some s) (Some t)
    (delta_threshold self) (gamma_threshold self) (theta_threshold self)
    (vega_threshold self) (rsi_period self) (ma_period self)
    (vix_buy_threshold self) (vix_sell_threshold self).

(** [generate_signal]: the returned signal ([None], ["BUY"] or ["SELL"])
    and the object after the call.  [now] is the clock read by
    [is_trading_hours], [later] the one stored with the signal.  The two
    guards stand before the [try]: what they raise leaves the method
    ([ValueError] for a window that is no time of day, [AttributeError]
    for a [historical_data] that is [None], [IndexError] for an empty
    one).
    Inside the [try] the only failure the typed records leave possible is
    the comparison of a [vix] that is [None], which the [except] clause
    turns into a [None] result. *)
Definition generate_signal (env : Env) (now later : datetime)
    (self : NiftyIntradayStrategy) : result (option string * NiftyIntradayStrategy) :=
  in_hours <- is_trading_hours env now ;;
  if negb in_hours then Ok (None, self)
  else
    match greeks_data self with
    | None => Ok (None, self)
    | Some g =>
        match historical_data self with
        | None => Raise AttributeError
        | Some df =>
            latest_row <- iloc_last df ;;
            if negb (row_notna_all latest_row) then Ok (None, self)
            else
              match vix self with
              | None => Ok (None, self)
              | Some v =>
                  match decide_signal self g latest_row v with
                  | Some s => Ok (Some s, set_last_signal self s later)
                  | None => Ok (None, self)
                  end
              end
        end
    end.

End Strategy.

(* ================================================================= *)
(** ** [backtesting.py]: the backtester *)

Module Backtester.

Import Clock.
Local Open Scope string_scope.
Local Open Scope float_scope.

(** A row of [price_data] after [fetch_historical_data] and
    [simulate_option_greeks]: its index and the columns the backtest
    reads. *)
Record Row : Type := mk_row {
  index : datetime;
  close : float;
  rsi : float;
  ma : float;
  call_delta : float;
  put_delta : float;
  call_gamma : float;
  put_gamma : float;
  call_theta : float;
  put_theta : float;
  call_vega : float;
  put_vega : float;
  india_vix : float
}.

Record StrategyParams : Type := mk_strategy_params {
  DELTA_THRESHOLD : float;
  GAMMA_THRESHOLD : float;
  THETA_THRESHOLD : float;
  VEGA_THRESHOLD : float;
  RSI_PERIOD : nat;
  RSI_OVERSOLD : float;
  RSI_OVERBOUGHT : float;
  MA_PERIOD : nat;
  VIX_THRESHOLD : float
}.

Record RiskManagement : Type := mk_risk_management {
  STOP_LOSS_PERCENT : float;
  TAKE_PROFIT_PERCENT : float
}.

(** An entry of [self.trades]. *)
Module Trade.
Record t : Type := mk {
  entry_time : datetime;
  exit_time : datetime;
  entry_price : float;
  exit_price : float;
  position : string;
  pnl : float;
  pnl_percent : float;
  exit_reason : string
}.
End Trade.

(** An entry of [self.equity_curve]. *)
Record EquityPoint : Type := mk_equity_point {
  timestamp : datetime;
  equity : float
}.

Record Metrics : Type := mk_metrics {
  initial_capital : float;
  final_capital : float;
  total_return_percent : float;
  total_trades : nat;
  winning_trades : nat;
  losing_trades : nat;
  win_rate : float;
  avg_profit : float;
  avg_loss : float;
  profit_factor : float;
  max_drawdown : float;
  sharpe_ratio : float
}.

(** The attributes of a [Backtester] the run reads or writes;
    [metrics = None] is the empty dict of [__init__]. *)
Record Backtester : Type := mk_backtester {
  strategy_params : StrategyParams;
  risk_management : RiskManagement;
  trades : list Trade.t;
  equity_curve : list EquityPoint;
  metrics : option Metrics
}.

(** The environment variables [__init__] reads. *)
Record Env : Type := mk_env {
  env_DELTA_THRESHOLD : float;
  env_GAMMA_THRESHOLD : float;
  env_THETA_THRESHOLD : float;
  env_VEGA_THRESHOLD : float;
  env_RSI_PERIOD : nat;
  env_MA_PERIOD : nat;
  env_VIX_THRESHOLD : float;
  env_STOP_LOSS_PERCENT : float;
  env_TAKE_PROFIT_PERCENT : float
}.

(** The defaults of the [os.getenv] calls. *)
Definition default_env : Env :=
  mk_env (Fin (1#2)) (Fin (1#10)) (Fin (1#20)) (Fin (1#10)) 14 20
         (Fin 25) (Fin 1) (Fin 2).

(** [__init__]: the two RSI levels are literals, not configuration. *)
Definition init (env : Env) : Backtester :=
  mk_backtester
    (mk_strategy_params
       (env_DELTA_THRESHOLD env) (env_GAMMA_THRESHOLD env)
       (env_THETA_THRESHOLD env) (env_VEGA_THRESHOLD env)
       (env_RSI_PERIOD env) (Fin 30) (Fin 70)
       (env_MA_PERIOD env) (env_VIX_THRESHOLD env))
    (mk_risk_management (env_STOP_LOSS_PERCENT env) (env_TAKE_PROFIT_PERCENT env))
    [] [] None.

(** The filters of [_check_strategy_signal], as its local variables
    name them. *)
Definition delta_gamma_long (p : StrategyParams) (current : Row) : bool :=
  (call_delta current >? DELTA_THRESHOLD p)
  && (call_gamma current >? GAMMA_THRESHOLD p).

Definition delta_gamma_short (p : StrategyParams) (current : Row) : bool :=
  (put_delta current <? - DELTA_THRESHOLD p)
  && (put_gamma current >? GAMMA_THRESHOLD p).

Definition theta_vega_long (p : StrategyParams) (current : Row) : bool :=
  (call_theta current <? - THETA_THRESHOLD p)
  && (call_vega current >? VEGA_THRESHOLD p).

Definition theta_vega_short (p : StrategyParams) (current : Row) : bool :=
  (put_theta current <? - THETA_THRESHOLD p)
  && (put_vega current >? VEGA_THRESHOLD p).

Definition rsi_long (p : StrategyParams) (current : Row) : bool :=
  rsi current <? RSI_OVERSOLD p.

Definition rsi_short (p : StrategyParams) (current : Row) : bool :=
  rsi current >? RSI_OVERBOUGHT p.

Definition ma_long (current : Row) : bool := close current >? ma current.
Definition ma_short (current : Row) : bool := close current <? ma current.

Definition vix_filter (p : StrategyParams) (current : Row) : bool :=
  india_vix current <? VIX_THRESHOLD p.

Definition long_signal (p : StrategyParams) (current : Row) : bool :=
  delta_gamma_long p current && theta_vega_long p current
  && rsi_long p current && ma_long current && vix_filter p current.

Definition short_signal (p : StrategyParams) (current : Row) : bool :=
  delta_gamma_short p current && theta_vega_short p current
  && rsi_short p current && ma_short current && vix_filter p current.

(** [_check_strategy_signal], on the row at the given index: 1 for
    long, -1 for short, 0 for no signal. *)
Definition _check_strategy_signal (p : StrategyParams) (current : Row) : Z :=
  if long_signal p current then 1%Z
  else if short_signal p current then (-1)%Z
  else 0%Z.

(** *** The bar loop of [run_backtest] *)

(** The local variables of [run_backtest] and the two lists of [self]
    it appends to.  [entry_time = None] is the local variable before
    its first assignment. *)
Record LoopState : Type := mk_loop_state {
  capital : float;
  position : Z;
  entry_price : float;
  entry_time : option datetime;
  loop_trades : list Trade.t;
  loop_equity_curve : list EquityPoint
}.

Definition t0915 : time := mk_time 9 15 0 0.
Definition t1515 : time := mk_time 15 15 0 0.

(** The guard of the [continue]. *)
Definition outside_trading_hours (current_time : datetime) : bool :=
  time_ltb (time_of current_time) t0915 || time_ltb t1515 (time_of current_time).

Definition position_name (position : Z) : string :=
  if (position =? 1)%Z then "LONG" else "SHORT".

(** The percentage as an exact value; [Backtester64.pnl_percent_of] is
    the computation with every operation rounded. *)
Definition pnl_percent_of (current_price entry_price : float) (position : Z) : float :=
  ((current_price / entry_price) - Fin 1) * Fin 100 * of_Z position.

Definition exit_condition (risk : RiskManagement) (pnl_percent : float) : bool :=
  (pnl_percent <=? - STOP_LOSS_PERCENT risk)
  || (pnl_percent >=? TAKE_PROFIT_PERCENT risk).

(** "Process exit for existing position". *)
Definition process_exit (risk : RiskManagement) (current_data : Row)
    (st : LoopState) : result LoopState :=
  if negb (position st =? 0)%Z then
    let current_price := close current_data in
    let pnl_percent := pnl_percent_of current_price (entry_price st) (position st) in
    if exit_condition risk pnl_percent then
      let trade_pnl := (current_price - entry_price st) * of_Z (position st) in
      let capital' := capital st + trade_pnl in
      match entry_time st with
      | None => Raise UnboundLocalError
      | Some et =>
          Ok (mk_loop_state capital' 0 (entry_price st) (entry_time st)
                (loop_trades st ++
                 [Trade.mk et (index current_data) (entry_price st) current_price
                    (position_name (position st)) trade_pnl pnl_percent
                    (if pnl_percent <? Fin 0 then "SL" else "TP")])
                (loop_equity_curve st))
      end
    else Ok st
  else Ok st.

(** "Process entry signal". *)
Definition process_entry (signal : Z) (current_data : Row) (st : LoopState) : LoopState :=
  if (position st =? 0)%Z && negb (signal =? 0)%Z then
    mk_loop_state (capital st) signal (close current_data)
      (Some (index current_data)) (loop_trades st) (loop_equity_curve st)
  else st.

(** "Update equity curve". *)
Definition update_equity (current_data : Row) (st : LoopState) : LoopState :=
  let current_equity :=
    if negb (position st =? 0)%Z
    then capital st + (close current_data - entry_price st) * of_Z (position st)
    else capital st in
  mk_loop_state (capital st) (position st) (entry_price st) (entry_time st)
    (loop_trades st)
    (loop_equity_curve st ++ [mk_equity_point (index current_data) current_equity]).

(** One iteration of the [for] loop. *)
Definition bar (self : Backtester) (current_data : Row) (st : LoopState) : result LoopState :=
  if outside_trading_hours (index current_data) then Ok st
  else
    let signal := _check_strategy_signal (strategy_params self) current_data in
    st1 <- process_exit (risk_management self) current_data st ;;
    Ok (update_equity current_data (process_entry signal current_data st1)).

(** The iterations over rows [1 .. len-1], in order. *)
Fixpoint bars (self : Backtester) (rows : list Row) (st : LoopState) : result LoopState :=
  match rows with
  | [] => Ok st
  | r :: rows' => st' <- bar self r st ;; bars self rows' st'
  end.

(** "Close any open position at the end", at the last row of the
    table. *)
Definition close_at_end (last_row : Row) (st : LoopState) : result LoopState :=
  if negb (position st =? 0)%Z then
    let final_price := close last_row in
    let trade_pnl := (final_price - entry_price st) * of_Z (position st) in
    let capital' := capital st + trade_pnl in
    match entry_time st with
    | None => Raise UnboundLocalError
    | Some et =>
        Ok (mk_loop_state capital' (position st) (entry_price st) (entry_time st)
              (loop_trades st ++
               [Trade.mk et (index last_row) (entry_price st) final_price
                  (position_name (position st)) trade_pnl
                  (pnl_percent_of final_price (entry_price st) (position st))
                  "END"])
              (loop_equity_curve st))
    end
  else Ok st.

(** The state before the loop: capital 100000, no position, and the
    equity curve reset to one point at the first index (which an empty
    table does not have). *)
Definition initial_state (self : Backtester) (price_data : list Row) : result LoopState :=
  match price_data with
  | [] => Raise IndexError
  | r0 :: _ =>
      Ok (mk_loop_state (of_Z 100000) 0 (of_Z 0) None (trades self)
            [mk_equity_point (index r0) (of_Z 100000)])
  end.

(** The run up to the metrics: the loop, then the forced close. *)
Definition simulate (self : Backtester) (price_data : list Row) : result LoopState :=
  st0 <- initial_state self price_data ;;
  st <- bars self (tl price_data) st0 ;;
  last_row <- Strategy.iloc_last price_data ;;
  close_at_end last_row st.

(** *** [_calculate_performance_metrics] *)

(** Python's [sum] of floats, as an exact value; [Metrics64.py_sum] is
    the sum with every addition rounded. *)
Definition py_sum (l : list float) : float := fold_left add l (Fin 0).

Definition profits (ts : list Trade.t) : list float :=
  filter (fun x => x >? Fin 0) (map Trade.pnl ts).

Definition losses (ts : list Trade.t) : list float :=
  filter (fun x => x <=? Fin 0) (map Trade.pnl ts).

(** [s.cummax()]: the running maximum, [NaN] entries skipped and kept. *)
Fixpoint cummax_from (m : option float) (s : Pandas.Series) : Pandas.Series :=
  match s with
  | [] => []
  | x :: s' =>
      if isnan x then NaN :: cummax_from m s'
      else
        let m' := match m with
                  | Some y => if y <? x then x else y
                  | None => x
                  end in
        m' :: cummax_from (Some m') s'
  end.

Definition cummax (s : Pandas.Series) : Pandas.Series := cummax_from None s.

(** [s.min()]: the least entry that is not [NaN], [NaN] without one. *)
Definition series_min (s : Pandas.Series) : float :=
  fold_left (fun m x => if isnan m then x else if x <? m then x else m)
            (Pandas.dropna s) NaN.

Section Metrics.

(** [numpy.sqrt]. *)
Variable np_sqrt : float -> float.

Definition sharpe_ratio_of (equity_col : Pandas.Series) : float :=
  let returns := Pandas.pct_change equity_col in
  if (1 <? length equity_col)%nat then
    let daily_returns := Pandas.dropna returns in
    if (0 <? length daily_returns)%nat then
      np_sqrt (of_Z 252) * Pandas.mean daily_returns / Pandas.std np_sqrt daily_returns
    else of_Z 0
  else of_Z 0.

(** The maximal drawdown as an exact value; [Metrics64.max_drawdown_of]
    is the computation with every operation rounded. *)
Definition max_drawdown_of (equity_col : Pandas.Series) : float :=
  let cm := cummax equity_col in
  let drawdown := map (fun ec => (fst ec - snd ec) / snd ec * Fin 100)
                      (combine equity_col cm) in
  abs (series_min drawdown).

(** The metrics, from [self.trades], [self.equity_curve] and the final
    capital.  [self.equity_curve[0]] exists: [run_backtest] has put a
    first point there. *)
Definition _calculate_performance_metrics (ts : list Trade.t)
    (curve : list EquityPoint) (final_capital : float) : result Metrics :=
  match curve with
  | [] => Raise IndexError
  | p0 :: _ =>
      let equity_col := map equity curve in
      let initial_capital := equity p0 in
      let total_return := (final_capital - initial_capital) / initial_capital * Fin 100 in
      let total_trades := length ts in
      let winning_trades := length (profits ts) in
      let losing_trades := length (losses ts) in
      let win_rate :=
        if (0 <? total_trades)%nat
        then of_Z (Z.of_nat winning_trades) / of_Z (Z.of_nat total_trades) * Fin 100
        else of_Z 0 in
      let avg_profit :=
        if (0 <? winning_trades)%nat
        then py_sum (profits ts) / of_Z (Z.of_nat winning_trades)
        else of_Z 0 in
      let avg_loss :=
        if (0 <? losing_trades)%nat
        then py_sum (losses ts) / of_Z (Z.of_nat losing_trades)
        else of_Z 0 in
      let total_profit := py_sum (profits ts) in
      let total_loss := abs (py_sum (losses ts)) in
      let profit_factor :=
        if total_loss >? Fin 0 then total_profit / total_loss
        else if total_profit >? Fin 0 then PInf else of_Z 0 in
      Ok (mk_metrics initial_capital final_capital total_return
            total_trades winning_trades losing_trades
            win_rate avg_profit avg_loss profit_factor
            (max_drawdown_of equity_col) (sharpe_ratio_of equity_col))
  end.

(** [run_backtest]: the metrics it returns and the object after the
    run. *)
Definition run_backtest (self : Backtester) (price_data : list Row)
    : result (Metrics * Backtester) :=
  st <- simulate self price_data ;;
  m <- _calculate_performance_metrics (loop_trades st) (loop_equity_curve st) (capital st) ;;
  Ok (m, mk_backtester (strategy_params self) (risk_management self)
           (loop_trades st) (loop_equity_curve st) (Some m)).

End Metrics.

End Backtester.

(* ================================================================= *)
(** ** The exits of the bar loop, on binary64 numbers *)

(** [backtesting.py]: the bars of [run_backtest]. *)
Module Backtester64.

Import Clock Binary64.
Local Open Scope string_scope.

(** A row of [price_data], its columns binary64 numbers. *)
Record Row : Type := mk_row {
  index : datetime;
  close : b64;
  rsi : b64;
  ma : b64;
  call_delta : b64;
  put_delta : b64;
  call_gamma : b64;
  put_gamma : b64;
  call_theta : b64;
  put_theta : b64;
  call_vega : b64;
  put_vega : b64;
  india_vix : b64
}.

(** The row as [_check_strategy_signal] reads it: the signal check only
    compares, and a comparison only sees the values. *)
Definition values (r : Row) : Backtester.Row :=
  Backtester.mk_row (index r) (val (close r)) (val (rsi r)) (val (ma r))
    (val (call_delta r)) (val (put_delta r)) (val (call_gamma r))
    (val (put_gamma r)) (val (call_theta r)) (val (put_theta r))
    (val (call_vega r)) (val (put_vega r)) (val (india_vix r)).

(** An entry of [self.trades]. *)
Module Trade.
Record t : Type := mk {
  entry_time : datetime;
  exit_time : datetime;
  entry_price : b64;
  exit_price : b64;
  position : string;
  pnl : b64;
  pnl_percent : b64;
  exit_reason : string
}.
End Trade.

(** An entry of [self.equity_curve]. *)
Record EquityPoint : Type := mk_equity_point {
  timestamp : datetime;
  equity : b64
}.

(** The local variables of [run_backtest] and the two lists of [self]
    it appends to. *)
Record LoopState : Type := mk_loop_state {
  capital : b64;
  position : Z;
  entry_price : b64;
  entry_time : option datetime;
  loop_trades : list Trade.t;
  loop_equity_curve : list EquityPoint
}.

(** [((current_price / entry_price) - 1) * 100 * position], every
    operation rounded. *)
Definition pnl_percent_of (current_price entry_price : b64) (position : Z) : b64 :=
  mul (mul (sub (div current_price entry_price) (of_Z 1)) (of_Z 100)) (of_Z position).

(** "Process exit for existing position".  The two tests against the
    levels of [risk_management] are [Backtester.exit_condition] on the
    value of the percentage. *)
Definition process_exit (risk : Backtester.RiskManagement) (current_data : Row)
    (st : LoopState) : result LoopState :=
  if negb (position st =? 0)%Z then
    let current_price := close current_data in
    let pnl_percent := pnl_percent_of current_price (entry_price st) (position st) in
    if Backtester.exit_condition risk (val pnl_percent) then
      let trade_pnl := mul (sub current_price (entry_price st)) (of_Z (position st)) in
      let capital' := add (capital st) trade_pnl in
      match entry_time st with
      | None => Raise UnboundLocalError
      | Some et =>
          Ok (mk_loop_state capital' 0 (entry_price st) (entry_time st)
                (loop_trades st ++
                 [Trade.mk et (index current_data) (entry_price st) current_price
                    (Backtester.position_name (position st)) trade_pnl pnl_percent
                    (if ltb pnl_percent (of_Z 0) then "SL" else "TP")])
                (loop_equity_curve st))
      end
    else Ok st
  else Ok st.

(** "Process entry signal". *)
Definition process_entry (signal : Z) (current_data : Row) (st : LoopState) : LoopState :=
  if (position st =? 0)%Z && negb (signal =? 0)%Z then
    mk_loop_state (capital st) signal (close current_data)
      (Some (index current_data)) (loop_trades st) (loop_equity_curve st)
  else st.

(** "Update equity curve". *)
Definition update_equity (current_data : Row) (st : LoopState) : LoopState :=
  let current_equity :=
    if negb (position st =? 0)%Z
    then add (capital st)
           (mul (sub (close current_data) (entry_price st)) (of_Z (position st)))
    else capital st in
  mk_loop_state (capital st) (position st) (entry_price st) (entry_time st)
    (loop_trades st)
    (loop_equity_curve st ++ [mk_equity_point (index current_data) current_equity]).

(** One iteration of the [for] loop. *)
Definition bar (self : Backtester.Backtester) (current_data : Row) (st : LoopState)
    : result LoopState :=
  if Backtester.outside_trading_hours (index current_data) then Ok st
  else
    let signal :=
      Backtester._check_strategy_signal (Backtester.strategy_params self)
        (values current_data) in
    st1 <- process_exit (Backtester.risk_management self) current_data st ;;
    Ok (update_equity current_data (process_entry signal current_data st1)).

(** The iterations over the given rows, in order. *)
Fixpoint bars (self : Backtester.Backtester) (rows : list Row) (st : LoopState)
    : result LoopState :=
  match rows with
  | [] => Ok st
  | r :: rows' => st' <- bar self r st ;; bars self rows' st'
  end.

End Backtester64.

(* ================================================================= *)
(** ** The positions a run goes through *)

Module Trace.

Import Backtester.

(** The values the variable [position] takes during the loop: for every
    bar that is not skipped, its value after "process exit" and its
    value after "process entry". *)
Fixpoint positions (self : Backtester) (rows : list Row) (st : LoopState) : list Z :=
  match rows with
  | [] => []
  | r :: rows' =>
      if outside_trading_hours (index r) then positions self rows' st
      else
        match process_exit (risk_management self) r st with
        | Raise _ => []
        | Ok st1 =>
            let signal := _check_strategy_signal (strategy_params self) r in
            let st2 := update_equity r (process_entry signal r st1) in
            position st1 :: position st2 :: positions self rows' st2
        end
  end.

(** FLAT is 0, LONG is 1, SHORT is -1. *)
Definition is_state (p : Z) : Prop := p = 0%Z \/ p = 1%Z \/ p = (-1)%Z.

(** From one value to the next the position is kept, closed, or opened
    from FLAT: never replaced by another open position. *)
Fixpoint opened_from_flat (prev : Z) (tr : list Z) : Prop :=
  match tr with
  | [] => True
  | p :: tr' => (p = prev \/ p = 0%Z \/ prev = 0%Z) /\ opened_from_flat p tr'
  end.

(** The number of moves from FLAT to an open position. *)
Fixpoint entries (prev : Z) (tr : list Z) : nat :=
  match tr with
  | [] => 0
  | p :: tr' =>
      (if (prev =? 0)%Z && negb (p =? 0)%Z then 1 else 0) + entries p tr'
  end.

(** The number of moves from an open position back to FLAT. *)
Fixpoint exits (prev : Z) (tr : list Z) : nat :=
  match tr with
  | [] => 0
  | p :: tr' =>
      (if negb (prev =? 0)%Z && (p =? 0)%Z then 1 else 0) + exits p tr'
  end.

(** The positions of a whole run: FLAT before the first bar, the values
    during the loop, and FLAT again once "close any open position at
    the end" has run. *)
Definition run_positions (self : Backtester) (price_data : list Row) : list Z :=
  match initial_state self price_data with
  | Raise _ => []
  | Ok st0 => positions self (tl price_data) st0 ++ [0%Z]
  end.

End Trace.

(* ================================================================= *)
(** ** Predicates of the proofs *)

Module Invariants.

Import Backtester.
Local Open Scope float_scope.

(** What the loop maintains: the position is FLAT, LONG or SHORT, an
    open position has its entry time assigned, and the equity curve has
    its first point. *)
Definition loop_inv (st : LoopState) : Prop :=
  Trace.is_state (position st)
  /\ (position st <> 0%Z -> entry_time st <> None)
  /\ loop_equity_curve st <> [].

(** No recorded P&L is [NaN]. *)
Definition numeric_pnl (ts : list Trade.t) : Prop :=
  Forall (fun t => isnan (Trade.pnl t) = false) ts.

(** With finite closes the entry price is finite and so is every
    recorded P&L. *)
Definition finite_inv (st : LoopState) : Prop :=
  is_finite (entry_price st) = true /\ numeric_pnl (loop_trades st).

End Invariants.

(* ================================================================= *)
(** ** The Sharpe ratio as the specification words it *)

Module SharpeSpec.

Local Open Scope float_scope.

(** The successive percentage changes of the equity curve, the
    undefined first one left out. *)
Definition equity_returns (equity_col : Pandas.Series) : Pandas.Series :=
  Pandas.dropna (Pandas.pct_change equity_col).

(** sqrt(252) x mean(returns) / stdDev(returns). *)
Definition annualized (np_sqrt : float -> float) (returns : Pandas.Series) : float :=
  np_sqrt (of_Z 252) * Pandas.mean returns / Pandas.std np_sqrt returns.

End SharpeSpec.

(* ================================================================= *)
(** ** Sample data *)

Module Samples.

Import Clock.
Local Open Scope string_scope.
Local Open Scope float_scope.

(** A square root on the extended rationals, rounded down at nine
    decimals: an executable stand-in for [numpy.sqrt] in the examples. *)
Definition sqrt_approx (x : float) : float :=
  match x with
  | Fin q =>
      if Qltb q 0 then NaN
      else Fin (Z.sqrt (Qnum q * Zpos (Qden q) * 10 ^ 18) # (Qden q * 10 ^ 9))
  | PInf => PInf
  | NInf => NaN
  | NaN => NaN
  end.

Definition at_time (d h m : Z) : datetime := mk_datetime d (mk_time h m 0 0).

(** A live engine with the default thresholds, a complete latest row
    and a Greeks snapshot on which every SELL filter holds: put delta
    -0.6, put gamma -0.2, put theta 0.1, put vega -0.2, RSI 40, close 99
    under a moving average of 100, VIX 35. *)
Definition sell_greeks : Strategy.Greeks :=
  Strategy.mk_greeks
    (Strategy.mk_option_greeks (Fin (2#5)) (Fin (1#20)) (Fin (-1#10)) (Fin (1#5)))
    (Strategy.mk_option_greeks (Fin (-3#5)) (Fin (-1#5)) (Fin (1#10)) (Fin (-1#5))).

Definition sell_latest : Strategy.HistRow :=
  Strategy.mk_hist_row (Fin 100) (Fin 101) (Fin 98) (Fin 99) (Fin 1000)
    (Fin 40) (Fin 100).

Definition sell_engine : Strategy.NiftyIntradayStrategy :=
  Strategy.mk_strategy (Some [sell_latest]) (Some sell_greeks) (Some (Fin 35))
    None None
    (Fin (1#2)) (Fin (1#10)) (Fin (1#20)) (Fin (1#10)) 14 20 (Fin 20) (Fin 30).

(** The same engine with no price history: [historical_data] is
    [None]. *)
Definition engine_without_history : Strategy.NiftyIntradayStrategy :=
  Strategy.mk_strategy None (Some sell_greeks) (Some (Fin 35))
    None None
    (Fin (1#2)) (Fin (1#10)) (Fin (1#20)) (Fin (1#10)) 14 20 (Fin 20) (Fin 30).

(** Backtest rows.  [quiet_row] fires no signal; [long_row] fires the
    long signal under the default parameters (call delta 0.6, call gamma
    0.2, call theta -0.1, call vega 0.2, RSI 25, close above its moving
    average, VIX 20); [short_row] fires the short one (put delta -0.6,
    put gamma 0.2, put theta -0.1, put vega 0.2, RSI 75, close 99 under a
    moving average of 100, VIX 20). *)
Definition quiet_row (t : datetime) (price : float) : Backtester.Row :=
  Backtester.mk_row t price (Fin 50) price
    (Fin (1#2)) (Fin (-1#2)) (Fin (1#20)) (Fin (1#20))
    (Fin (-1#10)) (Fin (-1#10)) (Fin (1#5)) (Fin (1#5)) (Fin 15).

Definition long_row (t : datetime) (price : float) : Backtester.Row :=
  Backtester.mk_row t price (Fin 25) (price - Fin 1)
    (Fin (3#5)) (Fin (-2#5)) (Fin (1#5)) (Fin (1#5))
    (Fin (-1#10)) (Fin (-1#10)) (Fin (1#5)) (Fin (1#5)) (Fin 20).

Definition short_row (t : datetime) (price : float) : Backtester.Row :=
  Backtester.mk_row t price (Fin 75) (price + Fin 1)
    (Fin (2#5)) (Fin (-3#5)) (Fin (1#5)) (Fin (1#5))
    (Fin (-1#10)) (Fin (-1#10)) (Fin (1#5)) (Fin (1#5)) (Fin 20).

Definition default_backtester : Backtester.Backtester :=
  Backtester.init Backtester.default_env.

(** A stop-loss run: a first row, an entry LONG at 100 (09:30), a bar at
    99.5 that exits nothing, a bar at 98.9 that hits the 1 % stop. *)
Definition stop_loss_rows : list Backtester.Row :=
  [ quiet_row (at_time 1 9 15) (Fin 100);
    long_row (at_time 1 9 30) (Fin 100);
    quiet_row (at_time 1 9 45) (Fin (199#2));
    quiet_row (at_time 1 10 0) (Fin (989#10)) ].

(** The state of the loop after the entry of [stop_loss_rows]. *)
Definition long_at_100 : Backtester.LoopState :=
  Backtester.mk_loop_state (Fin 100000) 1 (Fin 100) (Some (at_time 1 9 30)) []
    [Backtester.mk_equity_point (at_time 1 9 15) (Fin 100000);
     Backtester.mk_equity_point (at_time 1 9 30) (Fin 100000)].

(** Three bars inside the trading hours at a constant price, without
    any signal: the equity stays at 100000. *)
Definition flat_rows : list Backtester.Row :=
  [ quiet_row (at_time 1 9 15) (Fin 100);
    quiet_row (at_time 1 9 30) (Fin 100);
    quiet_row (at_time 1 9 45) (Fin 100) ].

Definition flat_curve : Pandas.Series := [Fin 100000; Fin 100000; Fin 100000].

(** Malformed candles: the timestamps go backwards (10:00, then 09:45,
    then 09:30 of the same day) and the second close is [NaN]. *)
Definition malformed_rows : list Backtester.Row :=
  [ quiet_row (at_time 1 10 0) (Fin 100);
    quiet_row (at_time 1 9 45) NaN;
    quiet_row (at_time 1 9 30) (Fin 101) ].

(** An entry LONG at 100 (09:30), then a last candle at 15:30, after
    the 15:15 end of the loop's window, at 101.5. *)
Definition open_at_close_rows : list Backtester.Row :=
  [ quiet_row (at_time 1 9 15) (Fin 100);
    long_row (at_time 1 9 30) (Fin 100);
    quiet_row (at_time 1 15 30) (Fin (203#2)) ].

(** Two recorded trades: one closed at its entry price (P&L 0), one
    closed five points higher. *)
Definition two_trades : list Backtester.Trade.t :=
  [ Backtester.Trade.mk (at_time 1 9 30) (at_time 1 10 0) (Fin 100) (Fin 100)
      "LONG" (Fin 0) (Fin 0) "TP";
    Backtester.Trade.mk (at_time 1 10 15) (at_time 1 11 0) (Fin 100) (Fin 105)
      "LONG" (Fin 5) (Fin 5) "TP" ].

Definition two_trades_curve : list Backtester.EquityPoint :=
  [ Backtester.mk_equity_point (at_time 1 9 15) (Fin 100000);
    Backtester.mk_equity_point (at_time 1 10 0) (Fin 100000);
    Backtester.mk_equity_point (at_time 1 11 0) (Fin 100005) ].

(** An entry LONG at 100 (09:30), then a last candle whose close is
    [NaN]. *)
Definition nan_last_rows : list Backtester.Row :=
  [ quiet_row (at_time 1 9 15) (Fin 100);
    long_row (at_time 1 9 30) (Fin 100);
    quiet_row (at_time 1 9 45) NaN ].



End Samples.

(* ================================================================= *)
(** ** What a run leaves in its records *)

Module Ledger.

Import Clock Backtester.
Local Open Scope string_scope.
Local Open Scope float_scope.

(** The rows the loop does not skip. *)
Definition evaluated (rows : list Row) : list Row :=
  filter (fun r => negb (outside_trading_hours (index r))) rows.

(** A capital after the P&L of a list of trades has been added to it,
    one trade after the other. *)
Definition settle (start : float) (ts : list Trade.t) : float :=
  fold_left add (map Trade.pnl ts) start.

(** 1 for a trade recorded as LONG, -1 for any other. *)
Definition direction (t : Trade.t) : Z :=
  if String.eqb (Trade.position t) "LONG" then 1%Z else (-1)%Z.

(** The fields of a trade agree with each other. *)
Definition consistent (t : Trade.t) : Prop :=
  (Trade.position t = "LONG" \/ Trade.position t = "SHORT")
  /\ Trade.pnl t
     = (Trade.exit_price t - Trade.entry_price t) * of_Z (direction t)
  /\ Trade.pnl_percent t
     = pnl_percent_of (Trade.exit_price t) (Trade.entry_price t) (direction t).

(** The trade was opened at row [r]: an evaluated row whose signal is
    the direction of the trade. *)
Definition entered_at (p : StrategyParams) (r : Row) (t : Trade.t) : Prop :=
  outside_trading_hours (index r) = false
  /\ _check_strategy_signal p r = direction t
  /\ Trade.entry_time t = index r
  /\ Trade.entry_price t = close r.

(** The trade was closed at the close of row [r]. *)
Definition exited_at (r : Row) (t : Trade.t) : Prop :=
  Trade.exit_time t = index r /\ Trade.exit_price t = close r.

(** The trade was closed by the stop loss or the take profit at the
    evaluated row [r]. *)
Definition stopped_at (risk : RiskManagement) (r : Row) (t : Trade.t) : Prop :=
  outside_trading_hours (index r) = false
  /\ exited_at r t
  /\ exit_condition risk (Trade.pnl_percent t) = true
  /\ Trade.exit_reason t = (if Trade.pnl_percent t <? Fin 0 then "SL" else "TP").

(** A trade of the loop: consistent, opened at a row of [all], closed
    by the stop loss or the take profit at row [r]. *)
Definition closed_at (self : Backtester) (all : list Row) (r : Row) (t : Trade.t) : Prop :=
  consistent t
  /\ (exists r0, In r0 all /\ entered_at (strategy_params self) r0 t)
  /\ stopped_at (risk_management self) r t.

(** The trade of the forced close: consistent, opened at a row of
    [all], closed at the close of [last_row] with the reason END. *)
Definition closed_at_end (self : Backtester) (all : list Row) (last_row : Row)
    (t : Trade.t) : Prop :=
  consistent t
  /\ (exists r0, In r0 all /\ entered_at (strategy_params self) r0 t)
  /\ exited_at last_row t
  /\ Trade.exit_reason t = "END".

(** An open position was opened at a row of the table. *)
Definition open_inv (p : StrategyParams) (all : list Row) (st : LoopState) : Prop :=
  position st <> 0%Z ->
  exists r,
    In r all
    /\ outside_trading_hours (index r) = false
    /\ _check_strategy_signal p r = position st
    /\ entry_time st = Some (index r)
    /\ entry_price st = close r.

(** With no position open, the last equity point is the capital. *)
Definition flat_settled (st : LoopState) : Prop :=
  position st = 0%Z ->
  exists pt,
    Strategy.iloc_last (loop_equity_curve st) = Ok pt /\ equity pt = capital st.

(** The state with another list of recorded trades. *)
Definition with_trades (ts : list Trade.t) (st : LoopState) : LoopState :=
  mk_loop_state (capital st) (position st) (entry_price st) (entry_time st)
    ts (loop_equity_curve st).

End Ledger.

(* ================================================================= *)
(** ** [backtesting.py]: the simulated Greeks *)

Module GreeksSimulation.

Import Clock Backtester.
Local Open Scope float_scope.

(** Python's [min(a, b)] and [max(a, b)] of two numbers: [a], unless
    [b] is strictly smaller (strictly larger). *)
Definition py_min (a b : float) : float := if b <? a then b else a.
Definition py_max (a b : float) : float := if b >? a then b else a.

(** Two timestamps are the same label. *)
Definition datetime_eqb (a b : datetime) : bool :=
  match lex_compare (datetime_fields a) (datetime_fields b) with
  | Eq => true
  | _ => false
  end.

(** A row with the nine simulated columns set. *)
Definition set_greeks (r : Row)
    (cd pd cg pg ct pt cv pv vix : float) : Row :=
  mk_row (index r) (close r) (rsi r) (ma r) cd pd cg pg ct pt cv pv vix.

(** The nine column assignments before the loop. *)
Definition base_greeks (r : Row) : Row :=
  set_greeks r (Fin (1#2)) (Fin (-1#2)) (Fin (1#20)) (Fin (1#20))
    (Fin (-1#10)) (Fin (-1#10)) (Fin (1#5)) (Fin (1#5)) (Fin 15).

(** [df.iloc[i]]. *)
Definition iloc (table : list Row) (i : nat) : result Row :=
  match nth_error table i with
  | Some r => Ok r
  | None => Raise IndexError
  end.

(** [df.loc[label, columns] = values]: every row that carries the label
    is written. *)
Definition loc_set (label : datetime) (write : Row -> Row) (table : list Row) : list Row :=
  map (fun r => if datetime_eqb (index r) label then write r else r) table.

(** One iteration of the loop.  Each new value is computed from the row
    before (read before any write of that column) and written at the
    label of row [i]; the gamma is computed from the call delta just
    written.  [draw] is the value of [np.random.normal(0, 0.5)]. *)
Definition greeks_step (draw : float) (i : nat) (table : list Row) : result (list Row) :=
  cur <- iloc table i ;;
  prev <- iloc table (i - 1) ;;
  let price_change := close cur / close prev - Fin 1 in
  let cd := py_min (Fin (19#20)) (call_delta prev + price_change * Fin (1#2)) in
  let pd := py_max (Fin (-19#20)) (put_delta prev - price_change * Fin (1#2)) in
  let delta_change := abs (cd - Fin (1#2)) in
  let cg := py_max (Fin (1#100)) (Fin (1#20) - delta_change * Fin (1#10)) in
  let pg := py_max (Fin (1#100)) (Fin (1#20) - delta_change * Fin (1#10)) in
  let ct := call_theta prev * Fin (101#100) in
  let pt := put_theta prev * Fin (101#100) in
  let cv := call_vega prev * Fin (99#100) in
  let pv := put_vega prev * Fin (99#100) in
  let vix_change := draw in
  let vix := py_max (Fin 10) (py_min (Fin 30) (india_vix prev + vix_change)) in
  Ok (loc_set (index cur) (fun r => set_greeks r cd pd cg pg ct pt cv pv vix) table).

Fixpoint greeks_loop (normal : nat -> float) (steps : list nat) (table : list Row)
    : result (list Row) :=
  match steps with
  | [] => Ok table
  | i :: steps' =>
      table' <- greeks_step (normal i) i table ;;
      greeks_loop normal steps' table'
  end.

(** [simulate_option_greeks]: the table with the simulated columns.
    [normal i] is the random draw of iteration [i].  The first close is
    read before anything else, which an empty table refuses. *)
Definition simulate_option_greeks (normal : nat -> float) (price_data : list Row)
    : result (list Row) :=
  atm_row <- iloc price_data 0 ;;
  greeks_loop normal (seq 1 (length price_data - 1)) (map base_greeks price_data).

(** What the simulation leaves alone: the index and the price
    columns. *)
Definition same_prices (a b : Row) : Prop :=
  index a = index b /\ close a = close b /\ rsi a = rsi b /\ ma a = ma b.

(** The ranges the simulated columns stay in. *)
Definition in_range (r : Row) : Prop :=
  (call_delta r <=? Fin (19#20)) = true
  /\ (put_delta r >=? Fin (-19#20)) = true
  /\ (call_gamma r >=? Fin (1#100)) = true
  /\ (call_gamma r <=? Fin (1#20)) = true
  /\ put_gamma r = call_gamma r
  /\ (india_vix r >=? Fin 10) = true
  /\ (india_vix r <=? Fin 30) = true.

End GreeksSimulation.

(* ================================================================= *)
(** ** The RSI, on binary64 numbers *)

(** The columns of the RSI as pandas computes them on binary64
    entries. *)
Module Pandas64.

Import Binary64.

Definition Series := list b64.

(** [s.diff()]: [NaN] first, then the difference with the previous
    entry. *)
Fixpoint diff_from (prev : b64) (s : Series) : Series :=
  match s with
  | [] => []
  | x :: s' => sub x prev :: diff_from x s'
  end.

Definition diff (s : Series) : Series :=
  match s with
  | [] => []
  | x :: s' => Nan :: diff_from x s'
  end.

(** [s.where(cond, other)] for a condition computed entry by entry. *)
Definition where_ (s : Series) (cond : b64 -> bool) (other : b64) : Series :=
  map (fun x => if cond x then x else other) s.

(** Unary minus on a column. *)
Definition neg_series (s : Series) : Series := map neg s.

(** [s.rolling(window=w).mean()] is code of pandas, not of this
    repository: it is a parameter of the definitions that use it.  Two
    properties such a function can have: the column it returns has the
    length of [s], and on a column that holds no [NaN] and no negative
    entry it holds only [NaN] and non-negative entries.  The exact mean
    of every window has both; a mean taken from a running sum that is
    updated by additions and removals can lose the second one to its
    rounding errors. *)
Definition rolling_mean_spec (rolling_mean : nat -> Series -> Series) : Prop :=
  (forall w s, length (rolling_mean w s) = length s)
  /\ (forall w s, Forall nonneg s -> Forall nan_or_nonneg (rolling_mean w s)).

(** A rolling mean that has the two properties: the mean of every full
    window, summed anew from the left. *)
Definition sum (s : Series) : b64 := fold_left add s (Zero false).

Definition window_mean (w : nat) (s : Series) : Series :=
  map (fun i =>
         if (i + 1 <? w)%nat then Nan
         else div (sum (firstn w (skipn (i + 1 - w) s))) (of_Z (Z.of_nat w)))
      (seq 0 (length s)).

End Pandas64.

(** [strategy.py]: the RSI column of [calculate_indicators]. *)
Module Strategy64.

Import Binary64.

Section Rsi.

Variable rolling_mean : nat -> Pandas64.Series -> Pandas64.Series.

Definition rsi_column (rsi_period : nat) (closes : Pandas64.Series) : Pandas64.Series :=
  let delta := Pandas64.diff closes in
  let gain := Pandas64.where_ delta (fun d => gtb d (of_Z 0)) (of_Z 0) in
  let loss := Pandas64.neg_series (Pandas64.where_ delta (fun d => ltb d (of_Z 0)) (of_Z 0)) in
  let avg_gain := rolling_mean rsi_period gain in
  let avg_loss := rolling_mean rsi_period loss in
  let rs := map (fun gl => div (fst gl) (snd gl)) (combine avg_gain avg_loss) in
  map (fun r => sub (of_Z 100) (div (of_Z 100) (add (of_Z 1) r))) rs.

End Rsi.

End Strategy64.

(** [backtesting.py]: [_calculate_rsi]. *)
Module Rsi64.

Import Binary64.

Section Rsi.

Variable rolling_mean : nat -> Pandas64.Series -> Pandas64.Series.

(** The columns [gain] and [loss] of [_calculate_rsi]: the rolling
    means of the rises and of the falls. *)
Definition rsi_gain (prices : Pandas64.Series) (period : nat) : Pandas64.Series :=
  let delta := Pandas64.diff prices in
  rolling_mean period (Pandas64.where_ delta (fun d => gtb d (of_Z 0)) (of_Z 0)).

Definition rsi_loss (prices : Pandas64.Series) (period : nat) : Pandas64.Series :=
  let delta := Pandas64.diff prices in
  rolling_mean period
    (Pandas64.neg_series (Pandas64.where_ delta (fun d => ltb d (of_Z 0)) (of_Z 0))).

Definition _calculate_rsi (prices : Pandas64.Series) (period : nat) : Pandas64.Series :=
  let gain := rsi_gain prices period in
  let loss := rsi_loss prices period in
  let rs := map (fun gl => div (fst gl) (snd gl)) (combine gain loss) in
  let rsi := map (fun r => sub (of_Z 100) (div (of_Z 100) (add (of_Z 1) r))) rs in
  rsi.

End Rsi.

(** One entry of the column, from the two averages. *)
Definition rsi_entry (gain loss : b64) : b64 :=
  sub (of_Z 100) (div (of_Z 100) (add (of_Z 1) (div gain loss))).

(** Closes that rise by one at every bar. *)
Definition rising_closes : Pandas64.Series :=
  [Finite 100; Finite 101; Finite 102; Finite 103].

End Rsi64.

(* ================================================================= *)
(** ** [backtesting.py]: the profit factor and the drawdown, on binary64
    numbers *)

Module Metrics64.

Import Binary64.

(** Python's [sum]: from the integer 0, from the left. *)
Definition py_sum (l : list b64) : b64 := fold_left add l (of_Z 0).

(** The P&L of the trades with [trade['pnl'] > 0], and of those with
    [trade['pnl'] <= 0]. *)
Definition profits (pnls : list b64) : list b64 :=
  filter (fun x => gtb x (of_Z 0)) pnls.

Definition losses (pnls : list b64) : list b64 :=
  filter (fun x => leb x (of_Z 0)) pnls.

(** "Calculate profit factor", from the P&L of [self.trades]. *)
Definition profit_factor_of (pnls : list b64) : b64 :=
  let total_profit := py_sum (profits pnls) in
  let total_loss := abs (py_sum (losses pnls)) in
  if gtb total_loss (of_Z 0) then div total_profit total_loss
  else if gtb total_profit (of_Z 0) then Inf false else of_Z 0.

(** [s.cummax()]: the running maximum, [NaN] entries skipped and kept. *)
Fixpoint cummax_from (m : option b64) (s : list b64) : list b64 :=
  match s with
  | [] => []
  | x :: s' =>
      if isnan x then Nan :: cummax_from m s'
      else
        let m' := match m with
                  | Some y => if ltb y x then x else y
                  | None => x
                  end in
        m' :: cummax_from (Some m') s'
  end.

Definition cummax (s : list b64) : list b64 := cummax_from None s.

(** [s.min()]: the least entry that is not [NaN], [NaN] without one. *)
Definition series_min (s : list b64) : b64 :=
  fold_left (fun m x => if isnan m then x else if ltb x m then x else m)
            (filter (fun x => negb (isnan x)) s) Nan.

(** "Calculate max drawdown", from the equity column. *)
Definition max_drawdown_of (equity_col : list b64) : b64 :=
  let cm := cummax equity_col in
  let drawdown := map (fun ec => mul (div (sub (fst ec) (snd ec)) (snd ec)) (of_Z 100))
                      (combine equity_col cm) in
  abs (series_min drawdown).

(** A positive finite binary64 number. *)
Definition positive_finite (x : b64) : Prop :=
  binary64 x /\ exists q, x = Finite q /\ (0 < q)%Q.

(** An equity that falls from 100000 to 1e-12, and the P&L of two
    trades: one closed at its entry price, one five points higher. *)
Definition steep_fall : list b64 :=
  [Finite 100000; Finite (4951760157141521 # 4951760157141521099596496896)].

Definition flat_and_gain : list b64 := [Zero false; Finite 5].

End Metrics64.

(* ================================================================= *)
(** ** Python values that come from outside *)

Module Py.

Local Open Scope string_scope.
Local Open Scope float_scope.

(** The exceptions the code below can meet. *)
Inductive exc : Type :=
| KeyError (key : string)
| TypeError
| AttributeError (name : string)
| ValueError
| OtherError.

(** The outcome of an expression that may raise. *)
Inductive attempt (A : Type) : Type :=
| Returned (a : A)
| Raised (e : exc).
Arguments Returned {A} a.
Arguments Raised {A} e.

Definition and_then {A B : Type} (m : attempt A) (k : A -> attempt B) : attempt B :=
  match m with
  | Returned a => k a
  | Raised e => Raised e
  end.

(** A value decoded from JSON: what a broker call answers.  [JNull] is
    [None]. *)
#[warnings="-register-all"]
Inductive json : Type :=
| JNull
| JBool (b : bool)
| JNum (x : float)
| JStr (s : string)
| JList (l : list json)
| JDict (d : list (string * json)).

Fixpoint lookup (d : list (string * json)) (k : string) : option json :=
  match d with
  | [] => None
  | (k', v) :: d' => if String.eqb k' k then Some v else lookup d' k
  end.

(** [x[k]] for a string key. *)
Definition getitem (x : json) (k : string) : attempt json :=
  match x with
  | JDict d =>
      match lookup d k with
      | Some v => Returned v
      | None => Raised (KeyError k)
      end
  | _ => Raised TypeError
  end.

(** [bool(x)]. *)
Definition truthy (x : json) : bool :=
  match x with
  | JNull => false
  | JBool b => b
  | JNum x => match x with Fin q => negb (Qis0 q) | _ => true end
  | JStr s => negb (String.eqb s "")
  | JList l => match l with [] => false | _ => true end
  | JDict d => match d with [] => false | _ => true end
  end.

Fixpoint is_substring (s t : string) : bool :=
  String.prefix s t
  || match t with
     | EmptyString => false
     | String _ t' => is_substring s t'
     end.

(** [x == y] between decoded values, as far as the code needs it:
    equality with a string. *)
Definition eq_str (x : json) (s : string) : bool :=
  match x with
  | JStr s' => String.eqb s' s
  | _ => false
  end.

(** [k in x] for a string [k]. *)
Definition contains (x : json) (k : string) : attempt bool :=
  match x with
  | JDict d => Returned (match lookup d k with Some _ => true | None => false end)
  | JList l => Returned (existsb (fun y => eq_str y k) l)
  | JStr s => Returned (is_substring k s)
  | _ => Raised TypeError
  end.

Fixpoint chars (s : string) : list json :=
  match s with
  | EmptyString => []
  | String c s' => JStr (String c EmptyString) :: chars s'
  end.

(** The values [for y in x] goes through. *)
Definition iterate (x : json) : attempt (list json) :=
  match x with
  | JList l => Returned l
  | JDict d => Returned (map (fun kv => JStr (fst kv)) d)
  | JStr s => Returned (chars s)
  | _ => Raised TypeError
  end.

(** The number a value compares as, when it compares with a number. *)
Definition as_number (x : json) : attempt float :=
  match x with
  | JNum v => Returned v
  | JBool b => Returned (if b then Fin 1 else Fin 0)
  | _ => Raised TypeError
  end.

(** [x == y] on numbers. *)
Definition float_eqb (x y : float) : bool :=
  match x, y with
  | Fin a, Fin b => Qeq_bool a b
  | PInf, PInf => true
  | NInf, NInf => true
  | _, _ => false
  end.

(** [bool(x)] for a number and for an optional string. *)
Definition float_truthy (x : float) : bool :=
  match x with
  | Fin q => negb (Qis0 q)
  | _ => true
  end.

Definition str_truthy (s : option string) : bool :=
  match s with
  | Some s => negb (String.eqb s "")
  | None => false
  end.

(** [a or b] on strings: [a] unless it is [None] or empty. *)
Definition str_or (a : option string) (b : string) : string :=
  match a with
  | Some s => if String.eqb s "" then b else s
  | None => b
  end.

End Py.

(* ================================================================= *)
(** ** [angel_api.py]: the broker gateway *)

Module AngelApi.

Import Py.
Local Open Scope string_scope.

(** A call to a [SmartConnect] object (its construction included). *)
Record Call : Type := mk_call {
  method : string;
  args : list json
}.

(** The [SmartConnect] class bundled in [angel_api.py]: four methods,
    each with a fixed answer; any other method is missing, and a call
    with the wrong number of arguments is refused. *)
Definition bundled_smart_connect (history : list Call) (c : Call) : attempt json :=
  let arity := length (args c) in
  if String.eqb (method c) "SmartConnect" then Returned JNull
  else if String.eqb (method c) "generateSession" then
    if (arity =? 3)%nat then
      Returned (JDict [("status", JBool true); ("message", JStr "SUCCESS");
                       ("data", JDict [("jwtToken", JStr "mock_token");
                                       ("refreshToken", JStr "mock_refresh")])])
    else Raised TypeError
  else if String.eqb (method c) "getProfile" then
    if (arity =? 1)%nat then
      Returned (JDict [("status", JBool true);
                       ("data", JDict [("name", JStr "Test User");
                                       ("email", JStr "test@example.com")])])
    else Raised TypeError
  else if String.eqb (method c) "generateToken" then
    if (arity =? 1)%nat then
      Returned (JDict [("status", JBool true);
                       ("data", JDict [("jwtToken", JStr "mock_token")])])
    else Raised TypeError
  else if String.eqb (method c) "terminateSession" then
    if (arity =? 1)%nat then
      Returned (JDict [("status", JBool true);
                       ("message", JStr "User logged out successfully")])
    else Raised TypeError
  else Raised (AttributeError (method c)).

(** The environment variables [connect] and [disconnect] read. *)
Record Env : Type := mk_env {
  API_KEY : string;
  CLIENT_ID : string;
  CLIENT_PASSWORD : string;
  TOTP_KEY : string
}.

(** A candle of the broker's history. *)
Record Candle : Type := mk_candle {
  timestamp : Clock.datetime;
  open : float;
  high : float;
  low : float;
  close : float;
  volume : float
}.

(** An [AngelOneAPI] object.  [api] holds the key of the current
    [SmartConnect] object, [None] before the first one is made.
    [calls] is not an attribute: it records, for the proofs, every call
    made to a [SmartConnect] object through this gateway. *)
Record AngelOneAPI : Type := mk_api {
  api : option string;
  session_id : json;
  refresh_token : json;
  feed_token : json;
  is_connected : bool;
  calls : list Call
}.

(** [__init__]. *)
Definition init : AngelOneAPI := mk_api None JNull JNull JNull false [].

Definition set_api (self : AngelOneAPI) (k : option string) : AngelOneAPI :=
  mk_api k (session_id self) (refresh_token self) (feed_token self)
    (is_connected self) (calls self).
Definition set_session_id (self : AngelOneAPI) (v : json) : AngelOneAPI :=
  mk_api (api self) v (refresh_token self) (feed_token self)
    (is_connected self) (calls self).
Definition set_refresh_token (self : AngelOneAPI) (v : json) : AngelOneAPI :=
  mk_api (api self) (session_id self) v (feed_token self)
    (is_connected self) (calls self).
Definition set_feed_token (self : AngelOneAPI) (v : json) : AngelOneAPI :=
  mk_api (api self) (session_id self) (refresh_token self) v
    (is_connected self) (calls self).
Definition set_is_connected (self : AngelOneAPI) (b : bool) : AngelOneAPI :=
  mk_api (api self) (session_id self) (refresh_token self) (feed_token self)
    b (calls self).
Definition record_call (self : AngelOneAPI) (c : Call) : AngelOneAPI :=
  mk_api (api self) (session_id self) (refresh_token self) (feed_token self)
    (is_connected self) (calls self ++ [c]).

Section Gateway.

(** How the [SmartConnect] objects answer a call, given the calls made
    before: the bundled class, or the broker's library. *)
Variable respond : list Call -> Call -> attempt json.

(** [pyotp.TOTP(key).now()]. *)
Variable totp_now : string -> attempt string.

(** [pandas.DataFrame(rows, columns=...)], the timestamps parsed and
    made the index. *)
Variable make_frame : json -> attempt (list Candle).

(** [self.api.<method>(args)]: without an object the attribute access
    fails and nothing is called. *)
Definition invoke (self : AngelOneAPI) (m : string) (a : list json)
    : attempt json * AngelOneAPI :=
  match api self with
  | None => (Raised (AttributeError m), self)
  | Some _ => (respond (calls self) (mk_call m a), record_call self (mk_call m a))
  end.

(** [connect]: whatever is raised inside is logged and answered with
    [False]; the attributes assigned before it stay assigned. *)
Definition connect (env : Env) (api_key client_id password totp_key : option string)
    (self : AngelOneAPI) : bool * AngelOneAPI :=
  let api_key := str_or api_key (API_KEY env) in
  let client_id := str_or client_id (CLIENT_ID env) in
  let client_password := str_or password (CLIENT_PASSWORD env) in
  let totp_key := str_or totp_key (TOTP_KEY env) in
  match totp_now totp_key with
  | Raised _ => (false, self)
  | Returned totp_token =>
      let made := mk_call "SmartConnect" [JStr api_key] in
      match respond (calls self) made with
      | Raised _ => (false, record_call self made)
      | Returned _ =>
          let self1 := set_api (record_call self made) (Some api_key) in
          let (data, self2) :=
            invoke self1 "generateSession"
              [JStr client_id; JStr client_password; JStr totp_token] in
          match data with
          | Raised _ => (false, self2)
          | Returned data =>
              match and_then (getitem data "data") (fun d => getitem d "refreshToken") with
              | Raised _ => (false, self2)
              | Returned rt =>
                  let self3 := set_refresh_token self2 rt in
                  match and_then (getitem data "data") (fun d => getitem d "sessionId") with
                  | Raised _ => (false, self3)
                  | Returned sid =>
                      let self4 := set_session_id self3 sid in
                      let (ft, self5) := invoke self4 "getfeedToken" [] in
                      match ft with
                      | Raised _ => (false, self5)
                      | Returned ft =>
                          let self6 := set_feed_token self5 ft in
                          if truthy sid
                          then (true, set_is_connected self6 true)
                          else (false, self6)
                      end
                  end
              end
          end
      end
  end.

(** The loop of [_get_token] over the search results. *)
Fixpoint find_token (items : list json) (symbol : string) : attempt json :=
  match items with
  | [] => Returned JNull
  | item :: items' =>
      and_then (getitem item "tradingsymbol") (fun ts =>
        if eq_str ts symbol then getitem item "token"
        else find_token items' symbol)
  end.

(** [_get_token]: [None] when nothing matches and when anything is
    raised. *)
Definition _get_token (symbol exchange : string) (self : AngelOneAPI)
    : json * AngelOneAPI :=
  let (r, self1) := invoke self "searchscrip" [JStr exchange; JStr symbol] in
  match r with
  | Raised _ => (JNull, self1)
  | Returned search_results =>
      if truthy search_results then
        match contains search_results "data" with
        | Raised _ => (JNull, self1)
        | Returned false => (JNull, self1)
        | Returned true =>
            match and_then (getitem search_results "data") iterate with
            | Raised _ => (JNull, self1)
            | Returned items =>
                match find_token items symbol with
                | Raised _ => (JNull, self1)
                | Returned token => (token, self1)
                end
            end
        end
      else (JNull, self1)
  end.

(** The dictionary [place_order] sends. *)
Definition order_params (transaction_type symbol exchange : string) (quantity : Z)
    (price : json) (order_type : string) (token : json) : json :=
  JDict ([("variety", JStr "NORMAL");
          ("tradingsymbol", JStr symbol);
          ("symboltoken", token);
          ("transactiontype", JStr transaction_type);
          ("exchange", JStr exchange);
          ("ordertype", JStr order_type);
          ("producttype", JStr "INTRADAY");
          ("duration", JStr "DAY");
          ("quantity", JNum (of_Z quantity))]
         ++ (if String.eqb order_type "LIMIT" then [("price", price)] else [])).

(** [place_order]: the order id, [None] when not connected and when
    anything is raised. *)
Definition place_order (transaction_type symbol exchange : string) (quantity : Z)
    (price : json) (order_type : string) (self : AngelOneAPI) : json * AngelOneAPI :=
  if negb (is_connected self) then (JNull, self)
  else
    let (token, self1) := _get_token symbol exchange self in
    let (r, self2) :=
      invoke self1 "placeOrder"
        [order_params transaction_type symbol exchange quantity price order_type token] in
    match r with
    | Raised _ => (JNull, self2)
    | Returned order_id => (order_id, self2)
    end.

(** [get_profile] and [get_ltp]. *)
Definition get_profile (self : AngelOneAPI) : json * AngelOneAPI :=
  if negb (is_connected self) then (JNull, self)
  else
    let (r, self1) := invoke self "getProfile" [] in
    match r with
    | Raised _ => (JNull, self1)
    | Returned profile => (profile, self1)
    end.

Definition get_ltp (symbol exchange : string) (self : AngelOneAPI) : json * AngelOneAPI :=
  if negb (is_connected self) then (JNull, self)
  else
    let (r, self1) := invoke self "ltpData" [JStr exchange; JStr symbol; JStr ""] in
    match r with
    | Raised _ => (JNull, self1)
    | Returned ltp_data => (ltp_data, self1)
    end.

(** [get_positions]. *)
Definition get_positions (self : AngelOneAPI) : json * AngelOneAPI :=
  if negb (is_connected self) then (JNull, self)
  else
    let (r, self1) := invoke self "position" [] in
    match r with
    | Raised _ => (JNull, self1)
    | Returned positions => (positions, self1)
    end.

(** [get_historical_data]: the candles, [None] when not connected,
    without a token, without a ["data"] entry and when anything is
    raised. *)
Definition get_historical_data (symbol exchange interval from_date to_date : string)
    (self : AngelOneAPI) : option (list Candle) * AngelOneAPI :=
  if negb (is_connected self) then (None, self)
  else
    let (token, self1) := _get_token symbol exchange self in
    if negb (truthy token) then (None, self1)
    else
      let (r, self2) :=
        invoke self1 "getCandleData"
          [JDict [("exchange", JStr exchange); ("symboltoken", token);
                  ("interval", JStr interval); ("fromdate", JStr from_date);
                  ("todate", JStr to_date)]] in
      match r with
      | Raised _ => (None, self2)
      | Returned historical_data =>
          if truthy historical_data then
            match contains historical_data "data" with
            | Raised _ => (None, self2)
            | Returned false => (None, self2)
            | Returned true =>
                match and_then (getitem historical_data "data") make_frame with
                | Raised _ => (None, self2)
                | Returned df => (Some df, self2)
                end
            end
          else (None, self2)
      end.

(** [disconnect]. *)
Definition disconnect (env : Env) (self : AngelOneAPI) : AngelOneAPI :=
  match api self with
  | None => self
  | Some _ =>
      let (r, self1) := invoke self "terminateSession" [JStr (CLIENT_ID env)] in
      match r with
      | Raised _ => self1
      | Returned _ => set_is_connected self1 false
      end
  end.

(** The calls to [placeOrder] among the recorded calls. *)
Definition orders (self : AngelOneAPI) : list Call :=
  filter (fun c => String.eqb (method c) "placeOrder") (calls self).

End Gateway.

(** Any number of [connect] and [disconnect] calls on a new object,
    with the bundled [SmartConnect]. *)
Inductive reachable (totp_now : string -> attempt string) (env : Env)
    : AngelOneAPI -> Prop :=
| reach_init : reachable totp_now env init
| reach_connect self a b c d :
    reachable totp_now env self ->
    reachable totp_now env
      (snd (connect bundled_smart_connect totp_now env a b c d self))
| reach_disconnect self :
    reachable totp_now env self ->
    reachable totp_now env (disconnect bundled_smart_connect env self).

End AngelApi.

(* ================================================================= *)
(** ** [nse_data.py]: the option chain *)

Module NseData.

Import Py.
Local Open Scope string_scope.
Local Open Scope float_scope.

(** One side ([CE] or [PE]) of an option chain entry; [None] is a key
    the entry does not have.  The values are taken to be numbers. *)
Module Leg.
Record t : Type := mk {
  delta : option float;
  gamma : option float;
  theta : option float;
  vega : option float;
  impliedVolatility : option float;
  lastPrice : option float;
  change : option float;
  openInterest : option float;
  totalTradedVolume : option float
}.
End Leg.

Record Item : Type := mk_item {
  expiryDate : option string;
  strikePrice : option float;
  CE : option Leg.t;
  PE : option Leg.t
}.

(** The [records] of the fetched option chain, a key that is missing
    being the default [extract_greeks_data] gives it: no entries, no
    expiry dates. *)
Record OptionChain : Type := mk_chain {
  data : list Item;
  expiryDates : list string;
  underlyingValue : option float
}.

(** One side of the extracted dictionary. *)
Module Side.
Record t : Type := mk {
  delta : float;
  gamma : float;
  theta : float;
  vega : float;
  iv : float;
  ltp : float;
  change : float;
  oi : float;
  volume : float
}.
End Side.

(** The dictionary [extract_greeks_data] returns; [vix] is the key
    [get_option_greeks] may add. *)
Record GreeksData : Type := mk_greeks_data {
  call : Side.t;
  put : Side.t;
  strike_price : float;
  expiry_date : string;
  vix : option float
}.

(** The attributes of an [NSEDataFetcher] the extraction reads (the
    session and its cookies are part of the request, whose outcome is
    an argument below). *)
Record NSEDataFetcher : Type := mk_fetcher {
  option_chain_data : option OptionChain;
  vix_data : option float
}.

(** [__init__]. *)
Definition init : NSEDataFetcher := mk_fetcher None None.

(** [d.get(key, 0)]. *)
Definition get0 (v : option float) : float :=
  match v with
  | Some x => x
  | None => Fin 0
  end.

(** [item.get('strikePrice') == strike_price]. *)
Definition strike_is (strike_price : float) (item : Item) : bool :=
  match strikePrice item with
  | Some s => float_eqb s strike_price
  | None => false
  end.

(** [item.get('expiryDate') == expiry_date]. *)
Definition expiry_is (expiry_date : string) (item : Item) : bool :=
  match expiryDate item with
  | Some e => String.eqb e expiry_date
  | None => false
  end.

(** [list.sort(key=...)]: a stable sort that compares keys with [<].
    (Python's result for keys that hold a [NaN] depends on its sorting
    algorithm and is not claimed here.) *)
Fixpoint insert_by (key : Item -> float) (x : Item) (l : list Item) : list Item :=
  match l with
  | [] => [x]
  | y :: l' => if key x <? key y then x :: l else y :: insert_by key x l'
  end.

Definition sort_by (key : Item -> float) (l : list Item) : list Item :=
  fold_left (fun sorted x => insert_by key x sorted) l [].

(** The head of the sorted list after one more insertion: the new entry
    when its key is smaller, the old head otherwise. *)
Definition keep_nearest (key : Item -> float) (best : option Item) (x : Item)
    : option Item :=
  match best with
  | None => Some x
  | Some h => if key x <? key h then Some x else Some h
  end.

(** The key of the sort: the distance of the strike to the underlying
    value. *)
Definition distance (underlying_value : float) (x : Item) : float :=
  abs (get0 (strikePrice x) - underlying_value).

Definition side_of (option_ : option Leg.t) : Side.t :=
  match option_ with
  | Some o =>
      Side.mk (get0 (Leg.delta o)) (get0 (Leg.gamma o)) (get0 (Leg.theta o))
        (get0 (Leg.vega o)) (get0 (Leg.impliedVolatility o))
        (get0 (Leg.lastPrice o)) (get0 (Leg.change o))
        (get0 (Leg.openInterest o)) (get0 (Leg.totalTradedVolume o))
  | None =>
      Side.mk (Fin 0) (Fin 0) (Fin 0) (Fin 0) (Fin 0) (Fin 0) (Fin 0) (Fin 0) (Fin 0)
  end.

Definition greeks_of (item : Item) : GreeksData :=
  mk_greeks_data (side_of (CE item)) (side_of (PE item))
    (get0 (strikePrice item))
    (match expiryDate item with Some e => e | None => "" end)
    None.

(** The entries [extract_greeks_data] is left with before it reads the
    first one. *)
Definition select (records : OptionChain) (expiry_date : string)
    (strike_price : option float) : list Item :=
  let filtered_data := filter (expiry_is expiry_date) (data records) in
  match strike_price with
  | Some k =>
      if float_truthy k then filter (strike_is k) filtered_data
      else
        match sort_by (distance (get0 (underlyingValue records))) filtered_data with
        | [] => []
        | first :: _ => [first]
        end
  | None =>
      match sort_by (distance (get0 (underlyingValue records))) filtered_data with
      | [] => []
      | first :: _ => [first]
      end
  end.

(** The expiry the entries are filtered by: the one asked for, else the
    first of the chain, if it has one. *)
Definition chosen_expiry (expiry_date : option string) (records : OptionChain)
    : option string :=
  if str_truthy expiry_date then expiry_date
  else hd_error (expiryDates records).

(** [extract_greeks_data]. *)
Definition extract_greeks_data (expiry_date : option string)
    (strike_price : option float) (self : NSEDataFetcher) : option GreeksData :=
  match option_chain_data self with
  | None => None
  | Some records =>
      match chosen_expiry expiry_date records with
      | None => None
      | Some expiry_date =>
          match select records expiry_date strike_price with
          | [] => None
          | item :: _ => Some (greeks_of item)
          end
      end
  end.

Definition set_vix (g : GreeksData) (v : float) : GreeksData :=
  mk_greeks_data (call g) (put g) (strike_price g) (expiry_date g) (Some v).

(** [fetch_option_chain] and [fetch_india_vix] keep what the site
    answered; [None] is a request that failed (no cookies, a status
    other than 200, an exception, no India VIX entry). *)
Definition fetch_option_chain (answer : option OptionChain) (self : NSEDataFetcher)
    : NSEDataFetcher :=
  match answer with
  | Some records => mk_fetcher (Some records) (vix_data self)
  | None => self
  end.

Definition fetch_india_vix (answer : option float) (self : NSEDataFetcher)
    : NSEDataFetcher :=
  match answer with
  | Some v => mk_fetcher (option_chain_data self) (Some v)
  | None => self
  end.

(** [get_option_greeks]. *)
Definition get_option_greeks (chain_answer : option OptionChain)
    (vix_answer : option float) (expiry_date : option string)
    (strike_price : option float) (self : NSEDataFetcher)
    : option GreeksData * NSEDataFetcher :=
  let self1 := fetch_option_chain chain_answer self in
  let greeks_data := extract_greeks_data expiry_date strike_price self1 in
  let self2 := fetch_india_vix vix_answer self1 in
  (match vix_answer with
   | Some v => if float_truthy v then option_map (fun g => set_vix g v) greeks_data
               else greeks_data
   | None => greeks_data
   end, self2).

End NseData.

(* ================================================================= *)
(** ** [strategy.py]: the strategy with its gateway and its data *)

Module Trader.

Import Py Clock.
Local Open Scope string_scope.
Local Open Scope float_scope.

(** [historical_data] as [fetch_data] leaves it, and after
    [calculate_indicators] has added the two columns. *)
Inductive Frame : Type :=
| Raw (candles : list AngelApi.Candle)
| WithIndicators (rows : list Strategy.HistRow).

(** The environment variables the methods read.  [QUANTITY] is [None]
    when the variable is no integer. *)
Record Env : Type := mk_env {
  SYMBOL : string;
  EXCHANGE : string;
  QUANTITY : option Z;
  hours : Strategy.Env;
  credentials : AngelApi.Env
}.

(** A [NiftyIntradayStrategy] with all the attributes its methods use. *)
Record NiftyIntradayStrategy : Type := mk_trader {
  angel_api : AngelApi.AngelOneAPI;
  nse_data : NseData.NSEDataFetcher;
  historical_data : option Frame;
  greeks_data : option NseData.GreeksData;
  vix : option float;
  current_position : json;
  last_signal : option string;
  last_signal_time : option datetime;
  delta_threshold : float;
  gamma_threshold : float;
  theta_threshold : float;
  vega_threshold : float;
  rsi_period : nat;
  ma_period : nat;
  vix_buy_threshold : float;
  vix_sell_threshold : float
}.

Definition set_angel_api (self : NiftyIntradayStrategy) (a : AngelApi.AngelOneAPI)
    : NiftyIntradayStrategy :=
  mk_trader a (nse_data self) (historical_data self) (greeks_data self) (vix self)
    (current_position self) (last_signal self) (last_signal_time self)
    (delta_threshold self) (gamma_threshold self) (theta_threshold self)
    (vega_threshold self) (rsi_period self) (ma_period self)
    (vix_buy_threshold self) (vix_sell_threshold self).

Definition set_greeks_data (self : NiftyIntradayStrategy) (n : NseData.NSEDataFetcher)
    (g : option NseData.GreeksData) : NiftyIntradayStrategy :=
  mk_trader (angel_api self) n (historical_data self) g (vix self)
    (current_position self) (last_signal self) (last_signal_time self)
    (delta_threshold self) (gamma_threshold self) (theta_threshold self)
    (vega_threshold self) (rsi_period self) (ma_period self)
    (vix_buy_threshold self) (vix_sell_threshold self).

Definition set_vix (self : NiftyIntradayStrategy) (v : option float)
    : NiftyIntradayStrategy :=
  mk_trader (angel_api self) (nse_data self) (historical_data self) (greeks_data self) v
    (current_position self) (last_signal self) (last_signal_time self)
    (delta_threshold self) (gamma_threshold self) (theta_threshold self)
    (vega_threshold self) (rsi_period self) (ma_period self)
    (vix_buy_threshold self) (vix_sell_threshold self).

Definition set_historical_data (self : NiftyIntradayStrategy) (h : option Frame)
    : NiftyIntradayStrategy :=
  mk_trader (angel_api self) (nse_data self) h (greeks_data self) (vix self)
    (current_position self) (last_signal self) (last_signal_time self)
    (delta_threshold self) (gamma_threshold self) (theta_threshold self)
    (vega_threshold self) (rsi_period self) (ma_period self)
    (vix_buy_threshold self) (vix_sell_threshold self).

Definition set_current_position (self : NiftyIntradayStrategy) (p : json)
    : NiftyIntradayStrategy :=
  mk_trader (angel_api self) (nse_data self) (historical_data self) (greeks_data self)
    (vix self) p (last_signal self) (last_signal_time self)
    (delta_threshold self) (gamma_threshold self) (theta_threshold self)
    (vega_threshold self) (rsi_period self) (ma_period self)
    (vix_buy_threshold self) (vix_sell_threshold self).

Definition set_last_signal (self : NiftyIntradayStrategy) (s : option string)
    (t : option datetime) : NiftyIntradayStrategy :=
  mk_trader (angel_api self) (nse_data self) (historical_data self) (greeks_data self)
    (vix self) (current_position self) s t
    (delta_threshold self) (gamma_threshold self) (theta_threshold self)
    (vega_threshold self) (rsi_period self) (ma_period self)
    (vix_buy_threshold self) (vix_sell_threshold self).

(** The four sensitivities of each side that the signal reads. *)
Definition greeks_read (g : NseData.GreeksData) : Strategy.Greeks :=
  Strategy.mk_greeks
    (Strategy.mk_option_greeks
       (NseData.Side.delta (NseData.call g)) (NseData.Side.gamma (NseData.call g))
       (NseData.Side.theta (NseData.call g)) (NseData.Side.vega (NseData.call g)))
    (Strategy.mk_option_greeks
       (NseData.Side.delta (NseData.put g)) (NseData.Side.gamma (NseData.put g))
       (NseData.Side.theta (NseData.put g)) (NseData.Side.vega (NseData.put g))).

(** The object as [Strategy.generate_signal] sees it, with [rows] for
    its [historical_data]. *)
Definition signal_view (self : NiftyIntradayStrategy)
    (rows : option (list Strategy.HistRow)) : Strategy.NiftyIntradayStrategy :=
  Strategy.mk_strategy rows (option_map greeks_read (greeks_data self)) (vix self)
    (last_signal self) (last_signal_time self)
    (delta_threshold self) (gamma_threshold self) (theta_threshold self)
    (vega_threshold self) (rsi_period self) (ma_period self)
    (vix_buy_threshold self) (vix_sell_threshold self).

(** [generate_signal] on the whole object.  With the indicator columns
    it is [Strategy.generate_signal]; on a frame without them the two
    guards are the same (the last row with a missing value gives
    [None]) and the first column read inside the [try], ['rsi'], is
    missing, which the [except] clause answers with [None] too. *)
Definition generate_signal (env : Env) (now later : datetime)
    (self : NiftyIntradayStrategy)
    : result (option string * NiftyIntradayStrategy) :=
  let with_rows rows :=
    r <- Strategy.generate_signal (hours env) now later (signal_view self rows) ;;
    Ok (fst r, set_last_signal self (Strategy.last_signal (snd r))
                 (Strategy.last_signal_time (snd r))) in
  match historical_data self with
  | None => with_rows None
  | Some (WithIndicators rows) => with_rows (Some rows)
  | Some (Raw candles) =>
      in_hours <- Strategy.is_trading_hours (hours env) now ;;
      if negb in_hours then Ok (None, self)
      else
        match greeks_data self with
        | None => Ok (None, self)
        | Some _ =>
            latest_row <- Strategy.iloc_last candles ;;
            Ok (None, self)
        end
  end.

(** The two columns [calculate_indicators] computes from the closes. *)
Definition indicator_columns (rsi_period ma_period : nat) (closes : Pandas.Series)
    : list (float * float) :=
  combine (Strategy.rsi_column rsi_period closes)
          (Strategy.ma_column ma_period closes).

Definition add_indicators (c : AngelApi.Candle) (rsi_ma : float * float)
    : Strategy.HistRow :=
  Strategy.mk_hist_row (AngelApi.open c) (AngelApi.high c) (AngelApi.low c)
    (AngelApi.close c) (AngelApi.volume c) (fst rsi_ma) (snd rsi_ma).

Definition replace_indicators (r : Strategy.HistRow) (rsi_ma : float * float)
    : Strategy.HistRow :=
  Strategy.mk_hist_row (Strategy.open r) (Strategy.high r) (Strategy.low r)
    (Strategy.close r) (Strategy.volume r) (fst rsi_ma) (snd rsi_ma).

(** The frame with its two indicator columns assigned. *)
Definition with_indicators (rsi_period ma_period : nat) (f : Frame)
    : list Strategy.HistRow :=
  match f with
  | Raw candles =>
      map (fun cr => add_indicators (fst cr) (snd cr))
        (combine candles
           (indicator_columns rsi_period ma_period (map AngelApi.close candles)))
  | WithIndicators rows =>
      map (fun rr => replace_indicators (fst rr) (snd rr))
        (combine rows
           (indicator_columns rsi_period ma_period (map Strategy.close rows)))
  end.

Definition frame_empty (f : Frame) : bool :=
  match f with
  | Raw [] => true
  | WithIndicators [] => true
  | _ => false
  end.

(** [calculate_indicators]. *)
Definition calculate_indicators (self : NiftyIntradayStrategy)
    : bool * NiftyIntradayStrategy :=
  match historical_data self with
  | None => (false, self)
  | Some f =>
      if frame_empty f then (false, self)
      else
        (true, set_historical_data self
                 (Some (WithIndicators
                          (with_indicators (rsi_period self) (ma_period self) f))))
  end.

(** The loop of [execute_trade] over the positions: the first one of
    the symbol. *)
Fixpoint find_position (positions : list json) (symbol : string)
    : attempt (option json) :=
  match positions with
  | [] => Returned None
  | position :: positions' =>
      and_then (getitem position "tradingsymbol") (fun ts =>
        if eq_str ts symbol then Returned (Some position)
        else find_position positions' symbol)
  end.

(** [current_position['netqty'] <= 0] and [>= 0]. *)
Definition netqty_le0 (position : json) : attempt bool :=
  and_then (getitem position "netqty") (fun q =>
  and_then (as_number q) (fun x => Returned (x <=? Fin 0))).

Definition netqty_ge0 (position : json) : attempt bool :=
  and_then (getitem position "netqty") (fun q =>
  and_then (as_number q) (fun x => Returned (x >=? Fin 0))).

Section Run.

Variable respond : list AngelApi.Call -> AngelApi.Call -> attempt json.
Variable totp_now : string -> attempt string.
Variable make_frame : json -> attempt (list AngelApi.Candle).

(** [connect]. *)
Definition connect (env : Env) (self : NiftyIntradayStrategy)
    : bool * NiftyIntradayStrategy :=
  let (ok, a) :=
    AngelApi.connect respond totp_now (credentials env) None None None None
      (angel_api self) in
  (ok, set_angel_api self a).

(** [fetch_data].  The two answers of the NSE site and the two dates,
    rendered from the clock, are arguments. *)
Definition fetch_data (env : Env) (chain_answer : option NseData.OptionChain)
    (vix_answer : option float) (from_date to_date : string)
    (self : NiftyIntradayStrategy) : bool * NiftyIntradayStrategy :=
  let (g, n) :=
    NseData.get_option_greeks chain_answer vix_answer None None (nse_data self) in
  let self1 := set_greeks_data self n g in
  match g with
  | None => (false, self1)
  | Some greeks =>
      let self2 :=
        set_vix self1
          (Some (match NseData.vix greeks with Some v => v | None => Fin 0 end)) in
      let (h, a) :=
        AngelApi.get_historical_data respond make_frame (SYMBOL env) (EXCHANGE env)
          "FIFTEEN_MINUTE" from_date to_date (angel_api self2) in
      let self3 := set_historical_data (set_angel_api self2 a) (option_map Raw h) in
      match h with
      | None => (false, self3)
      | Some [] => (false, self3)
      | Some _ => (true, self3)
      end
  end.

(** The order [execute_trade] places for a side, and its answer. *)
Definition place (side : string) (env : Env) (quantity : Z)
    (self : NiftyIntradayStrategy) : bool * NiftyIntradayStrategy :=
  let (order_id, a) :=
    AngelApi.place_order respond side (SYMBOL env) (EXCHANGE env) quantity
      (JNum (Fin 0)) "MARKET" (angel_api self) in
  (truthy order_id, set_angel_api self a).

(** [execute_trade]. *)
Definition execute_trade (env : Env) (signal : option string)
    (self : NiftyIntradayStrategy) : bool * NiftyIntradayStrategy :=
  match signal with
  | None => (false, self)
  | Some signal =>
      if String.eqb signal "" then (false, self)
      else
        let (positions, a) := AngelApi.get_positions respond (angel_api self) in
        let self1 := set_angel_api self a in
        match QUANTITY env with
        | None => (false, self1)
        | Some quantity =>
            let found :=
              if truthy positions
              then and_then (iterate positions) (fun l => find_position l (SYMBOL env))
              else Returned None in
            match found with
            | Raised _ => (false, self1)
            | Returned found =>
                let self2 :=
                  match found with
                  | Some position => set_current_position self1 position
                  | None => self1
                  end in
                let may (test : json -> attempt bool) : attempt bool :=
                  match found with
                  | None => Returned true
                  | Some _ => test (current_position self2)
                  end in
                if String.eqb signal "BUY" then
                  match may netqty_le0 with
                  | Raised _ => (false, self2)
                  | Returned true => place "BUY" env quantity self2
                  | Returned false => (false, self2)
                  end
                else if String.eqb signal "SELL" then
                  match may netqty_ge0 with
                  | Raised _ => (false, self2)
                  | Returned true => place "SELL" env quantity self2
                  | Returned false => (false, self2)
                  end
                else (false, self2)
            end
        end
  end.

(** [run_strategy].  [now] and [later] are the two clock readings of
    [generate_signal]. *)
Definition run_strategy (env : Env) (chain_answer : option NseData.OptionChain)
    (vix_answer : option float) (from_date to_date : string) (now later : datetime)
    (self : NiftyIntradayStrategy) : bool * NiftyIntradayStrategy :=
  let (connected, self1) :=
    if negb (AngelApi.is_connected (angel_api self)) then connect env self
    else (true, self) in
  if negb connected then (false, self1)
  else
    let (fetched, self2) :=
      fetch_data env chain_answer vix_answer from_date to_date self1 in
    if negb fetched then (false, self2)
    else
      let (calculated, self3) := calculate_indicators self2 in
      if negb calculated then (false, self3)
      else
        match generate_signal env now later self3 with
        | Raise _ => (false, self3)
        | Ok (signal, self4) =>
            if str_truthy signal then execute_trade env signal self4
            else (true, self4)
        end.

End Run.

(** The market order [execute_trade] sends for a side. *)
Definition market_order (env : Env) (side : string) (quantity : Z) (token : json)
    : AngelApi.Call :=
  AngelApi.mk_call "placeOrder"
    [AngelApi.order_params side (SYMBOL env) (EXCHANGE env) quantity
       (JNum (Fin 0)) "MARKET" token].

(** The orders a method has added to those of [before]. *)
Definition new_orders (before after : NiftyIntradayStrategy) (sent : list AngelApi.Call)
    : Prop :=
  AngelApi.orders (angel_api after) = (AngelApi.orders (angel_api before) ++ sent)%list.

(** The thresholds and periods read from the environment by
    [__init__]. *)
Definition settings (self : NiftyIntradayStrategy)
    : float * float * float * float * nat * nat * float * float :=
  (delta_threshold self, gamma_threshold self, theta_threshold self,
   vega_threshold self, rsi_period self, ma_period self,
   vix_buy_threshold self, vix_sell_threshold self).

(** What a run leaves as it is when it gives no signal: the settings,
    the last signal and the orders placed so far. *)
Definition quiet (before after : NiftyIntradayStrategy) : Prop :=
  settings after = settings before
  /\ last_signal after = last_signal before
  /\ last_signal_time after = last_signal_time before
  /\ new_orders before after [].

(** A run that gave the signal [side]: it was given inside trading
    hours, from the Greeks [g] extracted in this run, the VIX [v] stored
    with them and the last row [latest] of the candles fetched in this
    run, on which every filter of the side holds; it is recorded with
    its time, and [sent] are the orders placed for it. *)
Definition signalled (env : Env) (chain_answer : option NseData.OptionChain)
    (vix_answer : option float) (now later : datetime)
    (before after : NiftyIntradayStrategy) (side : string)
    (candles : list AngelApi.Candle) (g : NseData.GreeksData) (v : float)
    (latest : Strategy.HistRow) (sent : list AngelApi.Call) : Prop :=
  settings after = settings before
  /\ Strategy.is_trading_hours (hours env) now = Ok true
  /\ fst (NseData.get_option_greeks chain_answer vix_answer None None (nse_data before))
     = Some g
  /\ greeks_data after = Some g
  /\ v = match NseData.vix g with Some x => x | None => Fin 0 end
  /\ vix after = Some v
  /\ candles <> []
  /\ historical_data after
     = Some (WithIndicators
               (with_indicators (rsi_period before) (ma_period before) (Raw candles)))
  /\ Strategy.iloc_last
       (with_indicators (rsi_period before) (ma_period before) (Raw candles))
     = Ok latest
  /\ Strategy.row_notna_all latest = true
  /\ Strategy.decide_signal (signal_view after None) (greeks_read g) latest v = Some side
  /\ last_signal after = Some side
  /\ last_signal_time after = Some later
  /\ new_orders before after sent.

(** Two objects that differ at most in the gateway and in
    [current_position]. *)
Definition same_strategy (a b : NiftyIntradayStrategy) : Prop :=
  set_current_position (set_angel_api a (angel_api b)) (current_position b) = b.

End Trader.

(* ================================================================= *)
(** ** [auth.py]: the users of the application *)

Module Auth.

Import Py.
Local Open Scope string_scope.

(** The [totp_key] entry of a user in the file: no such key (after
    [disable_2fa] has popped it), [null], or a string. *)
Inductive Entry : Type :=
| Absent
| Null
| Str (s : string).

(** What [json.dump] writes for an argument that is [None] or a
    string. *)
Definition entry_of (v : option string) : Entry :=
  match v with
  | Some s => Str s
  | None => Null
  end.

(** An entry of the credentials file as [register_user] writes it.  The
    broker credentials are strings or [None]. *)
Record User : Type := mk_user {
  password : string;
  api_key : option string;
  client_id : option string;
  client_password : option string;
  totp_entry : Entry;
  created_at : string
}.

(** [credentials[username].get("totp_key")]: [None] for a missing key
    and for [null]. *)
Definition totp_key (r : User) : option string :=
  match totp_entry r with
  | Str s => Some s
  | Absent | Null => None
  end.

(** The dictionary of the file, in the order of its keys. *)
Definition Store : Type := list (string * User).

(** The credentials file: missing, unreadable (no JSON, no permission)
    or holding a dictionary; and whether it can be written. *)
Inductive File : Type :=
| Missing
| Unreadable
| Holds (credentials : Store).

Record Disk : Type := mk_disk {
  file : File;
  writable : bool
}.

(** The second component of the answers: a fixed text, or the text of an
    [except] clause with the exception it reports. *)
Inductive Message : Type :=
| Text (s : string)
| Failure (what : string) (e : exc).

Record AuthManager : Type := mk_auth {
  current_user : option string;
  api : option AngelApi.AngelOneAPI
}.

Fixpoint find_user (credentials : Store) (username : string) : option User :=
  match credentials with
  | [] => None
  | (u, r) :: rest => if String.eqb u username then Some r else find_user rest username
  end.

(** [credentials[username] = r]: in place for a known key, at the end
    for a new one. *)
Fixpoint set_user (credentials : Store) (username : string) (r : User) : Store :=
  match credentials with
  | [] => [(username, r)]
  | (u, r0) :: rest =>
      if String.eqb u username then (u, r) :: rest
      else (u, r0) :: set_user rest username r
  end.

(** [json.load] of the file and [json.dump] to it. *)
Definition load (d : Disk) : attempt Store :=
  match file d with
  | Holds credentials => Returned credentials
  | _ => Raised OtherError
  end.

Definition save (d : Disk) (credentials : Store) : attempt Disk :=
  if writable d then Returned (mk_disk (Holds credentials) true)
  else Raised OtherError.

(** [__init__]: the file is created when it is missing. *)
Definition init (d : Disk) : attempt (AuthManager * Disk) :=
  match file d with
  | Missing => and_then (save d []) (fun d' => Returned (mk_auth None None, d'))
  | _ => Returned (mk_auth None None, d)
  end.

Definition is_logged_in (self : AuthManager) : bool :=
  match current_user self, api self with
  | Some _, Some _ => true
  | _, _ => false
  end.

Definition set_password (r : User) (v : string) : User :=
  mk_user v (api_key r) (client_id r) (client_password r) (totp_entry r) (created_at r).

Definition set_totp_entry (r : User) (v : Entry) : User :=
  mk_user (password r) (api_key r) (client_id r) (client_password r) v (created_at r).

(** [credentials[username][field] = value] for a string [value]; a
    field no method reads leaves the entry as the methods see it. *)
Definition set_field (r : User) (field value : string) : User :=
  if String.eqb field "password" then set_password r value
  else if String.eqb field "api_key" then
    mk_user (password r) (Some value) (client_id r) (client_password r) (totp_entry r)
      (created_at r)
  else if String.eqb field "client_id" then
    mk_user (password r) (api_key r) (Some value) (client_password r) (totp_entry r)
      (created_at r)
  else if String.eqb field "client_password" then
    mk_user (password r) (api_key r) (client_id r) (Some value) (totp_entry r)
      (created_at r)
  else if String.eqb field "totp_key" then set_totp_entry r (Str value)
  else if String.eqb field "created_at" then
    mk_user (password r) (api_key r) (client_id r) (client_password r) (totp_entry r) value
  else r.

Section Users.

(** [_hash_password]: the SHA-256 digest in hexadecimal. *)
Variable _hash_password : string -> string.

(** [pyotp.TOTP(key).verify(code)]. *)
Variable totp_verify : string -> option string -> attempt bool.

Variable respond : list AngelApi.Call -> AngelApi.Call -> attempt json.
Variable totp_now : string -> attempt string.
Variable env : AngelApi.Env.

(** [register_user]; [now] is the creation time it stores. *)
Definition register_user (now username password : string)
    (api_key client_id client_password totp_key : option string) (d : Disk)
    : (bool * Message) * Disk :=
  let hashed_password := _hash_password password in
  match load d with
  | Raised e => ((false, Failure "Registration failed" e), d)
  | Returned credentials =>
      match find_user credentials username with
      | Some _ => ((false, Text "Username already exists"), d)
      | None =>
          let credentials :=
            set_user credentials username
              (mk_user hashed_password api_key client_id client_password
                 (entry_of totp_key) now) in
          match save d credentials with
          | Raised e => ((false, Failure "Registration failed" e), d)
          | Returned d' => ((true, Text "Registration successful"), d')
          end
      end
  end.

(** [login].  The user and a new gateway are stored in the object
    before the broker is contacted. *)
Definition login (username password : string) (totp_code : option string)
    (d : Disk) (self : AuthManager) : (bool * Message) * AuthManager :=
  match load d with
  | Raised e => ((false, Failure "Login failed" e), self)
  | Returned credentials =>
      match find_user credentials username with
      | None => ((false, Text "Invalid username or password"), self)
      | Some r =>
          if negb (String.eqb (Auth.password r) (_hash_password password))
          then ((false, Text "Invalid username or password"), self)
          else
            let checked : attempt (option Message) :=
              if str_truthy (Auth.totp_key r) then
                if negb (str_truthy totp_code)
                then Returned (Some (Text "TOTP code required"))
                else
                  and_then
                    (totp_verify (match Auth.totp_key r with Some k => k | None => "" end)
                       totp_code)
                    (fun ok =>
                       if ok then Returned None
                       else Returned (Some (Text "Invalid TOTP code")))
              else Returned None in
            match checked with
            | Raised e => ((false, Failure "Login failed" e), self)
            | Returned (Some refusal) => ((false, refusal), self)
            | Returned None =>
                let (login_result, a) :=
                  AngelApi.connect respond totp_now env (Auth.api_key r)
                    (Auth.client_id r) (Auth.client_password r) (Auth.totp_key r)
                    AngelApi.init in
                let self' := mk_auth (Some username) (Some a) in
                if login_result then ((true, Text "Login successful"), self')
                else ((false, Text "Failed to connect to Angel One API"), self')
            end
      end
  end.

(** [logout]: the gateway is disconnected and dropped; the third
    component is the gateway as the call leaves it. *)
Definition logout (self : AuthManager)
    : bool * AuthManager * option AngelApi.AngelOneAPI :=
  (true, mk_auth None None, option_map (AngelApi.disconnect respond env) (api self)).

(** [update_credentials]. *)
Definition update_credentials (username field value : string) (d : Disk)
    : bool * Disk :=
  match load d with
  | Raised _ => (false, d)
  | Returned credentials =>
      match find_user credentials username with
      | None => (false, d)
      | Some r =>
          let value :=
            if String.eqb field "password" then _hash_password value else value in
          match save d (set_user credentials username (set_field r field value)) with
          | Raised _ => (false, d)
          | Returned d' => (true, d')
          end
      end
  end.

(** [enable_2fa]; [new_key] is the key [pyotp.random_base32] draws. *)
Definition enable_2fa (new_key username password : string) (d : Disk)
    : (bool * Message) * Disk :=
  match load d with
  | Raised e => ((false, Failure "Failed to enable 2FA" e), d)
  | Returned credentials =>
      match find_user credentials username with
      | None => ((false, Text "Invalid username"), d)
      | Some r =>
          if negb (String.eqb (Auth.password r) (_hash_password password))
          then ((false, Text "Invalid password"), d)
          else
            match save d (set_user credentials username
                          (set_totp_entry r (Str new_key))) with
            | Raised e => ((false, Failure "Failed to enable 2FA" e), d)
            | Returned d' => ((true, Text new_key), d')
            end
      end
  end.

(** [disable_2fa]: the [totp_key] entry is popped. *)
Definition disable_2fa (username password : string) (totp_code : option string)
    (d : Disk) : (bool * Message) * Disk :=
  match load d with
  | Raised e => ((false, Failure "Failed to disable 2FA" e), d)
  | Returned credentials =>
      match find_user credentials username with
      | None => ((false, Text "Invalid username"), d)
      | Some r =>
          if negb (String.eqb (Auth.password r) (_hash_password password))
          then ((false, Text "Invalid password"), d)
          else if negb (str_truthy (Auth.totp_key r))
          then ((false, Text "2FA is not enabled"), d)
          else
            match totp_verify (match Auth.totp_key r with Some k => k | None => "" end)
                    totp_code with
            | Raised e => ((false, Failure "Failed to disable 2FA" e), d)
            | Returned false => ((false, Text "Invalid TOTP code"), d)
            | Returned true =>
                match save d (set_user credentials username
                              (set_totp_entry r Absent)) with
                | Raised e => ((false, Failure "Failed to disable 2FA" e), d)
                | Returned d' => ((true, Text "2FA disabled successfully"), d')
                end
            end
      end
  end.

End Users.

End Auth.

(* ================================================================= *)
(** ** Sample brokers and sample data for the gateway and the strategy *)

Module LiveSamples.

Import Py.
Local Open Scope string_scope.
Local Open Scope float_scope.

Definition totp_123456 (key : string) : attempt string := Returned "123456".

Definition credentials : AngelApi.Env := AngelApi.mk_env "key" "client" "secret" "totp".

(** A gateway that was marked connected by hand, holding a bundled
    [SmartConnect]. *)
Definition forced_connection : AngelApi.AngelOneAPI :=
  AngelApi.mk_api (Some "key") JNull JNull JNull true [].

(** A broker that answers every call the gateway makes; [positions] is
    its answer to [position]. *)
Definition working_broker (positions : json) (history : list AngelApi.Call)
    (c : AngelApi.Call) : attempt json :=
  let m := AngelApi.method c in
  if String.eqb m "SmartConnect" then Returned JNull
  else if String.eqb m "generateSession" then
    Returned (JDict [("status", JBool true);
                     ("data", JDict [("refreshToken", JStr "refresh");
                                     ("sessionId", JStr "session")])])
  else if String.eqb m "getfeedToken" then Returned (JStr "feed")
  else if String.eqb m "searchscrip" then
    Returned (JDict [("data", JList [JDict [("tradingsymbol", JStr "NIFTY");
                                            ("token", JStr "26000")]])])
  else if String.eqb m "position" then Returned positions
  else if String.eqb m "placeOrder" then Returned (JStr "order-1")
  else if String.eqb m "getCandleData" then Returned (JDict [("data", JList [])])
  else Raised (AttributeError m).

(** One open position of 50 units of NIFTY. *)
Definition long_positions : json :=
  JList [JDict [("tradingsymbol", JStr "BANKNIFTY"); ("netqty", JNum (Fin 25))];
         JDict [("tradingsymbol", JStr "NIFTY"); ("netqty", JNum (Fin 50))]].

Definition env : Trader.Env :=
  Trader.mk_env "NIFTY" "NSE" (Some 1%Z) Strategy.default_env credentials.

(** A strategy object with the default thresholds on a gateway. *)
Definition trader_on (a : AngelApi.AngelOneAPI) : Trader.NiftyIntradayStrategy :=
  Trader.mk_trader a NseData.init None None None JNull None None
    (Fin (1#2)) (Fin (1#10)) (Fin (1#20)) (Fin (1#10)) 14 20 (Fin 20) (Fin 30).

(** Twenty-one candles whose close rises by one from 100 to 120, and
    the frame maker that always gives them. *)
Definition rising_candles : list AngelApi.Candle :=
  map (fun i =>
         let c := of_Z (100 + Z.of_nat i) in
         AngelApi.mk_candle (Samples.at_time 1 (9 + Z.of_nat i / 4) (15 * (Z.of_nat i mod 4)))
           c c c c (Fin 1000))
      (seq 0 21).

Definition frame_of_rising_candles (rows : json) : attempt (list AngelApi.Candle) :=
  Returned rising_candles.

(** An option chain of one expiry and one strike whose call passes the
    BUY filters of the default thresholds. *)
Definition buy_leg : NseData.Leg.t :=
  NseData.Leg.mk (Some (Fin (3#5))) (Some (Fin (1#5))) (Some (Fin (1#100)))
    (Some (Fin (1#5))) None None None None None.

Definition buy_chain : NseData.OptionChain :=
  NseData.mk_chain
    [NseData.mk_item (Some "30-Jan-2025") (Some (Fin 22000)) (Some buy_leg) None]
    ["30-Jan-2025"] (Some (Fin 22010)).

(** A chain of two expiries: strikes 21900, 22000 and 22100 for the
    first, 22050 for the second; the index stands at 22050. *)
Definition three_strikes : NseData.OptionChain :=
  NseData.mk_chain
    [NseData.mk_item (Some "30-Jan-2025") (Some (Fin 21900)) None None;
     NseData.mk_item (Some "30-Jan-2025") (Some (Fin 22000)) (Some buy_leg) None;
     NseData.mk_item (Some "27-Feb-2025") (Some (Fin 22050)) None None;
     NseData.mk_item (Some "30-Jan-2025") (Some (Fin 22100)) None None]
    ["30-Jan-2025"; "27-Feb-2025"] (Some (Fin 22050)).

(** A strategy object whose frame holds three candles only. *)
Definition short_history : Trader.NiftyIntradayStrategy :=
  Trader.set_historical_data (trader_on AngelApi.init)
    (Some (Trader.Raw (firstn 3 rising_candles))).

(** A run of the strategy on the working broker, with no position open,
    at 10:00. *)
Definition buying_run : bool * Trader.NiftyIntradayStrategy :=
  Trader.run_strategy (working_broker JNull) totp_123456 frame_of_rising_candles env
    (Some buy_chain) (Some (Fin 15)) "2025-01-01 10:00:00" "2025-01-31 10:00:00"
    (Samples.at_time 1 10 0) (Samples.at_time 1 10 1) (trader_on AngelApi.init).

(** A digest for the examples: the password between two marks. *)
Definition marked (password : string) : string := "#" ++ password ++ "#".

(** A TOTP check that accepts the code 123456 only. *)
Definition accepts_123456 (key : string) (code : option string) : attempt bool :=
  Returned (match code with Some c => String.eqb c "123456" | None => false end).

(** A credentials file with one user, who has no TOTP key. *)
Definition asha : Auth.User :=
  Auth.mk_user (marked "tiger") (Some "key") (Some "client") (Some "secret") Auth.Null
    "2025-01-01T09:00:00".

Definition one_user : Auth.Disk := Auth.mk_disk (Auth.Holds [("asha", asha)]) true.

(** The same run when the VIX request fails. *)
Definition buying_run_without_vix : bool * Trader.NiftyIntradayStrategy :=
  Trader.run_strategy (working_broker JNull) totp_123456 frame_of_rising_candles env
    (Some buy_chain) None "2025-01-01 10:00:00" "2025-01-31 10:00:00"
    (Samples.at_time 1 10 0) (Samples.at_time 1 10 1) (trader_on AngelApi.init).

End LiveSamples.

(* ================================================================= *)
(** * Properties *)

Import Clock Invariants.
Local Open Scope string_scope.
Local Open Scope list_scope.
Local Open Scope float_scope.

(** ** Facts on the extended rationals *)

Lemma Qltb_lt (x y : Q) : Qltb x y = true <-> (x < y)%Q.
Proof.
  unfold Qltb. rewrite negb_true_iff.
  split; intro H.
  - apply Qnot_le_lt. intro Hle. apply Qle_bool_iff in Hle. congruence.
  - destruct (Qle_bool y x) eqn:E; [|reflexivity].
    apply Qle_bool_iff in E. apply Qle_not_lt in E. contradiction.
Qed.

Lemma Qltb_ge (x y : Q) : Qltb x y = false <-> (y <= x)%Q.
Proof.
  unfold Qltb. rewrite negb_false_iff. apply Qle_bool_iff.
Qed.

Lemma Qis0_true (x : Q) : Qis0 x = true <-> (x == 0)%Q.
Proof. unfold Qis0. apply Qeq_bool_iff. Qed.

Lemma Qis0_false (x : Q) : Qis0 x = false <-> ~ (x == 0)%Q.
Proof.
  unfold Qis0. split; intro H.
  - intro E. apply Qeq_bool_iff in E. congruence.
  - destruct (Qeq_bool x 0) eqn:E; [|reflexivity].
    apply Qeq_bool_iff in E. contradiction.
Qed.

(* ================================================================= *)
(** ** Facts on binary64 rounding *)

Section Rounding.

Import Binary64.
Local Open Scope Q_scope.

Lemma pow2_pos e : 0 < pow2 e.
Proof. apply Qpower_0_lt. reflexivity. Qed.

Lemma pow2_plus a b : pow2 (a + b) == pow2 a * pow2 b.
Proof. apply Qpower_plus. intro H. discriminate H. Qed.

Lemma pow2_le a b : (a <= b)%Z -> pow2 a <= pow2 b.
Proof. intro H. apply Qpower_le_compat_l; [exact H|]. discriminate. Qed.

Lemma pow2_lt_inv a b : pow2 a < pow2 b -> (a < b)%Z.
Proof. intro H. apply (Qpower_lt_compat_l_inv 2); [exact H|reflexivity]. Qed.

Lemma pow2_inject (n : Z) : (0 <= n)%Z -> inject_Z (2 ^ n) == pow2 n.
Proof. intro H. apply (Zpower_Qpower 2 n H). Qed.

Lemma pow2_cancel a b : pow2 a * pow2 (b - a) == pow2 b.
Proof. rewrite <- pow2_plus. replace (a + (b - a))%Z with b by lia. reflexivity. Qed.

(** [floor_log2 a] is the binary exponent of [a]. *)
Lemma floor_log2_spec a :
  0 < a -> pow2 (floor_log2 a) <= a /\ a < pow2 (floor_log2 a + 1).
Proof.
  destruct a as [n d]. intro Ha.
  assert (Hn : (0 < n)%Z).
  { unfold Qlt in Ha. simpl in Ha. lia. }
  unfold floor_log2. cbn [Qnum Qden].
  set (ln := Z.log2 n). set (ld := Z.log2 (Z.pos d)).
  pose proof (Z.log2_spec n Hn) as [Hn1 Hn2].
  pose proof (Z.log2_spec (Z.pos d) eq_refl) as [Hd1 Hd2].
  pose proof (Z.log2_nonneg n) as Hln. pose proof (Z.log2_nonneg (Z.pos d)) as Hld.
  fold ln in Hn1, Hn2, Hln. fold ld in Hd1, Hd2, Hld.
  rewrite Zle_Qle in Hn1, Hd1. rewrite Zlt_Qlt in Hn2, Hd2.
  rewrite pow2_inject in Hn1, Hn2, Hd1, Hd2 by lia.
  assert (Hq : (n # d) * inject_Z (Z.pos d) == inject_Z n).
  { rewrite Qmult_inject_Z_r. apply Qreduce_den_inject_Z_r. }
  set (a := n # d) in *. set (N := inject_Z n) in *. set (D := inject_Z (Z.pos d)) in *.
  destruct (Qle_bool (pow2 (ln - ld)) a) eqn:E.
  - apply Qle_bool_iff in E. split; [exact E|].
    pose proof (pow2_cancel ld (Z.succ ln)) as Hc.
    replace (Z.succ ln - ld)%Z with (ln - ld + 1)%Z in Hc by lia.
    pose proof (pow2_pos (ln - ld + 1)) as Hp. pose proof (pow2_pos ld) as Hp'.
    set (P := pow2 (ln - ld + 1)) in *. set (L := pow2 ld) in *.
    set (U := pow2 (Z.succ ln)) in *.
    apply Qnot_le_lt. intro Hc'. nra.
  - assert (E' : a < pow2 (ln - ld)).
    { apply Qnot_le_lt. intro Hc. apply Qle_bool_iff in Hc. congruence. }
    replace (ln - ld - 1 + 1)%Z with (ln - ld)%Z by lia. split; [|exact E'].
    pose proof (pow2_cancel (Z.succ ld) ln) as Hc.
    replace (ln - Z.succ ld)%Z with (ln - ld - 1)%Z in Hc by lia.
    pose proof (pow2_pos (ln - ld - 1)) as Hp. pose proof (pow2_pos (Z.succ ld)) as Hp'.
    set (P := pow2 (ln - ld - 1)) in *. set (L := pow2 (Z.succ ld)) in *.
    set (U := pow2 ln) in *.
    apply Qnot_lt_le. intro Hc'. nra.
Qed.

Lemma floor_log2_unique a e :
  pow2 e <= a -> a < pow2 (e + 1) -> floor_log2 a = e.
Proof.
  intros H1 H2.
  assert (Ha : 0 < a) by (pose proof (pow2_pos e); lra).
  destruct (floor_log2_spec Ha) as [H3 H4].
  assert (floor_log2 a < e + 1)%Z by (apply pow2_lt_inv; lra).
  assert (e < floor_log2 a + 1)%Z by (apply pow2_lt_inv; lra).
  lia.
Qed.

Lemma floor_log2_mono a b : 0 < a -> a <= b -> (floor_log2 a <= floor_log2 b)%Z.
Proof.
  intros Ha Hab.
  destruct (floor_log2_spec Ha) as [H1 _].
  assert (Hb : 0 < b) by lra.
  destruct (floor_log2_spec Hb) as [_ H2].
  assert (floor_log2 a < floor_log2 b + 1)%Z by (apply pow2_lt_inv; lra).
  lia.
Qed.

Lemma floor_log2_comp a b : 0 < a -> a == b -> floor_log2 a = floor_log2 b.
Proof.
  intros Ha Hab. assert (Hb : 0 < b) by lra.
  destruct (floor_log2_spec Hb) as [H1 H2].
  apply floor_log2_unique; lra.
Qed.

(** Rounding to the nearest integer. *)
Lemma rne_bounds n : (Qfloor n <= rne n <= Qfloor n + 1)%Z.
Proof.
  unfold rne. destruct (Qcompare _ _); [destruct (Z.even _)| |]; lia.
Qed.

Lemma rne_Z k : rne (inject_Z k) = k.
Proof.
  unfold rne. rewrite Qfloor_Z.
  destruct (Qcompare_spec (2 * (inject_Z k - inject_Z k)) 1) as [H|H|H];
    [exfalso; lra | reflexivity | exfalso; lra].
Qed.

Lemma rne_comp n n' : n == n' -> rne n = rne n'.
Proof.
  intro H. unfold rne. rewrite (Qfloor_comp _ _ H).
  assert (E : 2 * (n - inject_Z (Qfloor n')) == 2 * (n' - inject_Z (Qfloor n')))
    by (rewrite H; reflexivity).
  rewrite (Qcompare_comp _ _ E 1 1 (Qeq_refl 1)). reflexivity.
Qed.

Lemma rne_mono n n' : n <= n' -> (rne n <= rne n')%Z.
Proof.
  intro H. pose proof (Qfloor_resp_le _ _ H) as Hf.
  destruct (Z.eq_dec (Qfloor n) (Qfloor n')) as [E|E].
  - unfold rne. rewrite <- E.
    destruct (Qcompare_spec (2 * (n - inject_Z (Qfloor n))) 1) as [A|A|A];
    destruct (Qcompare_spec (2 * (n' - inject_Z (Qfloor n))) 1) as [B|B|B];
    try destruct (Z.even (Qfloor n)); try lia; exfalso; lra.
  - pose proof (rne_bounds n). pose proof (rne_bounds n'). lia.
Qed.

Lemma rne_le_int n k : n <= inject_Z k -> (rne n <= k)%Z.
Proof. intro H. rewrite <- (rne_Z k). apply rne_mono, H. Qed.

Lemma rne_ge_int n k : inject_Z k <= n -> (k <= rne n)%Z.
Proof. intro H. rewrite <- (rne_Z k). apply rne_mono, H. Qed.

End Rounding.

Section RoundingOrder.

Import Binary64.
Local Open Scope Q_scope.

Lemma round_magnitude_nonneg a : 0 < a -> 0 <= round_magnitude a.
Proof.
  intro Ha. unfold round_magnitude.
  set (e := Z.max (floor_log2 a) (-1022)).
  pose proof (pow2_pos (52 - e)) as H1. pose proof (pow2_pos (e - 52)) as H2.
  assert (H3 : (0 <= rne (a * pow2 (52 - e)))%Z).
  { apply rne_ge_int. change (inject_Z 0) with 0. nra. }
  rewrite Zle_Qle in H3. change (inject_Z 0) with 0 in H3. nra.
Qed.

Lemma round_magnitude_comp a b :
  0 < a -> a == b -> round_magnitude a == round_magnitude b.
Proof.
  intros Ha Hab. unfold round_magnitude.
  rewrite (floor_log2_comp Ha Hab).
  set (e := Z.max (floor_log2 b) (-1022)).
  assert (E : a * pow2 (52 - e) == b * pow2 (52 - e)) by (rewrite Hab; reflexivity).
  rewrite (rne_comp E). reflexivity.
Qed.

Lemma round_magnitude_upper a :
  0 < a -> round_magnitude a <= pow2 (Z.max (floor_log2 a) (-1022) + 1).
Proof.
  intro Ha. unfold round_magnitude.
  set (e := Z.max (floor_log2 a) (-1022)).
  destruct (floor_log2_spec Ha) as [_ Hu].
  assert (Hle : pow2 (floor_log2 a + 1) <= pow2 (e + 1)) by (apply pow2_le; lia).
  pose proof (pow2_cancel (52 - e) 53) as Hc.
  replace (53 - (52 - e))%Z with (e + 1)%Z in Hc by lia.
  pose proof (pow2_cancel (e - 52) (e + 1)) as Hc'.
  replace (e + 1 - (e - 52))%Z with 53%Z in Hc' by lia.
  pose proof (pow2_pos (52 - e)) as H1. pose proof (pow2_pos (e - 52)) as H2.
  assert (H3 : (rne (a * pow2 (52 - e)) <= 2 ^ 53)%Z).
  { apply rne_le_int. rewrite pow2_inject by lia. rewrite <- Hc. nra. }
  rewrite Zle_Qle in H3. rewrite pow2_inject in H3 by lia.
  rewrite <- Hc'. nra.
Qed.

Lemma round_magnitude_lower a :
  pow2 (-1022) <= a -> pow2 (floor_log2 a) <= round_magnitude a.
Proof.
  intro Hn. pose proof (pow2_pos (-1022)) as Hp.
  assert (Ha : 0 < a) by lra.
  destruct (floor_log2_spec Ha) as [Hl Hu].
  assert (Hlt : (-1022 < floor_log2 a + 1)%Z) by (apply pow2_lt_inv; lra).
  unfold round_magnitude. rewrite Z.max_l by lia.
  set (e := floor_log2 a) in *.
  pose proof (pow2_cancel e 52) as Hc.
  pose proof (pow2_cancel 52 e) as Hc'.
  pose proof (pow2_pos (52 - e)) as H1. pose proof (pow2_pos (e - 52)) as H2.
  assert (H3 : (2 ^ 52 <= rne (a * pow2 (52 - e)))%Z).
  { apply rne_ge_int. rewrite pow2_inject by lia. rewrite <- Hc. nra. }
  rewrite Zle_Qle in H3. rewrite pow2_inject in H3 by lia.
  rewrite <- Hc'. nra.
Qed.

(** Rounding keeps the order. *)
Lemma round_magnitude_mono a b :
  0 < a -> a <= b -> round_magnitude a <= round_magnitude b.
Proof.
  intros Ha Hab. assert (Hb : 0 < b) by lra.
  pose proof (floor_log2_mono Ha Hab) as Hm.
  destruct (Z.eq_dec (Z.max (floor_log2 a) (-1022)) (Z.max (floor_log2 b) (-1022)))
    as [E|E].
  - unfold round_magnitude. rewrite E.
    set (e := Z.max (floor_log2 b) (-1022)).
    pose proof (pow2_pos (52 - e)) as H1. pose proof (pow2_pos (e - 52)) as H2.
    assert (H3 : (rne (a * pow2 (52 - e)) <= rne (b * pow2 (52 - e)))%Z).
    { apply rne_mono. nra. }
    rewrite Zle_Qle in H3. nra.
  - assert (Hlt : (Z.max (floor_log2 a) (-1022) < floor_log2 b)%Z) by lia.
    assert (Hn : pow2 (-1022) <= b).
    { destruct (floor_log2_spec Hb) as [Hl _].
      assert (pow2 (-1022) <= pow2 (floor_log2 b)) by (apply pow2_le; lia). lra. }
    pose proof (round_magnitude_lower Hn) as Hlow.
    pose proof (round_magnitude_upper Ha) as Hup.
    assert (pow2 (Z.max (floor_log2 a) (-1022) + 1) <= pow2 (floor_log2 b))
      by (apply pow2_le; lia).
    lra.
Qed.

Lemma Qabs_nonzero q : ~ q == 0 -> 0 < Qabs q.
Proof.
  intro H. apply Qabs_case; intro Hq.
  - destruct (Qlt_le_dec 0 q) as [L|L]; [exact L|].
    exfalso. apply H. apply Qle_antisym; assumption.
  - destruct (Qlt_le_dec q 0) as [L|L]; [lra|].
    exfalso. apply H. apply Qle_antisym; assumption.
Qed.

Lemma Qis0_comp a b : a == b -> Qis0 a = Qis0 b.
Proof.
  intro H. unfold Qis0.
  destruct (Qeq_bool a 0) eqn:A, (Qeq_bool b 0) eqn:B; try reflexivity.
  - apply Qeq_bool_iff in A. apply Qeq_bool_neq in B. exfalso. apply B. lra.
  - apply Qeq_bool_iff in B. apply Qeq_bool_neq in A. exfalso. apply A. lra.
Qed.

Lemma round_comp s q q' : q == q' -> round s q = round s q'.
Proof.
  intro H. unfold round.
  rewrite <- (Qis0_comp H). destruct (Qis0 q) eqn:Z0; [reflexivity|].
  apply Qis0_false in Z0.
  assert (Hs : Qltb q' 0 = Qltb q 0).
  { unfold Qltb. rewrite (Qleb_comp 0 0 (Qeq_refl 0) q q' H). reflexivity. }
  rewrite Hs.
  assert (Hr : round_magnitude (Qabs q) == round_magnitude (Qabs q')).
  { apply round_magnitude_comp; [exact (Qabs_nonzero Z0)|]. rewrite H. reflexivity. }
  set (r := round_magnitude (Qabs q)) in *.
  set (r' := round_magnitude (Qabs q')) in *.
  rewrite <- (Qis0_comp Hr).
  rewrite <- (Qleb_comp _ _ (Qeq_refl (pow2 1024)) _ _ Hr).
  assert (E : Qred (if Qltb q 0 then - r' else r') = Qred (if Qltb q 0 then - r else r)).
  { apply Qred_complete. destruct (Qltb q 0); rewrite Hr; reflexivity. }
  rewrite E. reflexivity.
Qed.

End RoundingOrder.

Section Binary64Order.

Import Binary64.
Local Open Scope Q_scope.

Lemma rounded_mono q q' : q <= q' -> rounded q <= rounded q'.
Proof.
  intro H. unfold rounded.
  destruct (Qis0 q) eqn:Z; [apply Qis0_true in Z|apply Qis0_false in Z];
  destruct (Qis0 q') eqn:Z'; [apply Qis0_true in Z'|apply Qis0_false in Z'
                             |apply Qis0_true in Z'|apply Qis0_false in Z'];
  try (destruct (Qltb q 0) eqn:S; [apply Qltb_lt in S|apply Qltb_ge in S]);
  try (destruct (Qltb q' 0) eqn:S'; [apply Qltb_lt in S'|apply Qltb_ge in S']);
  try lra;
  try (pose proof (round_magnitude_nonneg (Qabs_nonzero Z)));
  try (pose proof (round_magnitude_nonneg (Qabs_nonzero Z')));
  try lra.
  - assert (A : Qabs q == - q) by (apply Qabs_neg; lra).
    assert (A' : Qabs q' == - q') by (apply Qabs_neg; lra).
    assert (L : Qabs q' <= Qabs q) by lra.
    pose proof (round_magnitude_mono (Qabs_nonzero Z') L). lra.
  - assert (A : Qabs q == q) by (apply Qabs_pos; lra).
    assert (A' : Qabs q' == q') by (apply Qabs_pos; lra).
    assert (L : Qabs q <= Qabs q') by lra.
    pose proof (round_magnitude_mono (Qabs_nonzero Z) L). lra.
Qed.

(** The value of a rounded result: an infinity past the largest finite
    number, the rounded rational otherwise. *)
Lemma val_round s q :
  (pow2 1024 <= rounded q /\ val (round s q) = PInf)
  \/ (rounded q <= - pow2 1024 /\ val (round s q) = NInf)
  \/ (- pow2 1024 < rounded q /\ rounded q < pow2 1024
      /\ exists v, val (round s q) = Fin v /\ v == rounded q).
Proof.
  pose proof (pow2_pos 1024) as Hp.
  unfold round, rounded.
  destruct (Qis0 q) eqn:Z0.
  { right. right. split; [lra|]. split; [lra|]. exists 0. split; reflexivity. }
  apply Qis0_false in Z0.
  pose proof (round_magnitude_nonneg (Qabs_nonzero Z0)) as Hr.
  set (r := round_magnitude (Qabs q)) in *.
  destruct (Qis0 r) eqn:Zr.
  { apply Qis0_true in Zr. right. right.
    destruct (Qltb q 0); (split; [lra|]; split; [lra|]); exists 0;
      (split; [reflexivity|lra]). }
  destruct (Qle_bool (pow2 1024) r) eqn:O.
  - apply Qle_bool_iff in O. destruct (Qltb q 0).
    + right. left. split; [lra|reflexivity].
    + left. split; [exact O|reflexivity].
  - assert (O' : r < pow2 1024).
    { apply Qnot_le_lt. intro C. apply Qle_bool_iff in C. congruence. }
    right. right. destruct (Qltb q 0); (split; [lra|]; split; [lra|]);
      eexists; (split; [reflexivity|apply Qred_correct]).
Qed.

Lemma round_mono s s' q q' : q <= q' -> leb (round s q) (round s' q') = true.
Proof.
  intro H. pose proof (rounded_mono H) as Hm. pose proof (pow2_pos 1024) as Hp.
  unfold leb.
  destruct (val_round s q) as [[A ->]|[[A ->]|(A & A' & v & -> & Hv)]];
  destruct (val_round s' q') as [[B ->]|[[B ->]|(B & B' & v' & -> & Hv')]];
  cbn [Float.leb]; try reflexivity; try (exfalso; lra).
  apply Qle_bool_iff. lra.
Qed.

(** The order of the values, as far as the proofs use it. *)
Lemma fleb_trans x y z :
  Float.leb x y = true -> Float.leb y z = true -> Float.leb x z = true.
Proof.
  destruct x, y, z; cbn [Float.leb]; try discriminate; try reflexivity.
  rewrite !Qle_bool_iff. intros. lra.
Qed.



Lemma of_float_mono s s' f f' :
  Float.leb f f' = true -> leb (of_float s f) (of_float s' f') = true.
Proof.
  destruct f as [q| | |], f' as [q'| | |]; cbn [Float.leb of_float];
    try discriminate; intro H.
  - apply round_mono. apply Qle_bool_iff, H.
  - unfold leb. cbn [val].
    destruct (val_round s q) as [[_ ->]|[[_ ->]|(_ & _ & v & -> & _)]]; reflexivity.
  - reflexivity.
  - unfold leb. cbn [val].
    destruct (val_round s' q') as [[_ ->]|[[_ ->]|(_ & _ & v & -> & _)]]; reflexivity.
  - reflexivity.
  - reflexivity.
Qed.

Lemma val_neg x : val (neg x) = Float.neg (val x).
Proof. destruct x as [s|q|[|]|]; reflexivity. Qed.

(** An operation with a constant keeps or reverses the order. *)
Lemma div_mono_l c x x' :
  0 < c -> leb x x' = true -> leb (div x (Finite c)) (div x' (Finite c)) = true.
Proof.
  intros Hc H. unfold div. apply of_float_mono. unfold leb in H. cbn [val].
  assert (Z : Qis0 c = false) by (apply Qis0_false; lra).
  assert (S : Qltb c 0 = false) by (apply Qltb_ge; lra).
  destruct (val x) as [a| | |], (val x') as [a'| | |];
    cbn [Float.leb Float.div] in *; rewrite ?Z, ?S; try discriminate; try reflexivity.
  apply Qle_bool_iff in H. apply Qle_bool_iff.
  apply Qmult_le_compat_r; [exact H|]. apply Qlt_le_weak, Qinv_lt_0_compat, Hc.
Qed.

Lemma mul_mono_l c x x' :
  0 < c -> leb x x' = true -> leb (mul x (Finite c)) (mul x' (Finite c)) = true.
Proof.
  intros Hc H. unfold mul. apply of_float_mono. unfold leb in H. cbn [val].
  assert (Z : Qis0 c = false) by (apply Qis0_false; lra).
  assert (Z' : Qis0 (- c) = false) by (apply Qis0_false; lra).
  assert (S : Qltb 0 c = true) by (apply Qltb_lt; lra).
  assert (S' : Qltb 0 (- c) = false) by (apply Qltb_ge; lra).
  destruct (val x) as [a| | |], (val x') as [a'| | |];
    cbn [Float.leb Float.mul] in *; unfold inf_of_sign; rewrite ?Z, ?S, ?S';
    try discriminate; try reflexivity.
  apply Qle_bool_iff in H. apply Qle_bool_iff. nra.
Qed.

Lemma add_mono_l c x x' :
  leb x x' = true -> leb (add x (Finite c)) (add x' (Finite c)) = true.
Proof.
  intro H. unfold add. apply of_float_mono. unfold leb in H. cbn [val].
  destruct (val x) as [a| | |], (val x') as [a'| | |];
    cbn [Float.leb Float.add] in *; try discriminate; try reflexivity.
  apply Qle_bool_iff in H. apply Qle_bool_iff. lra.
Qed.

Lemma add_mono_r c y y' :
  leb y y' = true -> leb (add (Finite c) y) (add (Finite c) y') = true.
Proof.
  intro H. unfold add. apply of_float_mono. unfold leb in H. cbn [val].
  destruct (val y) as [a| | |], (val y') as [a'| | |];
    cbn [Float.leb Float.add] in *; try discriminate; try reflexivity.
  apply Qle_bool_iff in H. apply Qle_bool_iff. lra.
Qed.

Lemma neg_anti y y' : leb y y' = true -> leb (neg y') (neg y) = true.
Proof.
  unfold leb. rewrite !val_neg.
  destruct (val y) as [a| | |], (val y') as [a'| | |];
    cbn [Float.leb Float.neg]; try discriminate; try reflexivity.
  rewrite !Qle_bool_iff. intro. lra.
Qed.

Lemma sub_mono_l c x x' :
  leb x x' = true -> leb (sub x (Finite c)) (sub x' (Finite c)) = true.
Proof. intro H. unfold sub. cbn [neg]. apply add_mono_l, H. Qed.

Lemma sub_anti_r c y y' :
  leb y y' = true -> leb (sub (Finite c) y') (sub (Finite c) y) = true.
Proof. intro H. unfold sub. apply add_mono_r, neg_anti, H. Qed.

Lemma div_anti_r c y y' :
  0 < c -> ltb (Zero false) y = true -> leb y y' = true ->
  leb (div (Finite c) y') (div (Finite c) y) = true.
Proof.
  intros Hc Hy H. unfold ltb, leb in *.
  destruct y as [s|q|[|]|]; cbn [val Float.ltb] in Hy; try discriminate.
  - apply Qltb_lt in Hy.
    destruct y' as [s'|q'|[|]|]; cbn [val Float.leb] in H; try discriminate.
    + apply Qle_bool_iff in H. exfalso. lra.
    + apply Qle_bool_iff in H. unfold div. apply of_float_mono. cbn [val Float.div].
      assert (Z : Qis0 q = false) by (apply Qis0_false; lra).
      assert (Z' : Qis0 q' = false) by (apply Qis0_false; lra).
      rewrite Z, Z'. cbn [Float.leb]. apply Qle_bool_iff.
      apply Qle_shift_div_l; [exact Hy|].
      assert (Hq' : 0 < q') by lra.
      pose proof (Qinv_lt_0_compat _ Hq') as Hi.
      assert (E : c / q' * q' == c) by (field; lra).
      unfold Qdiv in *. nra.
    + unfold div. apply of_float_mono. cbn [val Float.div].
      assert (Z : Qis0 q = false) by (apply Qis0_false; lra).
      rewrite Z. cbn [Float.leb]. apply Qle_bool_iff.
      pose proof (Qinv_lt_0_compat _ Hy). unfold Qdiv. nra.
  - destruct y' as [s'|q'|[|]|]; cbn [val Float.leb] in H; try discriminate.
    unfold div. apply of_float_mono. reflexivity.
Qed.


(** Known results of binary64 arithmetic: 1/3, 0.1 + 0.2, an underflow
    and an overflow at a tie, and the divisions by zero. *)
Lemma rounding_samples :
  div (Finite 1) (Finite 3) = Finite (6004799503160661 # 18014398509481984)
  /\ add (round false (1 # 10)) (round false (2 # 10))
     = Finite (1351079888211149 # 4503599627370496)
  /\ round false (pow2 (-1075)) = Zero false
  /\ round false (3 * pow2 (-1075)) = Finite (Qred (pow2 (-1073)))
  /\ round false (pow2 1024 - pow2 970) = Inf false
  /\ mul (of_Z (10 ^ 308)) (Finite 10) = Inf false
  /\ div (Finite 1) (Zero true) = Inf true
  /\ div (Zero false) (Zero true) = Nan.
Proof. repeat split; vm_compute; reflexivity. Qed.

(** The integers of the code. *)
Lemma of_Z_0 : of_Z 0 = Zero false.
Proof. vm_compute. reflexivity. Qed.

Lemma of_Z_1 : of_Z 1 = Finite 1.
Proof. vm_compute. reflexivity. Qed.

Lemma of_Z_100 : of_Z 100 = Finite 100.
Proof. vm_compute. reflexivity. Qed.

End Binary64Order.

(** The sign of the results. *)
Section Binary64Sign.

Import Binary64.
Local Open Scope Q_scope.

Lemma of_float_nonneg s f : Float.leb (Fin 0) f = true -> nonneg (of_float s f).
Proof.
  intro H. unfold nonneg.
  change (Zero false) with (of_float false (Fin 0)).
  apply of_float_mono, H.
Qed.

(** The quotient of two such numbers, the divisor not [-0]. *)
Lemma div_nonneg x y :
  nonneg x -> nonneg y -> negative y = false -> nan_or_nonneg (div x y).
Proof.
  intros Hx Hy Hn. unfold nonneg, leb in Hx, Hy. cbn [val] in Hx, Hy.
  destruct y as [sy|b|[|]|]; cbn [val negative Float.leb] in Hy, Hn; try discriminate.
  - subst sy. destruct x as [sx|a|[|]|]; cbn [val Float.leb] in Hx; try discriminate.
    + left. reflexivity.
    + right. apply Qle_bool_iff in Hx. unfold div. cbn [negative].
      assert (S : Qltb a 0 = false) by (apply Qltb_ge; lra).
      rewrite S. reflexivity.
    + right. reflexivity.
  - apply Qle_bool_iff in Hy.
    destruct x as [sx|a|[|]|]; cbn [val Float.leb] in Hx; try discriminate.
    + unfold div. cbn [val Float.div].
      destruct (Qis0 b) eqn:Zb.
      * change (Qis0 0) with true. left. reflexivity.
      * right. apply of_float_nonneg. cbn [Float.leb]. apply Qle_bool_iff.
        apply Qis0_false in Zb.
        assert (0 < b) by (destruct (Qlt_le_dec 0 b); [assumption|];
                           exfalso; apply Zb; lra).
        apply Qle_shift_div_l; [assumption|]. lra.
    + apply Qle_bool_iff in Hx. unfold div. cbn [val Float.div].
      destruct (Qis0 b) eqn:Zb.
      * destruct (Qis0 a) eqn:Za; [left; reflexivity|].
        right. apply Qis0_false in Za. unfold inf_of_sign.
        assert (S : Qltb 0 a = true).
        { apply Qltb_lt. destruct (Qlt_le_dec 0 a); [assumption|].
          exfalso. apply Za. lra. }
        rewrite S. reflexivity.
      * right. apply of_float_nonneg. cbn [Float.leb]. apply Qle_bool_iff.
        apply Qis0_false in Zb.
        assert (0 < b) by (destruct (Qlt_le_dec 0 b); [assumption|];
                           exfalso; apply Zb; lra).
        apply Qle_shift_div_l; [assumption|]. lra.
    + right. unfold div. cbn [val Float.div].
      assert (S : Qltb b 0 = false) by (apply Qltb_ge; lra).
      rewrite S. reflexivity.
  - destruct x as [sx|a|[|]|]; cbn [val Float.leb] in Hx; try discriminate.
    + right. apply of_float_nonneg. reflexivity.
    + right. apply of_float_nonneg. reflexivity.
    + left. reflexivity.
Qed.

Lemma div_nan_l y : div Nan y = Nan.
Proof. destruct y as [s|q|[|]|]; reflexivity. Qed.

Lemma div_zero_zero sg s : div (Zero sg) (Zero s) = Nan.
Proof. reflexivity. Qed.

Lemma div_finite_zero a s : div (Finite a) (Zero s) = Inf (xorb (Qltb a 0) s).
Proof. reflexivity. Qed.

Lemma div_inf_zero sg s : div (Inf sg) (Zero s) = Inf (xorb sg s).
Proof. reflexivity. Qed.

Lemma div_nan_r x : div x Nan = Nan.
Proof. unfold div. cbn [val]. destruct (val x); reflexivity. Qed.

Lemma add_nonneg x y : nonneg x -> nonneg y -> nonneg (add x y).
Proof.
  intros Hx Hy. unfold add. apply of_float_nonneg.
  unfold nonneg, leb in Hx, Hy. cbn [val] in Hx, Hy.
  destruct (val x), (val y); cbn [Float.leb Float.add] in *;
    try discriminate; try reflexivity.
  apply Qle_bool_iff in Hx, Hy. apply Qle_bool_iff. lra.
Qed.

Lemma fold_add_nonneg l acc :
  nonneg acc -> Forall nonneg l -> nonneg (fold_left add l acc).
Proof.
  intros Ha Hl. revert acc Ha.
  induction Hl as [|x l Hx _ IH]; intros acc Ha; [exact Ha|].
  cbn [fold_left]. apply IH. apply add_nonneg; assumption.
Qed.

Lemma round_not_negative q : 0 <= q -> negative (round false q) = false.
Proof.
  intro Hq. unfold round. destruct (Qis0 q) eqn:Z0; [reflexivity|].
  apply Qis0_false in Z0.
  assert (S : Qltb q 0 = false) by (apply Qltb_ge; exact Hq).
  rewrite S.
  pose proof (round_magnitude_nonneg (Qabs_nonzero Z0)) as Hr.
  destruct (Qis0 _); [reflexivity|]. destruct (Qle_bool _ _); [reflexivity|].
  cbn [negative]. apply Qltb_ge. rewrite Qred_correct. exact Hr.
Qed.

End Binary64Sign.

(** ** The signal rules *)

(** Splits a conjunction of filters that holds into its filters. *)
Ltac split_filters H :=
  repeat (apply andb_true_iff in H; destruct H as [H ?]).

(** What a returned signal tells about the branch taken. *)
Lemma generate_signal_inv env now later self s self' :
  Strategy.generate_signal env now later self = Ok (Some s, self') ->
  exists g latest v,
    Strategy.greeks_data self = Some g /\
    Strategy.vix self = Some v /\
    Strategy.decide_signal self g latest v = Some s.
Proof.
  unfold Strategy.generate_signal.
  destruct (Strategy.is_trading_hours env now) as [b|e]; simpl; [|discriminate].
  destruct b; simpl; [|discriminate].
  destruct (Strategy.greeks_data self) as [g|]; [|discriminate].
  destruct (Strategy.historical_data self) as [df|]; [|discriminate].
  destruct (Strategy.iloc_last df) as [latest|e]; simpl; [|discriminate].
  destruct (Strategy.row_notna_all latest); simpl; [|discriminate].
  destruct (Strategy.vix self) as [v|]; [|discriminate].
  destruct (Strategy.decide_signal self g latest v) as [s0|] eqn:E; [|discriminate].
  intro H. injection H as H1 H2. subst s0.
  exists g, latest, v. auto.
Qed.

Lemma decide_signal_sell self g latest v :
  Strategy.decide_signal self g latest v = Some "SELL" ->
  Strategy.delta_gamma_sell self g latest = true /\
  Strategy.theta_vega_sell self g = true /\
  Strategy.vix_sell self v = true.
Proof.
  unfold Strategy.decide_signal.
  destruct (Strategy.delta_gamma_buy self g latest && Strategy.theta_vega_buy self g
            && Strategy.vix_buy self v); [discriminate|].
  destruct (Strategy.delta_gamma_sell self g latest) ; simpl; [|discriminate].
  destruct (Strategy.theta_vega_sell self g); simpl; [|discriminate].
  destruct (Strategy.vix_sell self v); [auto|discriminate].
Qed.

Lemma check_signal_long p r :
  Backtester._check_strategy_signal p r = 1%Z <-> Backtester.long_signal p r = true.
Proof.
  unfold Backtester._check_strategy_signal.
  destruct (Backtester.long_signal p r); [tauto|].
  destruct (Backtester.short_signal p r); split; discriminate.
Qed.

Lemma check_signal_short p r :
  Backtester._check_strategy_signal p r = (-1)%Z <->
  Backtester.long_signal p r = false /\ Backtester.short_signal p r = true.
Proof.
  unfold Backtester._check_strategy_signal.
  destruct (Backtester.long_signal p r).
  - split; [discriminate | intros [H _]; discriminate].
  - destruct (Backtester.short_signal p r); split; auto; try discriminate.
    intros [_ H]; discriminate.
Qed.

Lemma check_signal_range p r :
  let s := Backtester._check_strategy_signal p r in
  s = 0%Z \/ s = 1%Z \/ s = (-1)%Z.
Proof.
  unfold Backtester._check_strategy_signal.
  destruct (Backtester.long_signal p r); auto.
  destruct (Backtester.short_signal p r); auto.
Qed.

(** C1 (as amended): the two copies of the SELL delta-gamma filter
    disagree, the other way round from the claim.  Whenever the live
    engine's [generate_signal] returns SELL, the put gamma is strictly
    below minus the gamma threshold; whenever the backtester's
    [_check_strategy_signal] returns -1 (short), the put gamma is
    strictly above the gamma threshold. *)
Theorem sell_gamma_filters :
  (forall env now later self self' g,
      Strategy.generate_signal env now later self = Ok (Some "SELL", self') ->
      Strategy.greeks_data self = Some g ->
      (Strategy.gamma (Strategy.put g) <? - Strategy.gamma_threshold self) = true)
  /\
  (forall p r,
      Backtester._check_strategy_signal p r = (-1)%Z ->
      (Backtester.put_gamma r >? Backtester.GAMMA_THRESHOLD p) = true).
Proof.
  split.
  - intros env now later self self' g Hsig Hg.
    apply generate_signal_inv in Hsig.
    destruct Hsig as (g' & latest & v & Hg' & _ & Hdec).
    rewrite Hg in Hg'. injection Hg' as <-.
    apply decide_signal_sell in Hdec. destruct Hdec as (Hdg & _ & _).
    unfold Strategy.delta_gamma_sell in Hdg.
    split_filters Hdg.
    assumption.
  - intros p r Hsig.
    apply check_signal_short in Hsig. destruct Hsig as [_ Hs].
    unfold Backtester.short_signal, Backtester.delta_gamma_short in Hs.
    split_filters Hs.
    assumption.
Qed.

(** The two filters on the sample SELL snapshot and the sample short row. *)
Lemma sell_gamma_filters_witness :
  (Strategy.gamma (Strategy.put Samples.sell_greeks)
     <? - Strategy.gamma_threshold Samples.sell_engine) = true
  /\ (Backtester.put_gamma (Samples.short_row (Samples.at_time 1 10 0) (Fin 99))
        >? Backtester.GAMMA_THRESHOLD
             (Backtester.strategy_params Samples.default_backtester)) = true.
Proof.
  destruct sell_gamma_filters as [Hlive Hback]. split.
  - apply (Hlive Strategy.default_env (Samples.at_time 1 10 0) (Samples.at_time 1 10 1)
             Samples.sell_engine
             (Strategy.set_last_signal Samples.sell_engine "SELL" (Samples.at_time 1 10 1))
             Samples.sell_greeks); reflexivity.
  - apply Hback. reflexivity.
Defined.

(** C1, as stated, fails.  On a snapshot with put gamma -0.2 and the
    default gamma threshold 0.1 the live engine returns SELL although
    [put.gamma > gammaThreshold] is false; on a row with put gamma 0.2
    the backtester signals short although
    [put.gamma < -gammaThreshold] is false. *)
Lemma sell_gamma_claim_refuted :
  Strategy.generate_signal Strategy.default_env
    (Samples.at_time 1 10 0) (Samples.at_time 1 10 1) Samples.sell_engine
  = Ok (Some "SELL",
        Strategy.set_last_signal Samples.sell_engine "SELL" (Samples.at_time 1 10 1))
  /\ (Strategy.gamma (Strategy.put Samples.sell_greeks)
        >? Strategy.gamma_threshold Samples.sell_engine) = false
  /\ Backtester._check_strategy_signal
       (Backtester.strategy_params Samples.default_backtester)
       (Samples.short_row (Samples.at_time 1 10 0) (Fin 99)) = (-1)%Z
  /\ (Backtester.put_gamma (Samples.short_row (Samples.at_time 1 10 0) (Fin 99))
        <? - Backtester.GAMMA_THRESHOLD
               (Backtester.strategy_params Samples.default_backtester)) = false.
Proof. repeat split. Qed.

(** An RSI strictly under 30 is not above 50, one strictly above 70 is
    not under 50. *)
Lemma below_30_not_above_50 x : (x <? Fin 30) = true -> (x >? Fin 50) = false.
Proof.
  destruct x as [q| | |]; simpl; try reflexivity; try discriminate.
  unfold gtb; simpl. rewrite Qltb_lt, Qltb_ge. intro H. lra.
Qed.

Lemma above_70_not_below_50 x : (x >? Fin 70) = true -> (x <? Fin 50) = false.
Proof.
  destruct x as [q| | |]; unfold gtb; simpl; try reflexivity; try discriminate.
  rewrite Qltb_lt, Qltb_ge. intro H. lra.
Qed.

(** C2 (as amended): the backtester's momentum filter is not the
    engine's rule around 50.  With the parameters [__init__] builds,
    whatever the environment, a long signal (1) requires rsi < 30 (the
    literal RSI_OVERSOLD) and close > ma, so that rsi > 50 is false at
    every long signal; a short signal (-1) requires rsi > 70 (the
    literal RSI_OVERBOUGHT) and close < ma, so that rsi < 50 is false at
    every short signal. *)
Theorem backtest_momentum_filter :
  forall env r,
    let p := Backtester.strategy_params (Backtester.init env) in
    (Backtester._check_strategy_signal p r = 1%Z ->
       (Backtester.rsi r <? Fin 30) = true
       /\ (Backtester.close r >? Backtester.ma r) = true
       /\ (Backtester.rsi r >? Fin 50) = false)
    /\
    (Backtester._check_strategy_signal p r = (-1)%Z ->
       (Backtester.rsi r >? Fin 70) = true
       /\ (Backtester.close r <? Backtester.ma r) = true
       /\ (Backtester.rsi r <? Fin 50) = false).
Proof.
  intros env r p. split; intro Hsig.
  - apply check_signal_long in Hsig.
    unfold Backtester.long_signal in Hsig.
    split_filters Hsig.
    match goal with H : Backtester.rsi_long _ _ = true |- _ =>
      unfold Backtester.rsi_long in H; simpl in H end.
    match goal with H : Backtester.ma_long _ = true |- _ =>
      unfold Backtester.ma_long in H end.
    auto using below_30_not_above_50.
  - apply check_signal_short in Hsig. destruct Hsig as [_ Hsig].
    unfold Backtester.short_signal in Hsig.
    split_filters Hsig.
    match goal with H : Backtester.rsi_short _ _ = true |- _ =>
      unfold Backtester.rsi_short in H; simpl in H end.
    match goal with H : Backtester.ma_short _ = true |- _ =>
      unfold Backtester.ma_short in H end.
    auto using above_70_not_below_50.
Qed.

(** The momentum filter on the sample long row and the sample short row. *)
Lemma backtest_momentum_filter_witness :
  ((Backtester.rsi (Samples.long_row (Samples.at_time 1 10 0) (Fin 100)) <? Fin 30) = true
   /\ (Backtester.close (Samples.long_row (Samples.at_time 1 10 0) (Fin 100))
         >? Backtester.ma (Samples.long_row (Samples.at_time 1 10 0) (Fin 100))) = true
   /\ (Backtester.rsi (Samples.long_row (Samples.at_time 1 10 0) (Fin 100)) >? Fin 50) = false)
  /\
  ((Backtester.rsi (Samples.short_row (Samples.at_time 1 10 0) (Fin 99)) >? Fin 70) = true
   /\ (Backtester.close (Samples.short_row (Samples.at_time 1 10 0) (Fin 99))
         <? Backtester.ma (Samples.short_row (Samples.at_time 1 10 0) (Fin 99))) = true
   /\ (Backtester.rsi (Samples.short_row (Samples.at_time 1 10 0) (Fin 99)) <? Fin 50) = false).
Proof.
  split.
  - apply (proj1 (backtest_momentum_filter Backtester.default_env
                    (Samples.long_row (Samples.at_time 1 10 0) (Fin 100)))).
    reflexivity.
  - apply (proj2 (backtest_momentum_filter Backtester.default_env
                    (Samples.short_row (Samples.at_time 1 10 0) (Fin 99)))).
    reflexivity.
Defined.

(** C2, as stated, fails.  Under the default parameters a row with RSI
    25 and close above its moving average fires the long signal although
    rsi > 50 is false, and a row with RSI 75 and close under its moving
    average fires the short signal although rsi < 50 is false. *)
Lemma backtest_momentum_claim_refuted :
  Backtester._check_strategy_signal
    (Backtester.strategy_params Samples.default_backtester)
    (Samples.long_row (Samples.at_time 1 10 0) (Fin 100)) = 1%Z
  /\ (Backtester.rsi (Samples.long_row (Samples.at_time 1 10 0) (Fin 100)) >? Fin 50) = false
  /\ Backtester._check_strategy_signal
       (Backtester.strategy_params Samples.default_backtester)
       (Samples.short_row (Samples.at_time 1 10 0) (Fin 99)) = (-1)%Z
  /\ (Backtester.rsi (Samples.short_row (Samples.at_time 1 10 0) (Fin 99)) <? Fin 50) = false.
Proof. repeat split. Qed.

(** ** The trading-hours gate *)

(** C3: whenever [is_trading_hours] answers no, [generate_signal]
    returns [None] and leaves the engine as it was, whatever the
    Greeks snapshot, the price history (present, empty or missing), the
    indicators and the VIX.  The gate stands before the data checks: an
    engine that has a snapshot but no price history gets [None] outside
    the window, while inside it the availability check is reached and
    raises.  Under the default environment the window is 09:15:00 to
    15:30:00 of the current day, both ends included. *)
Theorem outside_trading_hours_no_signal :
  (forall env now later self,
      Strategy.is_trading_hours env now = Ok false ->
      Strategy.generate_signal env now later self = Ok (None, self))
  /\
  (forall env now later self g,
      Strategy.is_trading_hours env now = Ok true ->
      Strategy.greeks_data self = Some g ->
      Strategy.historical_data self = None ->
      Strategy.generate_signal env now later self = Raise AttributeError)
  /\
  (forall now,
      Strategy.is_trading_hours Strategy.default_env now
      = Ok (datetime_leb (mk_datetime (day now) (mk_time 9 15 0 0)) now
            && datetime_leb now (mk_datetime (day now) (mk_time 15 30 0 0)))).
Proof.
  split; [|split].
  - intros env now later self H.
    unfold Strategy.generate_signal. rewrite H. reflexivity.
  - intros env now later self g H Hg Hh.
    unfold Strategy.generate_signal. rewrite H. simpl. rewrite Hg, Hh. reflexivity.
  - intro now. reflexivity.
Qed.

(** At 16:00 the sample engines get no signal, with or without price
    history; at 10:00 the engine without history raises. *)
Lemma outside_trading_hours_no_signal_witness :
  Strategy.generate_signal Strategy.default_env
    (Samples.at_time 1 16 0) (Samples.at_time 1 16 0) Samples.sell_engine
  = Ok (None, Samples.sell_engine)
  /\ Strategy.generate_signal Strategy.default_env
       (Samples.at_time 1 16 0) (Samples.at_time 1 16 0) Samples.engine_without_history
     = Ok (None, Samples.engine_without_history)
  /\ Strategy.generate_signal Strategy.default_env
       (Samples.at_time 1 10 0) (Samples.at_time 1 10 0) Samples.engine_without_history
     = Raise AttributeError.
Proof.
  destruct outside_trading_hours_no_signal as (Hout & Hin & _).
  split; [|split].
  - apply Hout. reflexivity.
  - apply Hout. reflexivity.
  - apply (Hin _ _ _ _ Samples.sell_greeks); reflexivity.
Defined.

(** ** The bar loop *)

Lemma last_cons {A} (l : list A) a d : last (a :: l) d = last l a.
Proof.
  revert a d. induction l as [|c l IH]; intros a d; [reflexivity|].
  change (last (a :: c :: l) d) with (last (c :: l) d).
  rewrite (IH c d), (IH c a). reflexivity.
Qed.

Lemma last_after_two {A} (l : list A) a b d : last (a :: b :: l) d = last l b.
Proof. rewrite last_cons. apply last_cons. Qed.

Section BarLoop.

Import Backtester.

Variable self : Backtester.

Lemma process_exit_cases r st :
  loop_inv st ->
  (process_exit (risk_management self) r st = Ok st
   /\ (position st = 0%Z
       \/ exit_condition (risk_management self)
            (pnl_percent_of (close r) (entry_price st) (position st)) = false))
  \/
  (position st <> 0%Z
   /\ exit_condition (risk_management self)
        (pnl_percent_of (close r) (entry_price st) (position st)) = true
   /\ exists et,
       entry_time st = Some et
       /\ process_exit (risk_management self) r st
          = Ok (mk_loop_state
                  (capital st + (close r - entry_price st) * of_Z (position st))
                  0 (entry_price st) (entry_time st)
                  (loop_trades st ++
                   [Trade.mk et (index r) (entry_price st) (close r)
                      (position_name (position st))
                      ((close r - entry_price st) * of_Z (position st))
                      (pnl_percent_of (close r) (entry_price st) (position st))
                      (if pnl_percent_of (close r) (entry_price st) (position st) <? Fin 0
                       then "SL" else "TP")])
                  (loop_equity_curve st))).
Proof.
  intros (_ & Het & _). unfold process_exit.
  destruct (Z.eqb_spec (position st) 0) as [E|E]; simpl.
  - left. auto.
  - destruct (exit_condition _ _) eqn:Ex.
    + right. split; [assumption|]. split; [reflexivity|].
      destruct (entry_time st) as [et|] eqn:Eet.
      * exists et. split; reflexivity.
      * exfalso. apply (Het E). reflexivity.
    + left. auto.
Qed.

Lemma process_exit_inv r st :
  loop_inv st ->
  exists st1,
    process_exit (risk_management self) r st = Ok st1
    /\ loop_inv st1
    /\ ((st1 = st /\ True)
        \/ (position st <> 0%Z /\ position st1 = 0%Z
            /\ exists t, loop_trades st1 = loop_trades st ++ [t])).
Proof.
  intro Hinv. destruct (@process_exit_cases r st Hinv) as [[H _]|(Hp & _ & et & _ & H)].
  - exists st. auto.
  - eexists. split; [exact H|]. split.
    + destruct Hinv as (_ & _ & Hc). unfold loop_inv, Trace.is_state. simpl.
      split; [auto|]. split; [intro C; contradiction C; reflexivity | exact Hc].
    + right. simpl. split; [assumption|]. split; [reflexivity|]. eexists. reflexivity.
Qed.

Lemma process_entry_inv r st :
  loop_inv st ->
  let st' := process_entry (_check_strategy_signal (strategy_params self) r) r st in
  loop_inv st'
  /\ loop_trades st' = loop_trades st
  /\ capital st' = capital st
  /\ (position st' = position st \/ position st = 0%Z).
Proof.
  intros (Hs & Het & Hc). unfold process_entry.
  destruct (Z.eqb_spec (position st) 0) as [E|E]; simpl.
  - destruct (Z.eqb_spec (_check_strategy_signal (strategy_params self) r) 0) as [S|S]; simpl.
    + repeat split; auto.
    + unfold loop_inv. simpl. repeat split; auto.
      * apply check_signal_range.
      * discriminate.
  - repeat split; auto.
Qed.

Lemma update_equity_inv r st :
  loop_inv st ->
  loop_inv (update_equity r st)
  /\ loop_trades (update_equity r st) = loop_trades st
  /\ capital (update_equity r st) = capital st
  /\ position (update_equity r st) = position st.
Proof.
  intros (Hs & Het & Hc). unfold loop_inv, update_equity. simpl.
  repeat split; auto.
  intro C. apply app_eq_nil in C. destruct C as [_ C]. discriminate.
Qed.

Lemma bar_skipped r st :
  outside_trading_hours (index r) = true -> bar self r st = Ok st.
Proof. intro H. unfold bar. rewrite H. reflexivity. Qed.

Lemma bar_evaluated r st st1 :
  outside_trading_hours (index r) = false ->
  process_exit (risk_management self) r st = Ok st1 ->
  bar self r st
  = Ok (update_equity r
          (process_entry (_check_strategy_signal (strategy_params self) r) r st1)).
Proof. intros H H1. unfold bar. rewrite H, H1. reflexivity. Qed.

Lemma positions_skipped r rows st :
  outside_trading_hours (index r) = true ->
  Trace.positions self (r :: rows) st = Trace.positions self rows st.
Proof. intro H. simpl. rewrite H. reflexivity. Qed.

Lemma positions_evaluated r rows st st1 :
  outside_trading_hours (index r) = false ->
  process_exit (risk_management self) r st = Ok st1 ->
  Trace.positions self (r :: rows) st
  = position st1
    :: position (update_equity r
                   (process_entry (_check_strategy_signal (strategy_params self) r) r st1))
    :: Trace.positions self rows
         (update_equity r
            (process_entry (_check_strategy_signal (strategy_params self) r) r st1)).
Proof. intros H H1. cbn [Trace.positions]. rewrite H, H1. reflexivity. Qed.

Lemma bars_cons r rows st st1 :
  bar self r st = Ok st1 -> bars self (r :: rows) st = bars self rows st1.
Proof. intro H. cbn [bars]. rewrite H. reflexivity. Qed.

(** The loop never raises from a state that satisfies the invariant,
    and the trades it appends are counted by the moves of [position]. *)
Lemma bars_run rows :
  forall st,
    loop_inv st ->
    exists st' new,
      bars self rows st = Ok st'
      /\ loop_inv st'
      /\ loop_trades st' = loop_trades st ++ new
      /\ Forall Trace.is_state (Trace.positions self rows st)
      /\ Trace.opened_from_flat (position st) (Trace.positions self rows st)
      /\ position st' = last (Trace.positions self rows st) (position st)
      /\ length new = Trace.exits (position st) (Trace.positions self rows st)
      /\ (length new + (if (position st' =? 0)%Z then 0 else 1)
          = Trace.entries (position st) (Trace.positions self rows st)
            + (if (position st =? 0)%Z then 0 else 1))%nat.
Proof.
  induction rows as [|r rows IH]; intros st Hinv.
  - exists st, []. simpl. rewrite app_nil_r.
    split; [reflexivity|]. split; [exact Hinv|]. repeat split; auto.
  - destruct (outside_trading_hours (index r)) eqn:Hout.
    + rewrite (@bars_cons r rows st st (@bar_skipped r st Hout)),
              (@positions_skipped r rows st Hout).
      apply IH, Hinv.
    + destruct (@process_exit_inv r st Hinv) as (st1 & H1 & Hinv1 & Hcase).
      rewrite (@bars_cons r rows st _ (@bar_evaluated r st st1 Hout H1)),
              (@positions_evaluated r rows st st1 Hout H1).
      pose proof (@process_entry_inv r st1 Hinv1) as (Hinv2 & Ht2 & _ & Hp2).
      pose proof (@update_equity_inv r _ Hinv2) as (Hinv3 & Ht3 & _ & Hp3).
      set (st3 := update_equity r
                    (process_entry (_check_strategy_signal (strategy_params self) r) r st1)) in *.
      rewrite <- Hp3 in Hp2. rewrite <- Ht3 in Ht2. clearbody st3.
      destruct (IH st3 Hinv3) as (st' & new & Hb & Hinv' & Htr & Hall & Hop & Hlast & Hex & Hen).
      assert (Htrades : exists new1,
                 loop_trades st3 = loop_trades st ++ new1
                 /\ (length new1 = if negb (position st =? 0)%Z && (position st1 =? 0)%Z
                                    then 1 else 0)%nat
                 /\ (position st1 = position st \/ position st1 = 0%Z)).
      { rewrite Ht2. destruct Hcase as [[-> _]|(Hp & Hp1 & t & Ht)].
        - exists []. rewrite app_nil_r. split; [reflexivity|]. split; [|auto].
          destruct (Z.eqb_spec (position st) 0); reflexivity.
        - exists [t]. split; [assumption|]. split; [|auto].
          rewrite Hp1. destruct (Z.eqb_spec (position st) 0); [contradiction|reflexivity]. }
      destruct Htrades as (new1 & Hnew1 & Hlen1 & Hp1).
      exists st', (new1 ++ new).
      split; [exact Hb|]. split; [exact Hinv'|].
      split; [rewrite Htr, Hnew1, app_assoc; reflexivity|].
      split; [constructor; [apply Hinv1 | constructor; [apply Hinv3 | exact Hall]]|].
      split; [cbn [Trace.opened_from_flat]; repeat split; [tauto | tauto | exact Hop]|].
      split.
      { rewrite Hlast. apply eq_sym, last_after_two. }
      rewrite length_app, Hlen1, Hex. cbn [Trace.exits Trace.entries].
      destruct (Z.eqb_spec (position st) 0) as [E0|E0];
        destruct (Z.eqb_spec (position st1) 0) as [E1|E1];
        destruct (Z.eqb_spec (position st3) 0) as [E3|E3];
        destruct (Z.eqb_spec (position st') 0) as [E'|E'];
        simpl in *; try lia; try (exfalso; destruct Hp1; destruct Hp2; congruence).
Qed.

End BarLoop.

Section WholeRun.

Import Backtester.

Variable np_sqrt : float -> float.
Variable self : Backtester.

Lemma iloc_last_nonempty {A} (l : list A) :
  l <> [] -> exists x, Strategy.iloc_last l = Ok x /\ forall d, last l d = x.
Proof.
  intro H. destruct (exists_last H) as (l' & x & ->).
  exists x. unfold Strategy.iloc_last. rewrite rev_app_distr. simpl.
  split; [reflexivity|]. intro d. apply last_last.
Qed.

Lemma initial_state_inv price_data :
  price_data <> [] ->
  exists st0,
    initial_state self price_data = Ok st0
    /\ loop_inv st0
    /\ position st0 = 0%Z
    /\ loop_trades st0 = trades self.
Proof.
  destruct price_data as [|r0 rows]; [congruence|]. intros _.
  eexists. split; [reflexivity|]. unfold loop_inv, Trace.is_state. simpl.
  repeat split; auto. discriminate.
Qed.

Lemma close_at_end_cases last_row st :
  loop_inv st ->
  (position st = 0%Z /\ close_at_end last_row st = Ok st)
  \/
  (position st <> 0%Z
   /\ exists et,
       entry_time st = Some et
       /\ close_at_end last_row st
          = Ok (mk_loop_state
                  (capital st + (close last_row - entry_price st) * of_Z (position st))
                  (position st) (entry_price st) (entry_time st)
                  (loop_trades st ++
                   [Trade.mk et (index last_row) (entry_price st) (close last_row)
                      (position_name (position st))
                      ((close last_row - entry_price st) * of_Z (position st))
                      (pnl_percent_of (close last_row) (entry_price st) (position st))
                      "END"])
                  (loop_equity_curve st))).
Proof.
  intros (_ & Het & _). unfold close_at_end.
  destruct (Z.eqb_spec (position st) 0) as [E|E]; simpl.
  - left. auto.
  - right. split; [assumption|].
    destruct (entry_time st) as [et|] eqn:Eet.
    + exists et. split; reflexivity.
    + exfalso. apply (Het E). reflexivity.
Qed.

Lemma exits_closed prev tr :
  Trace.exits prev (tr ++ [0%Z])
  = (Trace.exits prev tr + (if (last tr prev =? 0)%Z then 0 else 1))%nat.
Proof.
  revert prev. induction tr as [|p tr IH]; intro prev.
  - simpl. destruct (prev =? 0)%Z; reflexivity.
  - rewrite last_cons. cbn [app Trace.exits]. rewrite IH. lia.
Qed.

Lemma entries_closed prev tr :
  Trace.entries prev (tr ++ [0%Z]) = Trace.entries prev tr.
Proof.
  revert prev. induction tr as [|p tr IH]; intro prev.
  - simpl. destruct (prev =? 0)%Z; reflexivity.
  - cbn [app Trace.entries]. rewrite IH. reflexivity.
Qed.

Lemma opened_from_flat_closed prev tr :
  Trace.opened_from_flat prev tr -> Trace.opened_from_flat prev (tr ++ [0%Z]).
Proof.
  revert prev. induction tr as [|p tr IH]; intros prev H.
  - simpl. auto.
  - destruct H as [H1 H2]. split; [exact H1 | apply IH, H2].
Qed.

(** The simulation of a table that is not empty: it runs to its end,
    and what it records is counted by the moves of [position]. *)
Lemma simulate_run price_data :
  price_data <> [] ->
  exists st recorded,
    simulate self price_data = Ok st
    /\ loop_equity_curve st <> []
    /\ loop_trades st = trades self ++ recorded
    /\ Forall Trace.is_state (Trace.run_positions self price_data)
    /\ Trace.opened_from_flat 0 (Trace.run_positions self price_data)
    /\ length recorded = Trace.exits 0 (Trace.run_positions self price_data)
    /\ length recorded = Trace.entries 0 (Trace.run_positions self price_data).
Proof.
  intro Hne.
  destruct (initial_state_inv Hne) as (st0 & H0 & Hinv0 & Hp0 & Ht0).
  destruct (@bars_run self (tl price_data) st0 Hinv0)
    as (st1 & new & Hb & Hinv1 & Htr & Hall & Hop & Hlast & Hex & Hen).
  destruct (iloc_last_nonempty Hne) as (last_row & Hl & _).
  unfold simulate, Trace.run_positions. rewrite H0. simpl. rewrite Hb. simpl.
  rewrite Hl. simpl. rewrite Hp0 in *.
  rewrite exits_closed, entries_closed, <- Hlast. simpl in Hen.
  destruct (close_at_end_cases last_row Hinv1) as [[Hp Hc]|(Hp & et & _ & Hc)];
    rewrite Hc.
  - exists st1, new. rewrite Hp in *. simpl in *.
    split; [reflexivity|]. split; [apply Hinv1|].
    split; [rewrite Htr, Ht0; reflexivity|].
    split; [apply Forall_app; split; [exact Hall | repeat constructor]|].
    split; [apply opened_from_flat_closed, Hop|].
    split; lia.
  - eexists. eexists (new ++ [_]).
    split; [reflexivity|]. simpl. split; [apply Hinv1|].
    split; [rewrite Htr, Ht0, app_assoc; reflexivity|].
    split; [apply Forall_app; split; [exact Hall | repeat constructor]|].
    split; [apply opened_from_flat_closed, Hop|].
    rewrite length_app. simpl.
    destruct (Z.eqb_spec (position st1) 0); [contradiction|]. split; lia.
Qed.

Lemma metrics_defined ts curve fc :
  curve <> [] ->
  exists m,
    _calculate_performance_metrics np_sqrt ts curve fc = Ok m
    /\ total_trades m = length ts
    /\ winning_trades m = length (profits ts)
    /\ losing_trades m = length (losses ts)
    /\ final_capital m = fc
    /\ sharpe_ratio m = sharpe_ratio_of np_sqrt (map equity curve).
Proof.
  destruct curve as [|p0 curve]; [congruence|]. intros _.
  eexists. split; [reflexivity|]. simpl. repeat split.
Qed.

Lemma run_backtest_of_simulate price_data st :
  simulate self price_data = Ok st ->
  loop_equity_curve st <> [] ->
  exists m,
    run_backtest np_sqrt self price_data
    = Ok (m, mk_backtester (strategy_params self) (risk_management self)
               (loop_trades st) (loop_equity_curve st) (Some m))
    /\ _calculate_performance_metrics np_sqrt (loop_trades st)
         (loop_equity_curve st) (capital st) = Ok m.
Proof.
  intros Hs Hc. destruct (metrics_defined (loop_trades st) (capital st) Hc) as (m & Hm & _).
  exists m. unfold run_backtest. rewrite Hs. simpl. rewrite Hm. simpl. auto.
Qed.

End WholeRun.

(** ** The backtest as a whole *)

(** A run on a table that is not empty returns its metrics. *)
Lemma run_backtest_completes np_sqrt self price_data :
  price_data <> [] ->
  exists m after, Backtester.run_backtest np_sqrt self price_data = Ok (m, after).
Proof.
  intro Hne.
  destruct (simulate_run self Hne) as (st & recorded & Hs & Hc & _).
  destruct (run_backtest_of_simulate np_sqrt self price_data Hs Hc) as (m & Hr & _).
  eexists. eexists. exact Hr.
Qed.

(** C8: for every candle table (one that is not empty, so that the run
    starts), the run completes, and along it the variable [position] is
    always one of FLAT (0), LONG (1) and SHORT (-1), hence at most one
    position is open; an open position only ever follows FLAT or itself,
    so a new position is opened from FLAT only; and the number of trades
    the run records equals the number of returns to FLAT of an open
    position, which is also the number of moves from FLAT to an open
    position: one trade for each FLAT, open, FLAT cycle, the forced
    close at the end of the data being the last return to FLAT.  The
    metrics count exactly the recorded trades on top of the ones the
    object held before the run (none after [__init__]). *)
Theorem one_position_one_trade_per_cycle :
  forall np_sqrt self price_data,
    price_data <> [] ->
    exists m after recorded,
      Backtester.run_backtest np_sqrt self price_data = Ok (m, after)
      /\ Forall Trace.is_state (Trace.run_positions self price_data)
      /\ Trace.opened_from_flat 0 (Trace.run_positions self price_data)
      /\ Backtester.trades after = Backtester.trades self ++ recorded
      /\ length recorded = Trace.exits 0 (Trace.run_positions self price_data)
      /\ length recorded = Trace.entries 0 (Trace.run_positions self price_data)
      /\ Backtester.total_trades m
         = (length (Backtester.trades self) + length recorded)%nat.
Proof.
  intros np_sqrt self price_data Hne.
  destruct (simulate_run self Hne)
    as (st & recorded & Hs & Hc & Ht & Hall & Hop & Hex & Hen).
  destruct (run_backtest_of_simulate np_sqrt self price_data Hs Hc) as (m & Hr & Hm).
  destruct (metrics_defined np_sqrt (Backtester.loop_trades st) (Backtester.capital st) Hc)
    as (m' & Hm' & Htot & _).
  rewrite Hm in Hm'. injection Hm' as <-.
  exists m, (Backtester.mk_backtester (Backtester.strategy_params self)
               (Backtester.risk_management self) (Backtester.loop_trades st)
               (Backtester.loop_equity_curve st) (Some m)), recorded.
  split; [exact Hr|]. split; [exact Hall|]. split; [exact Hop|].
  split; [exact Ht|]. split; [exact Hex|]. split; [exact Hen|].
  rewrite Htot, Ht, length_app. reflexivity.
Qed.

(** The stop-loss sample: one entry, one exit, one trade. *)
Lemma one_position_one_trade_per_cycle_witness :
  exists m after recorded,
    Backtester.run_backtest Samples.sqrt_approx Samples.default_backtester
      Samples.stop_loss_rows = Ok (m, after)
    /\ Forall Trace.is_state
         (Trace.run_positions Samples.default_backtester Samples.stop_loss_rows)
    /\ Trace.opened_from_flat 0
         (Trace.run_positions Samples.default_backtester Samples.stop_loss_rows)
    /\ Backtester.trades after
       = Backtester.trades Samples.default_backtester ++ recorded
    /\ length recorded
       = Trace.exits 0 (Trace.run_positions Samples.default_backtester Samples.stop_loss_rows)
    /\ length recorded
       = Trace.entries 0 (Trace.run_positions Samples.default_backtester Samples.stop_loss_rows)
    /\ Backtester.total_trades m
       = (length (Backtester.trades Samples.default_backtester) + length recorded)%nat.
Proof.
  apply (one_position_one_trade_per_cycle Samples.sqrt_approx
           Samples.default_backtester (price_data := Samples.stop_loss_rows)).
  discriminate.
Defined.

(** A bar whose close is [NaN] exits nothing and enters nothing. *)
Lemma nan_close_no_exit risk e p :
  Backtester.exit_condition risk (Backtester.pnl_percent_of NaN e p) = false.
Proof.
  unfold Backtester.exit_condition, Backtester.pnl_percent_of. simpl.
  unfold geb. destruct (Backtester.TAKE_PROFIT_PERCENT risk); reflexivity.
Qed.

Lemma nan_close_no_signal p r :
  Backtester.close r = NaN -> Backtester._check_strategy_signal p r = 0%Z.
Proof.
  intro H. unfold Backtester._check_strategy_signal, Backtester.long_signal,
    Backtester.short_signal, Backtester.ma_long, Backtester.ma_short.
  rewrite H. unfold gtb.
  replace (Backtester.ma r <? NaN) with false
    by (destruct (Backtester.ma r); reflexivity).
  simpl. rewrite !andb_false_r. reflexivity.
Qed.

(** C7 (as amended): [run_backtest] validates nothing.  It raises on an
    empty table only, before the first bar (the first index does not
    exist); on every table that is not empty, whatever the order of the
    timestamps and whatever the prices, [NaN] included, it runs to its
    end and returns metrics, without any error.  A bar inside the
    trading hours whose close is [NaN] is not rejected: it closes no
    position and opens none (every comparison with [NaN] is false), and
    an equity point is appended for it like for any other bar. *)
Theorem backtest_accepts_any_candles :
  forall np_sqrt self,
    Backtester.run_backtest np_sqrt self [] = Raise IndexError
    /\ (forall price_data,
           price_data <> [] ->
           exists m after,
             Backtester.run_backtest np_sqrt self price_data = Ok (m, after))
    /\ (forall r st,
           Backtester.outside_trading_hours (Backtester.index r) = false ->
           Backtester.close r = NaN ->
           Backtester.bar self r st = Ok (Backtester.update_equity r st)).
Proof.
  intros np_sqrt self. split; [reflexivity|]. split.
  - intros price_data Hne.
    destruct (run_backtest_completes np_sqrt self Hne) as (m & after & H).
    exists m, after. exact H.
  - intros r st Hout Hnan.
    unfold Backtester.bar. rewrite Hout.
    rewrite (nan_close_no_signal _ r Hnan).
    unfold Backtester.process_exit. rewrite Hnan, nan_close_no_exit.
    destruct (negb (Backtester.position st =? 0)%Z); simpl;
      unfold Backtester.process_entry; simpl; rewrite andb_false_r; reflexivity.
Qed.

(** The malformed sample runs to its end, and a [NaN] bar leaves an open
    LONG as it is. *)
Lemma backtest_accepts_any_candles_witness :
  (exists m after,
      Backtester.run_backtest Samples.sqrt_approx Samples.default_backtester
        Samples.malformed_rows = Ok (m, after))
  /\ Backtester.bar Samples.default_backtester
       (Samples.quiet_row (Samples.at_time 1 9 45) NaN) Samples.long_at_100
     = Ok (Backtester.update_equity
             (Samples.quiet_row (Samples.at_time 1 9 45) NaN) Samples.long_at_100).
Proof.
  destruct (backtest_accepts_any_candles Samples.sqrt_approx Samples.default_backtester)
    as (_ & Hrun & Hbar).
  split.
  - apply Hrun. discriminate.
  - apply Hbar; reflexivity.
Defined.

(** C7, as stated, fails.  On a table whose timestamps go backwards
    (10:00, 09:45, 09:30) and whose second close is [NaN] the run raises
    nothing: it returns metrics, records no trade, and appends an equity
    point for the [NaN] bar and for the out-of-order bar alike. *)
Lemma malformed_candles_not_rejected :
  exists m after,
    Backtester.run_backtest Samples.sqrt_approx Samples.default_backtester
      Samples.malformed_rows = Ok (m, after)
    /\ Backtester.trades after = []
    /\ map Backtester.timestamp (Backtester.equity_curve after)
       = [Samples.at_time 1 10 0; Samples.at_time 1 9 45; Samples.at_time 1 9 30].
Proof. eexists. eexists. split; [vm_compute; reflexivity|]. split; reflexivity. Qed.

(** C9: when the loop ends with a position still open, the run closes
    it at the close of the last row of the table, with that row's
    timestamp and the exit reason END, whether or not the loop has
    evaluated that row (the quantification covers last rows outside the
    loop's 09:15 to 15:15 window); the trade's P&L is added to the
    capital and the equity curve is left as the loop built it.  So the
    last equity point can differ from the final capital: on the sample
    table, whose last candle is at 15:30 and is skipped by the loop, the
    last equity point is 100000, taken at 09:30, and the final capital
    is 100001.5. *)
Theorem forced_close_at_last_candle :
  (forall self price_data st0 st,
      Backtester.initial_state self price_data = Ok st0 ->
      Backtester.bars self (tl price_data) st0 = Ok st ->
      Backtester.position st <> 0%Z ->
      exists last_row et st',
        Strategy.iloc_last price_data = Ok last_row
        /\ Backtester.entry_time st = Some et
        /\ Backtester.simulate self price_data = Ok st'
        /\ Backtester.loop_trades st'
           = Backtester.loop_trades st ++
             [Backtester.Trade.mk et (Backtester.index last_row)
                (Backtester.entry_price st) (Backtester.close last_row)
                (Backtester.position_name (Backtester.position st))
                ((Backtester.close last_row - Backtester.entry_price st)
                 * of_Z (Backtester.position st))
                (Backtester.pnl_percent_of (Backtester.close last_row)
                   (Backtester.entry_price st) (Backtester.position st))
                "END"]
        /\ Backtester.loop_equity_curve st' = Backtester.loop_equity_curve st
        /\ Backtester.capital st'
           = Backtester.capital st
             + (Backtester.close last_row - Backtester.entry_price st)
               * of_Z (Backtester.position st))
  /\
  (exists m after last_row last_point,
      Backtester.run_backtest Samples.sqrt_approx Samples.default_backtester
        Samples.open_at_close_rows = Ok (m, after)
      /\ Strategy.iloc_last Samples.open_at_close_rows = Ok last_row
      /\ Backtester.outside_trading_hours (Backtester.index last_row) = true
      /\ map Backtester.Trade.exit_time (Backtester.trades after)
         = [Backtester.index last_row]
      /\ map Backtester.Trade.exit_price (Backtester.trades after)
         = [Backtester.close last_row]
      /\ map Backtester.Trade.exit_reason (Backtester.trades after) = ["END"]
      /\ Strategy.iloc_last (Backtester.equity_curve after) = Ok last_point
      /\ Backtester.timestamp last_point = Samples.at_time 1 9 30
      /\ Backtester.equity last_point == Fin 100000
      /\ Backtester.final_capital m == Fin (200003 # 2)).
Proof.
  split.
  - intros self price_data st0 st H0 Hb Hp.
    assert (Hne : price_data <> []) by (intros ->; discriminate).
    destruct (initial_state_inv self Hne) as (st0' & H0' & Hinv0 & _).
    rewrite H0 in H0'. injection H0' as <-.
    destruct (@bars_run self (tl price_data) st0 Hinv0) as (st1 & new & Hb' & Hinv1 & _).
    rewrite Hb in Hb'. injection Hb' as <-.
    destruct (iloc_last_nonempty Hne) as (last_row & Hl & _).
    destruct (close_at_end_cases last_row Hinv1) as [[Hz _]|(_ & et & Het & Hc)];
      [contradiction|].
    exists last_row, et. eexists.
    split; [exact Hl|]. split; [exact Het|].
    split; [unfold Backtester.simulate; rewrite H0; simpl; rewrite Hb; simpl;
            rewrite Hl; simpl; exact Hc|].
    simpl. repeat split.
  - do 4 eexists.
    split; [vm_compute; reflexivity|].
    split; [vm_compute; reflexivity|].
    repeat split; vm_compute; reflexivity.
Qed.

(** The sample whose last candle is at 15:30: one trade, closed END. *)
Lemma forced_close_at_last_candle_witness :
  exists st',
    Backtester.simulate Samples.default_backtester Samples.open_at_close_rows = Ok st'
    /\ map Backtester.Trade.exit_reason (Backtester.loop_trades st') = ["END"].
Proof.
  edestruct (proj1 forced_close_at_last_candle
               Samples.default_backtester Samples.open_at_close_rows)
    as (last_row & et & st' & _ & _ & Hs & Ht & _).
  - reflexivity.
  - vm_compute. reflexivity.
  - vm_compute. discriminate.
  - exists st'. split; [exact Hs|]. rewrite Ht. reflexivity.
Defined.

(** ** Stop loss and take profit *)

Section LongAt100.

Import Binary64.
Local Open Scope Q_scope.




(** At a close of 115 it is 14.999999999999991: under a take-profit
    level of 15 the position stays open. *)
Lemma pnl_percent_at_115 :
  Backtester64.pnl_percent_of (Finite 115) (Finite 100) 1
  = Finite (8444249301319675 # 562949953421312)
  /\ Backtester.exit_condition (Backtester.mk_risk_management (Fin 1) (Fin 15))
       (val (Backtester64.pnl_percent_of (Finite 115) (Finite 100) 1)) = false.
Proof. split; vm_compute; reflexivity. Qed.




End LongAt100.

Section Exits.

Import Binary64 Backtester64.

Variable self : Backtester.Backtester.







End Exits.




(** ** The performance metrics *)

Lemma div_by_zero_not_finite x y : y == Fin 0 -> is_finite (x / y) = false.
Proof.
  destruct y as [b| | |]; simpl; try contradiction.
  intro Hb. apply Qis0_true in Hb.
  destruct x as [a| | |]; simpl; try reflexivity.
  - rewrite Hb. destruct (Qis0 a); [reflexivity|].
    unfold inf_of_sign. destruct (Qltb 0 a); reflexivity.
  - destruct (Qltb b 0); reflexivity.
  - destruct (Qltb b 0); reflexivity.
Qed.

(** C5 (as amended): the Sharpe ratio of the metrics is computed from
    the equity column alone; it is 0 when the equity curve has fewer
    than 2 points, and 0 when no percentage change is defined;
    otherwise it is sqrt(252) x mean(returns) / stdDev(returns) over the
    successive percentage changes of the equity curve, without any guard
    on the deviation: when the standard deviation of the returns is
    zero the ratio is [NaN] or an infinity, never 0. *)
Theorem sharpe_ratio_cases :
  forall np_sqrt,
    (forall ts curve fc m,
        Backtester._calculate_performance_metrics np_sqrt ts curve fc = Ok m ->
        Backtester.sharpe_ratio m
        = Backtester.sharpe_ratio_of np_sqrt (map Backtester.equity curve))
    /\
    (forall equity_col,
        (length equity_col < 2)%nat ->
        Backtester.sharpe_ratio_of np_sqrt equity_col = Fin 0)
    /\
    (forall equity_col,
        SharpeSpec.equity_returns equity_col = [] ->
        Backtester.sharpe_ratio_of np_sqrt equity_col = Fin 0)
    /\
    (forall equity_col,
        (2 <= length equity_col)%nat ->
        SharpeSpec.equity_returns equity_col <> [] ->
        Backtester.sharpe_ratio_of np_sqrt equity_col
        = SharpeSpec.annualized np_sqrt (SharpeSpec.equity_returns equity_col))
    /\
    (forall equity_col,
        (2 <= length equity_col)%nat ->
        SharpeSpec.equity_returns equity_col <> [] ->
        Pandas.std np_sqrt (SharpeSpec.equity_returns equity_col) == Fin 0 ->
        is_finite (Backtester.sharpe_ratio_of np_sqrt equity_col) = false).
Proof.
  intro np_sqrt.
  assert (Hform : forall equity_col,
             (2 <= length equity_col)%nat ->
             SharpeSpec.equity_returns equity_col <> [] ->
             Backtester.sharpe_ratio_of np_sqrt equity_col
             = SharpeSpec.annualized np_sqrt (SharpeSpec.equity_returns equity_col)).
  { intros equity_col Hlen Hne. unfold Backtester.sharpe_ratio_of.
    fold (SharpeSpec.equity_returns equity_col).
    destruct (Nat.ltb_spec 1 (length equity_col)) as [_|C]; [|lia].
    destruct (SharpeSpec.equity_returns equity_col) as [|x l]; [congruence|].
    reflexivity. }
  split; [|split; [|split; [|split]]].
  - intros ts curve fc m Hm.
    destruct curve as [|p0 curve]; [discriminate|].
    simpl in Hm. injection Hm as <-. reflexivity.
  - intros equity_col Hlen. unfold Backtester.sharpe_ratio_of.
    destruct (Nat.ltb_spec 1 (length equity_col)) as [C|_]; [lia|reflexivity].
  - intros equity_col Hnil. unfold Backtester.sharpe_ratio_of.
    fold (SharpeSpec.equity_returns equity_col). rewrite Hnil.
    destruct (1 <? length equity_col)%nat; reflexivity.
  - exact Hform.
  - intros equity_col Hlen Hne Hstd. rewrite (Hform equity_col Hlen Hne).
    unfold SharpeSpec.annualized. apply div_by_zero_not_finite, Hstd.
Qed.

(** One equity point, two undefined ones, a curve with a gain, and the
    flat curve. *)
Lemma sharpe_ratio_cases_witness :
  (exists m,
      Backtester._calculate_performance_metrics Samples.sqrt_approx
        Samples.two_trades Samples.two_trades_curve (Fin 100005) = Ok m
      /\ Backtester.sharpe_ratio m
         = Backtester.sharpe_ratio_of Samples.sqrt_approx
             (map Backtester.equity Samples.two_trades_curve))
  /\ Backtester.sharpe_ratio_of Samples.sqrt_approx [Fin 100000] = Fin 0
  /\ Backtester.sharpe_ratio_of Samples.sqrt_approx [NaN; NaN] = Fin 0
  /\ Backtester.sharpe_ratio_of Samples.sqrt_approx
       (map Backtester.equity Samples.two_trades_curve)
     = SharpeSpec.annualized Samples.sqrt_approx
         (SharpeSpec.equity_returns (map Backtester.equity Samples.two_trades_curve))
  /\ is_finite (Backtester.sharpe_ratio_of Samples.sqrt_approx Samples.flat_curve) = false.
Proof.
  destruct (sharpe_ratio_cases Samples.sqrt_approx)
    as (Hmetrics & Hshort & Hnone & Hform & Hzero).
  split; [|split; [|split; [|split]]].
  - eexists. split; [reflexivity|].
    apply (Hmetrics Samples.two_trades Samples.two_trades_curve (Fin 100005)).
    reflexivity.
  - apply Hshort. simpl. lia.
  - apply Hnone. reflexivity.
  - apply Hform; [simpl; lia | vm_compute; discriminate].
  - apply Hzero; [simpl; lia | vm_compute; discriminate | vm_compute; reflexivity].
Defined.

(** C5, as stated, fails.  On the equity curve 100000, 100000, 100000
    (three evaluated bars without a trade) both returns are 0 and their
    variance is zero, yet the Sharpe ratio is not 0: it is [NaN], from
    0/0; the run on three flat bars reports it in its metrics. *)
Lemma zero_variance_sharpe_is_nan :
  Pandas.var (SharpeSpec.equity_returns Samples.flat_curve) == Fin 0
  /\ Backtester.sharpe_ratio_of Samples.sqrt_approx Samples.flat_curve = NaN
  /\ exists m after,
       Backtester.run_backtest Samples.sqrt_approx Samples.default_backtester
         Samples.flat_rows = Ok (m, after)
       /\ map Backtester.equity (Backtester.equity_curve after) = Samples.flat_curve
       /\ Backtester.sharpe_ratio m = NaN.
Proof.
  split; [vm_compute; reflexivity|]. split; [vm_compute; reflexivity|].
  eexists. eexists. split; [vm_compute; reflexivity|].
  split; vm_compute; reflexivity.
Qed.

(** *** Winning and losing trades *)

(** Apart from [NaN], a P&L is above zero or at most zero, not both. *)
Lemma above_or_at_most_zero x :
  isnan x = false -> (x >? Fin 0) = negb (x <=? Fin 0).
Proof. destruct x; intro H; try reflexivity. discriminate. Qed.

Lemma filter_map_length {A B} (f : B -> bool) (g : A -> B) (l : list A) :
  length (filter f (map g l)) = length (filter (fun a => f (g a)) l).
Proof.
  induction l as [|a l IH]; simpl; [reflexivity|].
  destruct (f (g a)); simpl; rewrite IH; reflexivity.
Qed.

Lemma win_loss_partition (ts : list Backtester.Trade.t) :
  Forall (fun t => isnan (Backtester.Trade.pnl t) = false) ts ->
  (length (Backtester.profits ts) + length (Backtester.losses ts) = length ts)%nat.
Proof.
  unfold Backtester.profits, Backtester.losses.
  induction 1 as [|t ts Ht _ IH]; [reflexivity|].
  cbn [map filter]. rewrite (above_or_at_most_zero _ Ht).
  destruct (Backtester.Trade.pnl t <=? Fin 0); cbn [negb length]; lia.
Qed.

Section FinitePrices.

Import Backtester.

Variable self : Backtester.

Lemma finite_pnl c e p :
  is_finite c = true -> is_finite e = true -> isnan ((c - e) * of_Z p) = false.
Proof.
  destruct c; try discriminate. destruct e; try discriminate. reflexivity.
Qed.

Lemma bar_finite r st st' :
  is_finite (close r) = true ->
  finite_inv st -> bar self r st = Ok st' -> finite_inv st'.
Proof.
  intros Hc [He Ht]. unfold bar.
  destruct (outside_trading_hours (index r)); [intro H; injection H as <-; split; assumption|].
  assert (H1 : forall st1, process_exit (risk_management self) r st = Ok st1 -> finite_inv st1).
  { intro st1. unfold process_exit.
    destruct (negb (position st =? 0)%Z); [|intro H; injection H as <-; split; assumption].
    destruct (exit_condition _ _); [|intro H; injection H as <-; split; assumption].
    destruct (entry_time st) as [et|]; [|discriminate].
    intro H. injection H as <-. split; [exact He|]. simpl.
    apply Forall_app. split; [exact Ht|]. constructor; [|constructor].
    apply finite_pnl; assumption. }
  destruct (process_exit (risk_management self) r st) as [st1|e]; [|discriminate].
  simpl. intro H. injection H as <-.
  destruct (H1 st1 eq_refl) as [He1 Ht1].
  unfold update_equity, process_entry.
  destruct ((position st1 =? 0)%Z && negb (_ =? 0)%Z); split; simpl; assumption.
Qed.

Lemma bars_finite rows :
  Forall (fun r => is_finite (close r) = true) rows ->
  forall st st', finite_inv st -> bars self rows st = Ok st' -> finite_inv st'.
Proof.
  induction 1 as [|r rows Hr _ IH]; intros st st' Hinv; simpl.
  - intro H. injection H as <-. exact Hinv.
  - destruct (bar self r st) as [st1|e] eqn:Hb; [|discriminate]. simpl.
    apply IH. exact (@bar_finite r st st1 Hr Hinv Hb).
Qed.

Lemma simulate_finite price_data st :
  numeric_pnl (trades self) ->
  Forall (fun r => is_finite (close r) = true) price_data ->
  simulate self price_data = Ok st ->
  numeric_pnl (loop_trades st).
Proof.
  intros Ht Hfin. unfold simulate.
  destruct price_data as [|r0 rows] eqn:Ed; [discriminate|]. rewrite <- Ed in *.
  assert (Hne : price_data <> []) by (rewrite Ed; discriminate).
  unfold initial_state. rewrite Ed at 1. simpl bind.
  match goal with |- (st1 <- bars self _ ?s0 ;; _) = _ -> _ => set (st0 := s0) end.
  assert (Hinv0 : finite_inv st0) by (split; [reflexivity | exact Ht]).
  destruct (bars self (tl price_data) st0) as [st1|e] eqn:Hb; [|discriminate]. simpl.
  assert (Htl : Forall (fun r => is_finite (close r) = true) (tl price_data)).
  { rewrite Ed in *. simpl. inversion Hfin; assumption. }
  destruct (@bars_finite (tl price_data) Htl st0 st1 Hinv0 Hb) as [He1 Ht1].
  destruct (iloc_last_nonempty Hne) as (last_row & Hl & Hlast). rewrite Hl. simpl.
  assert (Hlr : is_finite (close last_row) = true).
  { assert (Hin : In last_row price_data).
    { rewrite <- (Hlast r0). destruct (exists_last Hne) as (l' & x & ->).
      rewrite last_last. apply in_or_app. right. left. reflexivity. }
    exact (proj1 (Forall_forall _ _) Hfin last_row Hin). }
  unfold close_at_end. destruct (negb (position st1 =? 0)%Z).
  - destruct (entry_time st1); [|discriminate].
    intro H. injection H as <-. simpl.
    apply Forall_app. split; [exact Ht1|]. constructor; [|constructor].
    apply finite_pnl; assumption.
  - intro H. injection H as <-. exact Ht1.
Qed.

End FinitePrices.

(** C10 (as amended): the metrics count as winning the trades whose
    P&L is above zero and as losing those whose P&L is at most zero, so
    a trade with a P&L of exactly zero is a losing trade; winning plus
    losing trades equal the total whenever no P&L is [NaN], which is the
    case for every run on candles whose closes are all finite numbers
    (the object holding no [NaN] trade before the run).  A trade whose
    P&L is [NaN] is counted in the total only. *)
Theorem win_loss_classification :
  forall np_sqrt,
    (forall ts curve fc m,
        Backtester._calculate_performance_metrics np_sqrt ts curve fc = Ok m ->
        Backtester.total_trades m = length ts
        /\ Backtester.winning_trades m
           = length (filter (fun t => Backtester.Trade.pnl t >? Fin 0) ts)
        /\ Backtester.losing_trades m
           = length (filter (fun t => Backtester.Trade.pnl t <=? Fin 0) ts)
        /\ (Forall (fun t => isnan (Backtester.Trade.pnl t) = false) ts ->
            (Backtester.winning_trades m + Backtester.losing_trades m
             = Backtester.total_trades m)%nat))
    /\
    (forall x, x == Fin 0 -> (x >? Fin 0) = false /\ (x <=? Fin 0) = true)
    /\
    (forall self price_data m after,
        Forall (fun t => isnan (Backtester.Trade.pnl t) = false) (Backtester.trades self) ->
        Forall (fun r => is_finite (Backtester.close r) = true) price_data ->
        Backtester.run_backtest np_sqrt self price_data = Ok (m, after) ->
        (Backtester.winning_trades m + Backtester.losing_trades m
         = Backtester.total_trades m)%nat).
Proof.
  intro np_sqrt.
  assert (Hcount : forall ts curve fc m,
             Backtester._calculate_performance_metrics np_sqrt ts curve fc = Ok m ->
             Backtester.total_trades m = length ts
             /\ Backtester.winning_trades m = length (Backtester.profits ts)
             /\ Backtester.losing_trades m = length (Backtester.losses ts)).
  { intros ts curve fc m Hm. destruct curve as [|p0 curve]; [discriminate|].
    simpl in Hm. injection Hm as <-. repeat split. }
  split; [|split].
  - intros ts curve fc m Hm. destruct (Hcount ts curve fc m Hm) as (Ht & Hw & Hl).
    split; [exact Ht|].
    split; [rewrite Hw; apply filter_map_length|].
    split; [rewrite Hl; apply filter_map_length|].
    intro Hnum. rewrite Ht, Hw, Hl. apply win_loss_partition, Hnum.
  - intros x Hx. destruct x as [q| | |]; simpl in Hx; try contradiction.
    unfold gtb. simpl. split.
    + apply Qltb_ge. lra.
    + apply Qle_bool_iff. lra.
  - intros self price_data m after Hts Hfin Hrun.
    unfold Backtester.run_backtest in Hrun.
    destruct (Backtester.simulate self price_data) as [st|e] eqn:Hs; [|discriminate].
    simpl in Hrun.
    destruct (Backtester._calculate_performance_metrics np_sqrt _ _ _) as [m'|e] eqn:Hm;
      [|discriminate].
    simpl in Hrun. injection Hrun as <- _.
    destruct (Hcount _ _ _ _ Hm) as (Ht & Hw & Hl).
    rewrite Ht, Hw, Hl. apply win_loss_partition.
    exact (@simulate_finite self price_data st Hts Hfin Hs).
Qed.

(** Two trades with P&L 0 and 5: two trades, one winning, one losing;
    and the stop-loss sample run. *)
Lemma win_loss_classification_witness :
  (exists m,
      Backtester._calculate_performance_metrics Samples.sqrt_approx
        Samples.two_trades Samples.two_trades_curve (Fin 100005) = Ok m
      /\ Backtester.total_trades m = 2%nat
      /\ Backtester.winning_trades m = 1%nat
      /\ Backtester.losing_trades m = 1%nat
      /\ (Backtester.winning_trades m + Backtester.losing_trades m
          = Backtester.total_trades m)%nat)
  /\ ((Fin (0 # 5) >? Fin 0) = false /\ (Fin (0 # 5) <=? Fin 0) = true)
  /\ (exists m after,
        Backtester.run_backtest Samples.sqrt_approx Samples.default_backtester
          Samples.stop_loss_rows = Ok (m, after)
        /\ (Backtester.winning_trades m + Backtester.losing_trades m
            = Backtester.total_trades m)%nat).
Proof.
  destruct (win_loss_classification Samples.sqrt_approx) as (Hcount & Hzero & Hrun).
  split; [|split].
  - eexists. split; [reflexivity|].
    destruct (Hcount Samples.two_trades Samples.two_trades_curve (Fin 100005) _ eq_refl)
      as (Ht & Hw & Hl & Hsum).
    split; [exact Ht|]. split; [exact Hw|]. split; [exact Hl|].
    apply Hsum. repeat constructor.
  - apply Hzero. reflexivity.
  - destruct (@run_backtest_completes Samples.sqrt_approx Samples.default_backtester
                Samples.stop_loss_rows) as (m & after & Hr); [discriminate|].
    exists m, after. split; [exact Hr|].
    apply (Hrun Samples.default_backtester Samples.stop_loss_rows m after).
    + constructor.
    + repeat constructor.
    + exact Hr.
Defined.

(** C10, as stated, fails.  On a table that opens a LONG at 100 and
    ends on a candle whose close is [NaN], the forced close records a
    trade whose P&L is [NaN]: the metrics count one trade, no winning
    trade and no losing trade. *)
Lemma nan_trade_neither_won_nor_lost :
  exists m after,
    Backtester.run_backtest Samples.sqrt_approx Samples.default_backtester
      Samples.nan_last_rows = Ok (m, after)
    /\ map Backtester.Trade.pnl (Backtester.trades after) = [NaN]
    /\ Backtester.total_trades m = 1%nat
    /\ Backtester.winning_trades m = 0%nat
    /\ Backtester.losing_trades m = 0%nat.
Proof.
  eexists. eexists. split; [vm_compute; reflexivity|].
  repeat split.
Qed.

(* ================================================================= *)
(** * Further properties *)

(** ** The records of a run *)

Section RunLedger.

Import Backtester Ledger.

Variable self : Backtester.
Variable all : list Row.

Lemma direction_of_position_name (z : Z) t :
  Trace.is_state z -> z <> 0%Z ->
  Trade.position t = position_name z ->
  direction t = z /\ (Trade.position t = "LONG" \/ Trade.position t = "SHORT").
Proof.
  intros [H|[H|H]] Hz Hn; [contradiction| |]; subst z;
    unfold direction; rewrite Hn; simpl; auto.
Qed.

Lemma iloc_last_snoc {A} (l : list A) (x : A) : Strategy.iloc_last (l ++ [x]) = Ok x.
Proof. unfold Strategy.iloc_last. rewrite rev_app_distr. reflexivity. Qed.

(** One evaluated bar: at most one trade, closed at this bar; one
    equity point; the capital moves by the P&L of the trade. *)
Lemma bar_ledger r st :
  In r all ->
  outside_trading_hours (index r) = false ->
  loop_inv st ->
  open_inv (strategy_params self) all st ->
  exists st' new,
    bar self r st = Ok st'
    /\ loop_inv st'
    /\ open_inv (strategy_params self) all st'
    /\ flat_settled st'
    /\ loop_trades st' = loop_trades st ++ new
    /\ capital st' = settle (capital st) new
    /\ Forall (closed_at self all r) new
    /\ (exists pt,
          loop_equity_curve st' = loop_equity_curve st ++ [pt]
          /\ timestamp pt = index r)
    /\ (position st' = _check_strategy_signal (strategy_params self) r
        \/ (position st' = position st /\ entry_time st' = entry_time st
            /\ entry_price st' = entry_price st))
    /\ (position st = 0%Z -> new = []).
Proof.
  intros Hin Hout Hinv Hopen.
  destruct (@process_exit_inv self r st Hinv) as (st1 & H1 & Hinv1 & _).
  pose proof (@bar_evaluated self r st st1 Hout H1) as Hbar.
  pose proof (@process_entry_inv self r st1 Hinv1) as (Hinv2 & Ht2 & Hc2 & Hp2).
  pose proof (@update_equity_inv r _ Hinv2) as (Hinv3 & Ht3 & Hc3 & Hp3).
  set (sig := _check_strategy_signal (strategy_params self) r) in *.
  assert (Hfin : forall new,
             loop_trades st1 = loop_trades st ++ new ->
             capital st1 = settle (capital st) new ->
             Forall (closed_at self all r) new ->
             open_inv (strategy_params self) all st1 ->
             (position st1 = 0%Z
              \/ (position st1 = position st /\ entry_time st1 = entry_time st
                  /\ entry_price st1 = entry_price st)) ->
             (position st = 0%Z -> new = []) ->
             exists st' new,
               bar self r st = Ok st'
               /\ loop_inv st'
               /\ open_inv (strategy_params self) all st'
               /\ flat_settled st'
               /\ loop_trades st' = loop_trades st ++ new
               /\ capital st' = settle (capital st) new
               /\ Forall (closed_at self all r) new
               /\ (exists pt,
                     loop_equity_curve st' = loop_equity_curve st ++ [pt]
                     /\ timestamp pt = index r)
               /\ (position st' = sig
                   \/ (position st' = position st /\ entry_time st' = entry_time st
                       /\ entry_price st' = entry_price st))
               /\ (position st = 0%Z -> new = [])).
  { intros new Hnew Hcap Hall Hopen1 Hkeep Hflat.
    eexists. exists new. split; [exact Hbar|]. split; [exact Hinv3|].
    assert (Hcurve1 : loop_equity_curve st1 = loop_equity_curve st).
    { revert H1. unfold process_exit.
      destruct (negb (position st =? 0)%Z); [|intro E; injection E as <-; reflexivity].
      destruct (exit_condition _ _); [|intro E; injection E as <-; reflexivity].
      destruct (entry_time st); [|discriminate].
      intro E; injection E as <-; reflexivity. }
    unfold update_equity, process_entry in *.
    destruct (Z.eqb_spec (position st1) 0) as [E1|E1];
      destruct (Z.eqb_spec sig 0) as [S|S];
      cbn [andb negb position capital entry_time entry_price loop_trades
           loop_equity_curve] in *.
    - rewrite E1. cbn [Z.eqb negb].
      split; [intro C; contradiction|].
      split; [intros _; eexists; split; [apply iloc_last_snoc|reflexivity]|].
      split; [exact Hnew|]. split; [exact Hcap|]. split; [exact Hall|].
      split; [eexists; split; [rewrite Hcurve1; reflexivity | reflexivity]|].
      split; [left; congruence | exact Hflat].
    - split; [intros _; exists r; repeat split; auto|].
      split; [intro C; contradiction|].
      split; [exact Hnew|]. split; [exact Hcap|]. split; [exact Hall|].
      split; [eexists; split; [rewrite Hcurve1; reflexivity | reflexivity]|].
      split; [left; reflexivity | exact Hflat].
    - split; [exact Hopen1|].
      split; [intro C; contradiction|].
      split; [exact Hnew|]. split; [exact Hcap|]. split; [exact Hall|].
      split; [eexists; split; [rewrite Hcurve1; reflexivity | reflexivity]|].
      split; [right; destruct Hkeep as [C|K]; [contradiction|exact K] | exact Hflat].
    - split; [exact Hopen1|].
      split; [intro C; contradiction|].
      split; [exact Hnew|]. split; [exact Hcap|]. split; [exact Hall|].
      split; [eexists; split; [rewrite Hcurve1; reflexivity | reflexivity]|].
      split; [right; destruct Hkeep as [C|K]; [contradiction|exact K] | exact Hflat]. }
  destruct (@process_exit_cases self r st Hinv) as [[Hk _]|(Hp & Hex & et & Het & Hc)].
  - rewrite Hk in H1. injection H1 as <-.
    apply (Hfin []).
    + rewrite app_nil_r. reflexivity.
    + reflexivity.
    + constructor.
    + exact Hopen.
    + right. auto.
    + reflexivity.
  - rewrite Hc in H1. injection H1 as <-.
    eapply Hfin.
    + reflexivity.
    + reflexivity.
    + constructor; [|constructor].
      destruct (Hopen Hp) as (r0 & Hr0 & Hout0 & Hsig0 & Het0 & Hep0).
      rewrite Het in Het0. injection Het0 as ->.
      destruct Hinv as (Hstate & _).
      destruct (@direction_of_position_name (position st)
                  (Trade.mk (index r0) (index r) (entry_price st) (close r)
                     (position_name (position st))
                     ((close r - entry_price st) * of_Z (position st))
                     (pnl_percent_of (close r) (entry_price st) (position st))
                     (if pnl_percent_of (close r) (entry_price st) (position st) <? Fin 0
                      then "SL" else "TP")) Hstate Hp eq_refl) as [Hd Hname].
      unfold closed_at. split; [|split].
      * unfold consistent. rewrite Hd. cbn [Trade.position Trade.pnl Trade.pnl_percent
          Trade.exit_price Trade.entry_price]. auto.
      * exists r0. split; [exact Hr0|]. unfold entered_at. rewrite Hd.
        cbn [Trade.entry_time Trade.entry_price]. auto.
      * unfold stopped_at, exited_at.
        cbn [Trade.exit_time Trade.exit_price Trade.pnl_percent Trade.exit_reason]. auto.
    + intro C. contradiction C. reflexivity.
    + left. reflexivity.
    + intro C. contradiction.
Qed.

Lemma settle_app start a b : settle (settle start a) b = settle start (a ++ b).
Proof. unfold settle. rewrite map_app, fold_left_app. reflexivity. Qed.

Lemma closed_at_weaken r rows t :
  In r rows -> closed_at self all r t ->
  exists r', In r' rows /\ closed_at self all r' t.
Proof. intros Hin H. exists r. auto. Qed.

(** The loop over rows of the table. *)
Lemma bars_ledger rows :
  incl rows all ->
  forall st,
    loop_inv st ->
    open_inv (strategy_params self) all st ->
    flat_settled st ->
    exists st' new pts,
      bars self rows st = Ok st'
      /\ loop_inv st'
      /\ open_inv (strategy_params self) all st'
      /\ flat_settled st'
      /\ loop_trades st' = loop_trades st ++ new
      /\ capital st' = settle (capital st) new
      /\ Forall (fun t => exists r, In r rows /\ closed_at self all r t) new
      /\ loop_equity_curve st' = loop_equity_curve st ++ pts
      /\ map timestamp pts = map index (evaluated rows)
      /\ (position st = 0%Z ->
          Forall (fun r => _check_strategy_signal (strategy_params self) r = 0%Z)
            (evaluated rows) ->
          new = [] /\ position st' = 0%Z
          /\ map equity pts = map (fun _ => capital st) (evaluated rows)).
Proof.
  induction rows as [|r rows IH]; intros Hincl st Hinv Hopen Hflat.
  - exists st, [], []. cbn [bars evaluated filter map]. rewrite !app_nil_r.
    split; [reflexivity|]. split; [exact Hinv|]. split; [exact Hopen|].
    split; [exact Hflat|]. split; [reflexivity|]. split; [reflexivity|].
    split; [constructor|]. split; [reflexivity|]. split; [reflexivity|].
    intros Hp _. auto.
  - assert (Hr : In r all) by (apply Hincl; left; reflexivity).
    assert (Hincl' : incl rows all) by (intros x Hx; apply Hincl; right; exact Hx).
    destruct (outside_trading_hours (index r)) eqn:Hout.
    + rewrite (@bars_cons self r rows st st (@bar_skipped self r st Hout)).
      destruct (IH Hincl' st Hinv Hopen Hflat)
        as (st' & new & pts & Hb & Hi & Ho & Hf & Ht & Hc & Hall & Hcv & Hts & Hq).
      exists st', new, pts.
      assert (Hev : evaluated (r :: rows) = evaluated rows)
        by (unfold evaluated; cbn [filter]; rewrite Hout; reflexivity).
      rewrite Hev.
      repeat (split; [assumption|]).
      split.
      * eapply Forall_impl; [|exact Hall].
        intros t (r' & Hr' & Hcl). exists r'. split; [right; exact Hr' | exact Hcl].
      * repeat (split; [assumption|]). assumption.
    + destruct (@bar_ledger r st Hr Hout Hinv Hopen)
        as (st1 & new1 & Hb1 & Hi1 & Ho1 & Hf1 & Ht1 & Hc1 & Hall1
            & (pt & Hcv1 & Hpt1) & Hp1 & Hn1).
      rewrite (@bars_cons self r rows st st1 Hb1).
      destruct (IH Hincl' st1 Hi1 Ho1 Hf1)
        as (st' & new & pts & Hb & Hi & Ho & Hf & Ht & Hc & Hall & Hcv & Hts & Hq).
      exists st', (new1 ++ new), (pt :: pts).
      assert (Hev : evaluated (r :: rows) = r :: evaluated rows)
        by (unfold evaluated; cbn [filter]; rewrite Hout; reflexivity).
      rewrite Hev.
      split; [exact Hb|]. split; [exact Hi|]. split; [exact Ho|]. split; [exact Hf|].
      split; [rewrite Ht, Ht1, app_assoc; reflexivity|].
      split; [rewrite Hc, Hc1; apply settle_app|].
      split.
      * apply Forall_app. split.
        -- eapply Forall_impl; [|exact Hall1].
           intros t Hcl. exists r. split; [left; reflexivity | exact Hcl].
        -- eapply Forall_impl; [|exact Hall].
           intros t (r' & Hr' & Hcl). exists r'. split; [right; exact Hr' | exact Hcl].
      * split; [rewrite Hcv, Hcv1, <- app_assoc; reflexivity|].
        split; [cbn [map]; rewrite Hts, Hpt1; reflexivity|].
        intros Hp0 Hsig. inversion Hsig as [|? ? Hs0 Hsig']; subst.
        pose proof (Hn1 Hp0) as ->.
        assert (Hp1' : position st1 = 0%Z) by (destruct Hp1 as [E|[E _]]; congruence).
        destruct (Hq Hp1' Hsig') as (-> & Hp' & Heq).
        split; [reflexivity|]. split; [exact Hp'|].
        cbn [settle map fold_left] in Hc1.
        destruct (Hf1 Hp1') as (pt' & Hpt' & Hptc).
        rewrite Hcv1, iloc_last_snoc in Hpt'. injection Hpt' as <-.
        cbn [map]. rewrite Heq, Hptc, Hc1. reflexivity.
Qed.

End RunLedger.

Section RunRecords.

Import Backtester Ledger.

Variable self : Backtester.

(** The simulation of a table that is not empty, with what it leaves
    in the trades, the capital and the equity curve. *)
Lemma simulate_ledger price_data :
  price_data <> [] ->
  exists st closed ending r0 pts,
    simulate self price_data = Ok st
    /\ hd_error price_data = Some r0
    /\ loop_trades st = trades self ++ closed ++ ending
    /\ capital st = settle (of_Z 100000) (closed ++ ending)
    /\ Forall (fun t => exists r, In r (tl price_data)
                                  /\ closed_at self (tl price_data) r t) closed
    /\ (ending = []
        \/ exists t last_row,
             ending = [t]
             /\ Strategy.iloc_last price_data = Ok last_row
             /\ closed_at_end self (tl price_data) last_row t)
    /\ loop_equity_curve st = mk_equity_point (index r0) (of_Z 100000) :: pts
    /\ map timestamp pts = map index (evaluated (tl price_data))
    /\ (ending = [] ->
        exists pt, Strategy.iloc_last (loop_equity_curve st) = Ok pt
                   /\ equity pt = capital st)
    /\ (Forall (fun r => _check_strategy_signal (strategy_params self) r = 0%Z)
          (evaluated (tl price_data)) ->
        closed = [] /\ ending = []
        /\ map equity pts = map (fun _ => of_Z 100000) (evaluated (tl price_data))).
Proof.
  intro Hne.
  destruct (@initial_state_inv self price_data Hne) as (st0 & H0 & Hinv0 & Hp0 & Ht0).
  destruct price_data as [|r0 rows] eqn:Ed; [congruence|].
  cbn [initial_state] in H0. injection H0 as E0.
  assert (Hopen0 : open_inv (strategy_params self) rows st0)
    by (intro C; contradiction).
  assert (Hflat0 : flat_settled st0).
  { intros _. rewrite <- E0. cbn [loop_equity_curve capital].
    eexists. split; [reflexivity|reflexivity]. }
  destruct (@bars_ledger self rows rows (incl_refl rows) st0 Hinv0 Hopen0 Hflat0)
    as (st1 & new & pts & Hb & Hi & Ho & Hf & Ht & Hc & Hall & Hcv & Hts & Hq).
  assert (Hne' : r0 :: rows <> []) by discriminate.
  destruct (iloc_last_nonempty Hne') as (last_row & Hl & _).
  assert (Hcap0 : capital st0 = of_Z 100000) by (rewrite <- E0; reflexivity).
  assert (Hcv0 : loop_equity_curve st0 = [mk_equity_point (index r0) (of_Z 100000)])
    by (rewrite <- E0; reflexivity).
  assert (Hsim : forall st, close_at_end last_row st1 = Ok st ->
                            simulate self (r0 :: rows) = Ok st).
  { intros st Hce. unfold simulate. cbn [initial_state bind tl]. rewrite E0, Hb.
    cbn [bind]. rewrite Hl. cbn [bind]. exact Hce. }
  destruct (close_at_end_cases last_row Hi) as [[Hz Hce]|(Hnz & et & Het & Hce)].
  - exists st1, new, [], r0, pts.
    split; [apply Hsim, Hce|]. split; [reflexivity|].
    rewrite app_nil_r.
    split; [rewrite Ht, Ht0; reflexivity|].
    split; [rewrite Hc, Hcap0; reflexivity|].
    split; [exact Hall|]. split; [left; reflexivity|].
    split; [rewrite Hcv, Hcv0; reflexivity|].
    split; [exact Hts|].
    split; [intros _; apply Hf, Hz|].
    intro Hsig. destruct (Hq Hp0 Hsig) as (Hn & _ & Heq).
    rewrite Hcap0 in Heq. auto.
  - eexists. exists new. eexists. exists r0, pts.
    split; [apply Hsim, Hce|]. split; [reflexivity|].
    cbn [loop_trades capital loop_equity_curve].
    split; [rewrite Ht, Ht0, <- app_assoc; reflexivity|].
    split; [rewrite Hc, Hcap0, <- settle_app; reflexivity|].
    split; [exact Hall|].
    destruct (Ho Hnz) as (re & Hre & Houte & Hsige & Hete & Hepe).
    rewrite Het in Hete. injection Hete as ->.
    destruct Hi as (Hstate & _).
    destruct (@direction_of_position_name (position st1)
                (Trade.mk (index re) (index last_row) (entry_price st1) (close last_row)
                   (position_name (position st1))
                   ((close last_row - entry_price st1) * of_Z (position st1))
                   (pnl_percent_of (close last_row) (entry_price st1) (position st1))
                   "END") Hstate Hnz eq_refl) as [Hd Hname].
    split.
    { right. eexists. exists last_row. split; [reflexivity|]. split; [exact Hl|].
      unfold closed_at_end, consistent, entered_at, exited_at. rewrite Hd.
      cbn [Trade.position Trade.pnl Trade.pnl_percent Trade.exit_price
           Trade.entry_price Trade.entry_time Trade.exit_time Trade.exit_reason].
      split; [auto|]. split; [exists re; auto|]. auto. }
    split; [rewrite Hcv, Hcv0; reflexivity|].
    split; [exact Hts|].
    split; [discriminate|].
    intro Hsig. destruct (Hq Hp0 Hsig) as (_ & Hz & _). contradiction.
Qed.

(** What [run_backtest] returns and stores, from the simulation. *)
Lemma run_backtest_inv np_sqrt price_data m after :
  run_backtest np_sqrt self price_data = Ok (m, after) ->
  exists st,
    simulate self price_data = Ok st
    /\ price_data <> []
    /\ trades after = loop_trades st
    /\ equity_curve after = loop_equity_curve st
    /\ strategy_params after = strategy_params self
    /\ risk_management after = risk_management self
    /\ metrics after = Some m
    /\ final_capital m = capital st
    /\ total_trades m = length (loop_trades st)
    /\ (forall p0, hd_error (loop_equity_curve st) = Some p0 ->
                   initial_capital m = equity p0).
Proof.
  unfold run_backtest.
  destruct (simulate self price_data) as [st|e] eqn:Hs; [|discriminate].
  cbn [bind].
  destruct (_calculate_performance_metrics np_sqrt (loop_trades st)
              (loop_equity_curve st) (capital st)) as [m'|e] eqn:Hm; [|discriminate].
  cbn [bind]. intro H. injection H as <- <-.
  exists st. split; [reflexivity|].
  split; [intros ->; discriminate|].
  cbn [trades equity_curve strategy_params risk_management metrics].
  repeat (split; [reflexivity|]).
  destruct (loop_equity_curve st) as [|p0 curve]; [discriminate|].
  cbn [_calculate_performance_metrics] in Hm. injection Hm as <-.
  cbn [final_capital total_trades initial_capital].
  repeat split. intros p E. injection E as <-. reflexivity.
Qed.

End RunRecords.

Section SameParameters.

Import Backtester Ledger.

Variables self self' : Backtester.
Hypothesis same_params : strategy_params self' = strategy_params self.
Hypothesis same_risk : risk_management self' = risk_management self.

(** The trades already recorded do not influence a bar: they are only
    appended to. *)
Lemma process_exit_with_trades r st st1 ts :
  process_exit (risk_management self) r st = Ok st1 ->
  exists new,
    loop_trades st1 = loop_trades st ++ new
    /\ process_exit (risk_management self') r (with_trades ts st)
       = Ok (with_trades (ts ++ new) st1).
Proof.
  rewrite same_risk. unfold process_exit, with_trades.
  cbn [position entry_price entry_time capital loop_trades loop_equity_curve].
  destruct (negb (position st =? 0)%Z).
  - destruct (exit_condition _ _).
    + destruct (entry_time st) as [et|]; [|discriminate].
      intro H. injection H as <-. eexists. split; [reflexivity|].
      cbn [position entry_price entry_time capital loop_trades loop_equity_curve].
      reflexivity.
    + intro H. injection H as <-. exists []. rewrite !app_nil_r. auto.
  - intro H. injection H as <-. exists []. rewrite !app_nil_r. auto.
Qed.

Lemma bar_with_trades r st st1 ts :
  bar self r st = Ok st1 ->
  exists new,
    loop_trades st1 = loop_trades st ++ new
    /\ bar self' r (with_trades ts st) = Ok (with_trades (ts ++ new) st1).
Proof.
  unfold bar. rewrite same_params.
  destruct (outside_trading_hours (index r)).
  - intro H. injection H as <-. exists []. rewrite !app_nil_r. auto.
  - destruct (process_exit (risk_management self) r st) as [s1|e] eqn:Hpe; [|discriminate].
    cbn [bind]. intro H. injection H as <-.
    destruct (process_exit_with_trades r st ts Hpe) as (new & Hn & Hpe').
    exists new. rewrite Hpe'. cbn [bind].
    unfold update_equity, process_entry, with_trades.
    cbn [position entry_price entry_time capital loop_trades loop_equity_curve].
    destruct ((position s1 =? 0)%Z && negb (_ =? 0)%Z);
      cbn [position entry_price entry_time capital loop_trades loop_equity_curve];
      auto.
Qed.

Lemma bars_with_trades rows :
  forall st st1 ts,
    bars self rows st = Ok st1 ->
    exists new,
      loop_trades st1 = loop_trades st ++ new
      /\ bars self' rows (with_trades ts st) = Ok (with_trades (ts ++ new) st1).
Proof.
  induction rows as [|r rows IH]; intros st st1 ts; cbn [bars].
  - intro H. injection H as <-. exists []. rewrite !app_nil_r. auto.
  - destruct (bar self r st) as [s|e] eqn:Hb; [|discriminate]. cbn [bind]. intro Hbs.
    destruct (bar_with_trades r st ts Hb) as (new1 & Hn1 & Hb').
    destruct (IH s st1 (ts ++ new1) Hbs) as (new & Hn & Hbs').
    exists (new1 ++ new). rewrite Hb'. cbn [bind]. rewrite Hbs', Hn, Hn1, !app_assoc.
    auto.
Qed.

Lemma close_at_end_with_trades last_row st st1 ts :
  close_at_end last_row st = Ok st1 ->
  exists new,
    loop_trades st1 = loop_trades st ++ new
    /\ close_at_end last_row (with_trades ts st) = Ok (with_trades (ts ++ new) st1).
Proof.
  unfold close_at_end, with_trades.
  cbn [position entry_price entry_time capital loop_trades loop_equity_curve].
  destruct (negb (position st =? 0)%Z).
  - destruct (entry_time st) as [et|]; [|discriminate].
    intro H. injection H as <-. eexists. split; [reflexivity|].
    cbn [position entry_price entry_time capital loop_trades loop_equity_curve].
    reflexivity.
  - intro H. injection H as <-. exists []. rewrite !app_nil_r. auto.
Qed.

(** The same table run on an object with the same parameters records
    the same trades, on top of whatever the object holds. *)
Lemma simulate_with_trades price_data st :
  simulate self price_data = Ok st ->
  exists recorded,
    loop_trades st = trades self ++ recorded
    /\ simulate self' price_data = Ok (with_trades (trades self' ++ recorded) st).
Proof.
  unfold simulate. destruct price_data as [|r0 rows]; [discriminate|].
  cbn [initial_state bind tl].
  destruct (bars self rows _) as [s1|e] eqn:Hb; [|discriminate]. cbn [bind].
  destruct (Strategy.iloc_last (r0 :: rows)) as [last_row|e]; [|discriminate].
  cbn [bind]. intro Hce.
  destruct (bars_with_trades rows _ (trades self') Hb) as (new1 & Hn1 & Hb').
  unfold with_trades in Hb' at 1.
  cbn [position entry_price entry_time capital loop_trades loop_equity_curve] in Hb', Hn1.
  rewrite Hb'. cbn [bind].
  destruct (close_at_end_with_trades last_row s1 (trades self' ++ new1) Hce)
    as (new2 & Hn2 & Hce').
  exists (new1 ++ new2). rewrite Hce', Hn2, Hn1, !app_assoc. auto.
Qed.

End SameParameters.

(** X1: the final capital a run reports is the initial 100000 plus the
    P&L of the trades the run recorded, added one after the other in
    the order of the records (stop-loss and take-profit exits, then the
    forced close); the initial capital of the metrics is 100000. *)
Theorem final_capital_settles_recorded_trades :
  forall np_sqrt self price_data m after,
    Backtester.run_backtest np_sqrt self price_data = Ok (m, after) ->
    exists recorded,
      Backtester.trades after = Backtester.trades self ++ recorded
      /\ Backtester.final_capital m = Ledger.settle (of_Z 100000) recorded
      /\ Backtester.initial_capital m = of_Z 100000.
Proof.
  intros np_sqrt self price_data m after Hrun.
  destruct (run_backtest_inv self np_sqrt price_data Hrun)
    as (st & Hs & Hne & Ht & Hcv & _ & _ & _ & Hfc & _ & Hic).
  destruct (simulate_ledger self Hne)
    as (st' & closed & ending & r0 & pts & Hs' & _ & Htr & Hcap & _ & _ & Hcurve & _).
  rewrite Hs in Hs'. injection Hs' as <-.
  exists (closed ++ ending).
  split; [rewrite Ht; exact Htr|]. split; [rewrite Hfc; exact Hcap|].
  apply (Hic (Backtester.mk_equity_point (Backtester.index r0) (of_Z 100000))).
  rewrite Hcurve. reflexivity.
Qed.

(** The stop-loss sample: the capital ends at 100000 - 1.1. *)
Lemma final_capital_settles_recorded_trades_witness :
  exists m after recorded,
    Backtester.run_backtest Samples.sqrt_approx Samples.default_backtester
      Samples.stop_loss_rows = Ok (m, after)
    /\ Backtester.trades after = recorded
    /\ Backtester.final_capital m = Ledger.settle (of_Z 100000) recorded
    /\ map Backtester.Trade.pnl recorded = [Fin (989 # 10) - Fin 100].
Proof.
  destruct (@run_backtest_completes Samples.sqrt_approx Samples.default_backtester
              Samples.stop_loss_rows) as (m & after & Hr); [discriminate|].
  destruct (final_capital_settles_recorded_trades _ _ _ Hr) as (recorded & Ht & Hc & _).
  assert (E : Backtester.trades after = recorded) by exact Ht.
  exists m, after, recorded. split; [exact Hr|]. split; [exact E|]. split; [exact Hc|].
  rewrite <- E.
  revert Hr. vm_compute. intro Hr. injection Hr as _ <-. reflexivity.
Defined.

(** X2: the equity curve of a run has exactly one point for the first
    row of the table and one for every later row inside the loop's
    trading hours (09:15 to 15:15), in the order of the table and with
    the rows' timestamps; rows outside the hours and the forced close
    add no point. *)
Theorem equity_curve_one_point_per_evaluated_bar :
  forall np_sqrt self price_data m after,
    Backtester.run_backtest np_sqrt self price_data = Ok (m, after) ->
    map Backtester.timestamp (Backtester.equity_curve after)
    = map Backtester.index
        (firstn 1 price_data ++ Ledger.evaluated (tl price_data)).
Proof.
  intros np_sqrt self price_data m after Hrun.
  destruct (run_backtest_inv self np_sqrt price_data Hrun)
    as (st & Hs & Hne & _ & Hcv & _).
  destruct (simulate_ledger self Hne)
    as (st' & closed & ending & r0 & pts & Hs' & Hhd & _ & _ & _ & _ & Hcurve & Hts & _).
  rewrite Hs in Hs'. injection Hs' as <-.
  rewrite Hcv, Hcurve. destruct price_data as [|r rows]; [discriminate|].
  injection Hhd as ->. cbn [firstn app map tl]. rewrite Hts. reflexivity.
Qed.

(** The sample whose last candle is at 15:30: two points, none for the
    last candle. *)
Lemma equity_curve_one_point_per_evaluated_bar_witness :
  exists m after,
    Backtester.run_backtest Samples.sqrt_approx Samples.default_backtester
      Samples.open_at_close_rows = Ok (m, after)
    /\ map Backtester.timestamp (Backtester.equity_curve after)
       = [Samples.at_time 1 9 15; Samples.at_time 1 9 30].
Proof.
  destruct (@run_backtest_completes Samples.sqrt_approx Samples.default_backtester
              Samples.open_at_close_rows) as (m & after & Hr); [discriminate|].
  exists m, after. split; [exact Hr|].
  rewrite (equity_curve_one_point_per_evaluated_bar _ _ _ Hr). reflexivity.
Defined.

(** X3: every trade a run records is consistent and anchored in the
    table.  Its position is LONG or SHORT, its P&L is (exit price -
    entry price) x direction and its P&L percent is computed from the
    same two prices; it was opened at the close and timestamp of an
    evaluated row whose signal is its direction.  All trades but
    possibly the last were closed at the close and timestamp of an
    evaluated row at which the exit condition holds, with reason SL
    when the P&L percent is negative and TP otherwise; the last one may
    instead be the forced close, at the last row of the table, with
    reason END. *)
Theorem recorded_trades_are_anchored :
  forall np_sqrt self price_data m after,
    Backtester.run_backtest np_sqrt self price_data = Ok (m, after) ->
    exists closed ending,
      Backtester.trades after = Backtester.trades self ++ closed ++ ending
      /\ Forall (fun t => exists r,
                     In r (tl price_data)
                     /\ Ledger.closed_at self (tl price_data) r t) closed
      /\ (ending = []
          \/ exists t last_row,
               ending = [t]
               /\ Strategy.iloc_last price_data = Ok last_row
               /\ Ledger.closed_at_end self (tl price_data) last_row t).
Proof.
  intros np_sqrt self price_data m after Hrun.
  destruct (run_backtest_inv self np_sqrt price_data Hrun)
    as (st & Hs & Hne & Ht & _).
  destruct (simulate_ledger self Hne)
    as (st' & closed & ending & r0 & pts & Hs' & _ & Htr & _ & Hall & Hend & _).
  rewrite Hs in Hs'. injection Hs' as <-.
  exists closed, ending. rewrite Ht. auto.
Qed.

(** The stop-loss sample: one trade, closed by the stop, none forced. *)
Lemma recorded_trades_are_anchored_witness :
  exists m after closed ending,
    Backtester.run_backtest Samples.sqrt_approx Samples.default_backtester
      Samples.stop_loss_rows = Ok (m, after)
    /\ Backtester.trades after = closed ++ ending
    /\ Forall (fun t => exists r,
                   In r (tl Samples.stop_loss_rows)
                   /\ Ledger.closed_at Samples.default_backtester
                        (tl Samples.stop_loss_rows) r t) closed.
Proof.
  destruct (@run_backtest_completes Samples.sqrt_approx Samples.default_backtester
              Samples.stop_loss_rows) as (m & after & Hr); [discriminate|].
  destruct (recorded_trades_are_anchored _ _ _ Hr) as (closed & ending & Ht & Hall & _).
  exists m, after, closed, ending. split; [exact Hr|]. split; [exact Ht|]. exact Hall.
Defined.

(** X4: when a run records no END trade (no position was open when the
    loop ended), its last equity point equals the final capital it
    reports. *)
Theorem last_equity_is_final_capital_without_forced_close :
  forall np_sqrt self price_data m after recorded,
    Backtester.run_backtest np_sqrt self price_data = Ok (m, after) ->
    Backtester.trades after = Backtester.trades self ++ recorded ->
    Forall (fun t => Backtester.Trade.exit_reason t <> "END") recorded ->
    exists pt,
      Strategy.iloc_last (Backtester.equity_curve after) = Ok pt
      /\ Backtester.equity pt = Backtester.final_capital m.
Proof.
  intros np_sqrt self price_data m after recorded Hrun Hrec Hno.
  destruct (run_backtest_inv self np_sqrt price_data Hrun)
    as (st & Hs & Hne & Ht & Hcv & _ & _ & _ & Hfc & _).
  destruct (simulate_ledger self Hne)
    as (st' & closed & ending & r0 & pts & Hs' & _ & Htr & _ & _ & Hend & _ & _ & Hflat & _).
  rewrite Hs in Hs'. injection Hs' as <-.
  rewrite Ht, Htr in Hrec. apply app_inv_head in Hrec. subst recorded.
  apply Forall_app in Hno. destruct Hno as [_ Hno].
  rewrite Hcv, Hfc. apply Hflat.
  destruct Hend as [E|(t & last_row & -> & _ & _ & _ & _ & Hreason)]; [exact E|].
  inversion Hno as [|? ? Hr _]. contradiction.
Qed.

(** The stop-loss sample ends flat: last equity and final capital are
    both 100000 - 1.1. *)
Lemma last_equity_is_final_capital_without_forced_close_witness :
  exists m after pt,
    Backtester.run_backtest Samples.sqrt_approx Samples.default_backtester
      Samples.stop_loss_rows = Ok (m, after)
    /\ Strategy.iloc_last (Backtester.equity_curve after) = Ok pt
    /\ Backtester.equity pt = Backtester.final_capital m.
Proof.
  destruct (@run_backtest_completes Samples.sqrt_approx Samples.default_backtester
              Samples.stop_loss_rows) as (m & after & Hr); [discriminate|].
  destruct (@last_equity_is_final_capital_without_forced_close
              Samples.sqrt_approx Samples.default_backtester Samples.stop_loss_rows
              m after (Backtester.trades after) Hr eq_refl) as (pt & Hpt & Heq).
  - revert Hr. vm_compute. intro Hr. injection Hr as _ <-.
    constructor; [discriminate|constructor].
  - exists m, after, pt. auto.
Defined.

(** X5: a run in which no evaluated row carries a signal records no
    trade, reports a final capital of 100000, and its equity curve is
    100000 at every point. *)
Theorem no_signal_no_trade :
  forall np_sqrt self price_data m after,
    Backtester.run_backtest np_sqrt self price_data = Ok (m, after) ->
    Forall (fun r => Backtester._check_strategy_signal
                       (Backtester.strategy_params self) r = 0%Z)
      (Ledger.evaluated (tl price_data)) ->
    Backtester.trades after = Backtester.trades self
    /\ Backtester.final_capital m = of_Z 100000
    /\ map Backtester.equity (Backtester.equity_curve after)
       = map (fun _ => of_Z 100000)
           (firstn 1 price_data ++ Ledger.evaluated (tl price_data)).
Proof.
  intros np_sqrt self price_data m after Hrun Hsig.
  destruct (run_backtest_inv self np_sqrt price_data Hrun)
    as (st & Hs & Hne & Ht & Hcv & _ & _ & _ & Hfc & _).
  destruct (simulate_ledger self Hne)
    as (st' & closed & ending & r0 & pts & Hs' & Hhd & Htr & Hcap & _ & _ & Hcurve
        & _ & _ & Hq).
  rewrite Hs in Hs'. injection Hs' as <-.
  destruct (Hq Hsig) as (-> & -> & Heq).
  rewrite Ht, Htr, Hfc, Hcap, Hcv, Hcurve, !app_nil_r.
  split; [reflexivity|]. split; [reflexivity|].
  destruct price_data as [|r rows]; [discriminate|].
  cbn [firstn app map tl Backtester.equity]. rewrite Heq. reflexivity.
Qed.

(** The flat sample: three bars, no signal. *)
Lemma no_signal_no_trade_witness :
  exists m after,
    Backtester.run_backtest Samples.sqrt_approx Samples.default_backtester
      Samples.flat_rows = Ok (m, after)
    /\ Backtester.trades after = []
    /\ Backtester.final_capital m = of_Z 100000.
Proof.
  destruct (@run_backtest_completes Samples.sqrt_approx Samples.default_backtester
              Samples.flat_rows) as (m & after & Hr); [discriminate|].
  destruct (no_signal_no_trade _ _ _ Hr) as (Ht & Hc & _).
  - repeat constructor.
  - exists m, after. auto.
Defined.

(** X6: [run_backtest] resets the equity curve but not the trades.  A
    second run of the same object on the same table records the same
    trades again after those of the first run, rebuilds the same equity
    curve and reports the same final capital, while its metrics count
    the trades of both runs. *)
Theorem second_run_accumulates_trades :
  forall np_sqrt self price_data m1 after1,
    Backtester.run_backtest np_sqrt self price_data = Ok (m1, after1) ->
    exists recorded m2 after2,
      Backtester.trades after1 = Backtester.trades self ++ recorded
      /\ Backtester.run_backtest np_sqrt after1 price_data = Ok (m2, after2)
      /\ Backtester.trades after2 = Backtester.trades self ++ recorded ++ recorded
      /\ Backtester.equity_curve after2 = Backtester.equity_curve after1
      /\ Backtester.final_capital m2 = Backtester.final_capital m1
      /\ Backtester.total_trades m2
         = (Backtester.total_trades m1 + length recorded)%nat.
Proof.
  intros np_sqrt self price_data m1 after1 Hrun.
  destruct (run_backtest_inv self np_sqrt price_data Hrun)
    as (st & Hs & Hne & Ht & Hcv & Hsp & Hrm & _ & Hfc & Htot & _).
  destruct (@simulate_with_trades self after1 Hsp Hrm price_data st Hs)
    as (recorded & Hrec & Hs2).
  assert (Hcurve : Backtester.loop_equity_curve st <> []).
  { destruct (simulate_ledger self Hne)
      as (st' & cl & en & r0 & pts & Hs' & _ & _ & _ & _ & _ & Hc & _).
    rewrite Hs in Hs'. injection Hs' as <-. rewrite Hc. discriminate. }
  destruct (@run_backtest_of_simulate np_sqrt after1 price_data _ Hs2 Hcurve)
    as (m2 & Hrun2 & _).
  destruct (run_backtest_inv after1 np_sqrt price_data Hrun2)
    as (st2 & Hs2' & _ & Ht2 & Hcv2 & _ & _ & _ & Hfc2 & Htot2 & _).
  rewrite Hs2 in Hs2'. injection Hs2' as <-.
  cbn [Ledger.with_trades Backtester.loop_trades Backtester.loop_equity_curve
       Backtester.capital] in Ht2, Hcv2, Hfc2, Htot2.
  exists recorded, m2. eexists.
  split; [rewrite Ht; exact Hrec|]. split; [exact Hrun2|].
  cbn [Backtester.trades Backtester.equity_curve].
  split; [rewrite Ht, Hrec, <- app_assoc; reflexivity|].
  split; [rewrite Hcv; reflexivity|].
  split; [rewrite Hfc2, Hfc; reflexivity|].
  rewrite Htot2, Htot, Ht, length_app. reflexivity.
Qed.

(** The stop-loss sample run twice: two records of the same trade. *)
Lemma second_run_accumulates_trades_witness :
  exists m1 after1 m2 after2,
    Backtester.run_backtest Samples.sqrt_approx Samples.default_backtester
      Samples.stop_loss_rows = Ok (m1, after1)
    /\ Backtester.run_backtest Samples.sqrt_approx after1
         Samples.stop_loss_rows = Ok (m2, after2)
    /\ Backtester.total_trades m1 = 1%nat
    /\ Backtester.total_trades m2 = 2%nat.
Proof.
  destruct (@run_backtest_completes Samples.sqrt_approx Samples.default_backtester
              Samples.stop_loss_rows) as (m1 & after1 & Hr); [discriminate|].
  destruct (second_run_accumulates_trades _ _ _ Hr)
    as (recorded & m2 & after2 & Ht & Hr2 & _ & _ & _ & Htot).
  exists m1, after1, m2, after2. split; [exact Hr|]. split; [exact Hr2|].
  assert (H1 : Backtester.total_trades m1 = 1%nat
               /\ length recorded = 1%nat).
  { revert Hr Ht. vm_compute. intros Hr Ht. injection Hr as <- <-.
    simpl in Ht. subst recorded. auto. }
  destruct H1 as [H1 Hl]. split; [exact H1|]. rewrite Htot, H1, Hl. reflexivity.
Defined.

(** ** The other metrics *)


(** *** The profit factor *)

Section ProfitFactor.

Import Binary64 Metrics64.
Local Open Scope Q_scope.

Lemma positive_is_nonneg x : gtb x (of_Z 0) = true -> nonneg x.
Proof.
  unfold gtb, ltb, nonneg, leb. rewrite of_Z_0. cbn [val].
  destruct (val x); cbn [Float.ltb Float.leb]; try discriminate; try reflexivity.
  rewrite Qltb_lt, Qle_bool_iff. intro. lra.
Qed.

Lemma total_profit_nonneg pnls : nonneg (py_sum (profits pnls)).
Proof.
  unfold py_sum. apply fold_add_nonneg; [rewrite of_Z_0; reflexivity|].
  unfold profits. apply Forall_forall. intros x Hx.
  apply filter_In in Hx. apply positive_is_nonneg, Hx.
Qed.

Lemma abs_not_negative x : negative (abs x) = false.
Proof.
  destruct x as [s|q|s|]; cbn [abs negative]; try reflexivity.
  apply Qltb_ge, Qabs_nonneg.
Qed.

(** The least positive binary64 number is [2^-1074]. *)
Lemma positive_binary64_min q :
  binary64 (Finite q) -> 0 < q -> pow2 (-1074) <= q.
Proof.
  intros Hb Hq. cbn [binary64] in Hb. unfold round in Hb.
  assert (Z : Qis0 q = false) by (apply Qis0_false; lra).
  assert (S : Qltb q 0 = false) by (apply Qltb_ge; lra).
  rewrite Z, S in Hb.
  assert (A : Qabs q == q) by (apply Qabs_pos; lra).
  assert (Ha : 0 < Qabs q) by lra.
  pose proof (round_magnitude_comp Ha A) as Hr.
  set (r := round_magnitude (Qabs q)) in *.
  destruct (Qis0 r); [discriminate|]. destruct (Qle_bool _ r); [discriminate|].
  assert (Hb' : Qred r = q) by congruence.
  assert (E : q == round_magnitude q).
  { rewrite <- Hr. rewrite <- Hb' at 1. apply Qred_correct. }
  unfold round_magnitude in E.
  set (e := Z.max (floor_log2 q) (-1022)) in *.
  set (m := rne (q * pow2 (52 - e))) in *.
  pose proof (pow2_pos (e - 52)) as Hp.
  assert (Hm : (1 <= m)%Z).
  { destruct (Z_lt_le_dec m 1) as [C|C]; [|exact C]. exfalso.
    assert (C' : (m <= 0)%Z) by lia. rewrite Zle_Qle in C'.
    change (inject_Z 0) with 0 in C'. nra. }
  rewrite Zle_Qle in Hm. change (inject_Z 1) with 1 in Hm.
  assert (Hle : pow2 (-1074) <= pow2 (e - 52)) by (apply pow2_le; lia).
  nra.
Qed.

Lemma round_least : round false (pow2 (-1074)) = Finite (Qred (pow2 (-1074))).
Proof. vm_compute. reflexivity. Qed.

(** A sum that has reached [2^-1074] stays there while what is added is
    not negative. *)
Lemma fold_add_least l :
  Forall nonneg l ->
  forall acc,
    Float.leb (Fin (pow2 (-1074))) (val acc) = true ->
    Float.leb (Fin (pow2 (-1074))) (val (fold_left add l acc)) = true.
Proof.
  induction 1 as [|y l Hy _ IH]; intros acc Ha; [exact Ha|].
  cbn [fold_left]. apply IH.
  assert (Hs : Float.leb (Fin (pow2 (-1074))) (Float.add (val acc) (val y)) = true).
  { unfold nonneg, leb in Hy. cbn [val] in Hy.
    destruct (val acc), (val y); cbn [Float.leb Float.add] in *;
      try discriminate; try reflexivity.
    apply Qle_bool_iff in Ha, Hy. apply Qle_bool_iff. lra. }
  pose proof (@of_float_mono false
                (match acc, y with Zero a, Zero b => a && b | _, _ => false end)
                _ _ Hs) as Hm.
  cbn [of_float] in Hm. rewrite round_least in Hm. unfold leb in Hm. cbn [val] in Hm.
  unfold add.
  apply (@fleb_trans _ (Fin (Qred (pow2 (-1074)))) _); [|exact Hm].
  cbn [Float.leb]. apply Qle_bool_iff. rewrite Qred_correct. lra.
Qed.

Lemma total_profit_positive pnls :
  Forall binary64 pnls -> profits pnls <> [] ->
  gtb (py_sum (profits pnls)) (of_Z 0) = true.
Proof.
  intros Hb Hne.
  assert (Hall : Forall (fun x => binary64 x /\ gtb x (of_Z 0) = true) (profits pnls)).
  { unfold profits. apply Forall_forall. intros x Hx. apply filter_In in Hx.
    split; [|apply Hx]. exact (proj1 (Forall_forall _ _) Hb x (proj1 Hx)). }
  destruct (profits pnls) as [|x l]; [congruence|].
  inversion Hall as [|x' l' [Hbx Hx] Hl]; subst.
  assert (Hl' : Forall nonneg l).
  { eapply Forall_impl; [|exact Hl]. intros y [_ Hy]. apply positive_is_nonneg, Hy. }
  assert (Hfirst : Float.leb (Fin (pow2 (-1074))) (val (add (of_Z 0) x)) = true).
  { assert (Hx' : Float.leb (Fin (pow2 (-1074))) (Float.add (val (of_Z 0)) (val x)) = true).
    { rewrite of_Z_0. cbn [val]. unfold gtb, ltb in Hx. rewrite of_Z_0 in Hx.
      cbn [val] in Hx.
      destruct x as [s|q|[|]|]; cbn [val Float.ltb Float.add Float.leb] in *;
        try discriminate; try reflexivity.
      apply Qltb_lt in Hx. apply Qle_bool_iff.
      pose proof (positive_binary64_min Hbx Hx). lra. }
    pose proof (@of_float_mono false
                  (match of_Z 0, x with Zero a, Zero b => a && b | _, _ => false end)
                  _ _ Hx') as Hm.
    cbn [of_float] in Hm. rewrite round_least in Hm. unfold leb in Hm. cbn [val] in Hm.
    unfold add.
    apply (@fleb_trans _ (Fin (Qred (pow2 (-1074)))) _); [|exact Hm].
    cbn [Float.leb]. apply Qle_bool_iff. rewrite Qred_correct. lra. }
  pose proof (fold_add_least Hl' _ Hfirst) as Hsum.
  unfold py_sum. cbn [fold_left].
  set (total := fold_left add l (add (of_Z 0) x)) in *.
  unfold gtb, ltb. rewrite of_Z_0. cbn [val].
  pose proof (pow2_pos (-1074)) as Hp.
  destruct (val total);
    cbn [Float.leb Float.ltb] in *; try discriminate; try reflexivity.
  apply Qle_bool_iff in Hsum. apply Qltb_lt. lra.
Qed.

Lemma zero_over_positive y :
  gtb y (of_Z 0) = true -> div (Zero false) y = Zero false.
Proof.
  unfold gtb, ltb. rewrite of_Z_0. cbn [val].
  destruct y as [s|q|[|]|]; cbn [val Float.ltb]; try discriminate; intro H.
  - apply Qltb_lt in H. unfold div. cbn [val Float.div negative].
    assert (Z : Qis0 q = false) by (apply Qis0_false; lra).
    assert (S : Qltb q 0 = false) by (apply Qltb_ge; lra).
    rewrite Z, S. cbn [of_float xorb].
    assert (E : 0 / q == 0) by (field; lra).
    rewrite (round_comp false E). reflexivity.
  - reflexivity.
Qed.

End ProfitFactor.

(** X7: the profit factor in binary64 arithmetic, whatever the recorded
    P&L.  It is never negative: it is [NaN] (two sums that overflow give
    inf/inf) or a number that is at least 0, +infinity included.  It is
    0 when there is no winning trade, so it is +infinity only when there
    is one.  When the P&L are binary64 numbers, there is a winning trade
    and the losses sum to zero, it is +infinity. *)
Theorem profit_factor_range :
  forall pnls,
    (Metrics64.profit_factor_of pnls = Binary64.Nan
     \/ Binary64.leb (Binary64.Zero false) (Metrics64.profit_factor_of pnls) = true)
    /\ (Metrics64.profits pnls = [] ->
        Metrics64.profit_factor_of pnls = Binary64.Zero false)
    /\ (Metrics64.profit_factor_of pnls = Binary64.Inf false ->
        Metrics64.profits pnls <> [])
    /\ (Forall Binary64.binary64 pnls ->
        Metrics64.profits pnls <> [] ->
        Binary64.val (Metrics64.py_sum (Metrics64.losses pnls)) == Fin 0 ->
        Metrics64.profit_factor_of pnls = Binary64.Inf false).
Proof.
  intro pnls.
  assert (Hzero : Metrics64.profits pnls = [] ->
                  Metrics64.profit_factor_of pnls = Binary64.Zero false).
  { intro E. unfold Metrics64.profit_factor_of. cbv zeta. rewrite E.
    change (Metrics64.py_sum []) with (Binary64.of_Z 0). rewrite !of_Z_0.
    set (tl := Binary64.abs (Metrics64.py_sum (Metrics64.losses pnls))).
    destruct (Binary64.gtb tl (Binary64.Zero false)) eqn:G.
    - apply zero_over_positive. rewrite of_Z_0. exact G.
    - reflexivity. }
  split; [|split; [exact Hzero|split]].
  - unfold Metrics64.profit_factor_of. cbv zeta.
    set (tp := Metrics64.py_sum (Metrics64.profits pnls)).
    set (tl := Binary64.abs (Metrics64.py_sum (Metrics64.losses pnls))).
    destruct (Binary64.gtb tl (Binary64.of_Z 0)) eqn:G.
    + apply div_nonneg.
      * apply total_profit_nonneg.
      * apply positive_is_nonneg, G.
      * apply abs_not_negative.
    + right. destruct (Binary64.gtb tp (Binary64.of_Z 0)); [reflexivity|].
      rewrite of_Z_0. reflexivity.
  - intros Hinf E. rewrite (Hzero E) in Hinf. discriminate Hinf.
  - intros Hb Hne Hl. unfold Metrics64.profit_factor_of. cbv zeta.
    rewrite (total_profit_positive Hb Hne).
    assert (G : Binary64.gtb (Binary64.abs (Metrics64.py_sum (Metrics64.losses pnls)))
                  (Binary64.of_Z 0) = false).
    { unfold Binary64.gtb, Binary64.ltb. rewrite of_Z_0.
      destruct (Metrics64.py_sum (Metrics64.losses pnls)) as [s|q|[|]|];
        cbn [Binary64.val feq] in Hl; try contradiction;
        cbn [Binary64.abs Binary64.val Float.ltb]; [reflexivity|].
      apply Qltb_ge. rewrite Hl. apply Qle_refl. }
    rewrite G. reflexivity.
Qed.

(** The P&L 0 and 5: no loss, one gain, the profit factor is
    +infinity. *)
Lemma profit_factor_range_witness :
  Forall Binary64.binary64 Metrics64.flat_and_gain
  /\ Metrics64.profit_factor_of Metrics64.flat_and_gain = Binary64.Inf false.
Proof.
  assert (Hb : Forall Binary64.binary64 Metrics64.flat_and_gain).
  { repeat constructor. }
  split; [exact Hb|].
  apply (proj2 (proj2 (proj2 (profit_factor_range Metrics64.flat_and_gain)))).
  - exact Hb.
  - discriminate.
  - vm_compute. reflexivity.
Defined.

(** Two gains and two losses of 1e308: both sums overflow and the
    profit factor is inf/inf. *)
Lemma profit_factor_overflow :
  Metrics64.profit_factor_of
    [Binary64.of_Z (10 ^ 308); Binary64.of_Z (10 ^ 308);
     Binary64.neg (Binary64.of_Z (10 ^ 308)); Binary64.neg (Binary64.of_Z (10 ^ 308))]
  = Binary64.Nan.
Proof. vm_compute. reflexivity. Qed.




(** *** The maximal drawdown *)

Section Drawdown.

Import Binary64 Metrics64.
Local Open Scope Q_scope.

(** The opposite of a positive binary64 number is one. *)
Lemma round_opp_binary64 s q :
  binary64 (Finite q) -> 0 < q -> round s (- q) = Finite (- q).
Proof.
  intros Hb Hq. cbn [binary64] in Hb. unfold round in *.
  assert (Z : Qis0 q = false) by (apply Qis0_false; lra).
  assert (S : Qltb q 0 = false) by (apply Qltb_ge; lra).
  assert (Z' : Qis0 (- q) = false) by (apply Qis0_false; lra).
  assert (S' : Qltb (- q) 0 = true) by (apply Qltb_lt; lra).
  rewrite Z, S in Hb. rewrite Z', S'.
  assert (Ha : 0 < Qabs (- q)) by (rewrite Qabs_opp, Qabs_pos; lra).
  pose proof (round_magnitude_comp Ha (Qabs_opp q)) as Hr.
  set (r := round_magnitude (Qabs q)) in *.
  set (r' := round_magnitude (Qabs (- q))) in *.
  rewrite (Qis0_comp Hr).
  rewrite (Qleb_comp _ _ (Qeq_refl (pow2 1024)) _ _ Hr).
  destruct (Qis0 r); [discriminate|]. destruct (Qle_bool _ r); [discriminate|].
  assert (Hb' : Qred r = q) by congruence.
  f_equal. rewrite <- Hb'. rewrite <- Qred_opp. apply Qred_complete.
  rewrite Hr. reflexivity.
Qed.

(** A drawdown in percent: at least -100 and at most 0. *)
Lemma drawdown_entry_range qx qc :
  0 < qx -> qx <= qc -> binary64 (Finite qc) ->
  leb (Finite (-100))
      (mul (div (sub (Finite qx) (Finite qc)) (Finite qc)) (of_Z 100)) = true
  /\ leb (mul (div (sub (Finite qx) (Finite qc)) (Finite qc)) (of_Z 100))
         (Zero false) = true.
Proof.
  intros Hx Hc Hb. assert (Hqc : 0 < qc) by lra. rewrite of_Z_100.
  assert (Z : Qis0 qc = false) by (apply Qis0_false; lra).
  (* the difference lies between -qc and 0 *)
  assert (L1 : leb (Finite (- qc)) (sub (Finite qx) (Finite qc)) = true).
  { assert (E : sub (Zero false) (Finite qc) = Finite (- qc)).
    { unfold sub, add. cbn [neg val Float.add of_float].
      assert (E0 : 0 + - qc == - qc) by ring.
      rewrite (round_comp false E0). apply round_opp_binary64; assumption. }
    rewrite <- E. apply sub_mono_l.
    unfold leb. cbn [val Float.leb]. apply Qle_bool_iff. lra. }
  assert (U1 : leb (sub (Finite qx) (Finite qc)) (Zero false) = true).
  { assert (E : sub (Finite qc) (Finite qc) = Zero false).
    { unfold sub, add. cbn [neg val Float.add of_float]. unfold round.
      assert (Z0 : Qis0 (qc + - qc) = true) by (apply Qis0_true; ring).
      rewrite Z0. reflexivity. }
    rewrite <- E. apply sub_mono_l.
    unfold leb. cbn [val Float.leb]. apply Qle_bool_iff. exact Hc. }
  set (s := sub (Finite qx) (Finite qc)) in *.
  (* the quotient between -1 and 0 *)
  assert (L2 : leb (Finite (-1)) (div s (Finite qc)) = true).
  { assert (E : div (Finite (- qc)) (Finite qc) = Finite (-1)).
    { unfold div. cbn [val Float.div]. rewrite Z. cbn [of_float].
      assert (E0 : - qc / qc == -1) by (field; lra).
      rewrite (round_comp _ E0). vm_compute. reflexivity. }
    rewrite <- E. apply div_mono_l; assumption. }
  assert (U2 : leb (div s (Finite qc)) (Zero false) = true).
  { assert (E : leb (div s (Finite qc)) (div (Zero false) (Finite qc)) = true)
      by (apply div_mono_l; assumption).
    assert (E' : div (Zero false) (Finite qc) = Zero false).
    { unfold div. cbn [val Float.div negative]. rewrite Z.
      assert (S : Qltb qc 0 = false) by (apply Qltb_ge; lra).
      rewrite S. cbn [xorb of_float].
      assert (E0 : 0 / qc == 0) by (field; lra).
      rewrite (round_comp false E0). reflexivity. }
    rewrite E' in E. exact E. }
  set (t := div s (Finite qc)) in *.
  split.
  - change (Finite (-100)) with (mul (Finite (-1)) (Finite 100)).
    apply mul_mono_l; [reflexivity|exact L2].
  - change (Zero false) with (mul (Zero false) (Finite 100)).
    apply mul_mono_l; [reflexivity|exact U2].
Qed.

Lemma cummax_from_dominates s :
  Forall positive_finite s ->
  forall m,
    (m = None \/ exists y, m = Some (Finite y) /\ 0 < y /\ binary64 (Finite y)) ->
    Forall (fun xc => exists qx qc,
                fst xc = Finite qx /\ snd xc = Finite qc /\ 0 < qx /\ qx <= qc
                /\ binary64 (Finite qc))
      (combine s (cummax_from m s)).
Proof.
  induction 1 as [|x s (Hb & q & -> & Hq) _ IH]; intros m Hm; [constructor|].
  cbn [cummax_from isnan].
  destruct Hm as [->|(y & -> & Hy & Hby)].
  - cbn [combine]. constructor.
    + exists q, q. cbn [fst snd]. repeat split; auto; lra.
    + apply IH. right. exists q. auto.
  - unfold ltb. cbn [val Float.ltb]. destruct (Qltb y q) eqn:E.
    + cbn [combine]. constructor.
      * exists q, q. cbn [fst snd]. repeat split; auto; lra.
      * apply IH. right. exists q. auto.
    + apply Qltb_ge in E. cbn [combine]. constructor.
      * exists q, y. cbn [fst snd]. repeat split; auto.
      * apply IH. right. exists y. auto.
Qed.

Lemma cummax_from_length s : forall m, length (cummax_from m s) = length s.
Proof.
  induction s as [|x s IH]; intro m; [reflexivity|].
  cbn [cummax_from]. destruct (isnan x); cbn [length]; rewrite IH; reflexivity.
Qed.

Lemma series_min_fold_in (P : b64 -> Prop) l :
  (forall x, P x -> isnan x = false) ->
  Forall P l ->
  forall acc,
    (acc = Nan \/ P acc) -> (l <> [] \/ P acc) ->
    P (fold_left (fun m x => if isnan m then x else if ltb x m then x else m) l acc).
Proof.
  intros Hnan. induction 1 as [|x l Hx _ IH]; intros acc Hacc Hne.
  - destruct Hne as [C|Hp]; [congruence|exact Hp].
  - cbn [fold_left]. apply IH.
    + right. destruct Hacc as [->|Hp]; [exact Hx|].
      rewrite (Hnan _ Hp). destruct (ltb x acc); assumption.
    + right. destruct Hacc as [->|Hp]; [exact Hx|].
      rewrite (Hnan _ Hp). destruct (ltb x acc); assumption.
Qed.

Lemma abs_of_drawdown d :
  leb (Finite (-100)) d = true -> leb d (Zero false) = true ->
  leb (Zero false) (abs d) = true /\ leb (abs d) (Finite 100) = true.
Proof.
  unfold leb. destruct d as [s|v|[|]|]; cbn [val abs Float.leb]; try discriminate.
  - intros _ _. split; reflexivity.
  - rewrite !Qle_bool_iff. intros Hlo Hhi.
    rewrite Qabs_neg by exact Hhi. split; lra.
Qed.

End Drawdown.

(** X9: on an equity column that is not empty and whose entries are
    positive finite binary64 numbers, the maximal drawdown computed in
    binary64 arithmetic is a percentage between 0 and 100, both bounds
    included: a fall from 100000 to 1e-12 gives exactly 100. *)
Theorem max_drawdown_is_a_percentage :
  forall equity_col,
    equity_col <> [] ->
    Forall Metrics64.positive_finite equity_col ->
    Binary64.leb (Binary64.Zero false) (Metrics64.max_drawdown_of equity_col) = true
    /\ Binary64.leb (Metrics64.max_drawdown_of equity_col) (Binary64.Finite 100) = true.
Proof.
  intros col Hne Hpos.
  unfold Metrics64.max_drawdown_of, Metrics64.series_min, Metrics64.cummax.
  set (P := fun x : Binary64.b64 =>
              Binary64.leb (Binary64.Finite (-100)) x = true
              /\ Binary64.leb x (Binary64.Zero false) = true).
  assert (Hdraw : Forall P
            (map (fun ec => Binary64.mul
                              (Binary64.div (Binary64.sub (fst ec) (snd ec)) (snd ec))
                              (Binary64.of_Z 100))
               (combine col (Metrics64.cummax_from None col)))).
  { apply Forall_map. eapply Forall_impl; [|apply (cummax_from_dominates Hpos); auto].
    intros [x c] (qx & qc & Hx & Hc & H0 & Hle & Hb). cbn [fst snd] in *. subst x c.
    apply drawdown_entry_range; assumption. }
  set (draw := map _ (combine _ _)) in *.
  assert (Hnan : forall x, P x -> Binary64.isnan x = false).
  { intros x [Hx _]. destruct x; try reflexivity. discriminate Hx. }
  assert (Hdrop : filter (fun x => negb (Binary64.isnan x)) draw = draw).
  { apply forallb_filter_id. apply forallb_forall. intros x Hx.
    rewrite (Hnan x (proj1 (Forall_forall _ _) Hdraw x Hx)). reflexivity. }
  rewrite Hdrop.
  assert (Hdne : draw <> []).
  { intro E. apply (f_equal (@length Binary64.b64)) in E. unfold draw in E.
    rewrite length_map, length_combine, cummax_from_length in E.
    destruct col; [congruence | simpl in E; lia]. }
  destruct (@series_min_fold_in P draw Hnan Hdraw Binary64.Nan) as [Hlo Hhi]; auto.
  apply abs_of_drawdown; assumption.
Qed.

(** The fall from 100000 to 1e-12: the drawdown is 100. *)
Lemma max_drawdown_is_a_percentage_witness :
  Forall Metrics64.positive_finite Metrics64.steep_fall
  /\ Metrics64.max_drawdown_of Metrics64.steep_fall = Binary64.Finite 100
  /\ Binary64.leb (Metrics64.max_drawdown_of Metrics64.steep_fall)
       (Binary64.Finite 100) = true.
Proof.
  assert (Hp : Forall Metrics64.positive_finite Metrics64.steep_fall).
  { repeat constructor; try (vm_compute; reflexivity);
      eexists; (split; [reflexivity|reflexivity]). }
  split; [exact Hp|]. split; [vm_compute; reflexivity|].
  apply (max_drawdown_is_a_percentage (equity_col := Metrics64.steep_fall)).
  - discriminate.
  - exact Hp.
Defined.

(** ** The simulated Greeks *)

Section SimulatedGreeks.

Import Backtester GreeksSimulation.

Lemma ltb_leb x y : (x <? y) = true -> (x <=? y) = true.
Proof.
  destruct x as [a| | |], y as [b| | |]; simpl; try reflexivity; try discriminate.
  rewrite Qltb_lt. intro H. apply Qle_bool_iff. lra.
Qed.

Lemma leb_refl_fin q : (Fin q <=? Fin q) = true.
Proof. simpl. apply Qle_bool_iff. lra. Qed.

Lemma py_min_le a x : (py_min (Fin a) x <=? Fin a) = true.
Proof.
  unfold py_min. destruct (x <? Fin a) eqn:E; [apply ltb_leb, E | apply leb_refl_fin].
Qed.

Lemma py_max_ge a x : (py_max (Fin a) x >=? Fin a) = true.
Proof.
  unfold py_max, geb. destruct (x >? Fin a) eqn:E; [apply ltb_leb, E | apply leb_refl_fin].
Qed.

(** [max(lo, x)] stays under [hi] when [x] does, or is [NaN]. *)
Lemma py_max_le lo hi x :
  (lo <= hi)%Q -> (x <=? Fin hi) = true \/ x = NaN ->
  (py_max (Fin lo) x <=? Fin hi) = true.
Proof.
  intros Hlh Hx. unfold py_max. destruct (x >? Fin lo) eqn:E.
  - destruct Hx as [Hx| ->]; [exact Hx | discriminate].
  - simpl. apply Qle_bool_iff. exact Hlh.
Qed.

Lemma gamma_in_range x :
  (py_max (Fin (1#100)) (Fin (1#20) - abs x * Fin (1#10)) <=? Fin (1#20)) = true.
Proof.
  apply py_max_le; [lra|].
  destruct x as [q| | |]; cbn; auto.
  left. apply Qle_bool_iff.
  assert (H := Qabs_nonneg q). lra.
Qed.

Lemma vix_in_range x :
  (py_max (Fin 10) (py_min (Fin 30) x) <=? Fin 30) = true.
Proof. apply py_max_le; [lra|]. left. apply py_min_le. Qed.

Lemma base_greeks_in_range r : in_range (base_greeks r).
Proof. unfold in_range, base_greeks, set_greeks. cbn. repeat split. Qed.

Lemma greeks_step_in_range draw i table table' :
  Forall in_range table ->
  greeks_step draw i table = Ok table' ->
  Forall in_range table'.
Proof.
  intros Hall. unfold greeks_step.
  destruct (iloc table i) as [cur|e]; [|discriminate]. cbn [bind].
  destruct (iloc table (i - 1)) as [prev|e]; [|discriminate]. cbn [bind].
  intro H. injection H as <-. unfold loc_set. apply Forall_map.
  eapply Forall_impl; [|exact Hall]. intros r Hr.
  destruct (datetime_eqb (index r) (index cur)); [|exact Hr].
  unfold in_range, set_greeks.
  cbn [call_delta put_delta call_gamma put_gamma india_vix].
  split; [apply py_min_le|]. split; [apply py_max_ge|].
  split; [apply py_max_ge|]. split; [apply gamma_in_range|].
  split; [reflexivity|]. split; [apply py_max_ge | apply vix_in_range].
Qed.

Lemma greeks_loop_in_range normal steps :
  forall table table',
    Forall in_range table ->
    greeks_loop normal steps table = Ok table' ->
    Forall in_range table'.
Proof.
  induction steps as [|i steps IH]; intros table table' Hall; cbn [greeks_loop].
  - intro H. injection H as <-. exact Hall.
  - destruct (greeks_step (normal i) i table) as [t1|e] eqn:Hs; [|discriminate].
    cbn [bind]. apply IH. exact (greeks_step_in_range _ _ Hall Hs).
Qed.

Lemma greeks_step_prices draw i table table' :
  greeks_step draw i table = Ok table' -> Forall2 same_prices table table'.
Proof.
  unfold greeks_step.
  destruct (iloc table i) as [cur|e]; [|discriminate]. cbn [bind].
  destruct (iloc table (i - 1)) as [prev|e]; [|discriminate]. cbn [bind].
  intro H. injection H as <-. unfold loc_set.
  induction table as [|r table IH]; cbn [map]; constructor; [|exact IH].
  destruct (datetime_eqb (index r) (index cur)); unfold same_prices, set_greeks; cbn; auto.
Qed.

Lemma same_prices_trans a b c : same_prices a b -> same_prices b c -> same_prices a c.
Proof. unfold same_prices. intuition congruence. Qed.

Lemma Forall2_same_prices_trans l1 :
  forall l2 l3,
    Forall2 same_prices l1 l2 -> Forall2 same_prices l2 l3 -> Forall2 same_prices l1 l3.
Proof.
  induction l1 as [|a l1 IH]; intros l2 l3 H12 H23.
  - inversion H12; subst. inversion H23; subst. constructor.
  - inversion H12 as [|? b ? l2' Hab H12']; subst.
    inversion H23 as [|? c ? l3' Hbc H23']; subst.
    constructor; [eapply same_prices_trans; eassumption | eapply IH; eassumption].
Qed.

Lemma Forall2_same_prices_refl l : Forall2 same_prices l l.
Proof. induction l; constructor; [unfold same_prices; auto | assumption]. Qed.

Lemma greeks_step_runs draw i table :
  (i < length table)%nat -> exists table', greeks_step draw i table = Ok table'.
Proof.
  intro Hi. unfold greeks_step, iloc.
  destruct (nth_error table i) as [cur|] eqn:E1;
    [|apply nth_error_None in E1; lia].
  destruct (nth_error table (i - 1)) as [prev|] eqn:E2;
    [|apply nth_error_None in E2; lia].
  cbn [bind]. eexists. reflexivity.
Qed.

Lemma greeks_loop_runs normal steps :
  forall table,
    Forall (fun i => (i < length table)%nat) steps ->
    exists table',
      greeks_loop normal steps table = Ok table'
      /\ Forall2 same_prices table table'.
Proof.
  induction steps as [|i steps IH]; intros table Hsteps; cbn [greeks_loop].
  - exists table. split; [reflexivity | apply Forall2_same_prices_refl].
  - inversion Hsteps as [|? ? Hi Hsteps']; subst.
    destruct (@greeks_step_runs (normal i) i table Hi) as (t1 & Hs).
    rewrite Hs. cbn [bind].
    pose proof (greeks_step_prices _ _ _ Hs) as Hp.
    assert (Hlen : length t1 = length table)
      by (symmetry; eapply Forall2_length; exact Hp).
    destruct (IH t1) as (t2 & Hl & Hp2).
    { eapply Forall_impl; [|exact Hsteps']. intros j Hj. cbv beta in *. lia. }
    exists t2. split; [exact Hl|]. eapply Forall2_same_prices_trans; eassumption.
Qed.

End SimulatedGreeks.

(** The simulation on a table that is not empty. *)
Lemma simulate_option_greeks_runs normal price_data :
  price_data <> [] ->
  exists table,
    GreeksSimulation.simulate_option_greeks normal price_data = Ok table
    /\ GreeksSimulation.greeks_loop normal (seq 1 (length price_data - 1))
         (map GreeksSimulation.base_greeks price_data) = Ok table
    /\ Forall2 GreeksSimulation.same_prices price_data table.
Proof.
  intros Hne. unfold GreeksSimulation.simulate_option_greeks.
  destruct price_data as [|r0 rows]; [congruence|].
  cbn [GreeksSimulation.iloc nth_error bind].
  set (table0 := map GreeksSimulation.base_greeks (r0 :: rows)).
  assert (Hlen0 : length table0 = length (r0 :: rows)) by apply length_map.
  destruct (@greeks_loop_runs normal (seq 1 (length (r0 :: rows) - 1)) table0)
    as (table & Hl & Hp).
  { apply Forall_forall. intros i Hi. apply in_seq in Hi. rewrite Hlen0.
    cbn [length] in *. lia. }
  exists table. split; [exact Hl|]. split; [exact Hl|].
  eapply Forall2_same_prices_trans; [|exact Hp].
  unfold table0. clear. induction (r0 :: rows) as [|r l IH]; cbn [map]; constructor;
    [unfold GreeksSimulation.same_prices; cbn; auto | exact IH].
Qed.

Lemma base_table_in_range price_data :
  Forall GreeksSimulation.in_range (map GreeksSimulation.base_greeks price_data).
Proof.
  apply Forall_map. apply Forall_forall. intros r _. apply base_greeks_in_range.
Qed.

(** X10: on every table that is not empty and whatever the random
    draws, [simulate_option_greeks] succeeds; it keeps the number of
    rows, their index and their close, RSI and moving-average columns;
    and in every row of its result the call delta is at most 0.95, the
    put delta at least -0.95, the gamma between 0.01 and 0.05 with the
    put gamma equal to the call gamma, and the volatility index between
    10 and 30.  On an empty table it raises [IndexError]. *)
Theorem simulated_greeks_stay_in_range :
  forall normal,
    GreeksSimulation.simulate_option_greeks normal [] = Raise IndexError
    /\ (forall price_data,
           price_data <> [] ->
           exists table,
             GreeksSimulation.simulate_option_greeks normal price_data = Ok table
             /\ Forall2 GreeksSimulation.same_prices price_data table
             /\ Forall GreeksSimulation.in_range table).
Proof.
  intro normal. split; [reflexivity|].
  intros price_data Hne.
  destruct (simulate_option_greeks_runs normal Hne) as (table & Hsim & Hloop & Hp).
  exists table. split; [exact Hsim|]. split; [exact Hp|].
  eapply greeks_loop_in_range; [apply base_table_in_range | exact Hloop].
Qed.

(** The stop-loss sample with draws that are all 0. *)
Lemma simulated_greeks_stay_in_range_witness :
  exists table,
    GreeksSimulation.simulate_option_greeks (fun _ => Fin 0) Samples.stop_loss_rows
    = Ok table
    /\ Forall2 GreeksSimulation.same_prices Samples.stop_loss_rows table
    /\ Forall GreeksSimulation.in_range table.
Proof.
  apply (proj2 (simulated_greeks_stay_in_range (fun _ => Fin 0))).
  discriminate.
Defined.

Lemma at_most_not_above x a t :
  (x <=? Fin a) = true -> (t >=? Fin a) = true -> (x >? t) = false.
Proof.
  unfold geb, gtb.
  destruct x as [q| | |], t as [u| | |]; simpl; try reflexivity; try discriminate.
  rewrite !Qle_bool_iff. intros H1 H2. apply Qltb_ge. lra.
Qed.

Lemma in_range_no_signal p r :
  (Backtester.GAMMA_THRESHOLD p >=? Fin (1#20)) = true ->
  GreeksSimulation.in_range r ->
  Backtester._check_strategy_signal p r = 0%Z.
Proof.
  intros Hthr (_ & _ & _ & Hcg & Hpg & _).
  assert (Hc : (Backtester.call_gamma r >? Backtester.GAMMA_THRESHOLD p) = false)
    by (eapply at_most_not_above; eassumption).
  unfold Backtester._check_strategy_signal, Backtester.long_signal,
    Backtester.short_signal, Backtester.delta_gamma_long, Backtester.delta_gamma_short.
  rewrite Hpg, Hc, !andb_false_r. reflexivity.
Qed.

(** X11: the simulated Greeks never fire a signal when the gamma
    threshold is 0.05 or more, which the default 0.1 is: both
    delta-gamma filters need a gamma strictly above the threshold and
    the simulated gamma never exceeds 0.05.  A backtest of a fresh
    object on a simulated table therefore records no trade and reports
    a final capital of 100000, whatever the prices and the draws. *)
Theorem simulated_greeks_never_trade :
  forall np_sqrt normal env price_data table,
    (Backtester.env_GAMMA_THRESHOLD env >=? Fin (1#20)) = true ->
    GreeksSimulation.simulate_option_greeks normal price_data = Ok table ->
    exists m after,
      Backtester.run_backtest np_sqrt (Backtester.init env) table = Ok (m, after)
      /\ Backtester.trades after = []
      /\ Backtester.total_trades m = 0%nat
      /\ Backtester.final_capital m = of_Z 100000.
Proof.
  intros np_sqrt normal env price_data table Hthr Hsim.
  assert (Hne : price_data <> []) by (intros ->; discriminate Hsim).
  destruct (simulate_option_greeks_runs normal Hne) as (table' & Hsim' & Hloop & Hp).
  rewrite Hsim in Hsim'. injection Hsim' as <-.
  assert (Hr : Forall GreeksSimulation.in_range table)
    by (eapply greeks_loop_in_range; [apply base_table_in_range | exact Hloop]).
  assert (Htne : table <> []).
  { intros ->. apply Forall2_length in Hp. destruct price_data; [congruence|discriminate]. }
  destruct (@run_backtest_completes np_sqrt (Backtester.init env) table Htne)
    as (m & after & Hrun).
  exists m, after. split; [exact Hrun|].
  destruct (run_backtest_inv (Backtester.init env) np_sqrt table Hrun)
    as (st & Hs & _ & Ht & _ & _ & _ & _ & Hfc & Htot & _).
  destruct (simulate_ledger (Backtester.init env) Htne)
    as (st' & closed & ending & r0 & pts & Hs' & _ & Htr & Hcap & _ & _ & _ & _ & _ & Hq).
  rewrite Hs in Hs'. injection Hs' as <-.
  destruct Hq as (-> & -> & _).
  { apply Forall_forall. intros r Hin. unfold Ledger.evaluated in Hin.
    apply filter_In in Hin. destruct Hin as [Hin _].
    apply in_range_no_signal; [exact Hthr|].
    apply (proj1 (Forall_forall _ _) Hr). destruct table; [contradiction|].
    right. exact Hin. }
  cbn [app Backtester.init Backtester.trades] in Htr.
  rewrite Htot, Htr, Ht, Hfc, Hcap. auto.
Qed.

(** The stop-loss sample with simulated Greeks: nothing is traded. *)
Lemma simulated_greeks_never_trade_witness :
  exists table m after,
    GreeksSimulation.simulate_option_greeks (fun _ => Fin 0) Samples.stop_loss_rows
    = Ok table
    /\ Backtester.run_backtest Samples.sqrt_approx
         (Backtester.init Backtester.default_env) table = Ok (m, after)
    /\ Backtester.trades after = []
    /\ Backtester.final_capital m = of_Z 100000.
Proof.
  destruct (@simulate_option_greeks_runs (fun _ => Fin 0) Samples.stop_loss_rows)
    as (table & Hsim & _); [discriminate|].
  destruct (@simulated_greeks_never_trade Samples.sqrt_approx (fun _ => Fin 0)
              Backtester.default_env Samples.stop_loss_rows table eq_refl Hsim)
    as (m & after & Hrun & Ht & _ & Hc).
  exists table, m, after. auto.
Defined.

(* ----------------------------------------------------------------- *)
(** *** The broker gateway *)

Section BundledSmartConnect.

Import Py AngelApi.

Variable totp_now : string -> attempt string.
Variable env : AngelApi.Env.

Lemma connect_bundled a b c d self :
  fst (connect bundled_smart_connect totp_now env a b c d self) = false /\
  is_connected (snd (connect bundled_smart_connect totp_now env a b c d self))
  = is_connected self.
Proof.
  unfold connect.
  destruct (totp_now _) as [token|e]; [|split; reflexivity].
  cbn. split; reflexivity.
Qed.

Lemma disconnect_bundled self :
  is_connected self = false ->
  is_connected (disconnect bundled_smart_connect env self) = false.
Proof.
  intro H. unfold disconnect, invoke.
  destruct (api self) as [k|]; [|exact H].
  cbn. reflexivity.
Qed.

Lemma reachable_disconnected self :
  reachable totp_now env self -> is_connected self = false.
Proof.
  induction 1 as [|self a b c d _ IH|self _ IH].
  - reflexivity.
  - destruct (connect_bundled a b c d self) as [_ E]. rewrite E. exact IH.
  - apply disconnect_bundled. exact IH.
Qed.

End BundledSmartConnect.

Section AnyBroker.

Import Py AngelApi.

Variable respond : list Call -> Call -> attempt json.
Variable totp_now : string -> attempt string.
Variable make_frame : json -> attempt (list Candle).

Lemma orders_record_call self c :
  orders (record_call self c)
  = orders self ++ (if String.eqb (method c) "placeOrder" then [c] else []).
Proof.
  unfold orders, record_call. cbn [calls].
  rewrite filter_app. cbn [filter].
  destruct (String.eqb (method c) "placeOrder"); reflexivity.
Qed.

Lemma invoke_frame self m a :
  calls (snd (invoke respond self m a))
  = calls self ++ (match api self with Some _ => [mk_call m a] | None => [] end) /\
  is_connected (snd (invoke respond self m a)) = is_connected self /\
  api (snd (invoke respond self m a)) = api self.
Proof.
  unfold invoke. destruct (api self) as [k|] eqn:E; cbn.
  - rewrite E. auto.
  - rewrite app_nil_r. auto.
Qed.

Lemma invoke_orders self m a :
  String.eqb m "placeOrder" = false ->
  orders (snd (invoke respond self m a)) = orders self.
Proof.
  intro H. unfold invoke. destruct (api self) as [k|]; [|reflexivity].
  cbn [snd]. rewrite orders_record_call. cbn [method]. rewrite H.
  apply app_nil_r.
Qed.

Lemma invoke_answer self m a k :
  api self = Some k ->
  fst (invoke respond self m a) = respond (calls self) (mk_call m a).
Proof.
  intro H. unfold invoke. rewrite H. reflexivity.
Qed.

Lemma get_token_state symbol exchange self :
  snd (_get_token respond symbol exchange self)
  = snd (invoke respond self "searchscrip" [JStr exchange; JStr symbol]).
Proof.
  unfold _get_token.
  destruct (invoke respond self "searchscrip" [JStr exchange; JStr symbol]) as [r self1].
  cbn [snd].
  destruct r as [sr|e]; [|reflexivity].
  destruct (truthy sr); [|reflexivity].
  destruct (contains sr "data") as [[|]|e]; try reflexivity.
  destruct (and_then (getitem sr "data") iterate) as [items|e]; [|reflexivity].
  destruct (find_token items symbol); reflexivity.
Qed.

Lemma get_token_orders symbol exchange self :
  orders (snd (_get_token respond symbol exchange self)) = orders self.
Proof.
  rewrite get_token_state. apply invoke_orders. reflexivity.
Qed.

Lemma get_token_frame symbol exchange self :
  is_connected (snd (_get_token respond symbol exchange self)) = is_connected self /\
  api (snd (_get_token respond symbol exchange self)) = api self.
Proof.
  rewrite get_token_state.
  destruct (invoke_frame self "searchscrip" [JStr exchange; JStr symbol]) as (_ & H1 & H2).
  auto.
Qed.

Lemma connect_orders env a b c d self :
  orders (snd (connect respond totp_now env a b c d self)) = orders self.
Proof.
  unfold connect.
  destruct (totp_now _) as [token|e]; [|reflexivity].
  set (made := mk_call "SmartConnect" _).
  assert (Hm : orders (record_call self made) = orders self).
  { rewrite orders_record_call. cbn. apply app_nil_r. }
  destruct (respond (calls self) made) as [o|e]; [|exact Hm].
  set (self1 := set_api (record_call self made) _).
  assert (H1 : orders self1 = orders self) by exact Hm.
  pose proof (@invoke_orders self1 "generateSession"
                [JStr (str_or b (CLIENT_ID env)); JStr (str_or c (CLIENT_PASSWORD env));
                 JStr token] eq_refl) as H2.
  destruct (invoke respond self1 "generateSession" _) as [r self2].
  cbn [snd] in H2. rewrite H1 in H2.
  destruct r as [data|e]; [|exact H2].
  destruct (and_then (getitem data "data") (fun d0 => getitem d0 "refreshToken"))
    as [rt|e]; [|exact H2].
  destruct (and_then (getitem data "data") (fun d0 => getitem d0 "sessionId"))
    as [sid|e]; [|exact H2].
  set (self4 := set_session_id _ sid).
  assert (H4 : orders self4 = orders self) by exact H2.
  pose proof (@invoke_orders self4 "getfeedToken" [] eq_refl) as H5.
  destruct (invoke respond self4 "getfeedToken" []) as [f self5].
  cbn [snd] in H5. rewrite H4 in H5.
  destruct f as [ft|e]; [|exact H5].
  destruct (truthy sid); exact H5.
Qed.

Lemma connect_flag env a b c d self :
  is_connected (snd (connect respond totp_now env a b c d self))
  = fst (connect respond totp_now env a b c d self) || is_connected self.
Proof.
  unfold connect.
  destruct (totp_now _) as [token|e]; [|reflexivity].
  set (made := mk_call "SmartConnect" _).
  destruct (respond (calls self) made) as [o|e]; [|reflexivity].
  set (self1 := set_api (record_call self made) _).
  assert (H1 : is_connected self1 = is_connected self) by reflexivity.
  destruct (invoke_frame self1 "generateSession"
              [JStr (str_or b (CLIENT_ID env)); JStr (str_or c (CLIENT_PASSWORD env));
               JStr token]) as (_ & H2 & _).
  destruct (invoke respond self1 "generateSession" _) as [r self2].
  cbn [snd] in H2. rewrite H1 in H2.
  destruct r as [data|e]; [|exact H2].
  destruct (and_then (getitem data "data") (fun d0 => getitem d0 "refreshToken"))
    as [rt|e]; [|exact H2].
  destruct (and_then (getitem data "data") (fun d0 => getitem d0 "sessionId"))
    as [sid|e]; [|exact H2].
  set (self4 := set_session_id _ sid).
  assert (H4 : is_connected self4 = is_connected self) by exact H2.
  destruct (invoke_frame self4 "getfeedToken" []) as (_ & H5 & _).
  destruct (invoke respond self4 "getfeedToken" []) as [f self5].
  cbn [snd] in H5. rewrite H4 in H5.
  destruct f as [ft|e]; [|exact H5].
  destruct (truthy sid); [reflexivity|exact H5].
Qed.

Lemma connect_success env a b c d self :
  fst (connect respond totp_now env a b c d self) = true ->
  truthy (session_id (snd (connect respond totp_now env a b c d self))) = true /\
  exists token,
    totp_now (str_or d (TOTP_KEY env)) = Returned token /\
    calls (snd (connect respond totp_now env a b c d self))
    = calls self
      ++ [mk_call "SmartConnect" [JStr (str_or a (API_KEY env))];
          mk_call "generateSession"
            [JStr (str_or b (CLIENT_ID env)); JStr (str_or c (CLIENT_PASSWORD env));
             JStr token];
          mk_call "getfeedToken" []].
Proof.
  unfold connect.
  destruct (totp_now _) as [token|e]; [|discriminate].
  set (made := mk_call "SmartConnect" _).
  destruct (respond (calls self) made) as [o|e]; [|discriminate].
  unfold invoke.
  cbn [api set_api record_call calls set_session_id set_refresh_token].
  destruct (respond (calls self ++ [made]) _) as [data|e]; [|discriminate].
  destruct (and_then (getitem data "data") (fun d0 => getitem d0 "refreshToken"))
    as [rt|e]; [|discriminate].
  destruct (and_then (getitem data "data") (fun d0 => getitem d0 "sessionId"))
    as [sid|e]; [|discriminate].
  destruct (respond _ (mk_call "getfeedToken" [])) as [ft|e]; [|discriminate].
  destruct (truthy sid) eqn:Es; [|discriminate].
  intros _.
  cbn [snd set_is_connected set_feed_token set_session_id set_refresh_token
       record_call session_id refresh_token feed_token is_connected calls api].
  split; [exact Es|].
  exists token. split; [reflexivity|].
  subst made. cbn [calls set_api record_call].
  rewrite <- !app_assoc. reflexivity.
Qed.

Lemma place_order_calls tt symbol exchange q price ot self k :
  is_connected self = true ->
  api self = Some k ->
  calls (snd (place_order respond tt symbol exchange q price ot self))
  = calls self
    ++ [mk_call "searchscrip" [JStr exchange; JStr symbol];
        mk_call "placeOrder"
          [order_params tt symbol exchange q price ot
             (fst (_get_token respond symbol exchange self))]].
Proof.
  intros Hc Ha. unfold place_order. rewrite Hc. cbn [negb].
  pose proof (get_token_state symbol exchange self) as Hs.
  destruct (get_token_frame symbol exchange self) as [_ Hk].
  destruct (_get_token respond symbol exchange self) as [token self1].
  cbn [fst snd] in *.
  destruct (invoke_frame self "searchscrip" [JStr exchange; JStr symbol]) as (Hcalls & _ & _).
  rewrite <- Hs, Ha in Hcalls.
  destruct (invoke_frame self1 "placeOrder"
              [order_params tt symbol exchange q price ot token]) as (Hcalls2 & _ & _).
  rewrite Hk, Ha, Hcalls in Hcalls2.
  destruct (invoke respond self1 "placeOrder" _) as [r self2].
  cbn [snd] in Hcalls2.
  rewrite <- app_assoc in Hcalls2.
  destruct r; exact Hcalls2.
Qed.

Lemma historical_data_without_token symbol exchange interval from_date to_date self :
  is_connected self = true ->
  truthy (fst (_get_token respond symbol exchange self)) = false ->
  get_historical_data respond make_frame symbol exchange interval from_date to_date self
  = (None, snd (_get_token respond symbol exchange self)).
Proof.
  intros Hc Ht. unfold get_historical_data. rewrite Hc. cbn [negb].
  destruct (_get_token respond symbol exchange self) as [token self1].
  cbn [fst snd] in *. rewrite Ht. reflexivity.
Qed.

Lemma place_order_orders tt symbol exchange q price ot self :
  orders (snd (place_order respond tt symbol exchange q price ot self))
  = orders self
    ++ (if is_connected self
        then match api self with
             | Some _ =>
                 [mk_call "placeOrder"
                    [order_params tt symbol exchange q price ot
                       (fst (_get_token respond symbol exchange self))]]
             | None => []
             end
        else []).
Proof.
  unfold place_order.
  destruct (is_connected self) eqn:Hc; cbn [negb]; [|symmetry; apply app_nil_r].
  pose proof (get_token_orders symbol exchange self) as Ho.
  destruct (get_token_frame symbol exchange self) as [_ Hk].
  destruct (_get_token respond symbol exchange self) as [token self1].
  cbn [fst snd] in *.
  assert (H : orders (snd (invoke respond self1 "placeOrder"
                [order_params tt symbol exchange q price ot token]))
              = orders self ++ match api self with
                               | Some _ => [mk_call "placeOrder"
                                   [order_params tt symbol exchange q price ot token]]
                               | None => []
                               end).
  { unfold invoke. rewrite Hk. destruct (api self); cbn [snd].
    - rewrite orders_record_call, Ho. reflexivity.
    - rewrite Ho. symmetry. apply app_nil_r. }
  destruct (invoke respond self1 "placeOrder" _) as [r self2].
  cbn [snd] in H. destruct r; exact H.
Qed.

Lemma get_positions_orders self :
  orders (snd (get_positions respond self)) = orders self.
Proof.
  unfold get_positions. destruct (is_connected self); cbn [negb]; [|reflexivity].
  pose proof (@invoke_orders self "position" [] eq_refl) as H.
  destruct (invoke respond self "position" []) as [r self1].
  cbn [snd] in H. destruct r; exact H.
Qed.

Lemma get_positions_frame self :
  is_connected (snd (get_positions respond self)) = is_connected self /\
  api (snd (get_positions respond self)) = api self.
Proof.
  unfold get_positions. destruct (is_connected self) eqn:Hc; cbn [negb]; [|auto].
  destruct (invoke_frame self "position" []) as (_ & H1 & H2).
  destruct (invoke respond self "position" []) as [r self1].
  cbn [snd] in *. rewrite Hc in H1. destruct r; auto.
Qed.

Lemma get_historical_data_orders symbol exchange interval from_date to_date self :
  orders (snd (get_historical_data respond make_frame symbol exchange interval
                 from_date to_date self))
  = orders self.
Proof.
  unfold get_historical_data.
  destruct (is_connected self); cbn [negb]; [|reflexivity].
  pose proof (get_token_orders symbol exchange self) as Ho.
  destruct (_get_token respond symbol exchange self) as [token self1].
  cbn [snd] in Ho.
  destruct (truthy token); cbn [negb]; [|exact Ho].
  match goal with
  | |- context [invoke respond self1 "getCandleData" ?a] =>
      pose proof (@invoke_orders self1 "getCandleData" a eq_refl) as H;
      destruct (invoke respond self1 "getCandleData" a) as [r self2]
  end.
  cbn [snd] in H. rewrite Ho in H.
  destruct r as [hd|e]; [|exact H].
  destruct (truthy hd); [|exact H].
  destruct (contains hd "data") as [[|]|e]; try exact H.
  destruct (and_then (getitem hd "data") make_frame); exact H.
Qed.

End AnyBroker.

(** X12: with the [SmartConnect] class bundled in [angel_api.py], whose
    session answer has no ["sessionId"] entry and which has no
    [getfeedToken] method, [connect] answers [False] and never sets
    [is_connected].  A gateway made by [__init__] therefore stays
    disconnected through any number of [connect] and [disconnect]
    calls, and orders, positions and candles are answered with [None]
    without a call to the broker. *)
Theorem bundled_gateway_never_connects :
  forall totp_now env self,
    AngelApi.reachable totp_now env self ->
    AngelApi.is_connected self = false
    /\ (forall a b c d,
          fst (AngelApi.connect AngelApi.bundled_smart_connect totp_now env a b c d self)
          = false)
    /\ (forall side symbol exchange q price order_type,
          AngelApi.place_order AngelApi.bundled_smart_connect side symbol exchange q
            price order_type self = (Py.JNull, self))
    /\ AngelApi.get_positions AngelApi.bundled_smart_connect self = (Py.JNull, self)
    /\ (forall make_frame symbol exchange interval from_date to_date,
          AngelApi.get_historical_data AngelApi.bundled_smart_connect make_frame
            symbol exchange interval from_date to_date self = (None, self)).
Proof.
  intros totp_now env self Hr.
  pose proof (reachable_disconnected Hr) as Hc.
  split; [exact Hc|].
  split; [intros a b c d; apply connect_bundled|].
  unfold AngelApi.place_order, AngelApi.get_positions, AngelApi.get_historical_data.
  rewrite Hc. cbn [negb]. auto.
Qed.

(** A new gateway after one [connect] and one [disconnect]. *)
Lemma bundled_gateway_never_connects_witness :
  AngelApi.is_connected
    (AngelApi.disconnect AngelApi.bundled_smart_connect LiveSamples.credentials
       (snd (AngelApi.connect AngelApi.bundled_smart_connect LiveSamples.totp_123456
               LiveSamples.credentials None None None None AngelApi.init)))
  = false.
Proof.
  apply (@bundled_gateway_never_connects LiveSamples.totp_123456 LiveSamples.credentials).
  apply AngelApi.reach_disconnect, AngelApi.reach_connect, AngelApi.reach_init.
Defined.

(** X13: whatever the broker answers, [connect] places no order, and
    [is_connected] afterwards is its old value or [True] after a
    successful call: a failed [connect] on a connected gateway leaves it
    marked connected.  A successful call has made exactly three calls
    (the constructor, [generateSession], [getfeedToken]) and stored a
    non-empty session id. *)
Theorem connect_only_raises_the_flag :
  forall respond totp_now env a b c d self,
    let after := snd (AngelApi.connect respond totp_now env a b c d self) in
    let ok := fst (AngelApi.connect respond totp_now env a b c d self) in
    AngelApi.is_connected after = ok || AngelApi.is_connected self
    /\ AngelApi.orders after = AngelApi.orders self
    /\ (ok = true ->
        Py.truthy (AngelApi.session_id after) = true
        /\ exists token,
             AngelApi.calls after
             = AngelApi.calls self
               ++ [AngelApi.mk_call "SmartConnect"
                     [Py.JStr (Py.str_or a (AngelApi.API_KEY env))];
                   AngelApi.mk_call "generateSession"
                     [Py.JStr (Py.str_or b (AngelApi.CLIENT_ID env));
                      Py.JStr (Py.str_or c (AngelApi.CLIENT_PASSWORD env));
                      Py.JStr token];
                   AngelApi.mk_call "getfeedToken" []]).
Proof.
  intros respond totp_now env a b c d self after ok.
  split; [apply connect_flag|].
  split; [apply connect_orders|].
  intro Hok.
  destruct (@connect_success respond totp_now env a b c d self Hok)
    as (Hs & token & _ & Hcalls).
  split; [exact Hs|]. exists token. exact Hcalls.
Qed.

(** The working sample broker: the flag rises and the session id is
    kept. *)
Lemma connect_only_raises_the_flag_witness :
  AngelApi.is_connected
    (snd (AngelApi.connect (LiveSamples.working_broker Py.JNull) LiveSamples.totp_123456
            LiveSamples.credentials None None None None AngelApi.init)) = true
  /\ Py.truthy
       (AngelApi.session_id
          (snd (AngelApi.connect (LiveSamples.working_broker Py.JNull)
                  LiveSamples.totp_123456 LiveSamples.credentials None None None None
                  AngelApi.init))) = true.
Proof.
  destruct (@connect_only_raises_the_flag (LiveSamples.working_broker Py.JNull)
              LiveSamples.totp_123456 LiveSamples.credentials None None None None
              AngelApi.init) as (H1 & _ & H3).
  split; [rewrite H1; reflexivity|].
  destruct (H3 eq_refl) as [Hs _]. exact Hs.
Defined.

(** X14: a connected gateway sends every order it is asked to place:
    [place_order] makes one [searchscrip] call and then one [placeOrder]
    call, also when the symbol has no token, which is then sent as
    [None].  [get_historical_data] on the other hand asks for no candles
    without a token. *)
Theorem place_order_sends_without_token :
  forall respond make_frame side symbol exchange q price order_type interval
         from_date to_date self k,
    AngelApi.is_connected self = true ->
    AngelApi.api self = Some k ->
    let token := fst (AngelApi._get_token respond symbol exchange self) in
    AngelApi.calls
      (snd (AngelApi.place_order respond side symbol exchange q price order_type self))
    = AngelApi.calls self
      ++ [AngelApi.mk_call "searchscrip" [Py.JStr exchange; Py.JStr symbol];
          AngelApi.mk_call "placeOrder"
            [AngelApi.order_params side symbol exchange q price order_type token]]
    /\ (Py.truthy token = false ->
        fst (AngelApi.get_historical_data respond make_frame symbol exchange interval
               from_date to_date self) = None
        /\ AngelApi.calls
             (snd (AngelApi.get_historical_data respond make_frame symbol exchange
                     interval from_date to_date self))
           = AngelApi.calls self
             ++ [AngelApi.mk_call "searchscrip" [Py.JStr exchange; Py.JStr symbol]]).
Proof.
  intros respond make_frame side symbol exchange q price order_type interval
         from_date to_date self k Hc Ha token.
  split; [exact (@place_order_calls respond side symbol exchange q price order_type
                   self k Hc Ha)|].
  intro Ht.
  rewrite (@historical_data_without_token respond make_frame symbol exchange interval
             from_date to_date self Hc Ht).
  cbn [fst snd]. split; [reflexivity|].
  rewrite get_token_state.
  destruct (@invoke_frame respond self "searchscrip" [Py.JStr exchange; Py.JStr symbol])
    as (Hcalls & _ & _).
  rewrite Hcalls, Ha. reflexivity.
Qed.

(** The bundled class has no [searchscrip]: the order leaves with the
    token [None]. *)
Lemma place_order_sends_without_token_witness :
  AngelApi.calls
    (snd (AngelApi.place_order AngelApi.bundled_smart_connect "BUY" "NIFTY" "NSE" 1
            (Py.JNum (Fin 0)) "MARKET" LiveSamples.forced_connection))
  = [AngelApi.mk_call "searchscrip" [Py.JStr "NSE"; Py.JStr "NIFTY"];
     AngelApi.mk_call "placeOrder"
       [AngelApi.order_params "BUY" "NIFTY" "NSE" 1 (Py.JNum (Fin 0)) "MARKET" Py.JNull]].
Proof.
  exact (proj1 (@place_order_sends_without_token AngelApi.bundled_smart_connect
                  (fun _ => Py.Raised Py.OtherError) "BUY" "NIFTY" "NSE" 1%Z
                  (Py.JNum (Fin 0)) "MARKET" "FIFTEEN_MINUTE" "" ""
                  LiveSamples.forced_connection "key" eq_refl eq_refl)).
Defined.

(* ----------------------------------------------------------------- *)
(** *** The strategy on its gateway *)

Lemma strategy_generate_signal_cases env now later self s self' :
  Strategy.generate_signal env now later self = Ok (Some s, self') ->
  Strategy.is_trading_hours env now = Ok true /\
  exists g df latest v,
    Strategy.greeks_data self = Some g /\
    Strategy.historical_data self = Some df /\
    Strategy.iloc_last df = Ok latest /\
    Strategy.row_notna_all latest = true /\
    Strategy.vix self = Some v /\
    Strategy.decide_signal self g latest v = Some s /\
    self' = Strategy.set_last_signal self s later.
Proof.
  unfold Strategy.generate_signal.
  destruct (Strategy.is_trading_hours env now) as [b|e]; simpl; [|discriminate].
  destruct b; simpl; [|discriminate].
  destruct (Strategy.greeks_data self) as [g|]; [|discriminate].
  destruct (Strategy.historical_data self) as [df|]; [|discriminate].
  destruct (Strategy.iloc_last df) as [latest|e] eqn:El; simpl; [|discriminate].
  destruct (Strategy.row_notna_all latest) eqn:En; simpl; [|discriminate].
  destruct (Strategy.vix self) as [v|]; [|discriminate].
  destruct (Strategy.decide_signal self g latest v) as [s0|] eqn:E; [|discriminate].
  intro H. injection H as H1 H2. subst s0 self'.
  split; [reflexivity|].
  exists g, df, latest, v. repeat split; auto.
Qed.

Lemma strategy_generate_signal_none env now later self self' :
  Strategy.generate_signal env now later self = Ok (None, self') -> self' = self.
Proof.
  unfold Strategy.generate_signal.
  destruct (Strategy.is_trading_hours env now) as [b|e]; simpl; [|discriminate].
  destruct b; simpl; [|intro H; injection H as <-; reflexivity].
  destruct (Strategy.greeks_data self) as [g|];
    [|intro H; injection H as <-; reflexivity].
  destruct (Strategy.historical_data self) as [df|]; [|discriminate].
  destruct (Strategy.iloc_last df) as [latest|e]; simpl; [|discriminate].
  destruct (Strategy.row_notna_all latest) eqn:En; simpl;
    [|intro H; injection H as <-; reflexivity].
  destruct (Strategy.vix self) as [v|]; [|intro H; injection H as <-; reflexivity].
  destruct (Strategy.decide_signal self g latest v) as [s0|] eqn:E; [discriminate|].
  intro H; injection H as <-; reflexivity.
Qed.

Lemma decide_signal_cases self g latest v s :
  Strategy.decide_signal self g latest v = Some s ->
  (s = "BUY"%string /\
   Strategy.delta_gamma_buy self g latest = true /\
   Strategy.theta_vega_buy self g = true /\
   Strategy.vix_buy self v = true)
  \/
  (s = "SELL"%string /\
   Strategy.delta_gamma_sell self g latest = true /\
   Strategy.theta_vega_sell self g = true /\
   Strategy.vix_sell self v = true).
Proof.
  unfold Strategy.decide_signal.
  destruct (Strategy.delta_gamma_buy self g latest) ; simpl.
  - destruct (Strategy.theta_vega_buy self g); simpl.
    + destruct (Strategy.vix_buy self v); simpl.
      * intro H. injection H as <-. left. auto.
      * destruct (Strategy.delta_gamma_sell self g latest); simpl; [|discriminate].
        destruct (Strategy.theta_vega_sell self g); simpl; [|discriminate].
        destruct (Strategy.vix_sell self v); simpl; [|discriminate].
        intro H. injection H as <-. right. auto.
    + destruct (Strategy.delta_gamma_sell self g latest); simpl; [|discriminate].
      destruct (Strategy.theta_vega_sell self g); simpl; [|discriminate].
      destruct (Strategy.vix_sell self v); simpl; [|discriminate].
      intro H. injection H as <-. right. auto.
  - destruct (Strategy.delta_gamma_sell self g latest); simpl; [|discriminate].
    destruct (Strategy.theta_vega_sell self g); simpl; [|discriminate].
    destruct (Strategy.vix_sell self v); simpl; [|discriminate].
    intro H. injection H as <-. right. auto.
Qed.

Section Trading.

Import Py.

Variable respond : list AngelApi.Call -> AngelApi.Call -> attempt json.
Variable totp_now : string -> attempt string.
Variable make_frame : json -> attempt (list AngelApi.Candle).

Lemma set_last_signal_same self :
  Trader.set_last_signal self (Trader.last_signal self) (Trader.last_signal_time self)
  = self.
Proof. destruct self; reflexivity. Qed.

Lemma trader_signal_none env now later self self' :
  Trader.generate_signal env now later self = Ok (None, self') -> self' = self.
Proof.
  unfold Trader.generate_signal.
  destruct (Trader.historical_data self) as [[candles|rows]|].
  - destruct (Strategy.is_trading_hours (Trader.hours env) now) as [b|e]; simpl;
      [|discriminate].
    destruct b; simpl; [|intro H; injection H as <-; reflexivity].
    destruct (Trader.greeks_data self); [|intro H; injection H as <-; reflexivity].
    destruct (Strategy.iloc_last candles); simpl; [|discriminate].
    intro H; injection H as <-; reflexivity.
  - destruct (Strategy.generate_signal _ now later _) as [[sg st]|e] eqn:E; simpl;
      [|discriminate].
    intro H. injection H as -> <-.
    apply strategy_generate_signal_none in E. subst st. apply set_last_signal_same.
  - destruct (Strategy.generate_signal _ now later _) as [[sg st]|e] eqn:E; simpl;
      [|discriminate].
    intro H. injection H as -> <-.
    apply strategy_generate_signal_none in E. subst st. apply set_last_signal_same.
Qed.

Lemma trader_signal_some env now later self s self' :
  Trader.generate_signal env now later self = Ok (Some s, self') ->
  Strategy.is_trading_hours (Trader.hours env) now = Ok true /\
  exists rows latest g v,
    Trader.historical_data self = Some (Trader.WithIndicators rows) /\
    Strategy.iloc_last rows = Ok latest /\
    Strategy.row_notna_all latest = true /\
    Trader.greeks_data self = Some g /\
    Trader.vix self = Some v /\
    Strategy.decide_signal (Trader.signal_view self (Some rows))
      (Trader.greeks_read g) latest v = Some s /\
    self' = Trader.set_last_signal self (Some s) (Some later).
Proof.
  unfold Trader.generate_signal.
  destruct (Trader.historical_data self) as [[candles|rows]|].
  - destruct (Strategy.is_trading_hours (Trader.hours env) now) as [b|e]; simpl;
      [|discriminate].
    destruct b; simpl; [|discriminate].
    destruct (Trader.greeks_data self); [|discriminate].
    destruct (Strategy.iloc_last candles); simpl; discriminate.
  - destruct (Strategy.generate_signal _ now later _) as [[sg st]|e] eqn:E; simpl;
      [|discriminate].
    intro H. injection H as -> <-.
    apply strategy_generate_signal_cases in E.
    destruct E as (Hh & g & df & latest & v & Hg & Hd & Hl & Hn & Hv & Hs & ->).
    split; [exact Hh|].
    cbn [Trader.signal_view Strategy.greeks_data Strategy.historical_data Strategy.vix]
      in Hg, Hd, Hv.
    injection Hd as <-.
    destruct (Trader.greeks_data self) as [g0|]; [|discriminate].
    injection Hg as <-.
    exists rows, latest, g0, v. auto 10.
  - destruct (Strategy.generate_signal _ now later _) as [[sg st]|e] eqn:E; simpl;
      [|discriminate].
    intro H. injection H as -> <-.
    apply strategy_generate_signal_cases in E.
    destruct E as (_ & g & df & latest & v & _ & Hd & _).
    discriminate Hd.
Qed.

Lemma place_answer side env q self :
  fst (Trader.place respond side env q self) = true ->
  AngelApi.is_connected (Trader.angel_api self) = true /\
  exists k, AngelApi.api (Trader.angel_api self) = Some k.
Proof.
  unfold Trader.place, AngelApi.place_order.
  destruct (AngelApi.is_connected (Trader.angel_api self)); cbn [negb];
    [|cbn; discriminate].
  destruct (get_token_frame respond (Trader.SYMBOL env) (Trader.EXCHANGE env)
              (Trader.angel_api self)) as [_ Hk].
  destruct (AngelApi._get_token respond _ _ (Trader.angel_api self)) as [token self1].
  cbn [snd] in Hk. unfold AngelApi.invoke. rewrite Hk.
  destruct (AngelApi.api (Trader.angel_api self)) as [k|]; [|cbn; discriminate].
  intros _. split; [reflexivity|]. exists k. reflexivity.
Qed.

Lemma place_orders side env q self :
  Trader.new_orders self (snd (Trader.place respond side env q self))
    (if AngelApi.is_connected (Trader.angel_api self)
     then match AngelApi.api (Trader.angel_api self) with
          | Some _ =>
              [Trader.market_order env side q
                 (fst (AngelApi._get_token respond (Trader.SYMBOL env)
                         (Trader.EXCHANGE env) (Trader.angel_api self)))]
          | None => []
          end
     else []).
Proof.
  unfold Trader.new_orders, Trader.place.
  pose proof (place_order_orders respond side (Trader.SYMBOL env) (Trader.EXCHANGE env)
                q (JNum (Fin 0)) "MARKET" (Trader.angel_api self)) as H.
  destruct (AngelApi.place_order respond side _ _ q _ _ (Trader.angel_api self))
    as [order_id a].
  cbn [snd Trader.angel_api Trader.set_angel_api] in *. exact H.
Qed.

Lemma place_same side env q self :
  Trader.same_strategy self (snd (Trader.place respond side env q self)).
Proof.
  unfold Trader.same_strategy, Trader.place.
  destruct (AngelApi.place_order respond side _ _ q _ _ (Trader.angel_api self))
    as [order_id a].
  destruct self; reflexivity.
Qed.

Lemma same_strategy_refl self : Trader.same_strategy self self.
Proof. destruct self; reflexivity. Qed.

Lemma same_strategy_trans a b c :
  Trader.same_strategy a b -> Trader.same_strategy b c -> Trader.same_strategy a c.
Proof.
  unfold Trader.same_strategy. intros <- <-. destruct a; reflexivity.
Qed.

Lemma same_strategy_api self a :
  Trader.same_strategy self (Trader.set_angel_api self a).
Proof. destruct self; reflexivity. Qed.

Lemma same_strategy_position self p :
  Trader.same_strategy self (Trader.set_current_position self p).
Proof. destruct self; reflexivity. Qed.

Lemma execute_trade_effect env signal self :
  Trader.same_strategy self (snd (Trader.execute_trade respond env signal self)) /\
  exists sent,
    Trader.new_orders self (snd (Trader.execute_trade respond env signal self)) sent /\
    (sent = [] \/
     exists side q token,
       signal = Some side /\ (side = "BUY"%string \/ side = "SELL"%string) /\
       Trader.QUANTITY env = Some q /\
       sent = [Trader.market_order env side q token]) /\
    (fst (Trader.execute_trade respond env signal self) = true -> sent <> []).
Proof.
  assert (Hnone : forall self', Trader.same_strategy self self' ->
            AngelApi.orders (Trader.angel_api self')
            = AngelApi.orders (Trader.angel_api self) ->
            Trader.same_strategy self (snd (false, self')) /\
            exists sent,
              Trader.new_orders self (snd (false, self')) sent /\
              (sent = [] \/
               exists side q token,
                 signal = Some side /\ (side = "BUY"%string \/ side = "SELL"%string) /\
                 Trader.QUANTITY env = Some q /\
                 sent = [Trader.market_order env side q token]) /\
              (fst (false, self') = true -> sent <> [])).
  { intros self' Hs Ho. split; [exact Hs|]. exists [].
    split; [unfold Trader.new_orders; cbn [snd]; rewrite app_nil_r; exact Ho|].
    split; [left; reflexivity|]. cbn [fst]. discriminate. }
  assert (Hplace : forall side q self', Trader.same_strategy self self' ->
            AngelApi.orders (Trader.angel_api self')
            = AngelApi.orders (Trader.angel_api self) ->
            signal = Some side -> (side = "BUY"%string \/ side = "SELL"%string) ->
            Trader.QUANTITY env = Some q ->
            Trader.same_strategy self (snd (Trader.place respond side env q self')) /\
            exists sent,
              Trader.new_orders self (snd (Trader.place respond side env q self')) sent /\
              (sent = [] \/
               exists side q token,
                 signal = Some side /\ (side = "BUY"%string \/ side = "SELL"%string) /\
                 Trader.QUANTITY env = Some q /\
                 sent = [Trader.market_order env side q token]) /\
              (fst (Trader.place respond side env q self') = true -> sent <> [])).
  { intros side q self' Hs Ho Hsig Hside Hq.
    split; [exact (same_strategy_trans Hs (place_same side env q self'))|].
    pose proof (place_orders side env q self') as Hp.
    pose proof (@place_answer side env q self') as Ha.
    unfold Trader.new_orders in *. rewrite Ho in Hp.
    eexists. split; [exact Hp|].
    destruct (AngelApi.is_connected (Trader.angel_api self')).
    - destruct (AngelApi.api (Trader.angel_api self')) as [k|].
      + split; [|discriminate]. right. eexists side, q, _. auto.
      + split; [left; reflexivity|]. intro Ht. destruct (Ha Ht) as (_ & k & Hk).
        discriminate Hk.
    - split; [left; reflexivity|]. intro Ht. destruct (Ha Ht) as (Hc & _).
      discriminate Hc. }
  unfold Trader.execute_trade.
  destruct signal as [sg|]; [|apply Hnone; [apply same_strategy_refl|reflexivity]].
  destruct (String.eqb sg "") eqn:Ee;
    [apply Hnone; [apply same_strategy_refl|reflexivity]|].
  pose proof (get_positions_orders respond (Trader.angel_api self)) as Ho.
  destruct (AngelApi.get_positions respond (Trader.angel_api self)) as [positions a].
  cbn [snd] in Ho.
  set (self1 := Trader.set_angel_api self a).
  assert (Hs1 : Trader.same_strategy self self1) by apply same_strategy_api.
  assert (Ho1 : AngelApi.orders (Trader.angel_api self1)
                = AngelApi.orders (Trader.angel_api self)) by exact Ho.
  destruct (Trader.QUANTITY env) as [q|] eqn:Eq; [|apply Hnone; assumption].
  destruct (if truthy positions
            then and_then (iterate positions)
                   (fun l => Trader.find_position l (Trader.SYMBOL env))
            else Returned None) as [found|e]; [|apply Hnone; assumption].
  set (self2 := match found with
                | Some position => Trader.set_current_position self1 position
                | None => self1
                end).
  assert (Hs2 : Trader.same_strategy self self2).
  { subst self2. destruct found as [p|]; [|exact Hs1].
    exact (same_strategy_trans Hs1 (same_strategy_position self1 p)). }
  assert (Ho2 : AngelApi.orders (Trader.angel_api self2)
                = AngelApi.orders (Trader.angel_api self)).
  { subst self2. destruct found; exact Ho1. }
  clearbody self2.
  destruct (String.eqb sg "BUY") eqn:Eb.
  - apply String.eqb_eq in Eb. subst sg.
    destruct (match found with
              | Some _ => Trader.netqty_le0 (Trader.current_position self2)
              | None => Returned true
              end) as [[|]|e].
    + apply Hplace; auto.
    + apply Hnone; assumption.
    + apply Hnone; assumption.
  - destruct (String.eqb sg "SELL") eqn:Es; [|apply Hnone; assumption].
    apply String.eqb_eq in Es. subst sg.
    destruct (match found with
              | Some _ => Trader.netqty_ge0 (Trader.current_position self2)
              | None => Returned true
              end) as [[|]|e].
    + apply Hplace; auto.
    + apply Hnone; assumption.
    + apply Hnone; assumption.
Qed.

Lemma ltb_not_leb x y : (x <? y) = true -> (y <=? x) = false.
Proof.
  destruct x as [a| | |], y as [b| | |]; simpl; try reflexivity; try discriminate.
  rewrite Qltb_lt. intro H.
  destruct (Qle_bool b a) eqn:E; [|reflexivity].
  apply Qle_bool_iff in E. lra.
Qed.

Lemma execute_trade_blocked env self k positions l p side :
  AngelApi.is_connected (Trader.angel_api self) = true ->
  AngelApi.api (Trader.angel_api self) = Some k ->
  respond (AngelApi.calls (Trader.angel_api self)) (AngelApi.mk_call "position" [])
  = Returned positions ->
  truthy positions = true ->
  iterate positions = Returned l ->
  Trader.find_position l (Trader.SYMBOL env) = Returned (Some p) ->
  (side = "BUY"%string /\ Trader.netqty_le0 p = Returned false \/
   side = "SELL"%string /\ Trader.netqty_ge0 p = Returned false) ->
  fst (Trader.execute_trade respond env (Some side) self) = false /\
  Trader.new_orders self (snd (Trader.execute_trade respond env (Some side) self)) [].
Proof.
  intros Hc Ha Hr Ht Hi Hf Hside.
  pose proof (get_positions_orders respond (Trader.angel_api self)) as Ho.
  unfold Trader.new_orders. rewrite app_nil_r.
  unfold Trader.execute_trade.
  assert (Hgp : AngelApi.get_positions respond (Trader.angel_api self)
                = (positions, AngelApi.record_call (Trader.angel_api self)
                                (AngelApi.mk_call "position" []))).
  { unfold AngelApi.get_positions, AngelApi.invoke. rewrite Hc, Ha, Hr. reflexivity. }
  rewrite Hgp in Ho |- *. cbn [snd] in Ho.
  rewrite Ht, Hi. cbn [and_then]. rewrite Hf.
  destruct Hside as [[-> Hn]|[-> Hn]]; cbn [String.eqb Ascii.eqb Bool.eqb];
    destruct (Trader.QUANTITY env) as [q|]; cbn [fst snd];
    try (split; [reflexivity|exact Ho]);
    cbn [Trader.current_position Trader.set_current_position]; rewrite Hn;
    cbn [fst snd Trader.angel_api Trader.set_current_position Trader.set_angel_api];
    (split; [reflexivity|exact Ho]).
Qed.

Lemma decide_signal_settings a b r1 r2 g latest v :
  Trader.settings a = Trader.settings b ->
  Strategy.decide_signal (Trader.signal_view a r1) g latest v
  = Strategy.decide_signal (Trader.signal_view b r2) g latest v.
Proof.
  unfold Trader.settings. intro H. injection H as H1 H2 H3 H4 H5 H6 H7 H8.
  unfold Strategy.decide_signal, Strategy.delta_gamma_buy, Strategy.theta_vega_buy,
    Strategy.vix_buy, Strategy.delta_gamma_sell, Strategy.theta_vega_sell,
    Strategy.vix_sell.
  cbn [Trader.signal_view Strategy.delta_threshold Strategy.gamma_threshold
       Strategy.theta_threshold Strategy.vega_threshold Strategy.vix_buy_threshold
       Strategy.vix_sell_threshold].
  rewrite H1, H2, H3, H4, H7, H8. reflexivity.
Qed.

Lemma same_strategy_quiet a b :
  Trader.same_strategy a b ->
  Trader.settings b = Trader.settings a /\
  Trader.last_signal b = Trader.last_signal a /\
  Trader.last_signal_time b = Trader.last_signal_time a /\
  Trader.nse_data b = Trader.nse_data a /\
  Trader.historical_data b = Trader.historical_data a /\
  Trader.greeks_data b = Trader.greeks_data a /\
  Trader.vix b = Trader.vix a.
Proof.
  unfold Trader.same_strategy. intros <-. destruct a; cbn. auto 10.
Qed.

Lemma trader_connect_effect env self :
  Trader.same_strategy self (snd (Trader.connect respond totp_now env self)) /\
  Trader.new_orders self (snd (Trader.connect respond totp_now env self)) [] /\
  (fst (Trader.connect respond totp_now env self) = true ->
   AngelApi.is_connected
     (Trader.angel_api (snd (Trader.connect respond totp_now env self))) = true).
Proof.
  unfold Trader.connect, Trader.new_orders.
  pose proof (connect_orders respond totp_now (Trader.credentials env) None None None
                None (Trader.angel_api self)) as Ho.
  pose proof (connect_flag respond totp_now (Trader.credentials env) None None None
                None (Trader.angel_api self)) as Hf.
  destruct (AngelApi.connect respond totp_now _ None None None None _) as [ok a].
  cbn [fst snd Trader.angel_api Trader.set_angel_api] in *.
  split; [apply same_strategy_api|].
  split; [rewrite app_nil_r; exact Ho|].
  intros ->. exact Hf.
Qed.

Lemma fetch_data_effect env chain_answer vix_answer from_date to_date self :
  let r := Trader.fetch_data respond make_frame env chain_answer vix_answer
             from_date to_date self in
  Trader.settings (snd r) = Trader.settings self /\
  Trader.last_signal (snd r) = Trader.last_signal self /\
  Trader.last_signal_time (snd r) = Trader.last_signal_time self /\
  Trader.new_orders self (snd r) [] /\
  (fst r = true ->
   exists g candles,
     fst (NseData.get_option_greeks chain_answer vix_answer None None
            (Trader.nse_data self)) = Some g /\
     Trader.greeks_data (snd r) = Some g /\
     Trader.vix (snd r)
     = Some (match NseData.vix g with Some x => x | None => Fin 0 end) /\
     candles <> [] /\
     Trader.historical_data (snd r) = Some (Trader.Raw candles)).
Proof.
  unfold Trader.fetch_data, Trader.new_orders. rewrite app_nil_r.
  destruct (NseData.get_option_greeks chain_answer vix_answer None None
              (Trader.nse_data self)) as [g n].
  destruct g as [g|]; cbn [fst snd]; [|repeat split; discriminate].
  match goal with
  | |- context [AngelApi.get_historical_data respond make_frame ?s ?e ?i ?f ?t ?a] =>
      pose proof (get_historical_data_orders respond make_frame s e i f t a) as Ho;
      destruct (AngelApi.get_historical_data respond make_frame s e i f t a) as [h a']
  end.
  cbn [snd Trader.angel_api Trader.set_vix Trader.set_greeks_data] in Ho.
  destruct h as [[|c candles]|]; cbn [fst snd option_map];
    (split; [reflexivity|]); (split; [reflexivity|]); (split; [reflexivity|]);
    (split; [exact Ho|]); try discriminate.
  intros _. exists g, (c :: candles). repeat split. discriminate.
Qed.

Lemma calculate_indicators_effect self :
  (fst (Trader.calculate_indicators self) = false /\
   snd (Trader.calculate_indicators self) = self)
  \/
  (exists f,
     Trader.historical_data self = Some f /\
     Trader.frame_empty f = false /\
     Trader.calculate_indicators self
     = (true, Trader.set_historical_data self
                (Some (Trader.WithIndicators
                         (Trader.with_indicators (Trader.rsi_period self)
                            (Trader.ma_period self) f))))).
Proof.
  unfold Trader.calculate_indicators.
  destruct (Trader.historical_data self) as [f|]; [|left; auto].
  destruct (Trader.frame_empty f) eqn:E; [left; auto|].
  right. exists f. auto.
Qed.

Lemma new_orders_trans a b c sent :
  Trader.new_orders a b [] -> Trader.new_orders b c sent -> Trader.new_orders a c sent.
Proof.
  unfold Trader.new_orders. intros H1 H2. rewrite H2, H1, app_nil_r. reflexivity.
Qed.

Lemma quiet_trans a b c : Trader.quiet a b -> Trader.quiet b c -> Trader.quiet a c.
Proof.
  intros (H1 & H2 & H3 & H4) (K1 & K2 & K3 & K4).
  repeat split; try congruence.
  exact (new_orders_trans H4 K4).
Qed.

Lemma same_strategy_is_quiet a b :
  Trader.same_strategy a b -> Trader.new_orders a b [] -> Trader.quiet a b.
Proof.
  intros Hs Ho. destruct (same_strategy_quiet Hs) as (H1 & H2 & H3 & _).
  repeat split; assumption.
Qed.

Lemma quiet_refl a : Trader.quiet a a.
Proof.
  repeat split. unfold Trader.new_orders. rewrite app_nil_r. reflexivity.
Qed.

Lemma settings_periods a b :
  Trader.settings a = Trader.settings b ->
  Trader.rsi_period a = Trader.rsi_period b /\ Trader.ma_period a = Trader.ma_period b.
Proof.
  unfold Trader.settings. intro H. injection H as H1 H2 H3 H4 H5 H6 H7 H8. auto.
Qed.

Lemma run_strategy_effect env chain_answer vix_answer from_date to_date now later self :
  let r := Trader.run_strategy respond totp_now make_frame env chain_answer vix_answer
             from_date to_date now later self in
  Trader.quiet self (snd r)
  \/
  exists side candles g v latest sent,
    Trader.signalled env chain_answer vix_answer now later self (snd r)
      side candles g v latest sent /\
    (side = "BUY"%string \/ side = "SELL"%string) /\
    (sent = [] \/
     exists q token,
       Trader.QUANTITY env = Some q /\ sent = [Trader.market_order env side q token]) /\
    (fst r = true -> sent <> []).
Proof.
  unfold Trader.run_strategy.
  assert (Hc : Trader.same_strategy self
                 (snd (if negb (AngelApi.is_connected (Trader.angel_api self))
                       then Trader.connect respond totp_now env self
                       else (true, self))) /\
               Trader.new_orders self
                 (snd (if negb (AngelApi.is_connected (Trader.angel_api self))
                       then Trader.connect respond totp_now env self
                       else (true, self))) []).
  { destruct (negb (AngelApi.is_connected (Trader.angel_api self))).
    - destruct (trader_connect_effect env self) as (H1 & H2 & _). auto.
    - split; [apply same_strategy_refl|apply quiet_refl]. }
  destruct (if negb (AngelApi.is_connected (Trader.angel_api self))
            then Trader.connect respond totp_now env self
            else (true, self)) as [connected self1].
  cbn [snd] in Hc. destruct Hc as [Hs1 Ho1].
  pose proof (same_strategy_is_quiet Hs1 Ho1) as Hq1.
  destruct (same_strategy_quiet Hs1) as (_ & _ & _ & Hnse & _).
  destruct connected; cbn [negb]; [|left; exact Hq1].
  pose proof (fetch_data_effect env chain_answer vix_answer from_date to_date self1)
    as Hf.
  destruct (Trader.fetch_data respond make_frame env chain_answer vix_answer
              from_date to_date self1) as [fetched self2].
  cbn [fst snd] in Hf. destruct Hf as (F1 & F2 & F3 & F4 & F5).
  assert (Hq2 : Trader.quiet self self2)
    by (apply (quiet_trans Hq1); repeat split; assumption).
  destruct fetched; cbn [negb]; [|left; exact Hq2].
  destruct (F5 eq_refl) as (g & candles & G1 & G2 & G3 & G4 & G5).
  rewrite Hnse in G1.
  destruct (calculate_indicators_effect self2) as [[C1 C2]|(f & C1 & C2 & C3)].
  - destruct (Trader.calculate_indicators self2) as [calculated self3].
    cbn [fst snd] in C1, C2. subst. left. exact Hq2.
  - rewrite C3. cbn [negb].
    rewrite G5 in C1. injection C1 as <-.
    set (rows := Trader.with_indicators (Trader.rsi_period self2)
                   (Trader.ma_period self2) (Trader.Raw candles)) in *.
    set (self3 := Trader.set_historical_data self2 (Some (Trader.WithIndicators rows))).
    assert (Hq3 : Trader.quiet self self3)
      by (apply (quiet_trans Hq2); repeat split; symmetry; apply app_nil_r).
    destruct (Trader.generate_signal env now later self3) as [[sg self4]|e] eqn:Eg;
      [|left; exact Hq3].
    destruct sg as [side|].
    + apply trader_signal_some in Eg.
      destruct Eg as (Hh & rows' & latest & g' & v & E1 & E2 & E3 & E4 & E5 & E6 & ->).
      unfold self3 in E1, E4, E5.
      cbn [Trader.historical_data Trader.set_historical_data Trader.greeks_data
           Trader.vix] in E1, E4, E5.
      injection E1 as <-. rewrite G2 in E4. injection E4 as <-.
      rewrite G3 in E5. injection E5 as E5.
      destruct (decide_signal_cases _ _ _ _ E6) as [(-> & _)|(-> & _)];
        cbn [str_truthy String.eqb Ascii.eqb Bool.eqb negb].
      * set (self4 := Trader.set_last_signal self3 (Some "BUY"%string) (Some later)) in *.
        destruct (execute_trade_effect env (Some "BUY"%string) self4)
          as (Hs5 & sent & Hn5 & Hsent & Htrue).
        destruct (same_strategy_quiet Hs5) as (S1 & S2 & S3 & _ & S5 & S6 & S7).
        destruct Hq3 as (Q1 & _ & _ & Q4).
        destruct Hq2 as (Q2 & _).
        destruct (settings_periods Q2) as [P1 P2].
        right. exists "BUY"%string, candles, g, v, latest, sent.
        split.
        { unfold Trader.signalled.
          split; [rewrite S1; exact Q1|].
          split; [exact Hh|].
          split; [exact G1|].
          split; [rewrite S6; exact G2|].
          split; [symmetry; exact E5|].
          split; [rewrite S7; change (Trader.vix self2 = Some v); rewrite G3, E5;
                  reflexivity|].
          split; [exact G4|].
          split; [rewrite S5, <- P1, <- P2; reflexivity|].
          split; [rewrite <- P1, <- P2; exact E2|].
          split; [exact E3|].
          split; [etransitivity;
                  [apply decide_signal_settings;
                   exact (S1 : Trader.settings _ = Trader.settings self3)
                  |exact E6]|].
          split; [rewrite S2; reflexivity|].
          split; [rewrite S3; reflexivity|].
          exact (new_orders_trans Q4 Hn5). }
        split; [left; reflexivity|].
        split; [|exact Htrue].
        destruct Hsent as [->|(side & q & token & Hsd & _ & Hq & ->)];
          [left; reflexivity|].
        injection Hsd as <-. right. exists q, token. auto.
      * set (self4 := Trader.set_last_signal self3 (Some "SELL"%string) (Some later)) in *.
        destruct (execute_trade_effect env (Some "SELL"%string) self4)
          as (Hs5 & sent & Hn5 & Hsent & Htrue).
        destruct (same_strategy_quiet Hs5) as (S1 & S2 & S3 & _ & S5 & S6 & S7).
        destruct Hq3 as (Q1 & _ & _ & Q4).
        destruct Hq2 as (Q2 & _).
        destruct (settings_periods Q2) as [P1 P2].
        right. exists "SELL"%string, candles, g, v, latest, sent.
        split.
        { unfold Trader.signalled.
          split; [rewrite S1; exact Q1|].
          split; [exact Hh|].
          split; [exact G1|].
          split; [rewrite S6; exact G2|].
          split; [symmetry; exact E5|].
          split; [rewrite S7; change (Trader.vix self2 = Some v); rewrite G3, E5;
                  reflexivity|].
          split; [exact G4|].
          split; [rewrite S5, <- P1, <- P2; reflexivity|].
          split; [rewrite <- P1, <- P2; exact E2|].
          split; [exact E3|].
          split; [etransitivity;
                  [apply decide_signal_settings;
                   exact (S1 : Trader.settings _ = Trader.settings self3)
                  |exact E6]|].
          split; [rewrite S2; reflexivity|].
          split; [rewrite S3; reflexivity|].
          exact (new_orders_trans Q4 Hn5). }
        split; [right; reflexivity|].
        split; [|exact Htrue].
        destruct Hsent as [->|(side & q & token & Hsd & _ & Hq & ->)];
          [left; reflexivity|].
        injection Hsd as <-. right. exists q, token. auto.
    + apply trader_signal_none in Eg. subst self4.
      cbn [str_truthy]. left. exact Hq3.
Qed.

End Trading.

Lemma get_option_greeks_vix chain_answer vix_answer expiry strike self g :
  fst (NseData.get_option_greeks chain_answer vix_answer expiry strike self) = Some g ->
  NseData.vix g
  = match vix_answer with
    | Some x => if Py.float_truthy x then Some x else None
    | None => None
    end.
Proof.
  unfold NseData.get_option_greeks. cbn [fst].
  assert (H : forall g0,
            NseData.extract_greeks_data expiry strike
              (NseData.fetch_option_chain chain_answer self) = Some g0 ->
            NseData.vix g0 = None).
  { unfold NseData.extract_greeks_data. intro g0.
    destruct (NseData.option_chain_data _) as [records|]; [|discriminate].
    destruct (NseData.chosen_expiry expiry records) as [e|]; [|discriminate].
    destruct (NseData.select records e strike) as [|item ?]; [discriminate|].
    intro E. injection E as <-. reflexivity. }
  destruct (NseData.extract_greeks_data expiry strike _) as [g0|].
  - specialize (H g0 eq_refl).
    destruct vix_answer as [x|]; [destruct (Py.float_truthy x)|];
      cbn [option_map]; intro E; injection E as <-; auto.
  - destruct vix_answer as [x|]; [destruct (Py.float_truthy x)|]; discriminate.
Qed.

(** X15: one call of [execute_trade] places at most one order, and only
    for the signals ["BUY"] and ["SELL"]: a market order of that side
    for the configured symbol, exchange and quantity.  It answers [True]
    only when it has placed an order, and it changes nothing of the
    strategy but the gateway and [current_position]. *)
Theorem execute_trade_places_at_most_one_order :
  forall respond env signal self,
    let after := snd (Trader.execute_trade respond env signal self) in
    let ok := fst (Trader.execute_trade respond env signal self) in
    Trader.same_strategy self after
    /\ exists sent,
         Trader.new_orders self after sent
         /\ (length sent <= 1)%nat
         /\ (forall o, In o sent ->
               exists side q token,
                 signal = Some side /\ (side = "BUY"%string \/ side = "SELL"%string)
                 /\ Trader.QUANTITY env = Some q
                 /\ o = Trader.market_order env side q token)
         /\ (ok = true -> length sent = 1%nat).
Proof.
  intros respond env signal self after ok.
  destruct (execute_trade_effect respond env signal self)
    as (Hs & sent & Hn & Hsent & Htrue).
  split; [exact Hs|]. exists sent. split; [exact Hn|].
  destruct Hsent as [->|(side & q & token & H1 & H2 & H3 & ->)].
  - split; [cbn; lia|]. split; [intros o []|].
    intro Hok. destruct (Htrue Hok eq_refl).
  - split; [cbn; lia|]. split; [|reflexivity].
    intros o [<-|[]]. exists side, q, token. auto.
Qed.

(** With no position open, the sample run buys once. *)
Lemma execute_trade_places_at_most_one_order_witness :
  exists sent,
    Trader.new_orders (LiveSamples.trader_on LiveSamples.forced_connection)
      (snd (Trader.execute_trade (LiveSamples.working_broker Py.JNull) LiveSamples.env
              (Some "BUY"%string) (LiveSamples.trader_on LiveSamples.forced_connection)))
      sent
    /\ length sent = 1%nat.
Proof.
  destruct (@execute_trade_places_at_most_one_order (LiveSamples.working_broker Py.JNull)
              LiveSamples.env (Some "BUY"%string)
              (LiveSamples.trader_on LiveSamples.forced_connection))
    as (_ & sent & Hn & _ & _ & Hok).
  exists sent. split; [exact Hn|]. apply Hok. reflexivity.
Defined.

(** X16: [execute_trade] does not add to a position.  When the broker
    lists a position of the symbol (the first one counts) with a
    positive [netqty], a ["BUY"] signal places no order and is answered
    with [False]; with a negative [netqty] the same holds for
    ["SELL"]. *)
Theorem open_position_blocks_same_side_order :
  forall respond env self k positions l p n x,
    AngelApi.is_connected (Trader.angel_api self) = true ->
    AngelApi.api (Trader.angel_api self) = Some k ->
    respond (AngelApi.calls (Trader.angel_api self)) (AngelApi.mk_call "position" [])
    = Py.Returned positions ->
    Py.truthy positions = true ->
    Py.iterate positions = Py.Returned l ->
    Trader.find_position l (Trader.SYMBOL env) = Py.Returned (Some p) ->
    Py.getitem p "netqty" = Py.Returned n ->
    Py.as_number n = Py.Returned x ->
    ((Fin 0 <? x) = true ->
     fst (Trader.execute_trade respond env (Some "BUY"%string) self) = false
     /\ Trader.new_orders self
          (snd (Trader.execute_trade respond env (Some "BUY"%string) self)) [])
    /\ ((x <? Fin 0) = true ->
        fst (Trader.execute_trade respond env (Some "SELL"%string) self) = false
        /\ Trader.new_orders self
             (snd (Trader.execute_trade respond env (Some "SELL"%string) self)) []).
Proof.
  intros respond env self k positions l p n x Hc Ha Hr Ht Hi Hf Hn Hx.
  split; intro Hsign.
  - apply (@execute_trade_blocked respond env self k positions l p "BUY"%string
             Hc Ha Hr Ht Hi Hf).
    left. split; [reflexivity|].
    unfold Trader.netqty_le0. rewrite Hn. cbn [Py.and_then]. rewrite Hx.
    cbn [Py.and_then]. rewrite (ltb_not_leb _ _ Hsign). reflexivity.
  - apply (@execute_trade_blocked respond env self k positions l p "SELL"%string
             Hc Ha Hr Ht Hi Hf).
    right. split; [reflexivity|].
    unfold Trader.netqty_ge0. rewrite Hn. cbn [Py.and_then]. rewrite Hx.
    cbn [Py.and_then]. unfold geb. rewrite (ltb_not_leb _ _ Hsign). reflexivity.
Qed.

(** Fifty units of NIFTY are held: a BUY signal places nothing. *)
Lemma open_position_blocks_same_side_order_witness :
  fst (Trader.execute_trade (LiveSamples.working_broker LiveSamples.long_positions)
         LiveSamples.env (Some "BUY"%string)
         (LiveSamples.trader_on LiveSamples.forced_connection)) = false
  /\ Trader.new_orders (LiveSamples.trader_on LiveSamples.forced_connection)
       (snd (Trader.execute_trade (LiveSamples.working_broker LiveSamples.long_positions)
               LiveSamples.env (Some "BUY"%string)
               (LiveSamples.trader_on LiveSamples.forced_connection))) [].
Proof.
  refine (proj1 (@open_position_blocks_same_side_order
                   (LiveSamples.working_broker LiveSamples.long_positions)
                   LiveSamples.env (LiveSamples.trader_on LiveSamples.forced_connection)
                   "key"%string LiveSamples.long_positions _ _ _ (Fin 50)
                   eq_refl eq_refl eq_refl eq_refl eq_refl eq_refl eq_refl eq_refl) _).
  reflexivity.
Defined.

(** X17: every order [run_strategy] places follows a signal of the same
    run.  A run either leaves the orders, the last signal and the
    settings as they were, or it has given a BUY or SELL signal inside
    trading hours, from the Greeks and candles fetched in this run and
    with every filter of that side true on the last candle; then it has
    recorded the signal and placed at most one market order, of that
    side.  Outside trading hours a run places no order. *)
Theorem orders_follow_a_signal_of_the_same_run :
  forall respond totp_now make_frame env chain_answer vix_answer from_date to_date
         now later self,
    let after :=
      snd (Trader.run_strategy respond totp_now make_frame env chain_answer vix_answer
             from_date to_date now later self) in
    (Trader.quiet self after
     \/ exists side candles g v latest sent,
          Trader.signalled env chain_answer vix_answer now later self after
            side candles g v latest sent
          /\ (side = "BUY"%string \/ side = "SELL"%string)
          /\ (sent = []
              \/ exists q token,
                   Trader.QUANTITY env = Some q
                   /\ sent = [Trader.market_order env side q token]))
    /\ (Strategy.is_trading_hours (Trader.hours env) now <> Ok true ->
        Trader.new_orders self after []).
Proof.
  intros respond totp_now make_frame env chain_answer vix_answer from_date to_date
         now later self after.
  destruct (run_strategy_effect respond totp_now make_frame env chain_answer vix_answer
              from_date to_date now later self)
    as [Hq|(side & candles & g & v & latest & sent & Hs & Hside & Hsent & _)].
  - split; [left; exact Hq|]. intros _. destruct Hq as (_ & _ & _ & Ho). exact Ho.
  - split.
    + right. exists side, candles, g, v, latest, sent. auto.
    + intro Hh. destruct Hs as (_ & Hin & _). contradiction.
Qed.

(** The sample run: connected, data fetched, a BUY signal at 10:00 and
    one market order for it. *)
Lemma orders_follow_a_signal_of_the_same_run_witness :
  exists candles g v latest,
    Trader.signalled LiveSamples.env (Some LiveSamples.buy_chain) (Some (Fin 15))
      (Samples.at_time 1 10 0) (Samples.at_time 1 10 1)
      (LiveSamples.trader_on AngelApi.init) (snd LiveSamples.buying_run)
      "BUY" candles g v latest
      [Trader.market_order LiveSamples.env "BUY" 1 (Py.JStr "26000")].
Proof.
  destruct (@orders_follow_a_signal_of_the_same_run
              (LiveSamples.working_broker Py.JNull) LiveSamples.totp_123456
              LiveSamples.frame_of_rising_candles LiveSamples.env
              (Some LiveSamples.buy_chain) (Some (Fin 15))
              "2025-01-01 10:00:00"%string "2025-01-31 10:00:00"%string
              (Samples.at_time 1 10 0) (Samples.at_time 1 10 1)
              (LiveSamples.trader_on AngelApi.init))
    as [[Hq|(side & candles & g & v & latest & sent & Hs & _ & _)] _].
  - destruct Hq as (_ & _ & _ & Ho). vm_compute in Ho. discriminate Ho.
  - exists candles, g, v, latest.
    pose proof Hs as (_ & _ & _ & _ & _ & _ & _ & _ & _ & _ & _ & Hl & _ & Ho).
    vm_compute in Hl. injection Hl as <-.
    vm_compute in Ho. subst sent. exact Hs.
Defined.

(** X18: on the bundled [SmartConnect] a run of the strategy ends at the
    connection: [run_strategy] answers [False] before it fetches
    anything, and leaves the data, the last signal and the orders as
    they were. *)
Theorem run_strategy_stops_at_bundled_smart_connect :
  forall totp_now make_frame env chain_answer vix_answer from_date to_date now later self,
    AngelApi.reachable totp_now (Trader.credentials env) (Trader.angel_api self) ->
    let r :=
      Trader.run_strategy AngelApi.bundled_smart_connect totp_now make_frame env
        chain_answer vix_answer from_date to_date now later self in
    fst r = false
    /\ Trader.same_strategy self (snd r)
    /\ Trader.new_orders self (snd r) []
    /\ AngelApi.is_connected (Trader.angel_api (snd r)) = false.
Proof.
  intros totp_now make_frame env chain_answer vix_answer from_date to_date now later
         self Hr r.
  subst r. unfold Trader.run_strategy.
  pose proof (reachable_disconnected Hr) as Hd. rewrite Hd. cbn [negb].
  destruct (trader_connect_effect AngelApi.bundled_smart_connect totp_now env self)
    as (Hs & Ho & _).
  assert (Hf : fst (Trader.connect AngelApi.bundled_smart_connect totp_now env self)
               = false
               /\ AngelApi.is_connected
                    (Trader.angel_api
                       (snd (Trader.connect AngelApi.bundled_smart_connect totp_now
                               env self))) = false).
  { unfold Trader.connect.
    destruct (connect_bundled totp_now (Trader.credentials env) None None None None
                (Trader.angel_api self)) as [H1 H2].
    destruct (AngelApi.connect AngelApi.bundled_smart_connect totp_now _ None None None
                None (Trader.angel_api self)) as [ok a].
    cbn [fst snd Trader.angel_api Trader.set_angel_api] in *.
    split; [exact H1|]. rewrite H2. exact Hd. }
  destruct (Trader.connect AngelApi.bundled_smart_connect totp_now env self)
    as [connected self1].
  cbn [fst snd] in *. destruct Hf as [-> Hc]. cbn [negb fst snd]. auto.
Qed.

(** A new strategy object on a new gateway. *)
Lemma run_strategy_stops_at_bundled_smart_connect_witness :
  fst (Trader.run_strategy AngelApi.bundled_smart_connect LiveSamples.totp_123456
         LiveSamples.frame_of_rising_candles LiveSamples.env
         (Some LiveSamples.buy_chain) (Some (Fin 15)) "2025-01-01 10:00:00"
         "2025-01-31 10:00:00" (Samples.at_time 1 10 0) (Samples.at_time 1 10 1)
         (LiveSamples.trader_on AngelApi.init)) = false.
Proof.
  apply (@run_strategy_stops_at_bundled_smart_connect LiveSamples.totp_123456
           LiveSamples.frame_of_rising_candles LiveSamples.env).
  apply AngelApi.reach_init.
Defined.

(** X19: a VIX that could not be fetched, or that is 0, counts as 0.
    Such a run can give no SELL signal when [vix_sell_threshold] is not
    negative: if it gives a signal at all, it is a BUY found with a VIX
    of 0. *)
Theorem missing_vix_counts_as_zero :
  forall respond totp_now make_frame env chain_answer vix_answer from_date to_date
         now later self,
    match vix_answer with
    | Some x => Py.float_truthy x = false
    | None => True
    end ->
    (Fin 0 <=? Trader.vix_sell_threshold self) = true ->
    let after :=
      snd (Trader.run_strategy respond totp_now make_frame env chain_answer vix_answer
             from_date to_date now later self) in
    Trader.quiet self after
    \/ exists candles g latest sent,
         Trader.signalled env chain_answer vix_answer now later self after
           "BUY" candles g (Fin 0) latest sent.
Proof.
  intros respond totp_now make_frame env chain_answer vix_answer from_date to_date
         now later self Hv Hthr after. subst after.
  destruct (run_strategy_effect respond totp_now make_frame env chain_answer vix_answer
              from_date to_date now later self)
    as [Hq|(side & candles & g & v & latest & sent & Hs & Hside & _)];
    [left; exact Hq|].
  right. exists candles, g, latest, sent.
  pose proof Hs as (Hset & _ & Hg & _ & Hvv & _ & _ & _ & _ & _ & Hd & _).
  assert (Hz : v = Fin 0).
  { rewrite Hvv, (get_option_greeks_vix _ _ _ _ _ Hg).
    destruct vix_answer as [x|]; [rewrite Hv|]; reflexivity. }
  rewrite Hz in Hs, Hd.
  destruct Hside as [->| ->]; [exact Hs|].
  exfalso.
  destruct (decide_signal_cases _ _ _ _ Hd) as [(Hb & _)|(_ & _ & _ & Hsell)];
    [discriminate Hb|].
  unfold Strategy.vix_sell, gtb in Hsell.
  cbn [Trader.signal_view Strategy.vix_sell_threshold] in Hsell.
  apply ltb_not_leb in Hsell.
  unfold Trader.settings in Hset. injection Hset as _ _ _ _ _ _ _ H8.
  rewrite H8 in Hsell. congruence.
Qed.

(** The sample run without a VIX: the BUY is found with a VIX of 0. *)
Lemma missing_vix_counts_as_zero_witness :
  exists candles g latest sent,
    Trader.signalled LiveSamples.env (Some LiveSamples.buy_chain) None
      (Samples.at_time 1 10 0) (Samples.at_time 1 10 1)
      (LiveSamples.trader_on AngelApi.init) (snd LiveSamples.buying_run_without_vix)
      "BUY" candles g (Fin 0) latest sent.
Proof.
  destruct (@missing_vix_counts_as_zero
              (LiveSamples.working_broker Py.JNull) LiveSamples.totp_123456
              LiveSamples.frame_of_rising_candles LiveSamples.env
              (Some LiveSamples.buy_chain) None
              "2025-01-01 10:00:00"%string "2025-01-31 10:00:00"%string
              (Samples.at_time 1 10 0) (Samples.at_time 1 10 1)
              (LiveSamples.trader_on AngelApi.init) I eq_refl)
    as [Hq|H].
  - destruct Hq as (_ & _ & _ & Ho). vm_compute in Ho. discriminate Ho.
  - exact H.
Defined.

(* ----------------------------------------------------------------- *)
(** *** The indicators of the live strategy *)

Lemma rolling_mean_in w s x :
  In x (Pandas.rolling_mean w s) ->
  exists i, (i < length s)%nat /\ x = Pandas.rolling_mean_at w s i.
Proof.
  unfold Pandas.rolling_mean. intro H. apply in_map_iff in H.
  destruct H as (i & <- & Hi). apply in_seq in Hi. exists i. split; [lia|reflexivity].
Qed.

Lemma rolling_mean_short w s x :
  (length s < w)%nat -> In x (Pandas.rolling_mean w s) -> x = NaN.
Proof.
  intros Hl H. apply rolling_mean_in in H. destruct H as (i & Hi & ->).
  unfold Pandas.rolling_mean_at.
  assert (E : (i + 1 <? w)%nat = true) by (apply Nat.ltb_lt; lia).
  rewrite E. reflexivity.
Qed.

Lemma sum_of_zeros s :
  forall acc,
    (exists q, acc = Fin q /\ (q == 0)%Q) ->
    Forall (fun x => exists q, x = Fin q /\ (q == 0)%Q) s ->
    exists q, fold_left add s acc = Fin q /\ (q == 0)%Q.
Proof.
  induction s as [|x s IH]; intros acc Ha Hs; [exact Ha|].
  inversion Hs as [|? ? (qx & -> & Hx) Hs']; subst.
  destruct Ha as (qa & -> & Hqa).
  cbn [fold_left]. apply IH; [|exact Hs'].
  exists (qa + qx)%Q. split; [reflexivity|]. rewrite Hqa, Hx. reflexivity.
Qed.

Lemma rolling_mean_of_zeros w s x :
  Forall (fun y => exists q, y = Fin q /\ (q == 0)%Q) s ->
  In x (Pandas.rolling_mean w s) ->
  x = NaN \/ exists q, x = Fin q /\ (q == 0)%Q.
Proof.
  intros Hs H. apply rolling_mean_in in H. destruct H as (i & Hi & ->).
  unfold Pandas.rolling_mean_at.
  destruct (i + 1 <? w)%nat; [left; reflexivity|].
  destruct (existsb isnan (Pandas.window_at w s i)); [left; reflexivity|].
  assert (Hw : Forall (fun y => exists q, y = Fin q /\ (q == 0)%Q)
                 (Pandas.window_at w s i)).
  { unfold Pandas.window_at. apply Forall_forall. intros y Hy.
    apply (proj1 (Forall_forall _ _) Hs).
    rewrite <- (firstn_skipn (i + 1 - w) s). apply in_or_app. right.
    rewrite <- (firstn_skipn w (skipn (i + 1 - w) s)). apply in_or_app. left.
    exact Hy. }
  destruct (@sum_of_zeros (Pandas.window_at w s i) (Fin 0)) as (q & Hq & Hq0);
    [exists 0%Q; split; reflexivity|exact Hw|].
  unfold Pandas.sum. rewrite Hq. unfold of_Z. cbn [div].
  destruct (Qis0 (inject_Z (Z.of_nat w))) eqn:E.
  - apply Qis0_true in Hq0. rewrite Hq0. left. reflexivity.
  - right. eexists. split; [reflexivity|].
    apply Qis0_false in E. rewrite Hq0. field. exact E.
Qed.

Lemma flat_difference c :
  (c - c >? Fin 0) = false /\ (c - c <? Fin 0) = false.
Proof.
  destruct c as [q| | |]; try (split; reflexivity).
  unfold sub, gtb. cbn [neg add ltb].
  split; apply Qltb_ge; ring_simplify (q + - q)%Q; apply Qle_refl.
Qed.

Lemma diff_from_flat c s :
  Forall (fun x => x = c) s ->
  Forall (fun d => (d >? Fin 0) = false /\ (d <? Fin 0) = false)
    (Pandas.diff_from c s).
Proof.
  induction 1 as [|x s -> _ IH]; [constructor|].
  cbn [Pandas.diff_from]. constructor; [apply flat_difference|exact IH].
Qed.

Lemma diff_flat c s :
  Forall (fun x => x = c) s ->
  Forall (fun d => (d >? Fin 0) = false /\ (d <? Fin 0) = false) (Pandas.diff s).
Proof.
  intro H. destruct s as [|x s]; [constructor|].
  inversion H as [|? ? -> H']; subst.
  cbn [Pandas.diff]. constructor; [split; reflexivity|].
  apply diff_from_flat. exact H'.
Qed.

Lemma rsi_column_in p closes x :
  In x (Strategy.rsi_column p closes) ->
  exists g l,
    In g (Pandas.rolling_mean p
            (Pandas.where_ (Pandas.diff closes) (fun d => d >? Fin 0) (Fin 0))) /\
    In l (Pandas.rolling_mean p
            (Pandas.neg_series
               (Pandas.where_ (Pandas.diff closes) (fun d => d <? Fin 0) (Fin 0)))) /\
    x = Fin 100 - Fin 100 / (Fin 1 + g / l).
Proof.
  unfold Strategy.rsi_column. intro H.
  apply in_map_iff in H. destruct H as (r & <- & H).
  apply in_map_iff in H. destruct H as ([g l] & <- & H).
  exists g, l. split; [exact (in_combine_l _ _ _ _ H)|].
  split; [exact (in_combine_r _ _ _ _ H)|reflexivity].
Qed.

Lemma diff_length s : length (Pandas.diff s) = length s.
Proof.
  destruct s as [|x s]; [reflexivity|]. cbn [Pandas.diff length]. f_equal.
  revert x. induction s as [|y s IH]; intro x; [reflexivity|].
  cbn [Pandas.diff_from length]. f_equal. apply IH.
Qed.

Lemma rsi_column_short p closes x :
  (length closes < p)%nat -> In x (Strategy.rsi_column p closes) -> x = NaN.
Proof.
  intros Hl H. apply rsi_column_in in H. destruct H as (g & l & Hg & _ & ->).
  apply rolling_mean_short in Hg; [subst g; reflexivity|].
  unfold Pandas.where_. rewrite length_map, diff_length. exact Hl.
Qed.

Lemma rsi_column_flat p closes c x :
  Forall (fun y => y = c) closes -> In x (Strategy.rsi_column p closes) -> x = NaN.
Proof.
  intros Hf H. apply rsi_column_in in H. destruct H as (g & l & Hg & Hl & ->).
  pose proof (diff_flat Hf) as Hd.
  assert (Hgain : Forall (fun y => exists q, y = Fin q /\ (q == 0)%Q)
                    (Pandas.where_ (Pandas.diff closes) (fun d => d >? Fin 0) (Fin 0))).
  { unfold Pandas.where_. apply Forall_forall. intros y Hy.
    apply in_map_iff in Hy. destruct Hy as (d & <- & Hin).
    destruct (proj1 (Forall_forall _ _) Hd d Hin) as [-> _].
    exists 0%Q. split; reflexivity. }
  assert (Hloss : Forall (fun y => exists q, y = Fin q /\ (q == 0)%Q)
                    (Pandas.neg_series
                       (Pandas.where_ (Pandas.diff closes) (fun d => d <? Fin 0) (Fin 0)))).
  { unfold Pandas.neg_series, Pandas.where_. apply Forall_forall. intros y Hy.
    apply in_map_iff in Hy. destruct Hy as (z & <- & Hin).
    apply in_map_iff in Hin. destruct Hin as (d & <- & Hin).
    destruct (proj1 (Forall_forall _ _) Hd d Hin) as [_ ->].
    exists (- 0)%Q. split; reflexivity. }
  destruct (@rolling_mean_of_zeros p _ g Hgain Hg) as [->|(qg & -> & Hqg)];
    [reflexivity|].
  destruct (@rolling_mean_of_zeros p _ l Hloss Hl) as [->|(ql & -> & Hql)];
    [reflexivity|].
  cbn [div]. apply Qis0_true in Hqg, Hql. rewrite Hql, Hqg. reflexivity.
Qed.

Lemma row_notna_all_indicators r :
  Strategy.row_notna_all r = true -> Strategy.rsi r <> NaN /\ Strategy.ma r <> NaN.
Proof.
  unfold Strategy.row_notna_all. cbn [forallb].
  intro H. repeat (apply andb_prop in H; destruct H as [? H]).
  split; intro E.
  - rewrite E in *. discriminate.
  - rewrite E in *. discriminate.
Qed.

Lemma iloc_last_in {A : Type} (l : list A) x : Strategy.iloc_last l = Ok x -> In x l.
Proof.
  unfold Strategy.iloc_last. destruct (rev l) as [|y t] eqn:E; [discriminate|].
  intro H. injection H as <-. apply in_rev. rewrite E. left. reflexivity.
Qed.

Lemma with_indicators_in p q candles r :
  In r (Trader.with_indicators p q (Trader.Raw candles)) ->
  In (Strategy.rsi r) (Strategy.rsi_column p (map AngelApi.close candles)) /\
  In (Strategy.ma r) (Strategy.ma_column q (map AngelApi.close candles)).
Proof.
  unfold Trader.with_indicators, Trader.indicator_columns. intro H.
  apply in_map_iff in H. destruct H as ([c [x y]] & <- & H).
  apply in_combine_r in H. cbn.
  split; [exact (in_combine_l _ _ _ _ H)|exact (in_combine_r _ _ _ _ H)].
Qed.

(** X20: too short or flat a history gives no signal.  When the fetched
    frame has fewer candles than [rsi_period] or than [ma_period], or
    when all its closes are equal (the RSI is then 0/0), the last row
    has a missing indicator after [calculate_indicators] and
    [generate_signal] gives neither BUY nor SELL, whatever the Greeks
    and the VIX. *)
Theorem short_or_flat_history_gives_no_signal :
  forall env now later self candles,
    Trader.historical_data self = Some (Trader.Raw candles) ->
    ((length candles < Trader.rsi_period self)%nat
     \/ (length candles < Trader.ma_period self)%nat
     \/ exists c, Forall (fun k => AngelApi.close k = c) candles) ->
    forall s self',
      Trader.generate_signal env now later (snd (Trader.calculate_indicators self))
      <> Ok (Some s, self').
Proof.
  intros env now later self candles Hh Hcase s self' Hg.
  apply trader_signal_some in Hg.
  destruct Hg as (_ & rows & latest & g & v & E1 & E2 & E3 & _).
  destruct (calculate_indicators_effect self) as [[_ C]|(f & C1 & _ & C3)].
  - rewrite C, Hh in E1. discriminate E1.
  - rewrite C3 in E1. cbn [snd Trader.historical_data Trader.set_historical_data] in E1.
    injection E1 as <-. rewrite Hh in C1. injection C1 as <-.
    apply iloc_last_in in E2. apply with_indicators_in in E2. destruct E2 as [Hr Hm].
    destruct (@row_notna_all_indicators latest E3) as [Nr Nm].
    destruct Hcase as [Hs|[Hs|(c & Hf)]].
    + apply Nr. apply (@rsi_column_short (Trader.rsi_period self) (map AngelApi.close candles) _); [rewrite length_map; exact Hs|exact Hr].
    + apply Nm. unfold Strategy.ma_column in Hm.
      apply (@rolling_mean_short (Trader.ma_period self) (map AngelApi.close candles) _); [rewrite length_map; exact Hs|exact Hm].
    + apply Nr. apply (@rsi_column_flat (Trader.rsi_period self)
                         (map AngelApi.close candles) c _).
      * apply Forall_forall. intros y Hy. apply in_map_iff in Hy.
        destruct Hy as (k & <- & Hk). exact (proj1 (Forall_forall _ _) Hf k Hk).
      * exact Hr.
Qed.

(** Three candles and a 14-period RSI. *)
Lemma short_or_flat_history_gives_no_signal_witness :
  Trader.generate_signal LiveSamples.env (Samples.at_time 1 10 0)
    (Samples.at_time 1 10 1)
    (snd (Trader.calculate_indicators LiveSamples.short_history))
  <> Ok (Some "BUY"%string, LiveSamples.short_history).
Proof.
  apply (@short_or_flat_history_gives_no_signal LiveSamples.env (Samples.at_time 1 10 0)
           (Samples.at_time 1 10 1) LiveSamples.short_history
           (firstn 3 LiveSamples.rising_candles) eq_refl).
  left. cbn. lia.
Defined.

(* ----------------------------------------------------------------- *)
(** *** The option chain *)

Section NearestStrike.

Variable key : NseData.Item -> float.

Lemma hd_insert_by x l :
  hd_error (NseData.insert_by key x l) = NseData.keep_nearest key (hd_error l) x.
Proof.
  destruct l as [|h t]; [reflexivity|].
  cbn [NseData.insert_by hd_error NseData.keep_nearest].
  destruct (key x <? key h); reflexivity.
Qed.

Lemma hd_sort_from l :
  forall sorted,
    hd_error (fold_left (fun sorted x => NseData.insert_by key x sorted) l sorted)
    = fold_left (NseData.keep_nearest key) l (hd_error sorted).
Proof.
  induction l as [|x l IH]; intro sorted; [reflexivity|].
  cbn [fold_left]. rewrite IH, hd_insert_by. reflexivity.
Qed.

Lemma ltb_trans x y z :
  (x <? y) = true -> (y <? z) = true -> (x <? z) = true.
Proof.
  destruct x as [a| | |], y as [b| | |], z as [c| | |]; simpl;
    try reflexivity; try discriminate.
  rewrite !Qltb_lt. intros. lra.
Qed.

Lemma ltb_leb_trans x y z :
  (x <? y) = true -> (y <=? z) = true -> (x <? z) = true.
Proof.
  destruct x as [a| | |], y as [b| | |], z as [c| | |]; simpl;
    try reflexivity; try discriminate.
  rewrite !Qltb_lt. intros H1 H2. apply Qle_bool_iff in H2. lra.
Qed.

Lemma not_ltb_leb x y :
  isnan x = false -> isnan y = false -> (x <? y) = false -> (y <=? x) = true.
Proof.
  destruct x as [a| | |], y as [b| | |]; simpl; try reflexivity; try discriminate.
  intros _ _ H. apply Qltb_ge in H. apply Qle_bool_iff. exact H.
Qed.

Lemma nearest_first l :
  Forall (fun x => isnan (key x) = false) l ->
  l <> [] ->
  exists pre item post,
    l = pre ++ item :: post /\
    fold_left (NseData.keep_nearest key) l None = Some item /\
    Forall (fun y => (key item <? key y) = true) pre /\
    Forall (fun y => (key item <=? key y) = true) post.
Proof.
  induction l as [|x l IH] using rev_ind; intros Hk Hne; [congruence|].
  apply Forall_app in Hk. destruct Hk as [Hl Hx].
  inversion Hx as [|? ? Hx' _]; subst.
  rewrite fold_left_app. cbn [fold_left].
  destruct l as [|y l'].
  - exists [], x, []. cbn. auto.
  - destruct (IH Hl ltac:(discriminate)) as (pre & item & post & E & Hf & Hpre & Hpost).
    rewrite Hf, E. cbn [NseData.keep_nearest].
    assert (Hi : isnan (key item) = false).
    { rewrite E in Hl. apply Forall_app in Hl. destruct Hl as [_ Hl].
      inversion Hl; assumption. }
    destruct (key x <? key item) eqn:Hlt.
    + exists (pre ++ item :: post), x, []. split; [reflexivity|].
      split; [reflexivity|]. split; [|constructor].
      apply Forall_app. split.
      * eapply Forall_impl; [|exact Hpre]. cbv beta. intros a Ha.
        exact (ltb_trans _ _ _ Hlt Ha).
      * constructor; [exact Hlt|].
        eapply Forall_impl; [|exact Hpost]. cbv beta. intros a Ha.
        exact (ltb_leb_trans _ _ _ Hlt Ha).
    + exists pre, item, (post ++ [x]). split; [rewrite <- app_assoc; reflexivity|].
      split; [reflexivity|]. split; [exact Hpre|].
      apply Forall_app. split; [exact Hpost|].
      constructor; [|constructor]. exact (not_ltb_leb _ _ Hx' Hi Hlt).
Qed.

End NearestStrike.

Lemma filter_split {A : Type} (p : A -> bool) l :
  forall a x b,
    filter p l = a ++ x :: b ->
    exists a' b',
      l = a' ++ x :: b' /\ filter p a' = a /\ filter p b' = b /\ p x = true.
Proof.
  induction l as [|y l IH]; intros a x b H.
  - destruct a; discriminate H.
  - cbn [filter] in H. destruct (p y) eqn:Ey.
    + destruct a as [|a0 a].
      * cbn in H. injection H as -> Hb.
        exists [], l. cbn. auto.
      * cbn in H. injection H as -> Hb.
        destruct (IH _ _ _ Hb) as (a' & b' & -> & Ha & Hb' & Hx).
        exists (a0 :: a'), b'. cbn. rewrite Ey, Ha. auto.
    + destruct (IH _ _ _ H) as (a' & b' & -> & Ha & Hb' & Hx).
      exists (y :: a'), b'. cbn. rewrite Ey. auto.
Qed.

Lemma filter_nil_none {A : Type} (p : A -> bool) l :
  filter p l = [] -> forall x, In x l -> p x = false.
Proof.
  intros H x Hin. destruct (p x) eqn:E; [|reflexivity].
  assert (Hf : In x (filter p l)) by (apply filter_In; auto).
  rewrite H in Hf. destruct Hf.
Qed.

(** X21: without a strike, [extract_greeks_data] reads the entry nearest
    to the money.  With the chosen expiry [e] (the one asked for, else
    the first of the chain) and distances to the underlying value that
    are numbers, the result is [None] exactly when no entry has that
    expiry; otherwise it is read from an entry of that expiry whose
    strike is at least as near as that of every other such entry, and
    strictly nearer than those before it in the chain. *)
Theorem nearest_strike_is_extracted :
  forall self records expiry_date strike_price e,
    NseData.option_chain_data self = Some records ->
    NseData.chosen_expiry expiry_date records = Some e ->
    match strike_price with
    | Some k => Py.float_truthy k = false
    | None => True
    end ->
    let d := NseData.distance (NseData.get0 (NseData.underlyingValue records)) in
    (forall item, In item (NseData.data records) ->
                  NseData.expiry_is e item = true -> isnan (d item) = false) ->
    (NseData.extract_greeks_data expiry_date strike_price self = None
     /\ forall item, In item (NseData.data records) -> NseData.expiry_is e item = false)
    \/
    (exists pre item post,
       NseData.data records = pre ++ item :: post
       /\ NseData.expiry_is e item = true
       /\ NseData.extract_greeks_data expiry_date strike_price self
          = Some (NseData.greeks_of item)
       /\ (forall y, In y pre -> NseData.expiry_is e y = true -> (d item <? d y) = true)
       /\ (forall y, In y post -> NseData.expiry_is e y = true ->
                     (d item <=? d y) = true)).
Proof.
  intros self records expiry_date strike_price e Hc He Hk d Hnum.
  unfold NseData.extract_greeks_data. rewrite Hc, He.
  assert (Hsel : NseData.select records e strike_price
                 = match NseData.sort_by d (filter (NseData.expiry_is e)
                                              (NseData.data records)) with
                   | [] => []
                   | first :: _ => [first]
                   end).
  { unfold NseData.select. destruct strike_price as [k|]; [rewrite Hk|]; reflexivity. }
  rewrite Hsel. clear Hsel.
  pose proof (hd_sort_from d (filter (NseData.expiry_is e) (NseData.data records)) [])
    as Hhd.
  fold (NseData.sort_by d (filter (NseData.expiry_is e) (NseData.data records))) in Hhd.
  cbn [hd_error] in Hhd.
  destruct (filter (NseData.expiry_is e) (NseData.data records)) as [|f0 fl] eqn:Ef.
  - left. cbn. split; [reflexivity|]. exact (filter_nil_none _ _ Ef).
  - right.
    destruct (@nearest_first d (f0 :: fl)) as (fpre & item & fpost & E & Hf & Hpre & Hpost).
    { apply Forall_forall. intros x Hx. rewrite <- Ef in Hx.
      apply filter_In in Hx. destruct Hx as [Hin Hex]. exact (Hnum x Hin Hex). }
    { discriminate. }
    rewrite Hf in Hhd. rewrite E in Ef.
    destruct (filter_split _ _ _ _ _ Ef) as (pre & post & Hd & Hfp & Hfq & Hitem).
    exists pre, item, post. split; [exact Hd|]. split; [exact Hitem|].
    split.
    { destruct (NseData.sort_by d (f0 :: fl)) as [|first rest]; [discriminate Hhd|].
      cbn in Hhd. injection Hhd as ->. reflexivity. }
    split.
    + intros y Hy Hey. apply (proj1 (Forall_forall _ _) Hpre).
      rewrite <- Hfp. apply filter_In. auto.
    + intros y Hy Hey. apply (proj1 (Forall_forall _ _) Hpost).
      rewrite <- Hfq. apply filter_In. auto.
Qed.

(** With the index at 22050 and strikes 21900, 22000 and 22100 for the
    first expiry, 22000 is read: it is as near as 22100 and comes
    first. *)
Lemma nearest_strike_is_extracted_witness :
  exists g,
    NseData.extract_greeks_data None None
      (NseData.mk_fetcher (Some LiveSamples.three_strikes) None)
    = Some g
    /\ NseData.strike_price g = Fin 22000.
Proof.
  destruct (@nearest_strike_is_extracted
              (NseData.mk_fetcher (Some LiveSamples.three_strikes) None)
              LiveSamples.three_strikes None None "30-Jan-2025" eq_refl eq_refl I)
    as [[Hn _]|(pre & item & post & _ & _ & He & _)].
  - intros item Hin _.
    repeat (destruct Hin as [<-|Hin]; [reflexivity|]). destruct Hin.
  - vm_compute in Hn. discriminate Hn.
  - exists (NseData.greeks_of item). split; [exact He|].
    assert (C : option_map NseData.strike_price
                  (NseData.extract_greeks_data None None
                     (NseData.mk_fetcher (Some LiveSamples.three_strikes) None))
                = Some (Fin 22000)) by reflexivity.
    rewrite He in C. cbn [option_map] in C. injection C as C. exact C.
Defined.

Lemma hd_filter_find {A : Type} (p : A -> bool) l :
  hd_error (filter p l) = find p l.
Proof.
  induction l as [|x l IH]; [reflexivity|].
  cbn [filter find]. destruct (p x); [reflexivity|exact IH].
Qed.

Lemma filter_filter {A : Type} (p q : A -> bool) l :
  filter q (filter p l) = filter (fun x => p x && q x) l.
Proof.
  induction l as [|x l IH]; [reflexivity|].
  cbn [filter]. destruct (p x); cbn [filter andb]; [|exact IH].
  destruct (q x); rewrite IH; reflexivity.
Qed.

(** X22: with a strike, [extract_greeks_data] reads the first entry of
    the chain that has the chosen expiry and exactly that strike, and
    gives [None] when there is none (it does not fall back on the
    nearest strike).  The dictionary it gives reports that expiry and
    that strike, and holds no ['vix'] entry. *)
Theorem asked_strike_is_matched_exactly :
  forall self records expiry_date k e,
    NseData.option_chain_data self = Some records ->
    NseData.chosen_expiry expiry_date records = Some e ->
    Py.float_truthy k = true ->
    NseData.extract_greeks_data expiry_date (Some k) self
    = option_map NseData.greeks_of
        (find (fun item => NseData.expiry_is e item && NseData.strike_is k item)
           (NseData.data records))
    /\ forall g,
         NseData.extract_greeks_data expiry_date (Some k) self = Some g ->
         NseData.expiry_date g = e
         /\ Py.float_eqb (NseData.strike_price g) k = true
         /\ NseData.vix g = None.
Proof.
  intros self records expiry_date k e Hc He Hk.
  assert (E : NseData.extract_greeks_data expiry_date (Some k) self
              = option_map NseData.greeks_of
                  (find (fun item => NseData.expiry_is e item && NseData.strike_is k item)
                     (NseData.data records))).
  { unfold NseData.extract_greeks_data, NseData.select. rewrite Hc, He, Hk.
    rewrite filter_filter, <- hd_filter_find.
    destruct (filter _ (NseData.data records)); reflexivity. }
  split; [exact E|].
  intros g Hg. rewrite E in Hg.
  destruct (find _ (NseData.data records)) as [item|] eqn:Ef; [|discriminate Hg].
  cbn [option_map] in Hg. injection Hg as <-.
  apply find_some in Ef. destruct Ef as [_ Hb].
  apply andb_prop in Hb. destruct Hb as [Hx Hs].
  unfold NseData.expiry_is in Hx. unfold NseData.strike_is in Hs.
  unfold NseData.greeks_of. cbn [NseData.expiry_date NseData.strike_price NseData.vix].
  destruct (NseData.expiryDate item) as [x|]; [|discriminate Hx].
  destruct (NseData.strikePrice item) as [s|]; [|discriminate Hs].
  apply String.eqb_eq in Hx. cbn [NseData.get0]. auto.
Qed.

(** Strike 22100 of the first expiry is in the sample chain. *)
Lemma asked_strike_is_matched_exactly_witness :
  exists g,
    NseData.extract_greeks_data None (Some (Fin 22100))
      (NseData.mk_fetcher (Some LiveSamples.three_strikes) None) = Some g
    /\ NseData.expiry_date g = "30-Jan-2025"%string
    /\ Py.float_eqb (NseData.strike_price g) (Fin 22100) = true.
Proof.
  destruct (@asked_strike_is_matched_exactly
              (NseData.mk_fetcher (Some LiveSamples.three_strikes) None)
              LiveSamples.three_strikes None (Fin 22100) "30-Jan-2025"
              eq_refl eq_refl eq_refl) as [E H].
  destruct (NseData.extract_greeks_data None (Some (Fin 22100))
              (NseData.mk_fetcher (Some LiveSamples.three_strikes) None)) as [g|];
    [|vm_compute in E; discriminate E].
  exists g. destruct (H g eq_refl) as (H1 & H2 & _). auto.
Defined.

Lemma get_option_greeks_stale records vix_answer expiry strike self :
  NseData.option_chain_data self = Some records ->
  NseData.get_option_greeks None vix_answer expiry strike self
  = NseData.get_option_greeks (Some records) vix_answer expiry strike self.
Proof.
  intro H. unfold NseData.get_option_greeks, NseData.fetch_option_chain.
  destruct self as [c v]. cbn in H. subst c. reflexivity.
Qed.

(** X23: a failed option chain request does not stop a run.  The
    fetcher keeps the last chain it received, and when a later request
    fails [run_strategy] goes on exactly as if the site had answered
    with that stored chain again: same result, same signal, same orders.
    Nothing marks the Greeks as old. *)
Theorem failed_chain_request_reuses_last_chain :
  forall respond totp_now make_frame env records vix_answer from_date to_date
         now later self,
    NseData.option_chain_data (Trader.nse_data self) = Some records ->
    Trader.run_strategy respond totp_now make_frame env None vix_answer
      from_date to_date now later self
    = Trader.run_strategy respond totp_now make_frame env (Some records) vix_answer
        from_date to_date now later self.
Proof.
  intros respond totp_now make_frame env records vix_answer from_date to_date
         now later self H.
  unfold Trader.run_strategy.
  assert (Hn : NseData.option_chain_data
                 (Trader.nse_data
                    (snd (if negb (AngelApi.is_connected (Trader.angel_api self))
                          then Trader.connect respond totp_now env self
                          else (true, self)))) = Some records).
  { destruct (negb (AngelApi.is_connected (Trader.angel_api self))); [|exact H].
    destruct (trader_connect_effect respond totp_now env self) as (Hs & _).
    destruct (same_strategy_quiet Hs) as (_ & _ & _ & -> & _). exact H. }
  destruct (if negb (AngelApi.is_connected (Trader.angel_api self))
            then Trader.connect respond totp_now env self
            else (true, self)) as [connected self1].
  cbn [snd] in Hn.
  destruct connected; cbn [negb]; [|reflexivity].
  unfold Trader.fetch_data.
  rewrite (get_option_greeks_stale vix_answer None None _ Hn). reflexivity.
Qed.

(** After the sample run the fetcher holds the sample chain. *)
Lemma failed_chain_request_reuses_last_chain_witness :
  Trader.run_strategy (LiveSamples.working_broker Py.JNull) LiveSamples.totp_123456
    LiveSamples.frame_of_rising_candles LiveSamples.env None (Some (Fin 15))
    "2025-01-01 10:15:00" "2025-01-31 10:15:00"
    (Samples.at_time 1 10 15) (Samples.at_time 1 10 16) (snd LiveSamples.buying_run)
  = Trader.run_strategy (LiveSamples.working_broker Py.JNull) LiveSamples.totp_123456
      LiveSamples.frame_of_rising_candles LiveSamples.env (Some LiveSamples.buy_chain)
      (Some (Fin 15)) "2025-01-01 10:15:00" "2025-01-31 10:15:00"
      (Samples.at_time 1 10 15) (Samples.at_time 1 10 16) (snd LiveSamples.buying_run).
Proof.
  apply failed_chain_request_reuses_last_chain.
  vm_compute. reflexivity.
Defined.

(* ----------------------------------------------------------------- *)
(** *** The users *)

Lemma find_set_user_same credentials username r :
  Auth.find_user (Auth.set_user credentials username r) username = Some r.
Proof.
  induction credentials as [|[u r0] rest IH]; cbn [Auth.set_user Auth.find_user].
  - rewrite String.eqb_refl. reflexivity.
  - destruct (String.eqb u username) eqn:E; cbn [Auth.find_user]; rewrite E;
      [reflexivity|exact IH].
Qed.

Lemma find_set_user_other credentials username r other :
  other <> username ->
  Auth.find_user (Auth.set_user credentials username r) other
  = Auth.find_user credentials other.
Proof.
  intro Hne.
  induction credentials as [|[u r0] rest IH]; cbn [Auth.set_user Auth.find_user].
  - destruct (String.eqb username other) eqn:E; [|reflexivity].
    apply String.eqb_eq in E. congruence.
  - destruct (String.eqb u username) eqn:E; cbn [Auth.find_user].
    + apply String.eqb_eq in E. subst u.
      destruct (String.eqb username other) eqn:E'; [|reflexivity].
      apply String.eqb_eq in E'. congruence.
    + rewrite IH. reflexivity.
Qed.

Lemma set_user_twice credentials username r1 r2 :
  Auth.find_user credentials username <> None ->
  Auth.set_user (Auth.set_user credentials username r1) username r2
  = Auth.set_user credentials username r2.
Proof.
  induction credentials as [|[u r0] rest IH]; cbn [Auth.set_user Auth.find_user];
    [congruence|].
  destruct (String.eqb u username) eqn:E; cbn [Auth.set_user]; rewrite E;
    [reflexivity|].
  intro H. rewrite (IH H). reflexivity.
Qed.

Lemma set_user_found credentials username r :
  Auth.find_user credentials username = Some r ->
  Auth.set_user credentials username r = credentials.
Proof.
  induction credentials as [|[u r0] rest IH]; cbn [Auth.set_user Auth.find_user];
    [discriminate|].
  destruct (String.eqb u username) eqn:E.
  - intro H. injection H as ->. reflexivity.
  - intro H. rewrite (IH H). reflexivity.
Qed.

(** X24: with the bundled [SmartConnect] nobody can log in, yet a
    refused login can leave a user logged in.  [login] never answers
    [True]; when the password is right and no TOTP key is stored it
    answers [False] with "Failed to connect to Angel One API", but it
    has already stored the user and a gateway, so [is_logged_in]
    answers [True] afterwards. *)
Theorem refused_login_leaves_user_logged_in :
  forall hash verify totp_now env username password totp_code d self,
    fst (fst (Auth.login hash verify AngelApi.bundled_smart_connect totp_now env
                username password totp_code d self)) = false
    /\ forall credentials r,
         Auth.file d = Auth.Holds credentials ->
         Auth.find_user credentials username = Some r ->
         Auth.password r = hash password ->
         Py.str_truthy (Auth.totp_key r) = false ->
         snd (fst (Auth.login hash verify AngelApi.bundled_smart_connect totp_now env
                     username password totp_code d self))
         = Auth.Text "Failed to connect to Angel One API"
         /\ Auth.is_logged_in
              (snd (Auth.login hash verify AngelApi.bundled_smart_connect totp_now env
                      username password totp_code d self)) = true
         /\ Auth.current_user
              (snd (Auth.login hash verify AngelApi.bundled_smart_connect totp_now env
                      username password totp_code d self)) = Some username.
Proof.
  intros hash verify totp_now env username password totp_code d self.
  split.
  - unfold Auth.login.
    destruct (Auth.load d) as [credentials|e]; [|reflexivity].
    destruct (Auth.find_user credentials username) as [r|]; [|reflexivity].
    destruct (negb (String.eqb (Auth.password r) (hash password))); [reflexivity|].
    match goal with
    | |- context [match ?c with Py.Returned _ => _ | Py.Raised _ => _ end] =>
        destruct c as [[refusal|]|e]; try reflexivity
    end.
    destruct (connect_bundled totp_now env (Auth.api_key r) (Auth.client_id r)
                (Auth.client_password r) (Auth.totp_key r) AngelApi.init) as [Hf _].
    destruct (AngelApi.connect AngelApi.bundled_smart_connect totp_now env _ _ _ _ _)
      as [ok a].
    cbn [fst] in Hf. subst ok. reflexivity.
  - intros credentials r Hfile Hfind Hpw Htotp.
    unfold Auth.login, Auth.load. rewrite Hfile, Hfind, Hpw, String.eqb_refl, Htotp.
    cbn [negb].
    destruct (connect_bundled totp_now env (Auth.api_key r) (Auth.client_id r)
                (Auth.client_password r) (Auth.totp_key r) AngelApi.init) as [Hf _].
    destruct (AngelApi.connect AngelApi.bundled_smart_connect totp_now env _ _ _ _ _)
      as [ok a].
    cbn [fst] in Hf. subst ok. cbn. auto.
Qed.

(** The sample user with the right password. *)
Lemma refused_login_leaves_user_logged_in_witness :
  Auth.is_logged_in
    (snd (Auth.login LiveSamples.marked LiveSamples.accepts_123456
            AngelApi.bundled_smart_connect LiveSamples.totp_123456
            LiveSamples.credentials "asha" "tiger" None LiveSamples.one_user
            (Auth.mk_auth None None))) = true.
Proof.
  refine (proj1 (proj2 (proj2 (@refused_login_leaves_user_logged_in
            LiveSamples.marked LiveSamples.accepts_123456 LiveSamples.totp_123456
            LiveSamples.credentials "asha" "tiger" None LiveSamples.one_user
            (Auth.mk_auth None None)) _ _ eq_refl eq_refl eq_refl eq_refl))).
Defined.

(** X25: what [register_user] stores is what [login] checks.  After a
    successful registration the file holds the digest of the password
    under the user's name and the other entries as before; a login with
    a password of another digest is refused with "Invalid username or
    password", before the broker is contacted and with the object
    unchanged; a login with the registered password (no TOTP key given)
    goes to the broker with the registered credentials and answers what
    [connect] answers; and a second registration of the name is refused
    and leaves the file as it is. *)
Theorem registered_password_is_checked :
  forall hash verify respond totp_now env now username password k c cp d d' msg,
    Auth.register_user hash now username password k c cp None d = ((true, msg), d') ->
    (exists credentials r,
       Auth.file d' = Auth.Holds credentials
       /\ Auth.find_user credentials username = Some r
       /\ Auth.password r = hash password
       /\ forall old other,
            Auth.file d = Auth.Holds old -> other <> username ->
            Auth.find_user credentials other = Auth.find_user old other)
    /\ (forall other code self,
          hash other <> hash password ->
          Auth.login hash verify respond totp_now env username other code d' self
          = ((false, Auth.Text "Invalid username or password"), self))
    /\ (forall code self,
          let outcome := AngelApi.connect respond totp_now env k c cp None AngelApi.init in
          fst (fst (Auth.login hash verify respond totp_now env username password code
                      d' self)) = fst outcome
          /\ snd (Auth.login hash verify respond totp_now env username password code
                    d' self)
             = Auth.mk_auth (Some username) (Some (snd outcome)))
    /\ (forall now' password' k' c' cp' t',
          Auth.register_user hash now' username password' k' c' cp' t' d'
          = ((false, Auth.Text "Username already exists"), d')).
Proof.
  intros hash verify respond totp_now env now username password k c cp d d' msg Hreg.
  unfold Auth.register_user, Auth.load in Hreg.
  destruct (Auth.file d) as [| |old] eqn:Hfile; try discriminate Hreg.
  destruct (Auth.find_user old username) eqn:Hold; [discriminate Hreg|].
  unfold Auth.save in Hreg. destruct (Auth.writable d); [|discriminate Hreg].
  injection Hreg as _ <-.
  set (r := Auth.mk_user (hash password) k c cp Auth.Null now).
  assert (Hfind : Auth.find_user (Auth.set_user old username r) username = Some r)
    by apply find_set_user_same.
  split; [|split; [|split]].
  - exists (Auth.set_user old username r), r.
    split; [reflexivity|]. split; [exact Hfind|]. split; [reflexivity|].
    intros old' other Ho Hne. injection Ho as <-.
    apply find_set_user_other. exact Hne.
  - intros other code self Hne.
    unfold Auth.login, Auth.load. cbn [Auth.file]. rewrite Hfind.
    cbn [Auth.password r].
    destruct (String.eqb (hash password) (hash other)) eqn:E; [|reflexivity].
    apply String.eqb_eq in E. congruence.
  - intros code self outcome. subst outcome.
    unfold Auth.login, Auth.load. cbn [Auth.file]. rewrite Hfind.
    cbn [Auth.password Auth.totp_key Auth.totp_entry Auth.api_key Auth.client_id
         Auth.client_password r Py.str_truthy].
    rewrite String.eqb_refl. cbn [negb].
    destruct (AngelApi.connect respond totp_now env k c cp None AngelApi.init)
      as [ok a].
    destruct ok; split; reflexivity.
  - intros now' password' k' c' cp' t'.
    unfold Auth.register_user, Auth.load. cbn [Auth.file]. rewrite Hfind. reflexivity.
Qed.

(** A second user registers in the sample file; a wrong password is
    refused. *)
Lemma registered_password_is_checked_witness :
  Auth.login LiveSamples.marked LiveSamples.accepts_123456
    (LiveSamples.working_broker Py.JNull) LiveSamples.totp_123456 LiveSamples.credentials
    "ravi" "lion" None
    (snd (Auth.register_user LiveSamples.marked "2025-01-02T09:00:00" "ravi" "lynx"
            (Some "key2") (Some "client2") (Some "secret2") None LiveSamples.one_user))
    (Auth.mk_auth None None)
  = ((false, Auth.Text "Invalid username or password"), Auth.mk_auth None None).
Proof.
  refine (proj1 (proj2 (@registered_password_is_checked
            LiveSamples.marked LiveSamples.accepts_123456
            (LiveSamples.working_broker Py.JNull) LiveSamples.totp_123456
            LiveSamples.credentials "2025-01-02T09:00:00" "ravi" "lynx"
            (Some "key2"%string) (Some "client2"%string) (Some "secret2"%string)
            LiveSamples.one_user _ _ eq_refl)) "lion"%string None (Auth.mk_auth None None) _).
  discriminate.
Defined.

(** X26: two-factor authentication can be switched on and off again,
    but the file does not come back as registration wrote it.  For a
    user whose password is given, on a file that can be written,
    [enable_2fa] stores the new key and answers it; from then on a login
    without a code is refused with "TOTP code required" and one with a
    code the key rejects with "Invalid TOTP code", both before the
    broker is contacted; and [disable_2fa] with a code the key accepts
    removes the [totp_key] entry of the user and leaves the rest of the
    file as it was.  So the file is the one before [enable_2fa] exactly
    when the user had no [totp_key] entry then: after [register_user],
    which writes [null] there, it is not. *)
Theorem two_factor_round_trip :
  forall hash verify respond totp_now env new_key username password credentials r
         good bad,
    Auth.find_user credentials username = Some r ->
    Auth.password r = hash password ->
    new_key <> ""%string ->
    Py.str_truthy good = true ->
    Py.str_truthy bad = true ->
    verify new_key good = Py.Returned true ->
    verify new_key bad = Py.Returned false ->
    let d := Auth.mk_disk (Auth.Holds credentials) true in
    let d2 :=
      Auth.mk_disk
        (Auth.Holds (Auth.set_user credentials username
                       (Auth.set_totp_entry r Auth.Absent))) true in
    exists d1,
      Auth.enable_2fa hash new_key username password d
      = ((true, Auth.Text new_key), d1)
      /\ (forall self,
            Auth.login hash verify respond totp_now env username password None d1 self
            = ((false, Auth.Text "TOTP code required"), self))
      /\ (forall self,
            Auth.login hash verify respond totp_now env username password bad d1 self
            = ((false, Auth.Text "Invalid TOTP code"), self))
      /\ Auth.disable_2fa hash verify username password good d1
         = ((true, Auth.Text "2FA disabled successfully"), d2)
      /\ (d2 = d <-> Auth.totp_entry r = Auth.Absent).
Proof.
  intros hash verify respond totp_now env new_key username password credentials r
         good bad Hfind Hpw Hkey Hgood Hbad Hyes Hno d d2.
  set (r1 := Auth.set_totp_entry r (Auth.Str new_key)).
  set (s1 := Auth.set_user credentials username r1).
  assert (Hf1 : Auth.find_user s1 username = Some r1) by apply find_set_user_same.
  assert (Ht : Py.str_truthy (Some new_key) = true).
  { cbn [Py.str_truthy]. destruct (String.eqb new_key "") eqn:E; [|reflexivity].
    apply String.eqb_eq in E. contradiction. }
  exists (Auth.mk_disk (Auth.Holds s1) true).
  split; [|split; [|split; [|split]]].
  - unfold Auth.enable_2fa, Auth.load, Auth.save. subst d. cbn [Auth.file Auth.writable].
    rewrite Hfind, Hpw, String.eqb_refl. reflexivity.
  - intro self. unfold Auth.login, Auth.load. cbn [Auth.file]. rewrite Hf1.
    cbn [Auth.password Auth.totp_key Auth.totp_entry Auth.set_totp_entry r1].
    rewrite Hpw, String.eqb_refl, Ht. reflexivity.
  - intro self. unfold Auth.login, Auth.load. cbn [Auth.file]. rewrite Hf1.
    cbn [Auth.password Auth.totp_key Auth.totp_entry Auth.set_totp_entry r1].
    rewrite Hpw, String.eqb_refl, Ht, Hbad, Hno. reflexivity.
  - unfold Auth.disable_2fa, Auth.load, Auth.save. cbn [Auth.file Auth.writable].
    rewrite Hf1.
    cbn [Auth.password Auth.totp_key Auth.totp_entry Auth.set_totp_entry r1].
    rewrite Hpw, String.eqb_refl, Ht, Hyes. cbn [negb].
    subst s1 r1 d2. rewrite set_user_twice by (rewrite Hfind; discriminate).
    reflexivity.
  - subst d d2. split.
    + intro E. injection E as E.
      apply (f_equal (fun c => Auth.find_user c username)) in E.
      rewrite find_set_user_same, Hfind in E. injection E as E.
      rewrite <- E. reflexivity.
    + intro E.
      assert (Hr : Auth.set_totp_entry r Auth.Absent = r).
      { destruct r; cbn in E |- *. subst. reflexivity. }
      rewrite Hr, (set_user_found _ _ Hfind). reflexivity.
Qed.

(** The sample user, registered without a key, switches the second
    factor on and off: the [null] of the registration has gone. *)
Lemma two_factor_round_trip_witness :
  exists d1,
    Auth.enable_2fa LiveSamples.marked "JBSWY3DPEHPK3PXP" "asha" "tiger"
      LiveSamples.one_user
    = ((true, Auth.Text "JBSWY3DPEHPK3PXP"), d1)
    /\ Auth.disable_2fa LiveSamples.marked LiveSamples.accepts_123456 "asha" "tiger"
         (Some "123456"%string) d1
       = ((true, Auth.Text "2FA disabled successfully"),
          Auth.mk_disk
            (Auth.Holds [("asha"%string,
                          Auth.set_totp_entry LiveSamples.asha Auth.Absent)]) true)
    /\ Auth.mk_disk
         (Auth.Holds [("asha"%string,
                       Auth.set_totp_entry LiveSamples.asha Auth.Absent)]) true
       <> LiveSamples.one_user.
Proof.
  destruct (@two_factor_round_trip LiveSamples.marked LiveSamples.accepts_123456
              (LiveSamples.working_broker Py.JNull) LiveSamples.totp_123456
              LiveSamples.credentials "JBSWY3DPEHPK3PXP" "asha" "tiger"
              [("asha"%string, LiveSamples.asha)] LiveSamples.asha
              (Some "123456"%string) (Some "000000"%string)
              eq_refl eq_refl ltac:(discriminate) eq_refl eq_refl eq_refl eq_refl)
    as (d1 & H1 & _ & _ & H4 & H5).
  exists d1. split; [exact H1|]. split; [exact H4|].
  intro E. apply H5 in E. discriminate E.
Defined.

(** ** The RSI in binary64 arithmetic *)

Lemma Forall_firstn {A} (P : A -> Prop) n l : Forall P l -> Forall P (firstn n l).
Proof.
  intro H. rewrite <- (firstn_skipn n l) in H.
  apply Forall_app in H. apply H.
Qed.

Lemma Forall_skipn {A} (P : A -> Prop) n l : Forall P l -> Forall P (skipn n l).
Proof.
  intro H. rewrite <- (firstn_skipn n l) in H.
  apply Forall_app in H. apply H.
Qed.

Lemma nth_error_combine {A B} (a : list A) (b : list B) i p :
  nth_error (combine a b) i = Some p ->
  nth_error a i = Some (fst p) /\ nth_error b i = Some (snd p).
Proof.
  revert b i. induction a as [|x a IH]; intros [|y b] [|i]; simpl; try discriminate.
  - intro H. injection H as <-. auto.
  - apply IH.
Qed.

Lemma nth_error_Forall {A} (P : A -> Prop) l i x :
  Forall P l -> nth_error l i = Some x -> P x.
Proof.
  intros H Hn. apply nth_error_In in Hn. revert x Hn. apply Forall_forall, H.
Qed.

Section RsiRange.

Import Binary64 Pandas64.
Local Open Scope Q_scope.

(** The two columns the rolling means are taken of hold no [NaN] and no
    negative entry, whatever the closes are. *)
Lemma gain_entry_nonneg d : nonneg (if gtb d (of_Z 0) then d else of_Z 0).
Proof.
  unfold nonneg, gtb, ltb, leb. rewrite of_Z_0. cbn [val].
  destruct (Float.ltb (Fin 0) (val d)) eqn:E; [|reflexivity].
  destruct (val d); cbn [Float.ltb Float.leb] in *; try discriminate; try reflexivity.
  apply Qltb_lt in E. apply Qle_bool_iff. lra.
Qed.

Lemma loss_entry_nonneg d : nonneg (neg (if ltb d (of_Z 0) then d else of_Z 0)).
Proof.
  unfold nonneg, ltb, leb. rewrite of_Z_0. cbn [val].
  destruct (Float.ltb (val d) (Fin 0)) eqn:E; [|reflexivity].
  rewrite val_neg.
  destruct (val d); cbn [Float.ltb Float.leb Float.neg] in *;
    try discriminate; try reflexivity.
  apply Qltb_lt in E. apply Qle_bool_iff. lra.
Qed.

(** Differences that overflow are infinities: on the closes 1e308,
    -1e308, 1e308 the column of differences is NaN, -inf, +inf. *)
Lemma diff_overflows :
  diff [of_Z (10 ^ 308); neg (of_Z (10 ^ 308)); of_Z (10 ^ 308)]
  = [Nan; Inf true; Inf false].
Proof. vm_compute. reflexivity. Qed.

Lemma gain_column_nonneg prices :
  Forall nonneg (where_ (diff prices) (fun d => gtb d (of_Z 0)) (of_Z 0)).
Proof.
  unfold where_. apply Forall_map, Forall_forall. intros d _. apply gain_entry_nonneg.
Qed.

Lemma loss_column_nonneg prices :
  Forall nonneg (neg_series (where_ (diff prices) (fun d => ltb d (of_Z 0)) (of_Z 0))).
Proof.
  unfold neg_series, where_. rewrite map_map.
  apply Forall_map, Forall_forall. intros d _. apply loss_entry_nonneg.
Qed.

(** The entry for a relative strength that is not a number, is an
    infinity, or is not negative. *)
Lemma rsi_of_nan :
  sub (of_Z 100) (div (of_Z 100) (add (of_Z 1) Nan)) = Nan.
Proof. vm_compute. reflexivity. Qed.

Lemma rsi_of_inf s :
  sub (of_Z 100) (div (of_Z 100) (add (of_Z 1) (Inf s))) = Finite 100.
Proof. destruct s; vm_compute; reflexivity. Qed.

Lemma rsi_of_nonneg rs :
  nonneg rs ->
  leb (Zero false) (sub (of_Z 100) (div (of_Z 100) (add (of_Z 1) rs))) = true
  /\ leb (sub (of_Z 100) (div (of_Z 100) (add (of_Z 1) rs))) (Finite 100) = true.
Proof.
  intro H. rewrite of_Z_100, of_Z_1.
  assert (H1 : leb (Finite 1) (add (Finite 1) rs) = true).
  { change (Finite 1) with (add (Finite 1) (Zero false)) at 1.
    apply add_mono_r, H. }
  set (y1 := add (Finite 1) rs) in *.
  assert (P1 : ltb (Zero false) y1 = true).
  { unfold ltb, leb in *. cbn [val] in *.
    destruct (val y1); cbn [Float.leb Float.ltb] in *; try discriminate; try reflexivity.
    apply Qle_bool_iff in H1. apply Qltb_lt. lra. }
  assert (I1 : leb y1 (Inf false) = true).
  { unfold leb in *. cbn [val] in *. destruct (val y1); try discriminate; reflexivity. }
  assert (H2 : leb (div (Finite 100) y1) (Finite 100) = true).
  { change (Finite 100) with (div (Finite 100) (Finite 1)) at 2.
    apply div_anti_r; [reflexivity|reflexivity|exact H1]. }
  assert (L2 : leb (Zero false) (div (Finite 100) y1) = true).
  { change (Zero false) with (div (Finite 100) (Inf false)).
    apply div_anti_r; [reflexivity|exact P1|exact I1]. }
  set (y2 := div (Finite 100) y1) in *.
  split.
  - change (Zero false) with (sub (Finite 100) (Finite 100)).
    apply sub_anti_r, H2.
  - change (Finite 100) with (sub (Finite 100) (Zero false)) at 2.
    apply sub_anti_r, L2.
Qed.

(** Every entry is [NaN] or lies between 0 and 100. *)
Lemma rsi_entry_range g l :
  nan_or_nonneg g -> nan_or_nonneg l ->
  Rsi64.rsi_entry g l = Nan
  \/ (leb (Zero false) (Rsi64.rsi_entry g l) = true
      /\ leb (Rsi64.rsi_entry g l) (Finite 100) = true).
Proof.
  intros [->|Hg] [->|Hl]; unfold Rsi64.rsi_entry.
  - left. rewrite div_nan_l. apply rsi_of_nan.
  - left. rewrite div_nan_l. apply rsi_of_nan.
  - left. rewrite div_nan_r. apply rsi_of_nan.
  - destruct (negative l) eqn:Nl.
    + (* the average loss is [-0] *)
      destruct l as [sl|b|[|]|]; cbn [negative] in Nl; try discriminate Nl.
      * subst sl. destruct g as [sg|a|sg|].
        -- left. rewrite div_zero_zero. apply rsi_of_nan.
        -- right. rewrite div_finite_zero, rsi_of_inf. split; reflexivity.
        -- right. rewrite div_inf_zero, rsi_of_inf. split; reflexivity.
        -- left. rewrite div_nan_l. apply rsi_of_nan.
      * exfalso. unfold nonneg, leb in Hl. cbn [val Float.leb] in Hl.
        apply Qle_bool_iff in Hl. apply Qltb_lt in Nl. lra.
      * discriminate Hl.
    + destruct (div_nonneg Hg Hl Nl) as [E|E].
      * left. rewrite E. apply rsi_of_nan.
      * right. apply rsi_of_nonneg, E.
Qed.

(** Saturation: a zero average loss under a positive average gain gives
    100. *)
Lemma rsi_entry_saturates g l :
  (val l == Fin 0)%float -> ltb (Zero false) g = true ->
  Rsi64.rsi_entry g l = Finite 100.
Proof.
  intros Hl Hg. unfold Rsi64.rsi_entry, ltb in *. cbn [val] in Hg.
  destruct l as [sl|b|[|]|]; cbn [val feq] in Hl; try contradiction.
  - destruct g as [sg|a|sg|]; cbn [val Float.ltb] in Hg; try discriminate.
    + rewrite div_finite_zero. apply rsi_of_inf.
    + rewrite div_inf_zero. apply rsi_of_inf.
  - assert (Zb : Qis0 b = true) by (apply Qis0_true; exact Hl).
    destruct g as [sg|a|[|]|]; cbn [val Float.ltb] in Hg; try discriminate.
    + apply Qltb_lt in Hg.
      assert (Za : Qis0 a = false) by (apply Qis0_false; lra).
      assert (S : Qltb 0 a = true) by (apply Qltb_lt; exact Hg).
      unfold div. cbn [val Float.div]. rewrite Zb, Za. unfold inf_of_sign. rewrite S.
      cbn [of_float]. apply rsi_of_inf.
    + assert (S : Qltb b 0 = false) by (apply Qltb_ge; lra).
      unfold div. cbn [val Float.div]. rewrite S. cbn [of_float]. apply rsi_of_inf.
Qed.

Variable rolling_mean : nat -> Series -> Series.
Hypothesis rolling_mean_ok : rolling_mean_spec rolling_mean.

Lemma calculate_rsi_nth prices period i x :
  nth_error (Rsi64._calculate_rsi rolling_mean prices period) i = Some x ->
  exists g l,
    nth_error (Rsi64.rsi_gain rolling_mean prices period) i = Some g /\
    nth_error (Rsi64.rsi_loss rolling_mean prices period) i = Some l /\
    x = Rsi64.rsi_entry g l.
Proof.
  unfold Rsi64._calculate_rsi. rewrite map_map, nth_error_map.
  destruct (nth_error (combine _ _) i) as [[g l]|] eqn:E; simpl; [|discriminate].
  intro H. injection H as <-.
  apply nth_error_combine in E. simpl in E. destruct E as [Hg Hl].
  exists g, l. auto.
Qed.

Lemma diff64_length s : length (diff s) = length s.
Proof.
  destruct s as [|x s]; simpl; [reflexivity|]. f_equal.
  revert x. induction s as [|y s IH]; intro x; simpl; [reflexivity|].
  f_equal. apply IH.
Qed.

Lemma calculate_rsi_length prices period :
  length (Rsi64._calculate_rsi rolling_mean prices period) = length prices.
Proof.
  destruct rolling_mean_ok as [Hr _].
  unfold Rsi64._calculate_rsi, Rsi64.rsi_gain, Rsi64.rsi_loss.
  rewrite !length_map, length_combine, !Hr.
  unfold neg_series, where_. rewrite !length_map, diff64_length. lia.
Qed.

Lemma rsi_gain_nonneg prices period :
  Forall nan_or_nonneg (Rsi64.rsi_gain rolling_mean prices period).
Proof. destruct rolling_mean_ok as [_ Hr]. apply Hr, gain_column_nonneg. Qed.

Lemma rsi_loss_nonneg prices period :
  Forall nan_or_nonneg (Rsi64.rsi_loss rolling_mean prices period).
Proof. destruct rolling_mean_ok as [_ Hr]. apply Hr, loss_column_nonneg. Qed.

End RsiRange.

(** The plain mean of the windows has the two properties asked of the
    rolling mean. *)
Section WindowMean.

Import Binary64 Pandas64.
Local Open Scope Q_scope.

Lemma sum_nonneg s : Forall nonneg s -> nonneg (sum s).
Proof. intro H. unfold sum. apply fold_add_nonneg; [reflexivity|exact H]. Qed.

Lemma window_mean_spec : rolling_mean_spec window_mean.
Proof.
  split.
  - intros w s. unfold window_mean. rewrite length_map, length_seq. reflexivity.
  - intros w s Hs. unfold window_mean. apply Forall_map, Forall_forall. intros i _.
    destruct (i + 1 <? w)%nat; [left; reflexivity|].
    assert (Hw : (0 <= inject_Z (Z.of_nat w))%Q).
    { change 0 with (inject_Z 0). rewrite <- Zle_Qle. lia. }
    apply div_nonneg.
    + apply sum_nonneg, Forall_firstn, Forall_skipn, Hs.
    + unfold of_Z. apply of_float_nonneg. cbn [Float.leb]. apply Qle_bool_iff, Hw.
    + unfold of_Z. cbn [of_float]. apply round_not_negative, Hw.
Qed.

End WindowMean.

(** An average loss that is negative takes the entry out of the range:
    with an average gain of 1, an average loss of -0.5 gives 200 and one
    of -2 gives -100. *)
Lemma negative_average_loss_leaves_range :
  Rsi64.rsi_entry (Binary64.Finite 1) (Binary64.Finite (-1#2)) = Binary64.Finite 200
  /\ Rsi64.rsi_entry (Binary64.Finite 1) (Binary64.Finite (-2)) = Binary64.Finite (-100).
Proof. split; vm_compute; reflexivity. Qed.

(** X27: the RSI column in binary64 arithmetic, for any rolling mean,
    any closes and any period.  [calculate_indicators] and
    [_calculate_rsi] compute the same column.  Every entry comes from
    the two averages of its index: it is [NaN] when one of them is; it
    is [NaN] or lies between 0 and 100 when each of them is [NaN] or not
    negative (a zero of either sign included); and it is exactly 100
    when the average loss is a zero and the average gain is positive:
    the division by zero raises nothing and gives an infinity.  So with
    a rolling mean that keeps the length and gives only [NaN] and
    non-negative entries on columns without [NaN] and negative entries
    ([Pandas64.rolling_mean_spec]), the column has the length of the
    closes and all its entries are [NaN] or between 0 and 100. *)
Theorem rsi_range_of_nonnegative_averages :
  forall rolling_mean closes period,
    Strategy64.rsi_column rolling_mean period closes
    = Rsi64._calculate_rsi rolling_mean closes period
    /\ (forall i x,
           nth_error (Rsi64._calculate_rsi rolling_mean closes period) i = Some x ->
           exists avg_gain avg_loss,
             nth_error (Rsi64.rsi_gain rolling_mean closes period) i = Some avg_gain
             /\ nth_error (Rsi64.rsi_loss rolling_mean closes period) i = Some avg_loss
             /\ (avg_gain = Binary64.Nan \/ avg_loss = Binary64.Nan -> x = Binary64.Nan)
             /\ (Binary64.nan_or_nonneg avg_gain -> Binary64.nan_or_nonneg avg_loss ->
                 x = Binary64.Nan
                 \/ (Binary64.leb (Binary64.Zero false) x = true
                     /\ Binary64.leb x (Binary64.Finite 100) = true))
             /\ (Binary64.val avg_loss == Fin 0 ->
                 Binary64.gtb avg_gain (Binary64.Zero false) = true ->
                 x = Binary64.Finite 100))
    /\ (Pandas64.rolling_mean_spec rolling_mean ->
        length (Rsi64._calculate_rsi rolling_mean closes period) = length closes
        /\ forall i x,
             nth_error (Rsi64._calculate_rsi rolling_mean closes period) i = Some x ->
             x = Binary64.Nan
             \/ (Binary64.leb (Binary64.Zero false) x = true
                 /\ Binary64.leb x (Binary64.Finite 100) = true)).
Proof.
  intros rolling_mean closes period.
  split; [reflexivity|]. split.
  - intros i x Hx. apply calculate_rsi_nth in Hx.
    destruct Hx as (g & l & Hgi & Hli & ->).
    exists g, l. split; [exact Hgi|]. split; [exact Hli|]. split; [|split].
    + intros [->| ->]; unfold Rsi64.rsi_entry.
      * rewrite div_nan_l. apply rsi_of_nan.
      * rewrite div_nan_r. apply rsi_of_nan.
    + apply rsi_entry_range.
    + apply rsi_entry_saturates.
  - intro Hr.
    pose proof (rsi_gain_nonneg Hr closes period) as Hg.
    pose proof (rsi_loss_nonneg Hr closes period) as Hl.
    split; [apply calculate_rsi_length, Hr|].
    intros i x Hx. apply calculate_rsi_nth in Hx.
    destruct Hx as (g & l & Hgi & Hli & ->).
    apply rsi_entry_range.
    + exact (nth_error_Forall (P := Binary64.nan_or_nonneg) _ Hg Hgi).
    + exact (nth_error_Forall (P := Binary64.nan_or_nonneg) _ Hl Hli).
Qed.

(** On closes 100, 101, 102, 103 with the mean of windows of two bars,
    the entry of index 1 has average gain 0.5 and average loss 0: the
    RSI is 100. *)
Lemma rsi_range_of_nonnegative_averages_witness :
  Pandas64.rolling_mean_spec Pandas64.window_mean
  /\ nth_error (Rsi64._calculate_rsi Pandas64.window_mean Rsi64.rising_closes 2) 1
     = Some (Binary64.Finite 100)
  /\ (forall i x,
        nth_error (Rsi64._calculate_rsi Pandas64.window_mean Rsi64.rising_closes 2) i
        = Some x ->
        x = Binary64.Nan
        \/ (Binary64.leb (Binary64.Zero false) x = true
            /\ Binary64.leb x (Binary64.Finite 100) = true)).
Proof.
  destruct (rsi_range_of_nonnegative_averages Pandas64.window_mean
              Rsi64.rising_closes 2) as (_ & Hentry & Hcol).
  split; [exact window_mean_spec|]. split.
  - assert (Hx : exists x,
               nth_error (Rsi64._calculate_rsi Pandas64.window_mean
                            Rsi64.rising_closes 2) 1 = Some x)
      by (eexists; vm_compute; reflexivity).
    destruct Hx as [x Hx]. rewrite Hx. f_equal.
    destruct (Hentry 1%nat x Hx) as (g & l & Hg & Hl & _ & _ & Hsat).
    apply Hsat.
    + revert Hl. vm_compute. intro Hl. injection Hl as <-. reflexivity.
    + revert Hg. vm_compute. intro Hg. injection Hg as <-. reflexivity.
  - exact (proj2 (Hcol window_mean_spec)).
Defined.
